(* ===== verification/_CoqProject ===== *)
-Q . S2P
Prelude.v
Book.v
Pricing.v
Store.v
Filters.v
JsNumber.v
CartService.v
OrderService.v
CartPage.v
BooksService.v
BookWrites.v
BookDetail.v
AdminOrders.v
BookListing.v
UserService.v
ResellPage.v
AdminCatalog.v
Auth.v
ProfilePage.v
HomePage.v
Navbar.v
OrderHistory.v
AdminBookForm.v
FormSchemas.v
RentPage.v
Routing.v
BookCard.v
