(* ===== verification/Prelude.v ===== *)
(** * Abookwallah: a verification development of the storefront

    The repository is a React storefront whose persistence lives in a hosted
    Postgres backend reached through the generated Supabase query client
    ([src/integrations/supabase]).  The pages call the services of
    [src/services], which build PostgREST queries; the auth context
    ([src/contexts/AuthContext.tsx]) provides the signed-in user.

    ** How the program is put together

    - The cart path: [src/pages/CartPage.tsx] loads the cart through
      [src/services/cartService.ts], computes the order summary, and
      [src/components/OrderForm.tsx] places the order with [createOrder] of
      [src/services/orderService.ts]; [BookDetailPage.tsx] adds books to
      the cart and the navigation bar counts them.
    - The catalogue: [HomePage.tsx] and [BookListingPage.tsx] read books
      and categories through [src/services/booksService.ts]; home page
      category links open the listing with a [category] parameter.
    - The account: [authService.ts] and [AuthContext.tsx] sign users in
      and out; [UserProfilePage.tsx] edits the profile and [ResellPage.tsx]
      submits books for resale with photos, both through
      [src/services/userService.ts].
    - The admin pages call [src/services/adminService.ts]: orders and their
      status, the book list and its dialog, resell requests, counts.

    ** Files, in dependency order

    - [Prelude] (this file): libraries, the [shop_scope] notations, the
      JavaScript numeric primitives ([Math.round], [Math.ceil],
      [Math.max], [Math.min]), sums of rational lists, the [shop] hint
      database and tactics.
    - [Book]: the [books] row and the [Book] model with
      [mapDatabaseBookToModel].
    - [Pricing]: the pricing functions of [CartPage.tsx], an abstract
      specification of the order summary and the refinement theorem.
    - [Store]: the rows of the tables, the [Table] class, the state monad
      [M] over the database and a script of request failures, the query
      forms of the client and their laws, the invariant machinery
      [preserves].
    - [Filters]: LIKE/ILIKE, the [or=(...)] syntax, ORDER BY with NULLs.
    - [JsNumber]: [parseFloat].
    - [CartService], [OrderService], [CartPage] (with [OrderForm]): the
      cart and checkout path, the cart-line invariants and the end-to-end
      checkout theorem.
    - [BooksService], [BookWrites]: the book reads; the book writes of both
      services, [mapModelBookToDatabase], and the backend's conversion of a
      JSON body into a row (unknown columns, not-null and type errors).
    - [BookDetail], [AdminOrders], [BookListing]: the book page, the order
      statuses with the spec's life cycle as a step relation, the
      catalogue page with its URL synchronisation.
    - [UserService], [ResellPage]: profiles, reviews with the rating
      recomputation, resell requests and uploads; the resell wizard as a
      step relation [page_step] over page, bucket and database.
    - [AdminCatalog] ([Module AdminCatalog], [Module AdminBooksPage]): the
      other admin service calls (embedding checked against the foreign keys
      of [types.ts]) and the admin books page; [AdminBookForm]: its form
      and dialog handlers.
    - [Auth]: the auth client (from the spec), [authService], the auth
      context as a step relation [auth_step], the login and register
      submissions.
    - [ProfilePage], [HomePage], [Navbar], [OrderHistory]: the profile
      form, the home page with the [URLSearchParams] reading of its
      category links, the navigation bar's cart badge and user menu, and
      [getUserOrders]/[getOrderDetails].
    - [FormSchemas] ([Module Zod], [Module OrderSchema],
      [Module AuthSchemas]): the zod schemas of the order, login and
      register forms, zod's checks and email pattern and the resolver's
      first-error map (from the libraries' documentation), and
      [form.handleSubmit], which runs [onSubmit] only on valid values.
    - [RentPage]: the unrouted rent page over [mockBooks] ([Section
      Listing] takes the book list as a variable), with
      [String.prototype.includes].
    - [Routing]: the route table of [App.tsx] with react-router's matching,
      the guards of the profile, login, register and confirmation pages,
      and the active-item rules of the two navigation bars.
    - [BookCard]: the book card's flags, discount badge, stars, struck
      price and "Rent from" price.

    ** What the theorems show

    Refinement of the order summary by the page's code and the stored
    checkout total; invariants of the cart lines, the reviews and book
    ratings, the resell previews, the auth context and the shipping
    fields of stored orders, each preserved by every operation or by rule
    induction over the step relations; the functional behaviour and error paths of the services on
    every answer of the backend (a failure script quantified over);
    round trips (rental periods, URLs, book rows, the profile form, the
    category and book links); bounds (ratings, quantities, the card
    discount); that the forms reach their services only with values their
    schemas accept; what the rent page's popular tab selects; that the
    admin pages are open to signed-out visitors; and liveness of the auth
    [loading] flag.  The findings these
    theorems exhibit are listed in PROJECT.json.

    ** Modelling choices

    - Money is exact: a JavaScript [number] holding an amount is a [Q].  The
      source multiplies prices by 0.4, 0.35, 0.3 and 0.18 in IEEE doubles;
      the model computes these products exactly, which coincides with the
      code whenever the double product rounds to the exact decimal.
    - [Math.round x] is [Qfloor (x + 1/2)], [Math.ceil] is [Qceiling].
    - Quantities, rental periods and ids are integers ([Z]); uuid strings
      are ids drawn from a counter, so that an insert's fresh id is known,
      and ordering by [created_at] is ordering by id.
    - The backend is a [World]: the tables and a script of outcomes, one per
      request, so that every interleaving of failures is a value.  The
      client library, the auth server, the storage bucket, PostgREST's
      body conversion and embedding, [URLSearchParams], zod and its
      resolver, and react-router's matching are not in the repository; their behaviour is taken from the spec and the standards
      and marked so in the map.
    - React handlers return the page state after all their [set...] calls;
      toasts are results, navigation is an outcome.  Asynchronous callbacks
      ([FileReader.onload], the auth listener, the session load) are events
      of a step relation, so that their interleavings are covered.
    - Fuel: the reachable set of the order life cycle is run for four
      rounds (three steps reach every status); [loadAll] delivers as many
      loads as there are pending readers.
    - Time is a parameter: [createOrder] takes one [now] for all its lines,
      where the code calls [new Date()] once per line, so rental end dates
      of one order may differ by the milliseconds between inserts there.
    - The auth context's mount reads the stored session and delivers it in
      one event; the code awaits [getSession()] first, and the listener may
      fire in between, which the step relation covers as a separate event
      of the listener.
    - Amounts are summed exactly; the code sums doubles, whose addition is
      not associative, so no theorem here depends on the order in which
      the cart items are summed.

    ** Not modelled

    Rendering without state (layouts, the static About, Contact,
    Policies, NotFound and feature-removed pages, the footer, skeletons,
    the admin dashboard, users and resell pages, which only display the
    modelled service answers); [OrderConfirmationPage] beyond its guard,
    since it formats the uuid and timestamp of the order, which the model
    keeps as a counter id; the [isSubmitting] flags, which only disable a
    button during a submission the sequential model does not interleave;
    [mockTestimonials] and [mockCategories], which no code reads;
    lazy loading; [handleNumberChange] of the admin
    book form, whose [Number(value)] can be [NaN], a value [BookData] does
    not have; the 30-second polling of the navigation bar as time; the
    encoding of non-ASCII text (strings are ASCII). *)

From Stdlib Require Export QArith Qround Lqa ZArith Lia List Permutation.
From Stdlib Require Export Morphisms Setoid.
From stdpp Require Export base gmap strings list.

Declare Scope shop_scope.
Delimit Scope shop_scope with shop.

(** A whole number of rupees seen as a JavaScript number. *)
Notation "'₹' z" := (inject_Z z) (at level 1, format "'₹' z") : shop_scope.

Open Scope Q_scope.
Open Scope shop_scope.

Create HintDb shop.
Create Rewrite HintDb shop_sums.

(** ** JavaScript numeric primitives on exact amounts *)

(** [Math.round]: the nearest integer, halves rounded towards +infinity. *)
Definition js_round (x : Q) : Z := Qfloor (x + (1 # 2)).

(** [Math.ceil]. *)
Definition js_ceil (x : Q) : Z := Qceiling x.

(** [Math.max] and [Math.min] on integers. *)
Definition js_max (a b : Z) : Z := Z.max a b.
Definition js_min (a b : Z) : Z := Z.min a b.

(** ** Sums of amounts *)

Definition sumQ (l : list Q) : Q := fold_right Qplus 0 l.

(** [Array.prototype.reduce] with an additive step: the step [g] adds [f x]
    to the running total, up to [Qeq]. *)
Section Reduce.
Context {A : Type} (g : Q -> A -> Q) (f : A -> Q).
Hypothesis g_adds : forall t x, g t x == t + f x.

Lemma fold_left_additive (l : list A) (a : Q) :
  fold_left g l a == a + sumQ (map f l).
Proof.
  revert a; induction l as [|x l IH]; intros a; simpl.
  - ring.
  - rewrite IH, g_adds. ring.
Qed.
End Reduce.

Lemma sumQ_app (l1 l2 : list Q) : sumQ (l1 ++ l2) == sumQ l1 + sumQ l2.
Proof. induction l1 as [|x l IH]; simpl; [ring | rewrite IH; ring]. Qed.

#[export] Instance sumQ_perm : Proper (@Permutation Q ==> Qeq) sumQ.
Proof.
  intros l1 l2 Hp; induction Hp; simpl.
  - reflexivity.
  - now rewrite IHHp.
  - ring.
  - now rewrite IHHp1, IHHp2.
Qed.

Lemma sumQ_nonneg (l : list Q) : Forall (Qle 0) l -> 0 <= sumQ l.
Proof.
  induction 1 as [|x l Hx _ IH]; simpl; [apply Qle_refl | lra].
Qed.

Lemma sumQ_map_zero {A} (f : A -> Q) (l : list A) :
  Forall (fun x => f x == 0) l -> sumQ (map f l) == 0.
Proof. induction 1 as [|x l Hx _ IH]; simpl; [reflexivity | rewrite Hx, IH; ring]. Qed.

Lemma sumQ_map_le_Forall {A} (f g : A -> Q) (l : list A) :
  Forall (fun x => f x <= g x) l -> sumQ (map f l) <= sumQ (map g l).
Proof. induction 1 as [|x l Hx _ IH]; simpl; [apply Qle_refl | lra]. Qed.

Lemma sumQ_const {A} (c : Q) (l : list A) :
  sumQ (map (fun _ => c) l) == c * inject_Z (Z.of_nat (length l)).
Proof.
  induction l as [|x l IH]; simpl; [ring |].
  rewrite IH, Nat2Z.inj_succ, <- Z.add_1_l, inject_Z_plus; ring.
Qed.

Lemma sumQ_map_le {A} (f g : A -> Q) (l : list A) :
  (forall x, f x <= g x) -> sumQ (map f l) <= sumQ (map g l).
Proof.
  intros H; induction l as [|x l IH]; simpl; [apply Qle_refl |].
  specialize (H x); lra.
Qed.

(** [Array.prototype.filter] keeps a permutation a permutation. *)
#[export] Instance List_filter_perm {A} (f : A -> bool) :
  Proper (@Permutation A ==> @Permutation A) (List.filter f).
Proof.
  intros l1 l2 Hp; induction Hp; simpl.
  - constructor.
  - destruct (f x); auto.
  - destruct (f x), (f y); auto using Permutation_refl; constructor.
  - eauto using Permutation_trans.
Qed.

(** ** Rounding *)

Lemma js_round_mono (x y : Q) : x <= y -> (js_round x <= js_round y)%Z.
Proof. intros H; unfold js_round; apply Qfloor_resp_le; lra. Qed.

Lemma js_round_bounds (x : Q) : x - (1 # 2) < ₹(js_round x) <= x + (1 # 2).
Proof.
  unfold js_round; split.
  - pose proof (Qlt_floor (x + (1 # 2))) as H.
    rewrite inject_Z_plus in H; change (₹1) with 1 in H; lra.
  - apply Qfloor_le.
Qed.

Lemma js_round_Z (z : Z) : js_round (₹z) = z.
Proof.
  unfold js_round.
  apply Z.le_antisymm.
  - apply Z.lt_succ_r; rewrite Zlt_Qlt.
    pose proof (Qfloor_le (₹z + (1 # 2))).
    unfold Z.succ; rewrite inject_Z_plus; change (₹1) with 1; lra.
  - pose proof (Qfloor_resp_le (₹z) (₹z + (1 # 2))) as H.
    rewrite Qfloor_Z in H; apply H; lra.
Qed.

#[export] Instance js_round_proper : Proper (Qeq ==> eq) js_round.
Proof. intros x y H; unfold js_round; apply Qfloor_comp; now rewrite H. Qed.

(** [Math.ceil (30 * m / 30) = m]: a whole number of months survives the
    conversion to days and back. *)
Lemma js_ceil_mul_div (m k : Z) : (0 < k)%Z -> js_ceil (₹(m * k) / ₹k) = m.
Proof.
  intros Hk; unfold js_ceil.
  assert (₹(m * k) / ₹k == ₹m) as ->.
  { rewrite inject_Z_mult. field. intros E.
    change 0 with (₹0) in E. rewrite inject_Z_injective in E. lia. }
  apply Qceiling_Z.
Qed.

(** [Math.ceil(n / k)] pages of [k] hold [n] items, and one page fewer
    does not. *)
Lemma js_ceil_div_bounds (n k : Z) :
  (0 < k)%Z -> ((js_ceil (₹n / ₹k) - 1) * k < n /\ n <= js_ceil (₹n / ₹k) * k)%Z.
Proof.
  intros Hk; unfold js_ceil.
  set (x := ₹n / ₹k); set (c := Qceiling x).
  assert (HkQ : 0 < ₹k) by (change 0 with (₹0); rewrite <- Zlt_Qlt; exact Hk).
  assert (Hn : ₹n == x * ₹k) by (unfold x; field; lra).
  pose proof (Qle_ceiling x) as Hc1; pose proof (Qceiling_lt x) as Hc2; fold c in Hc1, Hc2.
  split.
  - rewrite Zlt_Qlt, inject_Z_mult, Hn.
    apply Qmult_lt_r; [exact HkQ | exact Hc2].
  - rewrite Zle_Qle, inject_Z_mult, Hn.
    apply Qmult_le_compat_r; [exact Hc1 | lra].
Qed.

(** ** Lists *)

Lemma firstn_add {A} (n m : nat) (l : list A) :
  firstn (n + m) l = firstn n l ++ firstn m (skipn n l).
Proof.
  revert l; induction n as [|n IH]; intros [|x l]; simpl; auto.
  - now rewrite firstn_nil.
  - now rewrite IH.
Qed.

(** Consecutive windows of [k] cover the first [n * k] elements. *)
Lemma concat_windows {A} (k n : nat) (l : list A) :
  concat (map (fun i => firstn k (skipn (i * k) l)) (seq 0 n)) = firstn (n * k) l.
Proof.
  induction n as [|n IH]; [reflexivity |].
  rewrite seq_S, map_app, concat_app, IH; cbn [map concat Nat.add].
  rewrite app_nil_r, Nat.mul_succ_l, firstn_add; reflexivity.
Qed.

(** ** Booleans from decisions *)

Lemma Qle_bool_true_iff (x y : Q) : Qle_bool x y = true <-> x <= y.
Proof. apply Qle_bool_iff. Qed.

Lemma Qle_bool_false_iff (x y : Q) : Qle_bool x y = false <-> y < x.
Proof.
  split; intros H.
  - apply Qnot_le_lt; intros Hle; apply Qle_bool_iff in Hle; congruence.
  - destruct (Qle_bool x y) eqn:E; [apply Qle_bool_iff in E; lra | reflexivity].
Qed.

#[export] Instance Qle_bool_proper : Proper (Qeq ==> Qeq ==> eq) Qle_bool.
Proof.
  intros a b Hab x y Hxy.
  destruct (Qle_bool a x) eqn:E1, (Qle_bool b y) eqn:E2; try reflexivity.
  - apply Qle_bool_true_iff in E1; apply Qle_bool_false_iff in E2; lra.
  - apply Qle_bool_false_iff in E1; apply Qle_bool_true_iff in E2; lra.
Qed.

#[export] Hint Resolve Qle_refl sumQ_nonneg : shop.
#[export] Hint Rewrite sumQ_app : shop_sums.

(** Case analysis on the boolean comparisons the code branches on. *)
Ltac case_Qle x y :=
  let E := fresh "E" in
  destruct (Qle_bool x y) eqn:E;
  [apply Qle_bool_true_iff in E | apply Qle_bool_false_iff in E].

Ltac case_Zeq a b :=
  let E := fresh "E" in
  destruct (Z.eqb a b) eqn:E; [apply Z.eqb_eq in E | apply Z.eqb_neq in E].
