(* ===== verification/Book.v ===== *)
(** * Books: the [books] table row and the client-side [Book] model

    [DbBook] is the [books] row of [src/integrations/supabase/types.ts]
    (the shape every [select("*")] on [books] returns, and the shape the
    cart page receives through the [books:book_id( * )] join); [Book] is the
    interface of [src/types/book.ts] and [mapDatabaseBookToModel] its
    conversion.  Identifiers (uuid strings in the database) are integers
    here; nullable columns are [option]s. *)

From S2P Require Import Prelude.

Open Scope Q_scope.

(** A row of the [books] table. *)
Record DbBook := mkDbBook {
  db_author : string;
  db_binding : string;
  db_category_id : option Z;
  db_cover_image : string;
  db_description : string;
  db_edition : option string;
  db_has_free_delivery : option bool;
  db_has_rent_option : option bool;
  db_id : Z;
  db_is_available_for_resell : option bool;
  db_is_new : option bool;
  db_isbn : string;
  db_language : string;
  db_original_price : Q;
  db_page_count : Z;
  db_price : Q;
  db_publication_date : option string;
  db_publisher : string;
  db_rating : option Q;
  db_reviews : option Z;
  db_stock_status : string;
  db_title : string
}.

(** The [Book] interface.  Fields the mapper copies from nullable columns
    keep their [option]: the code copies [null] through unchanged.  The
    interface's [category : string] is read from [dbBook.category], a
    column the [books] row does not have, so it is [undefined] ([None]). *)
Record Book := mkBook {
  bookId : Z;
  title : string;
  author : string;
  coverImage : string;
  price : Q;
  originalPrice : Q;
  rating : Q;
  reviews : Z;
  description : string;
  category : option string;
  language : string;
  publisher : string;
  publicationDate : option string;
  isbn : string;
  pageCount : Z;
  edition : string;
  binding : string;
  isNew : option bool;
  hasFreeDelivery : option bool;
  hasRentOption : option bool;
  isAvailableForResell : option bool;
  stockStatus : string
}.

(** [x || d] on a nullable column: [null] (and [0], [""]) fall back to [d]. *)
Definition or_default {A} (o : option A) (d : A) : A :=
  match o with Some x => x | None => d end.

Definition mapDatabaseBookToModel (b : DbBook) : Book := {|
  bookId := db_id b;
  title := db_title b;
  author := db_author b;
  coverImage := db_cover_image b;
  price := db_price b;
  originalPrice := db_original_price b;
  rating := or_default (db_rating b) 0;
  reviews := or_default (db_reviews b) 0%Z;
  description := db_description b;
  category := None;
  language := db_language b;
  publisher := db_publisher b;
  publicationDate := db_publication_date b;
  isbn := db_isbn b;
  pageCount := db_page_count b;
  edition := or_default (db_edition b) ""%string;
  binding := db_binding b;
  isNew := db_is_new b;
  hasFreeDelivery := db_has_free_delivery b;
  hasRentOption := db_has_rent_option b;
  isAvailableForResell := db_is_available_for_resell b;
  stockStatus := db_stock_status b
|}.

(** A sample row used by the witnesses of the later files. *)
Definition sample_db_book (id : Z) (p : Q) : DbBook := {|
  db_author := "A"; db_binding := "Paperback"; db_category_id := Some 1%Z;
  db_cover_image := ""; db_description := ""; db_edition := None;
  db_has_free_delivery := Some false; db_has_rent_option := Some true;
  db_id := id; db_is_available_for_resell := Some false; db_is_new := Some true;
  db_isbn := ""; db_language := "English"; db_original_price := p;
  db_page_count := 100; db_price := p; db_publication_date := None;
  db_publisher := "P"; db_rating := None; db_reviews := None;
  db_stock_status := "in_stock"; db_title := "T"
|}.
