(* ===== verification/Pricing.v ===== *)
(** * Pricing: the order summary of the cart page

    [Module Pricing] translates the pricing functions of
    [src/pages/CartPage.tsx]: the view item the page builds from a
    [cart_items] row, [calculateSubtotal] (a [reduce] over the items),
    [calculateTax], [calculateShipping], [calculateSecurityDeposit] (a
    [filter] then a [reduce]) and [calculateTotal].  The page's functions
    close over the [cartItems] state; here they take the item list.

    [Section Spec] states what the summary promises (the spec's rules as
    sums of per-line amounts over a rate table) and the refinement theorem
    shows that the code computes exactly that. *)

From S2P Require Import Prelude Book.

Open Scope Q_scope.
Open Scope shop_scope.

Module Pricing.

(** [type: item.is_rental ? "rent" : "buy"]. *)
Inductive ItemType := Buy | Rent.

#[export] Instance ItemType_eq_dec : EqDecision ItemType.
Proof. solve_decision. Defined.

(** A view item of [cartItems]: [{ id, type, book, quantity, rentalPeriod }],
    [book] being the joined [books] row and [rentalPeriod] a number of
    months. *)
Record CartItem := mkCartItem {
  item_id : Z;
  type : ItemType;
  book : DbBook;
  quantity : Z;
  rentalPeriod : Z
}.

(** The rental rate chosen inside [calculateSubtotal]:
    [let rentalRate = 0.4; if (p === 3) rentalRate = 0.35;
     if (p === 6) rentalRate = 0.3;]. *)
Definition rentalRate (p : Z) : Q :=
  let r := 4 # 10 in
  let r := if (p =? 3)%Z then 35 # 100 else r in
  if (p =? 6)%Z then 3 # 10 else r.

(** One step of the [reduce] of [calculateSubtotal]. *)
Definition subtotalStep (total : Q) (item : CartItem) : Q :=
  match type item with
  | Buy => total + db_price (book item) * ₹(quantity item)
  | Rent => total + db_price (book item) * rentalRate (rentalPeriod item) * ₹(quantity item)
  end.

Definition calculateSubtotal (cartItems : list CartItem) : Q :=
  fold_left subtotalStep cartItems 0.

(** [Math.round(calculateSubtotal() * 0.18)]. *)
Definition calculateTax (cartItems : list CartItem) : Q :=
  ₹(js_round (calculateSubtotal cartItems * (18 # 100))).

Definition calculateShipping (cartItems : list CartItem) : Q :=
  let subtotal := calculateSubtotal cartItems in
  if Qle_bool 500 subtotal then 0 else 50.

(** [item => item.type === "rent"]. *)
Definition isRent (item : CartItem) : bool :=
  match type item with Rent => true | Buy => false end.

(** The deposit rate, written out again in [calculateSecurityDeposit]. *)
Definition depositRate (p : Z) : Q :=
  let r := 4 # 10 in
  let r := if (p =? 3)%Z then 35 # 100 else r in
  if (p =? 6)%Z then 3 # 10 else r.

Definition depositStep (total : Q) (item : CartItem) : Q :=
  total + db_price (book item) * depositRate (rentalPeriod item) * ₹(quantity item).

Definition calculateSecurityDeposit (cartItems : list CartItem) : Q :=
  fold_left depositStep (List.filter isRent cartItems) 0.

Definition calculateTotal (cartItems : list CartItem) : Q :=
  calculateSubtotal cartItems + calculateTax cartItems
  + calculateShipping cartItems + calculateSecurityDeposit cartItems.

(** The per-month price shown on a rental line:
    [Math.round(price * (p === 1 ? 0.4 : p === 3 ? 0.35 : 0.3))]. *)
Definition displayRentalRate (p : Z) : Q :=
  if (p =? 1)%Z then 4 # 10 else if (p =? 3)%Z then 35 # 100 else 3 # 10.

Definition rentalPriceLabel (item : CartItem) : Z :=
  js_round (db_price (book item) * displayRentalRate (rentalPeriod item)).

(** ** The specification of the order summary *)

Section Spec.

(** The spec's rate table: 1 month 40%, 3 months 35%, 6 months 30%, any
    other term the 1-month rate. *)
Definition spec_rate (p : Z) : Q :=
  match p with
  | 3%Z => 35 # 100
  | 6%Z => 3 # 10
  | _ => 4 # 10
  end.

Definition spec_line (item : CartItem) : Q :=
  match type item with
  | Buy => db_price (book item) * ₹(quantity item)
  | Rent => db_price (book item) * spec_rate (rentalPeriod item) * ₹(quantity item)
  end.

Definition spec_subtotal (items : list CartItem) : Q := sumQ (map spec_line items).
Definition spec_tax (subtotal : Q) : Q := ₹(js_round (subtotal * (18 # 100))).
Definition spec_shipping (subtotal : Q) : Q := if Qle_bool 500 subtotal then 0 else 50.
Definition spec_deposit (items : list CartItem) : Q :=
  sumQ (map spec_line (List.filter isRent items)).
Definition spec_total (items : list CartItem) : Q :=
  let s := spec_subtotal items in
  s + spec_tax s + spec_shipping s + spec_deposit items.

End Spec.

(** ** Lemmas *)

Lemma rentalRate_spec (p : Z) : rentalRate p = spec_rate p.
Proof.
  unfold rentalRate, spec_rate.
  destruct p as [|p|p]; [reflexivity | | reflexivity].
  do 3 (try destruct p as [p|p|]); reflexivity.
Qed.

Lemma depositRate_rentalRate (p : Z) : depositRate p = rentalRate p.
Proof. reflexivity. Qed.

Lemma subtotalStep_adds (t : Q) (item : CartItem) :
  subtotalStep t item == t + spec_line item.
Proof.
  unfold subtotalStep, spec_line; rewrite rentalRate_spec.
  destruct (type item); reflexivity.
Qed.

Lemma depositStep_adds (t : Q) (item : CartItem) :
  isRent item = true -> depositStep t item == t + spec_line item.
Proof.
  unfold depositStep, spec_line, isRent.
  rewrite depositRate_rentalRate, rentalRate_spec.
  destruct (type item); [discriminate | reflexivity].
Qed.

Lemma calculateSubtotal_spec (items : list CartItem) :
  calculateSubtotal items == spec_subtotal items.
Proof.
  unfold calculateSubtotal, spec_subtotal.
  rewrite (fold_left_additive _ spec_line subtotalStep_adds). ring.
Qed.

Lemma fold_depositStep (items : list CartItem) (a : Q) :
  Forall (fun i => isRent i = true) items ->
  fold_left depositStep items a == a + sumQ (map spec_line items).
Proof.
  intros H; revert a; induction H as [|x l Hx _ IH]; intros a; simpl; [ring |].
  rewrite IH, depositStep_adds by exact Hx. ring.
Qed.

Lemma calculateSecurityDeposit_spec (items : list CartItem) :
  calculateSecurityDeposit items == spec_deposit items.
Proof.
  unfold calculateSecurityDeposit, spec_deposit.
  rewrite fold_depositStep; [ring |].
  apply List.Forall_forall; intros x Hx; apply filter_In in Hx; tauto.
Qed.

#[export] Instance spec_tax_proper : Proper (Qeq ==> Qeq) spec_tax.
Proof. intros x y H; unfold spec_tax; now rewrite H. Qed.

#[export] Instance spec_shipping_proper : Proper (Qeq ==> Qeq) spec_shipping.
Proof.
  intros x y H; unfold spec_shipping; now rewrite H.
Qed.

Lemma calculateTax_spec (items : list CartItem) :
  calculateTax items == spec_tax (spec_subtotal items).
Proof. unfold calculateTax. now rewrite calculateSubtotal_spec. Qed.

Lemma calculateShipping_spec (items : list CartItem) :
  calculateShipping items == spec_shipping (spec_subtotal items).
Proof. unfold calculateShipping. now rewrite calculateSubtotal_spec. Qed.

#[export] Instance spec_subtotal_perm :
  Proper (@Permutation CartItem ==> Qeq) spec_subtotal.
Proof. intros l1 l2 H; unfold spec_subtotal; now rewrite H. Qed.

#[export] Instance spec_deposit_perm :
  Proper (@Permutation CartItem ==> Qeq) spec_deposit.
Proof.
  intros l1 l2 H; unfold spec_deposit.
  now rewrite H.
Qed.

Lemma calculateSubtotal_app (l1 l2 : list CartItem) :
  calculateSubtotal (l1 ++ l2) == calculateSubtotal l1 + calculateSubtotal l2.
Proof.
  rewrite !calculateSubtotal_spec; unfold spec_subtotal.
  now rewrite map_app, sumQ_app.
Qed.

Lemma spec_deposit_buys (items : list CartItem) :
  Forall (fun i => type i = Buy) items -> List.filter isRent items = [].
Proof.
  induction 1 as [|x l Hx _ IH]; simpl; [reflexivity |].
  unfold isRent at 1; rewrite Hx; exact IH.
Qed.

(** ** Properties of the order summary *)

(** (C1) The order total the cart page computes with its [reduce]s is the
    total the specification defines: the sum of the per-line amounts over
    the rate table (unknown terms at 40%), plus the rounded 18% tax of that
    sum, plus shipping (free from 500), plus the deposit, the sum of the
    rental lines' amounts. *)
Theorem calculateTotal_refines_spec (items : list CartItem) :
  calculateTotal items == spec_total items.
Proof.
  unfold calculateTotal, spec_total.
  now rewrite calculateTax_spec, calculateShipping_spec,
    calculateSecurityDeposit_spec, calculateSubtotal_spec.
Qed.

(** Shipping is free exactly when the subtotal reaches 500, and 50
    otherwise. *)
Theorem calculateShipping_threshold (items : list CartItem) :
  (500 <= calculateSubtotal items -> calculateShipping items == 0) /\
  (calculateSubtotal items < 500 -> calculateShipping items == 50).
Proof.
  unfold calculateShipping; split; intros H; case_Qle 500 (calculateSubtotal items);
    reflexivity || lra.
Qed.

(** The deposit is zero when the cart has no rental item. *)
Theorem calculateSecurityDeposit_no_rentals (items : list CartItem) :
  Forall (fun i => type i = Buy) items -> calculateSecurityDeposit items == 0.
Proof.
  intros H; unfold calculateSecurityDeposit; now rewrite spec_deposit_buys.
Qed.

(** The deposit is the rental part of the subtotal: one rental
    period's fee for every rental line. *)
Theorem calculateSecurityDeposit_rental_subtotal (items : list CartItem) :
  calculateSecurityDeposit items == calculateSubtotal (List.filter isRent items).
Proof.
  rewrite calculateSecurityDeposit_spec, calculateSubtotal_spec; reflexivity.
Qed.

(** Adding purchase items anywhere in the cart leaves the deposit
    unchanged. *)
Theorem calculateSecurityDeposit_ignores_purchases (l1 extra l2 : list CartItem) :
  Forall (fun i => type i = Buy) extra ->
  calculateSecurityDeposit (l1 ++ extra ++ l2) == calculateSecurityDeposit (l1 ++ l2).
Proof.
  intros H; unfold calculateSecurityDeposit.
  now rewrite !List.filter_app, (spec_deposit_buys extra H).
Qed.

(** The tax is the 18% of the subtotal rounded to a whole rupee: it is
    within half a rupee of the exact 18%. *)
Theorem calculateTax_bounds (items : list CartItem) :
  calculateSubtotal items * (18 # 100) - (1 # 2) < calculateTax items
  <= calculateSubtotal items * (18 # 100) + (1 # 2).
Proof. unfold calculateTax; apply js_round_bounds. Qed.

(** The tax is monotone in the subtotal. *)
Theorem calculateTax_monotone (l1 l2 : list CartItem) :
  calculateSubtotal l1 <= calculateSubtotal l2 -> calculateTax l1 <= calculateTax l2.
Proof.
  intros H; unfold calculateTax; rewrite <- Zle_Qle.
  apply js_round_mono, Qmult_le_compat_r; [exact H | discriminate].
Qed.

(** *** The spec's scenarios *)

Definition scenarioA : list CartItem :=
  [mkCartItem 1 Buy (sample_db_book 10 599) 1 3].
Definition scenarioB : list CartItem :=
  [mkCartItem 2 Rent (sample_db_book 11 830) 1 3].
Definition scenarioC : list CartItem :=
  [mkCartItem 3 Buy (sample_db_book 12 200) 2 3;
   mkCartItem 4 Rent (sample_db_book 13 300) 1 6].

Definition summary (items : list CartItem) : Q * Q * Q * Q * Q :=
  (calculateSubtotal items, calculateTax items, calculateShipping items,
   calculateSecurityDeposit items, calculateTotal items).

Definition summary_eqb (a b : Q * Q * Q * Q * Q) : bool :=
  let '(a1, a2, a3, a4, a5) := a in
  let '(b1, b2, b3, b4, b5) := b in
  Qeq_bool a1 b1 && Qeq_bool a2 b2 && Qeq_bool a3 b3 && Qeq_bool a4 b4 && Qeq_bool a5 b5.

(** Scenarios A, B and C of the spec: (subtotal, tax, shipping,
    deposit, total) are (599, 108, 0, 0, 707), (290.5, 52, 50, 290.5, 683)
    and (490, 88, 50, 90, 718). *)
Theorem pricing_scenarios :
  summary_eqb (summary scenarioA) (599, 108, 0, 0, 707) = true /\
  summary_eqb (summary scenarioB) (2905 # 10, 52, 50, 2905 # 10, 683) = true /\
  summary_eqb (summary scenarioC) (490, 88, 50, 90, 718) = true.
Proof. vm_compute. repeat split. Qed.

(** For a rental term outside 1, 3 and 6 months the line shows a
    per-month price at 30% of the list price while the line is charged at
    40%. *)
Theorem rental_label_diverges_from_charge (p : Z) :
  p <> 1%Z -> p <> 3%Z -> p <> 6%Z ->
  displayRentalRate p == 3 # 10 /\ rentalRate p == 4 # 10.
Proof.
  intros H1 H3 H6; unfold displayRentalRate, rentalRate.
  apply Z.eqb_neq in H1, H3, H6; rewrite H1, H3, H6; split; reflexivity.
Qed.

(** ** Witnesses *)

Lemma calculateSecurityDeposit_no_rentals_witness :
  calculateSecurityDeposit scenarioA == 0.
Proof.
  apply (calculateSecurityDeposit_no_rentals scenarioA).
  repeat constructor.
Defined.

Lemma calculateSecurityDeposit_ignores_purchases_witness :
  calculateSecurityDeposit (scenarioB ++ scenarioA ++ []) == calculateSecurityDeposit (scenarioB ++ []).
Proof.
  apply (calculateSecurityDeposit_ignores_purchases scenarioB scenarioA []).
  repeat constructor.
Defined.

Lemma calculateTax_monotone_witness :
  calculateTax scenarioB <= calculateTax scenarioC.
Proof.
  apply (calculateTax_monotone scenarioB scenarioC).
  vm_compute; discriminate.
Defined.

Lemma rental_label_diverges_from_charge_witness :
  displayRentalRate 2 == 3 # 10 /\ rentalRate 2 == 4 # 10.
Proof. apply (rental_label_diverges_from_charge 2); lia. Defined.

End Pricing.
