(* ===== verification/Store.v ===== *)
(** * Store: the hosted tables and the query client the services call

    The services of [src/services] talk to the backend through the generated
    Supabase client: every call is one request against one table, answering
    [{ data, error }].  This file models

    - the rows of the tables the cart and checkout use ([carts],
      [cart_items], [orders], [order_items], and [books] from [Book]), as in
      [src/integrations/supabase/types.ts], keyed by their [id] in a [gmap];
    - the class [Table] through which a service reaches one table (the
      interface the services are proved against, with its laws);
    - a state monad [M] over a [World]: the database and a script of store
      failures, one entry per request ([None]: the request succeeds;
      [Some e]: it fails with [e] and changes nothing); an empty script
      means every request succeeds;
    - the request forms the services use: [select] with an [eq] filter,
      [.single()], [.maybeSingle()], [insert(..).select().single()],
      [insert] alone, [update(..).eq("id",..).select().single()] and
      [delete().eq(..)].

    Identifiers (uuid strings) are integers, drawn from [next_id]. *)

From S2P Require Import Prelude Book.
From stdpp Require Import sorting.

Set Warnings "-clear-no-such-hyp".

Open Scope Q_scope.

(** ** Rows *)

(** [carts] row (without its timestamps). *)
Record CartRow := mkCartRow { cart_user_id : string }.

(** [cart_items] row. *)
Record CartItemRow := mkCartItemRow {
  ci_cart_id : Z;
  ci_book_id : Z;
  ci_quantity : Z;
  ci_is_rental : bool;
  ci_rental_period : option Z
}.

(** [orders] row. *)
Record OrderRow := mkOrderRow {
  o_user_id : string;
  o_status : string;
  o_total_amount : Q;
  o_shipping_address : string;
  o_shipping_city : string;
  o_shipping_state : string;
  o_shipping_zip : string;
  o_shipping_country : string;
  o_payment_method : string
}.

(** [order_items] row; [rental_end_date] is a day number (the ISO date
    string of that day in the source). *)
Record OrderItemRow := mkOrderItemRow {
  oi_order_id : Z;
  oi_book_id : Z;
  oi_quantity : Z;
  oi_price : Q;
  oi_is_rental : bool;
  oi_rental_period : option Z;
  oi_rental_end_date : option Z
}.

(** [categories] row. *)
Record CategoryRow := mkCategoryRow {
  cat_name : string;
  cat_book_count : option Z;
  cat_description : option string
}.

(** [reviews] row. *)
Record ReviewRow := mkReviewRow {
  rv_book_id : Z;
  rv_user_id : string;
  rv_rating : Z;
  rv_comment : option string
}.

(** [resell_requests] row.  [rr_image_urls] is the [image_urls] column
    [submitResellRequest] writes; the generated [Row] type does not list
    it. *)
Record ResellRequestRow := mkResellRequestRow {
  rr_user_id : string;
  rr_book_title : string;
  rr_book_author : string;
  rr_book_isbn : option string;
  rr_book_condition : string;
  rr_asking_price : option Q;
  rr_contact_phone : string;
  rr_description : option string;
  rr_status : string;
  rr_image_urls : option (list string)
}.

(** [testimonials] row. *)
Record TestimonialRow := mkTestimonialRow {
  t_name : string;
  t_content : string;
  t_avatar_url : option string;
  t_role : option string;
  t_is_featured : option bool;
  t_user_id : option string
}.

(** [profiles] row; a profile is keyed by its user's id. *)
Record ProfileRow := mkProfileRow {
  p_first_name : option string;
  p_last_name : option string;
  p_email : option string;
  p_phone : option string;
  p_address : option string;
  p_created_at : option string
}.

(** The tables.  [created_at] is not stored: rows get their ids from one
    increasing counter, so ordering by [created_at] is ordering by id. *)
Record DB := mkDB {
  books : gmap Z DbBook;
  carts : gmap Z CartRow;
  cart_items : gmap Z CartItemRow;
  orders : gmap Z OrderRow;
  order_items : gmap Z OrderItemRow;
  categories : gmap Z CategoryRow;
  reviews : gmap Z ReviewRow;
  resell_requests : gmap Z ResellRequestRow;
  testimonials : gmap Z TestimonialRow;
  profiles : gmap string ProfileRow;
  next_id : Z
}.

(** An error object of the client: [{ code, message }]. *)
Record PgError := mkPgError { code : string; message : string }.

(** The error [.single()] and [.maybeSingle()] report when the row count is
    wrong. *)
Definition PGRST116 : string := "PGRST116".
Definition wrong_row_count : PgError :=
  mkPgError PGRST116 "JSON object requested, multiple (or no) rows returned".

(** The error of a range that starts past the rows of the answer. *)
Definition range_not_satisfiable : PgError :=
  mkPgError "PGRST103" "Requested range not satisfiable".

(** A request that does not reach the server. *)
Definition net_error : PgError := mkPgError "08006" "connection failure".

(** The answer of one request. *)
Inductive Resp (A : Type) := RespOk (a : A) | RespErr (e : PgError).
Arguments RespOk {A} a.
Arguments RespErr {A} e.

(** [const { data } = await ...]: the data, [null] on error. *)
Definition resp_data {A} (r : Resp A) : option A :=
  match r with RespOk a => Some a | RespErr _ => None end.

(** [const { error } = await ...]. *)
Definition resp_error {A} (r : Resp A) : option PgError :=
  match r with RespOk _ => None | RespErr e => Some e end.

Record World := mkWorld { db : DB; faults : list (option PgError) }.

(** ** The monad *)

Definition M (A : Type) : Type := World -> A * World.

#[export] Instance M_ret : MRet M := fun A x w => (x, w).
#[export] Instance M_bind : MBind M :=
  fun A B f c w => let '(a, w') := c w in f a w'.

Definition run {A} (c : M A) (w : World) : A * World := c w.

(** The outcome scripted for the next request, and the rest of the
    script; past its end every request succeeds. *)
Definition pop (fs : list (option PgError)) : option PgError * list (option PgError) :=
  match fs with [] => (None, []) | f :: fs' => (f, fs') end.

(** One request: it consumes the head of the failure script. *)
Definition request {A} (exec : DB -> Resp A * DB) : M (Resp A) :=
  fun w =>
    let '(f, fs) := pop (faults w) in
    match f with
    | Some e => (RespErr e, mkWorld (db w) fs)
    | None => let '(r, d) := exec (db w) in (r, mkWorld d fs)
    end.

(** ** Tables *)

Definition set_next (n : Z) (d : DB) : DB :=
  mkDB (books d) (carts d) (cart_items d) (orders d) (order_items d) (categories d) (reviews d) (resell_requests d) (testimonials d) (profiles d) n.

(** Every id in use, in any table. *)
Definition dom_all (d : DB) : gset Z :=
  dom (books d) ∪ dom (carts d) ∪ dom (cart_items d) ∪ dom (orders d) ∪ dom (order_items d)
  ∪ dom (categories d) ∪ dom (reviews d) ∪ dom (resell_requests d) ∪ dom (testimonials d).

(** The interface a service relies on: one table of rows [R] inside the
    database, read and written without touching the others or the id
    counter. *)
Class Table (R : Type) := {
  tbl_get : DB -> gmap Z R;
  tbl_set : gmap Z R -> DB -> DB;
  tbl_get_set : forall t d, tbl_get (tbl_set t d) = t;
  tbl_set_get : forall d, tbl_set (tbl_get d) d = d;
  tbl_set_next : forall t d, next_id (tbl_set t d) = next_id d;
  tbl_get_next : forall n d, tbl_get (set_next n d) = tbl_get d;
  tbl_dom_sub : forall d, dom (tbl_get d) ⊆ dom_all d;
  tbl_dom_set : forall t d, dom_all (tbl_set t d) ⊆ dom t ∪ dom_all d
}.

#[export] Program Instance Table_books : Table DbBook := {
  tbl_get := books;
  tbl_set t d := mkDB t (carts d) (cart_items d) (orders d) (order_items d) (categories d) (reviews d) (resell_requests d) (testimonials d) (profiles d) (next_id d)
}.
Solve All Obligations with (intros; destruct d; unfold dom_all; simpl; set_solver).

#[export] Program Instance Table_carts : Table CartRow := {
  tbl_get := carts;
  tbl_set t d := mkDB (books d) t (cart_items d) (orders d) (order_items d) (categories d) (reviews d) (resell_requests d) (testimonials d) (profiles d) (next_id d)
}.
Solve All Obligations with (intros; destruct d; unfold dom_all; simpl; set_solver).

#[export] Program Instance Table_cart_items : Table CartItemRow := {
  tbl_get := cart_items;
  tbl_set t d := mkDB (books d) (carts d) t (orders d) (order_items d) (categories d) (reviews d) (resell_requests d) (testimonials d) (profiles d) (next_id d)
}.
Solve All Obligations with (intros; destruct d; unfold dom_all; simpl; set_solver).

#[export] Program Instance Table_orders : Table OrderRow := {
  tbl_get := orders;
  tbl_set t d := mkDB (books d) (carts d) (cart_items d) t (order_items d) (categories d) (reviews d) (resell_requests d) (testimonials d) (profiles d) (next_id d)
}.
Solve All Obligations with (intros; destruct d; unfold dom_all; simpl; set_solver).

#[export] Program Instance Table_order_items : Table OrderItemRow := {
  tbl_get := order_items;
  tbl_set t d := mkDB (books d) (carts d) (cart_items d) (orders d) t (categories d) (reviews d) (resell_requests d) (testimonials d) (profiles d) (next_id d)
}.
Solve All Obligations with (intros; destruct d; unfold dom_all; simpl; set_solver).

#[export] Program Instance Table_categories : Table CategoryRow := {
  tbl_get := categories;
  tbl_set t d := mkDB (books d) (carts d) (cart_items d) (orders d) (order_items d) t (reviews d) (resell_requests d) (testimonials d) (profiles d) (next_id d)
}.
Solve All Obligations with (intros; destruct d; unfold dom_all; simpl; set_solver).

#[export] Program Instance Table_reviews : Table ReviewRow := {
  tbl_get := reviews;
  tbl_set t d := mkDB (books d) (carts d) (cart_items d) (orders d) (order_items d) (categories d) t (resell_requests d) (testimonials d) (profiles d) (next_id d)
}.
Solve All Obligations with (intros; destruct d; unfold dom_all; simpl; set_solver).

#[export] Program Instance Table_resell_requests : Table ResellRequestRow := {
  tbl_get := resell_requests;
  tbl_set t d := mkDB (books d) (carts d) (cart_items d) (orders d) (order_items d) (categories d) (reviews d) t (testimonials d) (profiles d) (next_id d)
}.
Solve All Obligations with (intros; destruct d; unfold dom_all; simpl; set_solver).

#[export] Program Instance Table_testimonials : Table TestimonialRow := {
  tbl_get := testimonials;
  tbl_set t d := mkDB (books d) (carts d) (cart_items d) (orders d) (order_items d) (categories d) (reviews d) (resell_requests d) t (profiles d) (next_id d)
}.
Solve All Obligations with (intros; destruct d; unfold dom_all; simpl; set_solver).

(** ** Requests *)

Section Requests.
Context {R : Type} `{Table R}.

(** The rows of the table a filter selects ([.eq(...)] chains), in the
    table's order. *)
Definition rows_where (P : Z -> R -> bool) (d : DB) : list (Z * R) :=
  List.filter (fun kr => P kr.1 kr.2) (map_to_list (tbl_get d)).

(** [.select(...).eq(...)]. *)
Definition select (P : Z -> R -> bool) : M (Resp (list (Z * R))) :=
  request (fun d => (RespOk (rows_where P d), d)).

(** [.single()]: exactly one row, or an error. *)
Definition single {A} (rows : list A) : Resp A :=
  match rows with [r] => RespOk r | _ => RespErr wrong_row_count end.

(** [.maybeSingle()]: no row is [null]; two rows or more are an error. *)
Definition maybeSingle {A} (rows : list A) : Resp (option A) :=
  match rows with
  | [] => RespOk None
  | [r] => RespOk (Some r)
  | _ => RespErr wrong_row_count
  end.

Definition select_single (P : Z -> R -> bool) : M (Resp (Z * R)) :=
  request (fun d => (single (rows_where P d), d)).

Definition select_maybeSingle (P : Z -> R -> bool) : M (Resp (option (Z * R))) :=
  request (fun d => (maybeSingle (rows_where P d), d)).

(** [.insert([row]).select().single()]: the row under a fresh id. *)
Definition insert_exec (r : R) (d : DB) : (Z * R) * DB :=
  let i := next_id d in
  ((i, r), set_next (i + 1) (tbl_set (<[i := r]> (tbl_get d)) d)).

Definition insert_select (r : R) : M (Resp (Z * R)) :=
  request (fun d => let '(kr, d') := insert_exec r d in (RespOk kr, d')).

(** [.insert([row])] without reading the row back. *)
Definition insert (r : R) : M (Resp unit) :=
  request (fun d => let '(_, d') := insert_exec r d in (RespOk tt, d')).

(** [.update(f).eq("id", i).select().single()]: no such row is an error of
    [.single()], and nothing changes. *)
Definition update_by_id (i : Z) (f : R -> R) : M (Resp (Z * R)) :=
  request (fun d =>
    match tbl_get d !! i with
    | Some r => (RespOk (i, f r), tbl_set (<[i := f r]> (tbl_get d)) d)
    | None => (RespErr wrong_row_count, d)
    end).

(** [.update(f).eq("id", i)] without [.select()]: no such row is no
    error, and nothing changes. *)
Definition update_eq_id (i : Z) (f : R -> R) : M (Resp unit) :=
  request (fun d =>
    match tbl_get d !! i with
    | Some r => (RespOk tt, tbl_set (<[i := f r]> (tbl_get d)) d)
    | None => (RespOk tt, d)
    end).

(** [.select("*", { count: "exact", head: true })] with filters: the
    number of matching rows and no data. *)
Definition count_where (P : Z -> R -> bool) : M (Resp Z) :=
  request (fun d => (RespOk (Z.of_nat (length (rows_where P d))), d)).

(** [.delete().eq(...)]: deleting no row is no error. *)
Definition delete_where (P : Z -> R -> bool) : M (Resp unit) :=
  request (fun d =>
    (RespOk tt, tbl_set (filter (fun kr => P kr.1 kr.2 = false) (tbl_get d)) d)).

(** The rows [from .. to] of a list, both ends included
    ([.range(from, to)]). *)
Definition slice {A} (from to_ : Z) (l : list A) : list A :=
  firstn (Z.to_nat (to_ - from + 1)) (skipn (Z.to_nat from) l).

Lemma slice_incl {A} (from to_ : Z) (l : list A) (x : A) : In x (slice from to_ l) -> In x l.
Proof.
  unfold slice; intros Hs.
  set (l' := skipn (Z.to_nat from) l) in Hs.
  assert (Hl' : In x l') by (rewrite <- (firstn_skipn (Z.to_nat (to_ - from + 1)) l'); apply in_or_app; now left).
  rewrite <- (firstn_skipn (Z.to_nat from) l); apply in_or_app; right; exact Hl'.
Qed.

(** [.select("*", { count: "exact" }) ... .order(..).range(from, to)]: the
    matching rows in the order [le], the requested slice and the exact
    count.  A range starting past the count is refused (HTTP 416). *)
Definition select_range (P : Z -> R -> bool) (le : relation (Z * R)) `{!RelDecision le}
    (from to_ : Z) : M (Resp (list (Z * R) * Z)) :=
  request (fun d =>
    let all := merge_sort le (rows_where P d) in
    let count := Z.of_nat (length all) in
    if bool_decide (count < from)%Z then (RespErr range_not_satisfiable, d)
    else (RespOk (slice from to_ all, count), d)).

(** [.select("*") ... .order(..).limit(n)]. *)
Definition select_limit (P : Z -> R -> bool) (le : relation (Z * R)) `{!RelDecision le}
    (n : nat) : M (Resp (list (Z * R))) :=
  request (fun d => (RespOk (firstn n (merge_sort le (rows_where P d))), d)).

End Requests.

Arguments select R {_} P.
Arguments select_single R {_} P.
Arguments select_maybeSingle R {_} P.
Arguments delete_where R {_} P.
Arguments count_where R {_} P.
Arguments select_range R {_} P le {_} from to_.
Arguments select_limit R {_} P le {_} n.

(** ** Laws of the monad and of the requests *)

Lemma run_ret {A} (x : A) (w : World) : run (mret x) w = (x, w).
Proof. reflexivity. Qed.

Lemma run_bind {A B} (c : M A) (k : A -> M B) (w : World) :
  run (c ≫= k) w = let '(a, w') := run c w in run (k a) w'.
Proof. reflexivity. Qed.

Lemma run_bind_eq {A B} (c : M A) (k : A -> M B) (w w' : World) (a : A) :
  run c w = (a, w') -> run (c ≫= k) w = run (k a) w'.
Proof. intros E; rewrite run_bind, E; reflexivity. Qed.

(** A request whose scripted outcome is a success runs [exec]. *)
Lemma run_request_ok {A} (exec : DB -> Resp A * DB) (w : World) :
  (pop (faults w)).1 = None ->
  run (request exec) w = ((exec (db w)).1, mkWorld (exec (db w)).2 (pop (faults w)).2).
Proof.
  unfold run, request; destruct (pop (faults w)) as [[e|] fs]; simpl; intros H;
    [discriminate | now destruct (exec (db w))].
Qed.

(** A failing request answers the error and changes nothing. *)
Lemma run_request_err {A} (exec : DB -> Resp A * DB) (w : World) (e : PgError) :
  (pop (faults w)).1 = Some e ->
  run (request exec) w = (RespErr e, mkWorld (db w) (pop (faults w)).2).
Proof.
  unfold run, request; destruct (pop (faults w)) as [[e'|] fs]; simpl; intros H;
    [now inversion H | discriminate].
Qed.

Section RowsWhere.
Context {R : Type} `{Table R}.

Lemma rows_where_In (P : Z -> R -> bool) (d : DB) (i : Z) (r : R) :
  In (i, r) (rows_where P d) <-> tbl_get d !! i = Some r /\ P i r = true.
Proof.
  unfold rows_where; rewrite filter_In, <- list_elem_of_In, elem_of_map_to_list.
  reflexivity.
Qed.

Lemma rows_where_NoDup (P : Z -> R -> bool) (d : DB) :
  List.NoDup (map fst (rows_where P d)).
Proof.
  unfold rows_where.
  pose proof (NoDup_fst_map_to_list (tbl_get d)) as Hnd.
  apply NoDup_ListNoDup in Hnd.
  revert Hnd; generalize (map_to_list (tbl_get d)); intros l.
  induction l as [|[k v] l IH]; simpl; intros Hnd; [constructor |].
  inversion Hnd as [|? ? Hk Hl]; subst.
  destruct (P k v); simpl; [constructor |]; auto.
  intros Hin; apply Hk; apply in_map_iff in Hin as [[k' v'] [Hk' Hin]].
  simpl in Hk'; subst; apply in_map_iff; exists (k, v');
    split; [reflexivity |]; apply filter_In in Hin; tauto.
Qed.

(** No row matches: the selection is empty. *)
Lemma rows_where_nil (P : Z -> R -> bool) (d : DB) :
  (forall i r, tbl_get d !! i = Some r -> P i r = false) -> rows_where P d = [].
Proof.
  intros Hno; destruct (rows_where P d) as [|[i r] l] eqn:E; [reflexivity |].
  assert (In (i, r) (rows_where P d)) as Hin by (rewrite E; left; reflexivity).
  apply rows_where_In in Hin as [Hl HP]; rewrite (Hno _ _ Hl) in HP; discriminate.
Qed.

(** Exactly one row matches: the selection is that row. *)
Lemma rows_where_one (P : Z -> R -> bool) (d : DB) (i : Z) (r : R) :
  tbl_get d !! i = Some r -> P i r = true ->
  (forall j r', tbl_get d !! j = Some r' -> P j r' = true -> j = i) ->
  rows_where P d = [(i, r)].
Proof.
  intros Hl HP Huniq.
  assert (Hin : In (i, r) (rows_where P d)) by now apply rows_where_In.
  assert (Hall : forall kr, In kr (rows_where P d) -> kr = (i, r)).
  { intros [j r'] Hj; apply rows_where_In in Hj as [Hj HPj].
    pose proof (Huniq _ _ Hj HPj) as ->; congruence. }
  pose proof (rows_where_NoDup P d) as Hnd.
  destruct (rows_where P d) as [|a [|b l]]; [contradiction | | ].
  - now rewrite (Hall a (or_introl eq_refl)).
  - rewrite (Hall a (or_introl eq_refl)), (Hall b (or_intror (or_introl eq_refl))) in Hnd.
    inversion Hnd as [|? ? Hn]; simpl in Hn; tauto.
Qed.

Lemma single_ok {A} (rows : list A) (a : A) : single rows = RespOk a -> rows = [a].
Proof. destruct rows as [|x [|y l]]; simpl; congruence. Qed.

Lemma maybeSingle_some {A} (rows : list A) (a : A) :
  resp_data (maybeSingle rows) = Some (Some a) -> rows = [a].
Proof. destruct rows as [|x [|y l]]; simpl; congruence. Qed.

Lemma maybeSingle_none {A} (rows : list A) : resp_data (maybeSingle rows) = Some None -> rows = [].
Proof. destruct rows as [|x [|y l]]; simpl; congruence. Qed.

Lemma maybeSingle_err {A} (rows : list A) :
  resp_data (maybeSingle rows) = None -> exists x y l, rows = x :: y :: l.
Proof. destruct rows as [|x [|y l]]; simpl; try congruence; eauto. Qed.

End RowsWhere.

(** ** Well-formed ids *)

(** Every id in use is below the counter, so a fresh id is free in every
    table. *)
Definition wf_ids (d : DB) : Prop := forall i, i ∈ dom_all d -> (i < next_id d)%Z.

(** A computation keeps a property of the database, whatever the store
    answers. *)
Section Preserves.
Variable P : DB -> Prop.

Definition preserves {A} (c : M A) : Prop :=
  forall w, P (db w) -> P (db (run c w).2).

Lemma ret_preserves {A} (x : A) : preserves (mret x).
Proof. intros w H; exact H. Qed.

Lemma bind_preserves {A B} (c : M A) (k : A -> M B) :
  preserves c -> (forall a, preserves (k a)) -> preserves (c ≫= k).
Proof.
  intros Hc Hk w Hw; rewrite run_bind.
  destruct (run c w) as [a w'] eqn:E.
  apply Hk; specialize (Hc w Hw); rewrite E in Hc; exact Hc.
Qed.

Lemma request_preserves {A} (exec : DB -> Resp A * DB) :
  (forall d, P d -> P (exec d).2) -> preserves (request exec).
Proof.
  intros Hx w Hw; unfold run, request.
  destruct (pop (faults w)) as [[e|] fs]; simpl; [exact Hw |].
  specialize (Hx _ Hw); destruct (exec (db w)); exact Hx.
Qed.

End Preserves.

Definition preserves_wf {A} (c : M A) : Prop := preserves wf_ids c.

Lemma ret_wf {A} (x : A) : preserves_wf (mret x).
Proof. apply ret_preserves. Qed.

Lemma bind_wf {A B} (c : M A) (k : A -> M B) :
  preserves_wf c -> (forall a, preserves_wf (k a)) -> preserves_wf (c ≫= k).
Proof. apply bind_preserves. Qed.

Lemma request_wf {A} (exec : DB -> Resp A * DB) :
  (forall d, wf_ids d -> wf_ids (exec d).2) -> preserves_wf (request exec).
Proof. apply request_preserves. Qed.

Section RequestsWf.
Context {R : Type} `{Table R}.

Lemma wf_set (t : gmap Z R) (d : DB) :
  wf_ids d -> dom t ⊆ dom (tbl_get d) -> wf_ids (tbl_set t d).
Proof.
  intros Hw Ht i Hi; rewrite tbl_set_next; apply Hw.
  apply tbl_dom_set in Hi; pose proof (tbl_dom_sub d); set_solver.
Qed.

Lemma select_wf (P : Z -> R -> bool) : preserves_wf (select R P).
Proof. apply request_wf; auto. Qed.

Lemma select_single_wf (P : Z -> R -> bool) : preserves_wf (select_single R P).
Proof. apply request_wf; auto. Qed.

Lemma select_maybeSingle_wf (P : Z -> R -> bool) : preserves_wf (select_maybeSingle R P).
Proof. apply request_wf; auto. Qed.

Lemma insert_exec_wf (r : R) (d : DB) : wf_ids d -> wf_ids (insert_exec r d).2.
Proof.
  intros Hw i Hi; simpl in *.
  unfold dom_all in Hi; simpl in Hi; fold (dom_all (tbl_set (<[next_id d:=r]> (tbl_get d)) d)) in Hi.
  apply tbl_dom_set in Hi; rewrite dom_insert_L in Hi.
  pose proof (tbl_dom_sub d).
  assert (i = next_id d \/ i ∈ dom_all d) as [->|Hin] by set_solver; [lia |].
  specialize (Hw _ Hin); lia.
Qed.

Lemma insert_select_wf (r : R) : preserves_wf (insert_select r).
Proof.
  apply request_wf; intros d Hd; pose proof (insert_exec_wf r d Hd).
  destruct (insert_exec r d); assumption.
Qed.

Lemma insert_wf (r : R) : preserves_wf (insert r).
Proof.
  apply request_wf; intros d Hd; pose proof (insert_exec_wf r d Hd).
  destruct (insert_exec r d); assumption.
Qed.

Lemma update_by_id_wf (i : Z) (f : R -> R) : preserves_wf (update_by_id i f).
Proof.
  apply request_wf; intros d Hd.
  destruct (tbl_get d !! i) as [r|] eqn:E; simpl; [| exact Hd].
  apply wf_set; [exact Hd |]. rewrite dom_insert_L.
  apply elem_of_dom_2 in E; set_solver.
Qed.

Lemma update_eq_id_wf (i : Z) (f : R -> R) : preserves_wf (update_eq_id i f).
Proof.
  apply request_wf; intros d Hd.
  destruct (tbl_get d !! i) as [r|] eqn:E; simpl; [| exact Hd].
  apply wf_set; [exact Hd |]. rewrite dom_insert_L.
  apply elem_of_dom_2 in E; set_solver.
Qed.

Lemma count_where_wf (P : Z -> R -> bool) : preserves_wf (count_where R P).
Proof. apply request_wf; auto. Qed.

Lemma delete_where_wf (P : Z -> R -> bool) : preserves_wf (delete_where R P).
Proof.
  apply request_wf; intros d Hd; simpl.
  apply wf_set; [exact Hd |]. apply dom_filter_subseteq.
Qed.

End RequestsWf.

#[export] Hint Resolve ret_wf select_wf select_single_wf select_maybeSingle_wf
  insert_select_wf insert_wf update_by_id_wf delete_where_wf update_eq_id_wf count_where_wf : shop.

(** Closes [preserves_wf] goals of computations built from the requests. *)
Ltac solve_wf_step :=
  first [ solve [auto with shop] | apply request_wf; intros; simpl; solve [auto] ].

Ltac solve_wf :=
  repeat first
    [ apply bind_wf; [solve_wf_step | intros ?]
    | progress case_match
    | solve_wf_step ].

(** ** What one request does to the database *)

Section Effects.
Context {R : Type} `{Table R}.

Lemma request_db_cases {A} (exec : DB -> Resp A * DB) (w : World) :
  db (run (request exec) w).2 = db w \/ db (run (request exec) w).2 = (exec (db w)).2.
Proof.
  unfold run, request; destruct (pop (faults w)) as [[e|] fs]; simpl; [now left |].
  right; now destruct (exec (db w)).
Qed.

Lemma request_faults {A} (exec : DB -> Resp A * DB) (w : World) :
  faults (run (request exec) w).2 = (pop (faults w)).2.
Proof.
  unfold run, request; destruct (pop (faults w)) as [[e|] fs]; simpl; [reflexivity |].
  now destruct (exec (db w)).
Qed.

Lemma select_db (P : Z -> R -> bool) (w : World) : db (run (select R P) w).2 = db w.
Proof. now destruct (request_db_cases (fun d => (RespOk (rows_where P d), d)) w). Qed.

Lemma select_single_db (P : Z -> R -> bool) (w : World) :
  db (run (select_single R P) w).2 = db w.
Proof. now destruct (request_db_cases (fun d => (single (rows_where P d), d)) w). Qed.

Lemma select_maybeSingle_db (P : Z -> R -> bool) (w : World) :
  db (run (select_maybeSingle R P) w).2 = db w.
Proof. now destruct (request_db_cases (fun d => (maybeSingle (rows_where P d), d)) w). Qed.

Lemma insert_select_db (r : R) (w : World) :
  db (run (insert_select r) w).2 = db w \/
  db (run (insert_select r) w).2 = (insert_exec r (db w)).2.
Proof.
  unfold insert_select.
  destruct (request_db_cases (fun d => let '(kr, d') := insert_exec r d in (RespOk kr, d')) w)
    as [E|E]; rewrite E; [now left | right; now destruct (insert_exec r (db w))].
Qed.

Lemma update_by_id_db (i : Z) (f : R -> R) (w : World) :
  db (run (update_by_id i f) w).2 = db w \/
  exists r, tbl_get (db w) !! i = Some r /\
       db (run (update_by_id i f) w).2 = tbl_set (<[i := f r]> (tbl_get (db w))) (db w).
Proof.
  unfold update_by_id; destruct (request_db_cases
    (fun d => match tbl_get d !! i with
              | Some r => (RespOk (i, f r), tbl_set (<[i := f r]> (tbl_get d)) d)
              | None => (RespErr wrong_row_count, d) end) w) as [E|E];
    rewrite E; [now left |].
  destruct (tbl_get (db w) !! i) eqn:L; [right; eauto | now left].
Qed.

Lemma delete_where_db (P : Z -> R -> bool) (w : World) :
  db (run (delete_where R P) w).2 = db w \/
  db (run (delete_where R P) w).2 =
    tbl_set (filter (fun kr => P kr.1 kr.2 = false) (tbl_get (db w))) (db w).
Proof.
  unfold delete_where; destruct (request_db_cases
    (fun d => (RespOk tt, tbl_set (filter (fun kr => P kr.1 kr.2 = false) (tbl_get d)) d)) w);
    auto.
Qed.

End Effects.

(** ** Answered requests *)

Section Answered.
Context {R : Type} `{Table R}.

Lemma run_update_by_id_ok (i : Z) (f : R -> R) (w : World) (r : R) :
  (pop (faults w)).1 = None -> tbl_get (db w) !! i = Some r ->
  run (update_by_id i f) w =
  (RespOk (i, f r), mkWorld (tbl_set (<[i := f r]> (tbl_get (db w))) (db w)) (pop (faults w)).2).
Proof. intros Hok Hl; unfold update_by_id; rewrite run_request_ok by exact Hok; now rewrite Hl. Qed.

Lemma run_insert_select_ok (r : R) (w : World) :
  (pop (faults w)).1 = None ->
  run (insert_select r) w =
  (RespOk (next_id (db w), r), mkWorld (insert_exec r (db w)).2 (pop (faults w)).2).
Proof. intros Hok; unfold insert_select; now rewrite run_request_ok. Qed.

Lemma run_insert_ok (r : R) (w : World) :
  (pop (faults w)).1 = None ->
  run (insert r) w = (RespOk tt, mkWorld (insert_exec r (db w)).2 (pop (faults w)).2).
Proof. intros Hok; unfold insert; now rewrite run_request_ok. Qed.

Lemma run_select_single_ok (P : Z -> R -> bool) (w : World) :
  (pop (faults w)).1 = None ->
  run (select_single R P) w = (single (rows_where P (db w)), mkWorld (db w) (pop (faults w)).2).
Proof. intros Hok; unfold select_single; now rewrite run_request_ok. Qed.

Lemma run_select_maybeSingle_ok (P : Z -> R -> bool) (w : World) :
  (pop (faults w)).1 = None ->
  run (select_maybeSingle R P) w =
  (maybeSingle (rows_where P (db w)), mkWorld (db w) (pop (faults w)).2).
Proof. intros Hok; unfold select_maybeSingle; now rewrite run_request_ok. Qed.

Lemma run_select_ok (P : Z -> R -> bool) (w : World) :
  (pop (faults w)).1 = None ->
  run (select R P) w = (RespOk (rows_where P (db w)), mkWorld (db w) (pop (faults w)).2).
Proof. intros Hok; unfold select; now rewrite run_request_ok. Qed.

Lemma run_update_eq_id_ok (i : Z) (f : R -> R) (w : World) :
  (pop (faults w)).1 = None ->
  run (update_eq_id i f) w =
  (RespOk tt, mkWorld (match tbl_get (db w) !! i with
                       | Some r => tbl_set (<[i := f r]> (tbl_get (db w))) (db w)
                       | None => db w end) (pop (faults w)).2).
Proof. intros Hok; unfold update_eq_id; rewrite run_request_ok by exact Hok; now destruct (tbl_get (db w) !! i). Qed.

Lemma run_delete_where_ok (P : Z -> R -> bool) (w : World) :
  (pop (faults w)).1 = None ->
  run (delete_where R P) w =
  (RespOk tt, mkWorld (tbl_set (filter (fun kr => P kr.1 kr.2 = false) (tbl_get (db w))) (db w))
                      (pop (faults w)).2).
Proof. intros Hok; unfold delete_where; now rewrite run_request_ok. Qed.

End Answered.

Lemma wf_fresh {R} `{Table R} (d : DB) (i : Z) (r : R) :
  wf_ids d -> tbl_get d !! i = Some r -> (i < next_id d)%Z.
Proof.
  intros Hw Hl; apply Hw, tbl_dom_sub, elem_of_dom; eauto.
Qed.

(** ** Deciding the invariants on concrete databases *)

Definition wf_idsb (d : DB) : bool :=
  forallb (fun i => bool_decide (i < next_id d)%Z) (elements (dom_all d)).

Lemma wf_idsb_sound (d : DB) : wf_idsb d = true -> wf_ids d.
Proof.
  unfold wf_idsb; intros H i Hi; rewrite forallb_forall in H.
  apply (bool_decide_eq_true_1 (i < next_id d)%Z), H, list_elem_of_In, elem_of_elements; exact Hi.
Qed.

(** When at most one row matches, a selection is empty or that row. *)
Lemma rows_where_at_most_one {R} `{Table R} (P : Z -> R -> bool) (d : DB) :
  (forall i j ri rj, tbl_get d !! i = Some ri -> tbl_get d !! j = Some rj ->
     P i ri = true -> P j rj = true -> i = j) ->
  rows_where P d = [] \/
  exists i r, rows_where P d = [(i, r)] /\ tbl_get d !! i = Some r /\ P i r = true.
Proof.
  intros Hu; destruct (rows_where P d) as [|[i r] l] eqn:E; [now left | right].
  assert (In (i, r) (rows_where P d)) as Hin by (rewrite E; now left).
  apply rows_where_In in Hin as [Hl HP]; exists i, r; split; [| auto].
  destruct l as [|[j rj] l]; [reflexivity | exfalso].
  assert (In (j, rj) (rows_where P d)) as Hj by (rewrite E; right; now left).
  apply rows_where_In in Hj as [Hlj HPj].
  pose proof (rows_where_NoDup P d) as Hnd; rewrite E in Hnd.
  inversion Hnd as [|? ? Hn]; apply Hn; simpl; left.
  symmetry; eapply Hu; eauto.
Qed.

(** Two distinct matching rows: the selection has two rows or more. *)
Lemma rows_where_two {R} `{Table R} (P : Z -> R -> bool) (d : DB) i j ri rj :
  tbl_get d !! i = Some ri -> tbl_get d !! j = Some rj -> i <> j ->
  P i ri = true -> P j rj = true ->
  exists x y l, rows_where P d = x :: y :: l.
Proof.
  intros Hi Hj Hne HPi HPj.
  assert (In (i, ri) (rows_where P d)) as Ii by now apply rows_where_In.
  assert (In (j, rj) (rows_where P d)) as Ij by now apply rows_where_In.
  destruct (rows_where P d) as [|x [|y l]]; [contradiction | | eauto].
  destruct Ii as [Ei|[]], Ij as [Ej|[]]; congruence.
Qed.

(** A row written under [n] into a table where nothing matched is then the
    only match. *)
Lemma rows_where_insert_only {R} `{Table R} (P : Z -> R -> bool) (d : DB) (n : Z) (r : R) :
  rows_where P d = [] -> P n r = true ->
  rows_where P (tbl_set (<[n := r]> (tbl_get d)) d) = [(n, r)].
Proof.
  intros Hnil HP; apply rows_where_one; [rewrite tbl_get_set; apply lookup_insert_eq | exact HP |].
  intros j rj Hj HPj; rewrite tbl_get_set in Hj; destruct (decide (j = n)) as [->|Hne]; [reflexivity |].
  rewrite lookup_insert_ne in Hj by congruence.
  assert (Hin : In (j, rj) (rows_where P d)) by now apply rows_where_In.
  rewrite Hnil in Hin; destruct Hin.
Qed.

(** A selection depends on the table only. *)
Lemma rows_where_ext {R} `{Table R} (P : Z -> R -> bool) (d1 d2 : DB) :
  tbl_get d1 = tbl_get d2 -> rows_where P d1 = rows_where P d2.
Proof. unfold rows_where; intros ->; reflexivity. Qed.

Lemma rows_where_insert_exec_only {R} `{Table R} (P : Z -> R -> bool) (d : DB) (r : R) :
  rows_where P d = [] -> P (next_id d) r = true ->
  rows_where P (insert_exec r d).2 = [(next_id d, r)].
Proof.
  intros Hnil HP; simpl; rewrite (rows_where_ext P _ (tbl_set (<[next_id d := r]> (tbl_get d)) d)).
  - now apply rows_where_insert_only.
  - now rewrite tbl_get_next.
Qed.

(** Steps of a computation whose next request has a scripted outcome. *)
Ltac step_ok lem := erewrite run_bind_eq by (apply lem; reflexivity); cbn [fst snd pop].
Ltac step_err := erewrite run_bind_eq by
  (unfold insert, insert_select, select_single, select_maybeSingle, update_by_id, delete_where;
   apply run_request_err; reflexivity); cbn [fst snd pop].
