(* ===== verification/Filters.v ===== *)
(** * Filters: the backend's text filters

    The services filter rows with PostgREST operators the client passes as
    text: [.ilike(col, pattern)] and [.or("col.op.value, ...")].  This file
    models, from the spec's description of the query interface (section 6)
    and PostgREST's filter syntax:

    - [like]: SQL [LIKE] matching, [%] any sequence and [_] any character
      (no escape character: the services never escape), and [ilike], its
      case-insensitive version on ASCII letters;
    - [parse_or]: the [or=(...)] logic tree, a comma-separated list of
      [column.operator.value] conditions, each trimmed of surrounding
      spaces; a part that is not of that form makes the request fail.

    The main lemma is that [%t%] matches exactly the strings containing
    [t] when [t] has no wildcard. *)

From S2P Require Import Prelude Book Store.
From Stdlib Require Import Ascii String.

Open Scope string_scope.

(** ** Case folding and [LIKE] *)

Definition lower_ascii (c : ascii) : ascii :=
  let n := nat_of_ascii c in
  if (65 <=? n)%nat && (n <=? 90)%nat then ascii_of_nat (n + 32) else c.

Fixpoint lower (s : string) : string :=
  match s with
  | EmptyString => EmptyString
  | String c s' => String (lower_ascii c) (lower s')
  end.

Definition is_wildcard (c : ascii) : bool := Ascii.eqb c "%" || Ascii.eqb c "_".

(** [s LIKE p]. *)
Fixpoint like (p s : string) {struct p} : bool :=
  match p with
  | EmptyString => match s with EmptyString => true | String _ _ => false end
  | String c p' =>
      if Ascii.eqb c "%" then
        (fix star (s : string) : bool :=
           like p' s || match s with EmptyString => false | String _ s' => star s' end) s
      else if Ascii.eqb c "_" then
        match s with EmptyString => false | String _ s' => like p' s' end
      else
        match s with EmptyString => false | String c' s' => Ascii.eqb c c' && like p' s' end
  end.

(** [s ILIKE p]. *)
Definition ilike (p s : string) : bool := like (lower p) (lower s).

(** [t] occurs in [s]. *)
Definition substring_of (t s : string) : Prop := exists a b, s = a ++ t ++ b.

Fixpoint no_wildcard (t : string) : bool :=
  match t with
  | EmptyString => true
  | String c t' => negb (is_wildcard c) && no_wildcard t'
  end.

Fixpoint has_char (c : ascii) (s : string) : bool :=
  match s with
  | EmptyString => false
  | String c' s' => Ascii.eqb c c' || has_char c s'
  end.

(** ** The [or] logic tree *)

(** The parts of [s] between commas. *)
Fixpoint split_on (sep : ascii) (s : string) : list string :=
  match s with
  | EmptyString => [EmptyString]
  | String c s' =>
      if Ascii.eqb c sep then EmptyString :: split_on sep s'
      else match split_on sep s' with
           | w :: ws => String c w :: ws
           | [] => [String c EmptyString]
           end
  end.

Fixpoint trim_left (s : string) : string :=
  match s with
  | String " " s' => trim_left s'
  | _ => s
  end.

Definition rev_string (s : string) : string := string_of_list_ascii (rev (list_ascii_of_string s)).

Definition trim (s : string) : string := rev_string (trim_left (rev_string (trim_left s))).

(** [column.operator.value]: the value is everything after the second dot. *)
Definition parse_cond (s : string) : option (string * string * string) :=
  match split_on "." s with
  | col :: op :: rest =>
      if bool_decide (col = "") || bool_decide (op = "") || bool_decide (rest = [])
      then None
      else Some (col, op, String.concat "." rest)
  | _ => None
  end.

(** The conditions of [or=(s)], or [None] when the tree does not parse. *)
Definition parse_or (s : string) : option (list (string * string * string)) :=
  mapM parse_cond (map trim (split_on "," s)).

(** The error of a filter that does not parse. *)
Definition logic_tree_error : PgError :=
  mkPgError "PGRST100" "failed to parse logic tree".

(** ** Ordering *)

(** A column value as [ORDER BY] compares it; [NULL] sorts after every
    value, so that [ASC] puts nulls last and [DESC] first (PostgreSQL's
    defaults).  Text compares by character codes. *)
Inductive SortVal := SNull | SStr (s : string) | SNum (q : Q).

Definition sortval_leb (x y : SortVal) : bool :=
  match x, y with
  | _, SNull => true
  | SNull, _ => false
  | SStr a, SStr b => String.leb a b
  | SNum a, SNum b => Qle_bool a b
  | SStr _, SNum _ => true
  | SNum _, SStr _ => false
  end.

(** [.order(column, { ascending })] on the rows of a table. *)
Definition order_by {K R} (key : R -> SortVal) (ascending : bool) (x y : K * R) : Prop :=
  if ascending then sortval_leb (key x.2) (key y.2) = true
  else sortval_leb (key y.2) (key x.2) = true.

#[export] Instance order_by_dec {K R} (key : R -> SortVal) (ascending : bool) :
  RelDecision (@order_by K R key ascending).
Proof. intros x y; unfold order_by; destruct ascending; apply _. Defined.

(** [.order("created_at", { ascending: false })]: newest, that is largest
    id, first. *)
Definition newest_first {R} (x y : Z * R) : Prop := (y.1 <= x.1)%Z.

#[export] Instance newest_first_dec {R} : RelDecision (@newest_first R).
Proof. intros x y; unfold newest_first; apply _. Defined.

Lemma sortval_leb_total (x y : SortVal) : sortval_leb x y = true \/ sortval_leb y x = true.
Proof.
  destruct x as [|a|a], y as [|b|b]; simpl; auto.
  - apply String.leb_total.
  - destruct (Qle_bool a b) eqn:E; [auto | right].
    apply Qle_bool_iff; apply Qle_bool_false_iff in E; lra.
Qed.

#[export] Instance newest_first_total {R} : Total (@newest_first R).
Proof. intros x y; unfold newest_first; lia. Qed.

#[export] Instance order_by_total {K R} (key : R -> SortVal) (ascending : bool) :
  Total (@order_by K R key ascending).
Proof. intros x y; unfold order_by; destruct ascending; apply sortval_leb_total. Qed.

(** ** [LIKE] with a literal between two [%] is substring search *)

(** stdpp makes [String.append] opaque to [simpl]; its equations. *)
Lemma append_cons (c : ascii) (s t : string) : String c s ++ t = String c (s ++ t).
Proof. reflexivity. Qed.

Lemma append_empty_l (t : string) : "" ++ t = t.
Proof. reflexivity. Qed.

Lemma like_percent_nil (p : string) : like (String "%" p) EmptyString = like p EmptyString.
Proof. simpl; now destruct (like p EmptyString). Qed.

Lemma like_percent_cons (p : string) (c : ascii) (s : string) :
  like (String "%" p) (String c s) = like p (String c s) || like (String "%" p) s.
Proof. reflexivity. Qed.

Lemma like_percent (p s : string) :
  like (String "%" p) s = true <-> exists a b, s = a ++ b /\ like p b = true.
Proof.
  induction s as [|c s IH].
  - rewrite like_percent_nil; split; [intros H; exists "", ""; auto |].
    intros (a & b & E & H); destruct a, b; try discriminate; exact H.
  - rewrite like_percent_cons, orb_true_iff, IH; split.
    + intros [H | (a & b & -> & H)]; [exists "", (String c s); auto |].
      exists (String c a), b; auto.
    + intros ([|c' a] & b & E & H); simpl in E; [left; rewrite E; exact H |].
      injection E as -> ->; right; eauto.
Qed.

Lemma like_literal (t p s : string) :
  no_wildcard t = true ->
  like (t ++ p) s = true <-> exists s', s = t ++ s' /\ like p s' = true.
Proof.
  revert s; induction t as [|c t IH]; intros s Ht; simpl.
  - split; [eauto | now intros (s' & -> & H)].
  - apply andb_true_iff in Ht as [Hc Ht]; unfold is_wildcard in Hc.
    destruct (Ascii.eqb c "%") eqn:E1; [discriminate |]; destruct (Ascii.eqb c "_") eqn:E2; [discriminate |].
    destruct s as [|c' s]; [split; [discriminate | now intros (s' & E & _)] |].
    rewrite andb_true_iff, IH by exact Ht; split.
    + intros [Hcc (s' & -> & H)]; apply Ascii.eqb_eq in Hcc as ->; eauto.
    + intros (s' & E & H); injection E as -> ->; split; [apply Ascii.eqb_refl | eauto].
Qed.

Lemma append_empty_r (s : string) : s ++ "" = s.
Proof. induction s as [|c s IH]; [reflexivity | rewrite append_cons, IH; reflexivity]. Qed.

Lemma like_percent_any (s : string) : like "%" s = true.
Proof. apply like_percent; exists s, ""; split; [now rewrite append_empty_r | reflexivity]. Qed.

Lemma append_assoc_str (a b c : string) : a ++ b ++ c = (a ++ b) ++ c.
Proof. induction a as [|x a IH]; [reflexivity | rewrite !append_cons, IH; reflexivity]. Qed.

(** [s LIKE '%t%'] holds exactly when [t] occurs in [s], for a [t] without
    wildcards. *)
Lemma like_contains (t s : string) :
  no_wildcard t = true -> like ("%" ++ t ++ "%") s = true <-> substring_of t s.
Proof.
  intros Ht; unfold substring_of; rewrite append_cons, append_empty_l, like_percent; split.
  - intros (a & b & -> & Hb); apply like_literal in Hb as (b' & -> & _); [eauto | exact Ht].
  - intros (a & b & ->); exists a, (t ++ b); split; [reflexivity |].
    apply like_literal; [exact Ht | exists b; split; [reflexivity | apply like_percent_any]].
Qed.

(** ** Case folding *)

Lemma lower_append (a b : string) : lower (a ++ b) = lower a ++ lower b.
Proof. induction a as [|c a IH]; [reflexivity | rewrite append_cons; simpl; now rewrite IH]. Qed.

Lemma is_wildcard_lower (c : ascii) : is_wildcard (lower_ascii c) = is_wildcard c.
Proof. destruct c as [[] [] [] [] [] [] [] []]; reflexivity. Qed.

Lemma no_wildcard_lower (t : string) : no_wildcard (lower t) = no_wildcard t.
Proof. induction t as [|c t IH]; [reflexivity | simpl; now rewrite is_wildcard_lower, IH]. Qed.

(** [s ILIKE '%t%'] holds exactly when [t] occurs in [s] up to case. *)
Lemma ilike_contains (t s : string) :
  no_wildcard t = true ->
  ilike ("%" ++ t ++ "%") s = true <-> substring_of (lower t) (lower s).
Proof.
  intros Ht; unfold ilike; rewrite !lower_append.
  apply like_contains; now rewrite no_wildcard_lower.
Qed.

(** ** Splitting and joining *)

Lemma split_on_no_sep (sep : ascii) (s : string) :
  has_char sep s = false -> split_on sep s = [s].
Proof.
  induction s as [|c s IH]; [reflexivity |]; simpl; intros H.
  apply orb_false_iff in H as [Hc Hs]; rewrite Ascii.eqb_sym, Hc, IH by exact Hs; reflexivity.
Qed.

Lemma split_on_app_sep (sep : ascii) (a b : string) :
  has_char sep a = false -> split_on sep (a ++ String sep b) = a :: split_on sep b.
Proof.
  induction a as [|c a IH]; intros H.
  - rewrite append_empty_l; simpl; now rewrite Ascii.eqb_refl.
  - simpl in H; apply orb_false_iff in H as [Hc Ha]; rewrite append_cons; simpl.
    rewrite Ascii.eqb_sym, Hc, IH by exact Ha; reflexivity.
Qed.

Lemma split_on_nonempty (sep : ascii) (s : string) : split_on sep s <> [].
Proof.
  destruct s as [|c s]; simpl; [discriminate |].
  destruct (Ascii.eqb c sep); [discriminate |]; destruct (split_on sep s); discriminate.
Qed.

Lemma concat_cons_char (sep : string) (c : ascii) (w : string) (ws : list string) :
  String.concat sep (String c w :: ws) = String c (String.concat sep (w :: ws)).
Proof. destruct ws; reflexivity. Qed.

Lemma concat_split (sep : ascii) (v : string) :
  String.concat (String sep "") (split_on sep v) = v.
Proof.
  induction v as [|c v IH]; [reflexivity |]; simpl.
  destruct (Ascii.eqb c sep) eqn:E.
  - apply Ascii.eqb_eq in E as ->; pose proof (split_on_nonempty sep v) as Hn.
    destruct (split_on sep v) as [|w ws]; [contradiction |].
    change (String.concat (String sep "") ("" :: w :: ws))
      with ("" ++ String sep "" ++ String.concat (String sep "") (w :: ws)).
    rewrite IH; reflexivity.
  - pose proof (split_on_nonempty sep v) as Hn.
    destruct (split_on sep v) as [|w ws]; [contradiction |].
    now rewrite concat_cons_char, IH.
Qed.

(** ** Trimming *)

Lemma list_ascii_of_string_app (a b : string) :
  list_ascii_of_string (a ++ b) = (list_ascii_of_string a ++ list_ascii_of_string b)%list.
Proof. induction a as [|c a IH]; [reflexivity | rewrite append_cons; simpl; now rewrite IH]. Qed.

Lemma rev_string_involutive (s : string) : rev_string (rev_string s) = s.
Proof.
  unfold rev_string; rewrite list_ascii_of_string_of_list_ascii, rev_involutive.
  apply string_of_list_ascii_of_string.
Qed.

Lemma rev_string_snoc (s : string) (c : ascii) :
  rev_string (s ++ String c "") = String c (rev_string s).
Proof. unfold rev_string; rewrite list_ascii_of_string_app, rev_app_distr; reflexivity. Qed.

(** A string that starts and ends with a non-space is its own trim. *)
Lemma trim_fixed (c d : ascii) (s : string) :
  c <> " "%char -> d <> " "%char -> trim (String c (s ++ String d "")) = String c (s ++ String d "").
Proof.
  intros Hc Hd; unfold trim.
  assert (Hl : forall e r, e <> " "%char -> trim_left (String e r) = String e r).
  { intros e r He; simpl; destruct e as [[] [] [] [] [] [] [] []]; try reflexivity; now exfalso. }
  rewrite Hl by exact Hc.
  replace (String c (s ++ String d "")) with ((String c s) ++ String d "") by reflexivity.
  rewrite rev_string_snoc, Hl by exact Hd.
  rewrite <- rev_string_snoc, rev_string_involutive; reflexivity.
Qed.

Lemma has_char_app (c : ascii) (a b : string) : has_char c (a ++ b) = has_char c a || has_char c b.
Proof. induction a as [|x a IH]; [reflexivity | rewrite append_cons; simpl; now rewrite IH, orb_assoc]. Qed.

(** A condition [column.operator.value] whose column and operator have no
    dot parses back into its three parts. *)
Lemma parse_cond_ok (col op v : string) :
  has_char "." col = false -> has_char "." op = false -> col <> "" -> op <> "" ->
  parse_cond (col ++ String "." (op ++ String "." v)) = Some (col, op, v).
Proof.
  intros Hc Ho Hc' Ho'; unfold parse_cond.
  rewrite split_on_app_sep, split_on_app_sep by assumption.
  pose proof (split_on_nonempty "." v) as Hn; pose proof (concat_split "." v) as Hv.
  destruct (split_on "." v) as [|w ws]; [contradiction |].
  rewrite Hv, !bool_decide_eq_false_2 by (congruence || discriminate); reflexivity.
Qed.
