(* ===== verification/JsNumber.v ===== *)
(** * JsNumber: reading numbers from form text

    The pages read the text of number inputs with JavaScript's
    [parseFloat].  [parseFloat] reads the longest prefix of the text (after
    leading spaces) that is a decimal literal: an optional sign, digits
    with an optional fraction, and an optional exponent; text without a
    digit there is [NaN], [None] here.  The literals [Infinity] and
    non-space white space before the number are not modelled. *)

From S2P Require Import Prelude Filters.
From Stdlib Require Import Ascii String.

Open Scope Z_scope.

Definition is_digit (c : ascii) : bool :=
  (48 <=? nat_of_ascii c)%nat && (nat_of_ascii c <=? 57)%nat.

Definition digit_value (c : ascii) : Z := Z.of_nat (nat_of_ascii c) - 48.

(** The digits at the front of a text: their value added to [acc], their
    number added to [n], and the rest of the text. *)
Fixpoint digits (s : string) (acc : Z) (n : nat) : Z * nat * string :=
  match s with
  | String c s' => if is_digit c then digits s' (10 * acc + digit_value c) (S n) else (acc, n, s)
  | EmptyString => (acc, n, EmptyString)
  end.

(** An optional sign. *)
Definition sign_of (s : string) : Z * string :=
  match s with
  | String "-" s' => (-1, s')
  | String "+" s' => (1, s')
  | _ => (1, s)
  end.

(** The exponent part [e±ddd]; an [e] not followed by digits is not part
    of the number. *)
Definition exponent (s : string) : Z :=
  match s with
  | String c s' =>
      if (c =? "e")%char || (c =? "E")%char then
        let '(sg, s'') := sign_of s' in
        let '(e, ne, _) := digits s'' 0 0 in
        if (ne =? 0)%nat then 0 else sg * e
      else 0
  | EmptyString => 0
  end.

Definition parseFloat (text : string) : option Q :=
  let '(sg, s) := sign_of (trim_left text) in
  let '(ip, ni, r) := digits s 0 0 in
  let '(fp, nf, r') :=
    match r with
    | String "." r1 => digits r1 0 0
    | _ => (0, 0%nat, r)
    end in
  if (ni + nf =? 0)%nat then None
  else
    Some (inject_Z sg * (inject_Z ip + inject_Z fp / inject_Z (10 ^ Z.of_nat nf))
          * Qpower (inject_Z 10) (exponent r'))%Q.
