(* ===== verification/CartService.v ===== *)
(** * CartService: [src/services/cartService.ts]

    [Module CartService] translates the six functions of the cart service
    against the store of [Store]: [getOrCreateCart], [getCartItems],
    [addToCart], [updateCartItemQuantity], [removeFromCart] and
    [clearCart].  Each awaited query is one [request]; the [{ ..., error }]
    objects the functions return are records.  The [catch] blocks handle
    exceptions thrown by the client, which reports store errors as values:
    they are not modelled.

    The invariants: [wf_ids] (every row id is below the id counter, so an
    insert never overwrites a row) is assumed where a lemma needs a fresh
    id; [lines_unique]
    (one [cart_items] row per cart, book and purchase/rental kind) is what
    [addToCart]'s look-up-then-insert relies on. *)

From S2P Require Import Prelude Book Store.

Open Scope Z_scope.

Module CartService.

(** [{ cart, error }]. *)
Record CartResult := mkCartResult {
  cart : option (Z * CartRow);
  cart_error : option string
}.

(** [{ items, error }]: each item is the [cart_items] row with its joined
    [books] row ([books:book_id( * )], [null] when the book is gone). *)
Record CartItemsResult := mkCartItemsResult {
  items : list (Z * CartItemRow * option DbBook);
  items_error : option string
}.

(** [{ success, error }] of the mutations. *)
Record MutationResult := mkMutationResult {
  success : bool;
  mut_error : option string
}.

Definition mutation_of {A} (r : Resp A) : MutationResult :=
  match r with
  | RespOk _ => mkMutationResult true None
  | RespErr e => mkMutationResult false (Some (message e))
  end.

(** ** getOrCreateCart *)

Definition createCart (userId : string) : M CartResult :=
  created ← insert_select (mkCartRow userId);
  match created with
  | RespErr e => mret (mkCartResult None (Some (message e)))
  | RespOk c => mret (mkCartResult (Some c) None)
  end.

Definition ownedBy (userId : string) (_ : Z) (c : CartRow) : bool :=
  bool_decide (cart_user_id c = userId).

(** A fetch error other than [PGRST116] is returned; [PGRST116] (two carts
    or more) is treated as "no cart" and a new cart is created. *)
Definition getOrCreateCart (userId : string) : M CartResult :=
  fetched ← select_maybeSingle CartRow (ownedBy userId);
  match fetched with
  | RespErr e =>
      if bool_decide (code e = PGRST116) then createCart userId
      else mret (mkCartResult None (Some (message e)))
  | RespOk (Some c) => mret (mkCartResult (Some c) None)
  | RespOk None => createCart userId
  end.

(** ** getCartItems *)

Definition inCart (cartId : Z) (_ : Z) (r : CartItemRow) : bool :=
  bool_decide (ci_cart_id r = cartId).

Definition joinBook (d : DB) (ir : Z * CartItemRow) : Z * CartItemRow * option DbBook :=
  (ir.1, ir.2, books d !! ci_book_id ir.2).

Definition getCartItems (cartId : Z) : M CartItemsResult :=
  r ← request (fun d => (RespOk (map (joinBook d) (rows_where (inCart cartId) d)), d));
  match r with
  | RespErr e => mret (mkCartItemsResult [] (Some (message e)))
  | RespOk rows => mret (mkCartItemsResult rows None)
  end.

(** ** addToCart *)

(** The arguments, with the defaults [quantity = 1], [isRental = false],
    [rentalPeriod = null]. *)
Record AddArgs := mkAddArgs {
  a_cartId : Z;
  a_bookId : Z;
  a_quantity : Z;
  a_isRental : bool;
  a_rentalPeriod : option Z
}.

Definition addArgs (cartId bookId : Z) : AddArgs := mkAddArgs cartId bookId 1 false None.

Definition sameLine (cartId bookId : Z) (isRental : bool) (_ : Z) (r : CartItemRow) : bool :=
  bool_decide (ci_cart_id r = cartId) && bool_decide (ci_book_id r = bookId)
  && bool_decide (ci_is_rental r = isRental).

Definition with_quantity (q : Z) (r : CartItemRow) : CartItemRow :=
  mkCartItemRow (ci_cart_id r) (ci_book_id r) q (ci_is_rental r) (ci_rental_period r).

(** The look-up's error is ignored: [const { data: existingItem } = ...]. *)
Definition addToCart (a : AddArgs) : M MutationResult :=
  existing ← select_single CartItemRow (sameLine (a_cartId a) (a_bookId a) (a_isRental a));
  match resp_data existing with
  | Some (i, r) =>
      upd ← update_by_id i (with_quantity (ci_quantity r + a_quantity a));
      mret (mutation_of upd)
  | None =>
      ins ← insert_select (mkCartItemRow (a_cartId a) (a_bookId a) (a_quantity a)
                             (a_isRental a) (a_rentalPeriod a));
      mret (mutation_of ins)
  end.

(** ** The other mutations *)

Definition updateCartItemQuantity (itemId quantity : Z) : M MutationResult :=
  upd ← update_by_id itemId (with_quantity quantity);
  mret (mutation_of upd).

Definition hasId (itemId : Z) (i : Z) (_ : CartItemRow) : bool := bool_decide (i = itemId).

Definition removeFromCart (itemId : Z) : M MutationResult :=
  del ← delete_where CartItemRow (hasId itemId);
  mret (mutation_of del).

Definition clearCart (cartId : Z) : M MutationResult :=
  del ← delete_where CartItemRow (inCart cartId);
  mret (mutation_of del).

(** ** Invariants *)

(** The key [addToCart] looks a line up by. *)
Definition lineKey (r : CartItemRow) : Z * Z * bool :=
  (ci_cart_id r, ci_book_id r, ci_is_rental r).

Definition unique_keys (t : gmap Z CartItemRow) : Prop :=
  forall i j ri rj, t !! i = Some ri -> t !! j = Some rj -> lineKey ri = lineKey rj -> i = j.

Definition lines_unique (d : DB) : Prop := unique_keys (cart_items d).

(** At most one cart per user. *)
Definition one_cart_per_user (d : DB) : Prop :=
  forall i j ci cj, carts d !! i = Some ci -> carts d !! j = Some cj ->
  cart_user_id ci = cart_user_id cj -> i = j.

Lemma sameLine_key (c b : Z) (k : bool) (i : Z) (r : CartItemRow) :
  sameLine c b k i r = true <-> lineKey r = (c, b, k).
Proof.
  unfold sameLine, lineKey; rewrite !andb_true_iff, !bool_decide_eq_true.
  split; [intros [[-> ->] ->]; reflexivity | intros E; inversion E; auto].
Qed.

Lemma unique_keys_insert_fresh (t : gmap Z CartItemRow) (n : Z) (r : CartItemRow) :
  unique_keys t -> (forall k rk, t !! k = Some rk -> lineKey rk <> lineKey r) ->
  unique_keys (<[n := r]> t).
Proof.
  intros Hu Hnew i j ri rj Hi Hj Hk.
  rewrite lookup_insert in Hi, Hj.
  destruct (decide (n = i)) as [<-|], (decide (n = j)) as [<-|].
  - reflexivity.
  - injection Hi as <-; exfalso; apply (Hnew j rj Hj); congruence.
  - injection Hj as <-; exfalso; apply (Hnew i ri Hi); congruence.
  - exact (Hu i j ri rj Hi Hj Hk).
Qed.

Lemma unique_keys_insert_same (t : gmap Z CartItemRow) (i : Z) (r0 r : CartItemRow) :
  unique_keys t -> t !! i = Some r0 -> lineKey r = lineKey r0 ->
  unique_keys (<[i := r]> t).
Proof.
  intros Hu H0 Hk j1 j2 r1 r2 H1 H2 Hk12.
  rewrite lookup_insert in H1, H2.
  destruct (decide (i = j1)) as [<-|], (decide (i = j2)) as [<-|].
  - reflexivity.
  - injection H1 as <-; apply (Hu i j2 r0 r2 H0 H2); congruence.
  - injection H2 as <-; apply (Hu j1 i r1 r0 H1 H0); congruence.
  - exact (Hu j1 j2 r1 r2 H1 H2 Hk12).
Qed.

Lemma unique_keys_filter (t : gmap Z CartItemRow) (P : Z * CartItemRow -> Prop)
    `{forall x, Decision (P x)} :
  unique_keys t -> unique_keys (filter P t).
Proof.
  intros Hu i j ri rj Hi Hj; apply map_lookup_filter_Some in Hi as [Hi _], Hj as [Hj _].
  eauto.
Qed.

(** Under the invariant, a look-up that does not find exactly one line
    found none. *)
Lemma single_err_no_line (d : DB) (c b : Z) (k : bool) (e : PgError) :
  lines_unique d -> single (rows_where (sameLine c b k) d) = RespErr e ->
  forall j rj, cart_items d !! j = Some rj -> lineKey rj <> (c, b, k).
Proof.
  intros Hu Hs j rj Hj Hk.
  rewrite (rows_where_one (sameLine c b k) d j rj) in Hs; [discriminate | exact Hj | |].
  - now apply sameLine_key.
  - intros j' r' Hj' HP; apply sameLine_key in HP.
    apply (Hu j' j r' rj Hj' Hj); congruence.
Qed.

(** ** Properties *)

(** The look-up of [addToCart], answered. *)
Lemma addToCart_lookup_ok (a : AddArgs) (w : World) :
  (pop (faults w)).1 = None ->
  run (select_single CartItemRow (sameLine (a_cartId a) (a_bookId a) (a_isRental a))) w =
  (single (rows_where (sameLine (a_cartId a) (a_bookId a) (a_isRental a)) (db w)),
   mkWorld (db w) (pop (faults w)).2).
Proof. intros H; unfold select_single; now rewrite run_request_ok. Qed.

(** With every request answered and no line of the same cart, book and kind,
    [addToCart] inserts the line under the next id. *)
Lemma addToCart_new_line (a : AddArgs) (w : World) :
  faults w = [] -> rows_where (sameLine (a_cartId a) (a_bookId a) (a_isRental a)) (db w) = [] ->
  run (addToCart a) w =
  (mkMutationResult true None,
   mkWorld (insert_exec (mkCartItemRow (a_cartId a) (a_bookId a) (a_quantity a)
                                       (a_isRental a) (a_rentalPeriod a)) (db w)).2 []).
Proof.
  intros Hf Hr; unfold addToCart.
  rewrite (run_bind_eq _ _ _ _ _ (addToCart_lookup_ok a w (f_equal (fun l => (pop l).1) Hf))).
  rewrite Hr, Hf; simpl.
  rewrite (run_bind_eq _ _ _ _ _ (@run_insert_select_ok CartItemRow _ _ (mkWorld (db w) []) eq_refl)).
  reflexivity.
Qed.

(** With every request answered and exactly one line of the same cart,
    book and kind, [addToCart] adds to that line's quantity. *)
Lemma addToCart_existing_line (a : AddArgs) (w : World) (i : Z) (r : CartItemRow) :
  faults w = [] -> rows_where (sameLine (a_cartId a) (a_bookId a) (a_isRental a)) (db w) = [(i, r)] ->
  cart_items (db w) !! i = Some r ->
  run (addToCart a) w =
  (mkMutationResult true None,
   mkWorld (tbl_set (<[i := with_quantity (ci_quantity r + a_quantity a) r]> (cart_items (db w))) (db w)) []).
Proof.
  intros Hf Hrows Hl; unfold addToCart.
  rewrite (run_bind_eq _ _ _ _ _ (addToCart_lookup_ok a w (f_equal (fun l => (pop l).1) Hf))).
  rewrite Hrows, Hf; simpl.
  erewrite run_bind_eq by (apply (@run_update_by_id_ok CartItemRow _ i _ (mkWorld (db w) []) r);
                           [reflexivity | exact Hl]).
  reflexivity.
Qed.

Lemma lineKey_with_quantity (q : Z) (r : CartItemRow) : lineKey (with_quantity q r) = lineKey r.
Proof. reflexivity. Qed.

(** The database after [addToCart] is the one before, the one with the found
    line's quantity replaced, or the one with a new line under the next id. *)
Lemma addToCart_db (a : AddArgs) (w w1 : World) (rs : Resp (Z * CartItemRow)) :
  run (select_single CartItemRow (sameLine (a_cartId a) (a_bookId a) (a_isRental a))) w
    = (rs, w1) ->
  db w1 = db w ->
  match resp_data rs with
  | Some (i, r) =>
      db (run (addToCart a) w).2 = db w \/
      exists r', cart_items (db w) !! i = Some r' /\
        db (run (addToCart a) w).2 =
        tbl_set (<[i := with_quantity (ci_quantity r + a_quantity a) r']> (cart_items (db w))) (db w)
  | None =>
      db (run (addToCart a) w).2 = db w \/
      db (run (addToCart a) w).2 =
        (insert_exec (mkCartItemRow (a_cartId a) (a_bookId a) (a_quantity a)
                        (a_isRental a) (a_rentalPeriod a)) (db w)).2
  end.
Proof.
  intros E Hw1; unfold addToCart; rewrite (run_bind_eq _ _ _ _ _ E).
  destruct (resp_data rs) as [[i r]|].
  - rewrite run_bind; destruct (run (update_by_id i _) w1) as [res w2] eqn:Er; simpl.
    pose proof (update_by_id_db i (with_quantity (ci_quantity r + a_quantity a)) w1) as C.
    rewrite Er, Hw1 in C; exact C.
  - rewrite run_bind; destruct (run (insert_select _) w1) as [res w2] eqn:Er; simpl.
    pose proof (insert_select_db (mkCartItemRow (a_cartId a) (a_bookId a) (a_quantity a)
                        (a_isRental a) (a_rentalPeriod a)) w1) as C.
    rewrite Er, Hw1 in C; exact C.
Qed.

(** (C5) When its look-up is answered, [addToCart] keeps at most one line
    per cart, book and purchase/rental kind: it either raises the quantity
    of the line it found or adds a line no other line shares a key with. *)
Theorem addToCart_preserves_lines_unique (a : AddArgs) (w : World) :
  lines_unique (db w) -> (pop (faults w)).1 = None ->
  lines_unique (db (run (addToCart a) w).2).
Proof.
  intros Hu Hok.
  pose proof (addToCart_db a w _ _ (addToCart_lookup_ok a w Hok) eq_refl) as C.
  destruct (single (rows_where _ (db w))) as [[i r]|e] eqn:Hs; simpl in C.
  - destruct C as [->|[r' [Hl ->]]]; [exact Hu |].
    eapply unique_keys_insert_same; [exact Hu | exact Hl | apply lineKey_with_quantity].
  - destruct C as [-> | ->]; [exact Hu |].
    apply unique_keys_insert_fresh; [exact Hu |].
    intros k rk Hk; eapply single_err_no_line in Hs; [| exact Hu | exact Hk]; exact Hs.
Qed.

(** With every request answered, adding a line that is already in the
    cart raises its quantity by the added quantity and adds no line. *)
Theorem addToCart_merges (a : AddArgs) (w : World) (i : Z) (r : CartItemRow) :
  faults w = [] -> lines_unique (db w) -> cart_items (db w) !! i = Some r ->
  lineKey r = (a_cartId a, a_bookId a, a_isRental a) ->
  (run (addToCart a) w).1 = mkMutationResult true None /\
  cart_items (db (run (addToCart a) w).2) =
    <[i := with_quantity (ci_quantity r + a_quantity a) r]> (cart_items (db w)).
Proof.
  intros Hf Hu Hl Hk.
  assert (Hrows : rows_where (sameLine (a_cartId a) (a_bookId a) (a_isRental a)) (db w) = [(i, r)]).
  { apply rows_where_one; [exact Hl | now apply sameLine_key |].
    intros j rj Hj HP; apply sameLine_key in HP; apply (Hu j i rj r Hj Hl); congruence. }
  rewrite (addToCart_existing_line a w i r Hf Hrows Hl); split; reflexivity.
Qed.

(** When the look-up of [addToCart] fails, its error is ignored and a
    second line is inserted for a book already in the cart: the cart then
    has two lines with the same cart, book and kind. *)
Theorem addToCart_failed_lookup_duplicates (a : AddArgs) (w : World) (i : Z)
    (r : CartItemRow) (e : PgError) (fs : list (option PgError)) :
  wf_ids (db w) -> cart_items (db w) !! i = Some r ->
  lineKey r = (a_cartId a, a_bookId a, a_isRental a) ->
  faults w = Some e :: fs -> (pop fs).1 = None ->
  ~ lines_unique (db (run (addToCart a) w).2).
Proof.
  intros Hw Hl Hk Hf Hok Hu.
  assert (Hlook : run (select_single CartItemRow (sameLine (a_cartId a) (a_bookId a) (a_isRental a))) w
                  = (RespErr e, mkWorld (db w) fs)).
  { unfold select_single; rewrite run_request_err with (e := e); rewrite Hf; reflexivity. }
  unfold addToCart in Hu; rewrite (run_bind_eq _ _ _ _ _ Hlook) in Hu; simpl in Hu.
  rewrite (run_bind_eq _ _ _ _ _ (run_insert_select_ok _ (mkWorld (db w) fs) Hok)) in Hu.
  unfold lines_unique, insert_exec in Hu; cbn in Hu.
  pose proof (wf_fresh (db w) i r Hw Hl) as Hlt.
  assert (i = next_id (db w)) by
    (apply (Hu i (next_id (db w)) r (mkCartItemRow (a_cartId a) (a_bookId a) (a_quantity a)
                                        (a_isRental a) (a_rentalPeriod a)));
     [rewrite lookup_insert_ne by lia; exact Hl | apply lookup_insert_eq | exact Hk]).
  lia.
Qed.

(** ** Deciding the cart invariants *)

Definition lines_uniqueb (d : DB) : bool :=
  let l := map_to_list (cart_items d) in
  forallb (fun x => forallb (fun y =>
    negb (bool_decide (lineKey x.2 = lineKey y.2)) || bool_decide (x.1 = y.1)) l) l.

Lemma lines_uniqueb_sound (d : DB) : lines_uniqueb d = true -> lines_unique d.
Proof.
  unfold lines_uniqueb, lines_unique, unique_keys; intros H i j ri rj Hi Hj Hk.
  rewrite forallb_forall in H.
  apply elem_of_map_to_list, list_elem_of_In in Hi, Hj.
  specialize (H _ Hi); rewrite forallb_forall in H; specialize (H _ Hj); simpl in H.
  rewrite bool_decide_eq_true_2 in H by exact Hk; simpl in H.
  now apply bool_decide_eq_true in H.
Qed.

Definition one_cart_per_userb (d : DB) : bool :=
  let l := map_to_list (carts d) in
  forallb (fun x => forallb (fun y =>
    negb (bool_decide (cart_user_id x.2 = cart_user_id y.2)) || bool_decide (x.1 = y.1)) l) l.

Lemma one_cart_per_userb_sound (d : DB) : one_cart_per_userb d = true -> one_cart_per_user d.
Proof.
  unfold one_cart_per_userb, one_cart_per_user; intros H i j ci cj Hi Hj Hk.
  rewrite forallb_forall in H.
  apply elem_of_map_to_list, list_elem_of_In in Hi, Hj.
  specialize (H _ Hi); rewrite forallb_forall in H; specialize (H _ Hj); simpl in H.
  rewrite bool_decide_eq_true_2 in H by exact Hk; simpl in H.
  now apply bool_decide_eq_true in H.
Qed.

(** ** getOrCreateCart *)

Lemma ownedBy_true (u : string) (i : Z) (c : CartRow) :
  ownedBy u i c = true <-> cart_user_id c = u.
Proof. unfold ownedBy; apply bool_decide_eq_true. Qed.

Lemma createCart_ok (u : string) (w : World) :
  faults w = [] ->
  run (createCart u) w =
  (mkCartResult (Some (next_id (db w), mkCartRow u)) None,
   mkWorld (insert_exec (mkCartRow u) (db w)).2 []).
Proof.
  intros Hf; unfold createCart.
  rewrite (run_bind_eq _ _ _ _ _ (run_insert_select_ok _ w (f_equal (fun l => (pop l).1) Hf))).
  now rewrite Hf.
Qed.

(** The user's only cart is found again and nothing changes. *)
Lemma getOrCreateCart_found (u : string) (w : World) (i : Z) (c : CartRow) :
  faults w = [] -> rows_where (ownedBy u) (db w) = [(i, c)] ->
  run (getOrCreateCart u) w = (mkCartResult (Some (i, c)) None, w).
Proof.
  intros Hf Hr; unfold getOrCreateCart.
  rewrite (run_bind_eq _ _ _ _ _ (run_select_maybeSingle_ok _ w (f_equal (fun l => (pop l).1) Hf))).
  rewrite Hr, Hf; destruct w; simpl in *; now subst.
Qed.

(** A user without a cart gets a new one under the next id. *)
Lemma getOrCreateCart_absent (u : string) (w : World) :
  faults w = [] -> rows_where (ownedBy u) (db w) = [] ->
  run (getOrCreateCart u) w =
  (mkCartResult (Some (next_id (db w), mkCartRow u)) None,
   mkWorld (insert_exec (mkCartRow u) (db w)).2 []).
Proof.
  intros Hf Hr; unfold getOrCreateCart.
  rewrite (run_bind_eq _ _ _ _ _ (run_select_maybeSingle_ok _ w (f_equal (fun l => (pop l).1) Hf))).
  rewrite Hr, Hf; simpl; rewrite createCart_ok by reflexivity; reflexivity.
Qed.

(** With every request answered and at most one cart per user,
    [getOrCreateCart] returns a cart of the user, and a second call returns
    the same cart and changes nothing. *)
Theorem getOrCreateCart_idempotent (u : string) (w : World) :
  faults w = [] -> one_cart_per_user (db w) ->
  let '(r1, w1) := run (getOrCreateCart u) w in
  (exists i c, cart r1 = Some (i, c) /\ carts (db w1) !! i = Some c /\ cart_user_id c = u) /\
  run (getOrCreateCart u) w1 = (r1, w1).
Proof.
  intros Hf Hone.
  destruct (rows_where_at_most_one (ownedBy u) (db w)) as [Hnil|[i [c [Hr [Hl Hown]]]]].
  { intros i j ci cj Hi Hj Pi Pj; apply ownedBy_true in Pi, Pj; eapply Hone; eauto; congruence. }
  - rewrite (getOrCreateCart_absent u w Hf Hnil).
    assert (Hl : carts (insert_exec (mkCartRow u) (db w)).2 !! next_id (db w) = Some (mkCartRow u))
      by (cbn; apply lookup_insert_eq).
    split; [do 2 eexists; split; [reflexivity | split; [exact Hl | reflexivity]] |].
    apply getOrCreateCart_found; [reflexivity |].
    apply rows_where_one; [exact Hl | now apply ownedBy_true |].
    intros j cj Hj Pj; cbn in Hj; rewrite lookup_insert in Hj.
    case_decide as E; [now subst |].
    exfalso; assert (In (j, cj) (rows_where (ownedBy u) (db w))) as Hin
      by (apply rows_where_In; split; assumption).
    rewrite Hnil in Hin; contradiction.
  - rewrite (getOrCreateCart_found u w i c Hf Hr).
    split; [exists i, c; split; [reflexivity | split; [exact Hl | now apply ownedBy_true in Hown]] |].
    now apply getOrCreateCart_found.
Qed.

(** When a user has two carts, the look-up's [PGRST116] error is taken
    for "no cart": [getOrCreateCart] creates a third cart, with no line in
    it, instead of returning one of the two. *)
Theorem getOrCreateCart_duplicate_carts (u : string) (w : World) i j ci cj :
  faults w = [] -> carts (db w) !! i = Some ci -> carts (db w) !! j = Some cj -> i <> j ->
  cart_user_id ci = u -> cart_user_id cj = u ->
  run (getOrCreateCart u) w =
  (mkCartResult (Some (next_id (db w), mkCartRow u)) None,
   mkWorld (insert_exec (mkCartRow u) (db w)).2 []).
Proof.
  intros Hf Hi Hj Hne Hci Hcj.
  destruct (@rows_where_two CartRow Table_carts (ownedBy u) (db w) i j ci cj Hi Hj Hne)
    as [x [y [l Hr]]]; [now apply ownedBy_true .. |].
  unfold getOrCreateCart.
  rewrite (run_bind_eq _ _ _ _ _ (run_select_maybeSingle_ok _ w (f_equal (fun l => (pop l).1) Hf))).
  rewrite Hr, Hf; simpl.
  rewrite createCart_ok by reflexivity; reflexivity.
Qed.

(** ** clearCart *)

(** When its request is answered, [clearCart] removes exactly the
    lines of the given cart and reports success; when it fails, nothing
    changes and the store's message is returned. *)
Theorem clearCart_spec (c : Z) (w : World) :
  match (pop (faults w)).1 with
  | None =>
      (run (clearCart c) w).1 = mkMutationResult true None /\
      forall j r, cart_items (db (run (clearCart c) w).2) !! j = Some r <->
                  cart_items (db w) !! j = Some r /\ ci_cart_id r <> c
  | Some e =>
      run (clearCart c) w = (mkMutationResult false (Some (message e)), mkWorld (db w) (pop (faults w)).2)
  end.
Proof.
  destruct (pop (faults w)).1 as [e|] eqn:Hp.
  - unfold clearCart, delete_where; rewrite (run_bind_eq _ _ _ _ _ (run_request_err _ w e Hp)).
    reflexivity.
  - unfold clearCart; rewrite (run_bind_eq _ _ _ _ _ (run_delete_where_ok _ w Hp)); simpl.
    split; [reflexivity |]; intros j r.
    rewrite map_lookup_filter_Some; unfold inCart; simpl.
    rewrite bool_decide_eq_false; reflexivity.
Qed.

(** ** What the page's mutations do to the store *)

(** [updateCartItemQuantity] either fails and changes nothing, or finds the
    line and sets its quantity. *)
Lemma updateCartItemQuantity_cases (i q : Z) (w : World) :
  let '(res, w') := run (updateCartItemQuantity i q) w in
  (success res = false /\ db w' = db w) \/
  (success res = true /\ exists r, cart_items (db w) !! i = Some r /\
     cart_items (db w') = <[i := with_quantity q r]> (cart_items (db w))).
Proof.
  unfold updateCartItemQuantity; rewrite run_bind.
  destruct (pop (faults w)).1 as [e|] eqn:Hp.
  - unfold update_by_id; rewrite (run_request_err _ w e Hp); left; auto.
  - destruct (cart_items (db w) !! i) as [r|] eqn:Hl.
    + rewrite (@run_update_by_id_ok CartItemRow Table_cart_items _ _ w r Hp Hl).
      right; split; [reflexivity | eauto].
    + unfold update_by_id; rewrite (run_request_ok _ w Hp); simpl; rewrite Hl; left; auto.
Qed.

(** [removeFromCart] either fails and changes nothing, or deletes the line
    with the given id. *)
Lemma removeFromCart_cases (i : Z) (w : World) :
  let '(res, w') := run (removeFromCart i) w in
  (success res = false /\ db w' = db w) \/
  (success res = true /\ cart_items (db w') = delete i (cart_items (db w)) /\
     orders (db w') = orders (db w)).
Proof.
  unfold removeFromCart; rewrite run_bind.
  destruct (pop (faults w)).1 as [e|] eqn:Hp.
  - unfold delete_where; rewrite (run_request_err _ w e Hp); left; auto.
  - rewrite (run_delete_where_ok _ w Hp); right; simpl; split; [reflexivity | split; [| reflexivity]].
    apply map_eq; intros j; unfold hasId.
    destruct (decide (j = i)) as [->|Hne].
    + rewrite lookup_delete_eq; apply map_lookup_filter_None; right; intros x _; simpl.
      now rewrite bool_decide_eq_true_2.
    + rewrite lookup_delete_ne by congruence; destruct (cart_items (db w) !! j) eqn:Hj.
      * apply map_lookup_filter_Some; simpl; rewrite bool_decide_eq_false_2 by exact Hne; auto.
      * apply map_lookup_filter_None; left; exact Hj.
Qed.

(** [getCartItems] changes nothing and returns lines of the cart, each
    under its id. *)
Lemma getCartItems_rows (c : Z) (w : World) :
  let '(ir, w') := run (getCartItems c) w in
  db w' = db w /\
  Forall (fun row => cart_items (db w) !! row.1.1 = Some row.1.2 /\ ci_cart_id row.1.2 = c)
         (items ir).
Proof.
  unfold getCartItems; rewrite run_bind.
  destruct (pop (faults w)).1 as [e|] eqn:Hp.
  - rewrite (run_request_err _ w e Hp); split; [reflexivity | constructor].
  - rewrite (run_request_ok _ w Hp); simpl; split; [reflexivity |].
    apply List.Forall_forall; intros row Hin; apply in_map_iff in Hin as [[i r] [<- Hin]].
    apply (rows_where_In (R := CartItemRow)) in Hin as [Hl Hc]; unfold inCart in Hc; simpl.
    split; [exact Hl | now apply bool_decide_eq_true in Hc].
Qed.

(** ** Concrete runs *)

(** A cart of user "u1" (id 1) holding book 10 at the page's maximum
    quantity 10 (line 2). *)
Definition line0 : CartItemRow := mkCartItemRow 1 10 10 false None.
Definition db0 : DB := mkDB ∅ {[1%Z := mkCartRow "u1"]} {[2%Z := line0]} ∅ ∅ ∅ ∅ ∅ ∅ ∅ 3.
Definition w0 : World := mkWorld db0 [].

(** User "u1" with two carts. *)
Definition db_dup : DB := mkDB ∅ {[1%Z := mkCartRow "u1"; 4%Z := mkCartRow "u1"]} ∅ ∅ ∅ ∅ ∅ ∅ ∅ ∅ 5.

(** The cart service does not clamp quantities: adding a book whose
    line is at the cart page's maximum of 10 (the detail page adds one at
    a time) leaves the line at 11. *)
Example addToCart_exceeds_quantity_limit :
  cart_items (db (run (addToCart (addArgs 1 10)) w0).2) !! 2 =
  Some (mkCartItemRow 1 10 11 false None).
Proof. vm_compute. reflexivity. Qed.

Lemma addToCart_preserves_lines_unique_witness :
  lines_unique (db (run (addToCart (addArgs 1 10)) w0).2).
Proof.
  apply (addToCart_preserves_lines_unique (addArgs 1 10) w0);
    [apply lines_uniqueb_sound; vm_compute; reflexivity | reflexivity].
Defined.

Lemma addToCart_merges_witness :
  (run (addToCart (addArgs 1 10)) w0).1 = mkMutationResult true None /\
  cart_items (db (run (addToCart (addArgs 1 10)) w0).2) =
    <[2%Z := with_quantity (10 + 1) line0]> (cart_items db0).
Proof.
  apply (addToCart_merges (addArgs 1 10) w0 2 line0);
    [reflexivity | apply lines_uniqueb_sound; vm_compute; reflexivity | reflexivity | reflexivity].
Defined.

Lemma addToCart_failed_lookup_duplicates_witness :
  ~ lines_unique (db (run (addToCart (addArgs 1 10)) (mkWorld db0 [Some net_error; None])).2).
Proof.
  apply (addToCart_failed_lookup_duplicates (addArgs 1 10) (mkWorld db0 [Some net_error; None])
           2 line0 net_error [None]);
    [apply wf_idsb_sound; vm_compute; reflexivity | reflexivity | reflexivity | reflexivity | reflexivity].
Defined.

Lemma getOrCreateCart_idempotent_witness :
  let '(r1, w1) := run (getOrCreateCart "u2") w0 in
  (exists i c, cart r1 = Some (i, c) /\ carts (db w1) !! i = Some c /\ cart_user_id c = "u2") /\
  run (getOrCreateCart "u2") w1 = (r1, w1).
Proof.
  apply (getOrCreateCart_idempotent "u2" w0);
    [reflexivity | apply one_cart_per_userb_sound; vm_compute; reflexivity].
Defined.

Lemma getOrCreateCart_duplicate_carts_witness :
  run (getOrCreateCart "u1") (mkWorld db_dup []) =
  (mkCartResult (Some (5, mkCartRow "u1")) None,
   mkWorld (insert_exec (mkCartRow "u1") db_dup).2 []).
Proof.
  apply (getOrCreateCart_duplicate_carts "u1" (mkWorld db_dup []) 1 4
           (mkCartRow "u1") (mkCartRow "u1")); (reflexivity || lia).
Defined.

End CartService.
