(* ===== verification/OrderService.v ===== *)
(** * OrderService: [createOrder] of [src/services/orderService.ts]

    [Module OrderService] translates [createOrder]: insert the order header
    (status ["pending"], the caller's total, a demo user id when the user
    id is empty), insert each line on its own ([for ... of] with one
    awaited insert per line; a failed line is logged and skipped), delete
    the lines of the cart, then read the order back (returning the inserted
    header when the read fails).

    [Date.now()] is read once per line in the source; the model takes one
    instant [now] (milliseconds) for the whole call.  A rental end date is
    the day number of [now + rental_period] days, the date part of
    [toISOString()]. *)

From S2P Require Import Prelude Book Store CartService.

Open Scope Z_scope.

Module OrderService.

Record ShippingInfo := mkShippingInfo {
  address : string;
  city : string;
  state : string;
  zip : string;
  country : string
}.

(** A line as [OrderForm] passes it:
    [{ book_id, quantity, is_rental, rental_period, books: { price } }]. *)
Record OrderLine := mkOrderLine {
  l_book_id : Z;
  l_quantity : Z;
  l_is_rental : bool;
  l_rental_period : option Z;
  l_price : Q
}.

(** [{ order, error }]. *)
Record OrderResult := mkOrderResult {
  order : option (Z * OrderRow);
  order_error : option string
}.

Definition DEFAULT_USER : string := "00000000-0000-0000-0000-000000000000".

Definition day_ms : Z := 24 * 60 * 60 * 1000.

(** [new Date(ms).toISOString().split("T")[0]] as a day number. *)
Definition isoDate (ms : Z) : Z := ms / day_ms.

(** The [orderItem] object built for each line; [null * n] is [0]. *)
Definition orderItemOf (orderId now : Z) (item : OrderLine) : OrderItemRow :=
  mkOrderItemRow orderId (l_book_id item) (l_quantity item) (l_price item)
    (l_is_rental item) (l_rental_period item)
    (if l_is_rental item
     then Some (isoDate (now + or_default (l_rental_period item) 0 * day_ms))
     else None).

(** The loop over the lines: each insert's error is only logged. *)
Fixpoint insertLines (orderId now : Z) (items : list OrderLine) : M unit :=
  match items with
  | [] => mret tt
  | item :: rest =>
      _ ← insert (orderItemOf orderId now item);
      insertLines orderId now rest
  end.

Definition orderHeader (userId : string) (si : ShippingInfo) (paymentMethod : string)
    (totalAmount : Q) : OrderRow :=
  mkOrderRow (if bool_decide (userId = ""%string) then DEFAULT_USER else userId)
    "pending" totalAmount (address si) (city si) (state si) (zip si) (country si)
    paymentMethod.

(** [cartId] is [cart?.id || ''] on the page: [None] is the empty id. *)
Definition createOrder (userId : string) (cartId : option Z) (items : list OrderLine)
    (si : ShippingInfo) (paymentMethod : string) (totalAmount : Q) (now : Z) : M OrderResult :=
  created ← insert_select (orderHeader userId si paymentMethod totalAmount);
  match created with
  | RespErr e => mret (mkOrderResult None (Some (message e)))
  | RespOk (oid, o) =>
      _ ← insertLines oid now items;
      _ ← match cartId with
          | Some c => _ ← delete_where CartItemRow (CartService.inCart c); mret tt
          | None => mret tt
          end;
      fetched ← select_single OrderRow (fun i _ => bool_decide (i = oid));
      match fetched with
      | RespErr _ => mret (mkOrderResult (Some (oid, o)) None)
      | RespOk complete => mret (mkOrderResult (Some complete) None)
      end
  end.

(** ** The lines the loop writes *)

(** The lines whose insert is answered, given the scripted outcomes of
    their requests. *)
Fixpoint kept {A} (fl : list (option PgError)) (l : list A) : list A :=
  match fl, l with
  | None :: fl', x :: l' => x :: kept fl' l'
  | Some _ :: fl', _ :: l' => kept fl' l'
  | _, _ => l
  end.

(** Inserting rows one after the other under consecutive fresh ids. *)
Definition insert_all (d : DB) (rows : list OrderItemRow) : DB :=
  fold_left (fun d r => (insert_exec r d).2) rows d.

Fixpoint insert_rows (k : Z) (rows : list OrderItemRow) (m : gmap Z OrderItemRow) :=
  match rows with
  | [] => m
  | r :: rs => insert_rows (k + 1) rs (<[k := r]> m)
  end.

Lemma insert_all_tables (d : DB) (rows : list OrderItemRow) :
  books (insert_all d rows) = books d /\ carts (insert_all d rows) = carts d /\
  cart_items (insert_all d rows) = cart_items d /\ orders (insert_all d rows) = orders d /\
  order_items (insert_all d rows) = insert_rows (next_id d) rows (order_items d) /\
  next_id (insert_all d rows) = next_id d + Z.of_nat (length rows).
Proof.
  unfold insert_all; revert d; induction rows as [|r rows IH]; intros d; simpl.
  - repeat split; lia.
  - destruct (IH (insert_exec r d).2) as (Hb & Hc & Hci & Ho & Hoi & Hn); cbn in *.
    rewrite Hb, Hc, Hci, Ho, Hoi, Hn; repeat split; lia.
Qed.

(** A failed line insert is a line left out. *)
Lemma insertLines_skip (oid now : Z) (items : list OrderLine) (fl rest : list (option PgError))
    (d : DB) :
  length fl = length items ->
  run (insertLines oid now items) (mkWorld d (fl ++ rest)) =
  run (insertLines oid now (kept fl items))
      (mkWorld d (replicate (length (kept fl items)) None ++ rest)).
Proof.
  revert fl d; induction items as [|it items IH]; intros [|f fl] d Hlen; try discriminate;
    simpl; [reflexivity |].
  injection Hlen as Hlen.
  destruct f as [e|]; simpl.
  - step_err; now apply IH.
  - step_ok (@run_insert_ok OrderItemRow _); step_ok (@run_insert_ok OrderItemRow _); now apply IH.
Qed.

(** With every line insert answered, the loop inserts the lines in order. *)
Lemma insertLines_answered (oid now : Z) (items : list OrderLine) (rest : list (option PgError))
    (d : DB) :
  run (insertLines oid now items) (mkWorld d (replicate (length items) None ++ rest)) =
  (tt, mkWorld (insert_all d (map (orderItemOf oid now) items)) rest).
Proof.
  revert d; induction items as [|it items IH]; intros d; simpl; [reflexivity |].
  step_ok (@run_insert_ok OrderItemRow _); apply IH.
Qed.

(** What [createOrder] does once its header insert is answered, whatever
    becomes of the line inserts ([fl]), of the cart clear ([g]) and of the
    read-back ([f]). *)
Lemma createOrder_run (userId : string) (c : Z) (items : list OrderLine) (si : ShippingInfo)
    (pm : string) (total : Q) (now : Z) (w : World) (fl : list (option PgError))
    (g f : option PgError) :
  faults w = None :: fl ++ [g; f] -> length fl = length items ->
  let n := next_id (db w) in
  let d1 := insert_all (insert_exec (orderHeader userId si pm total) (db w)).2
                       (map (orderItemOf n now) (kept fl items)) in
  run (createOrder userId (Some c) items si pm total now) w =
  (mkOrderResult (Some (n, orderHeader userId si pm total)) None,
   mkWorld (match g with
            | None => tbl_set (filter (fun kr => CartService.inCart c kr.1 kr.2 = false)
                                      (cart_items d1)) d1
            | Some _ => d1
            end) []).
Proof.
  intros Hf Hlen n d1.
  unfold createOrder.
  rewrite (run_bind_eq _ _ _ _ _ (@run_insert_select_ok OrderRow _ _ w (f_equal (fun l => (pop l).1) Hf))).
  rewrite Hf; simpl.
  rewrite run_bind, (insertLines_skip _ _ _ _ _ _ Hlen), insertLines_answered.
  fold n; fold d1.
  assert (Hord : orders d1 = <[n := orderHeader userId si pm total]> (orders (db w)))
    by (unfold d1; rewrite (proj1 (proj2 (proj2 (proj2 (insert_all_tables _ _))))); reflexivity).
  assert (Hrows : forall d, orders d = orders d1 ->
    rows_where (fun i (_ : OrderRow) => bool_decide (i = n)) d = [(n, orderHeader userId si pm total)]).
  { intros d Hd; apply rows_where_one.
    - cbn; rewrite Hd, Hord; apply lookup_insert_eq.
    - now apply bool_decide_eq_true.
    - intros j r' _ Hj; now apply bool_decide_eq_true in Hj. }
  rewrite run_bind, run_bind; unfold delete_where at 1.
  destruct g as [e|]; [rewrite (run_request_err _ _ e) by reflexivity | rewrite run_request_ok by reflexivity];
    simpl;
    (destruct f as [e'|]; [step_err; reflexivity |
      rewrite run_bind, (@run_select_single_ok OrderRow Table_orders) by reflexivity]);
    simpl; rewrite Hrows; reflexivity.
Qed.

Lemma cart_after_clear (c : Z) (d : DB) (j : Z) (r : CartItemRow) :
  cart_items (tbl_set (filter (fun kr => CartService.inCart c kr.1 kr.2 = false) (cart_items d)) d)
    !! j = Some r <-> cart_items d !! j = Some r /\ ci_cart_id r <> c.
Proof.
  cbn; rewrite map_lookup_filter_Some; unfold CartService.inCart; simpl.
  rewrite bool_decide_eq_false; reflexivity.
Qed.

Lemma set_cart_items_orders (t : gmap Z CartItemRow) (d : DB) :
  orders (tbl_set t d) = orders d.
Proof. reflexivity. Qed.

Lemma set_cart_items_order_items (t : gmap Z CartItemRow) (d : DB) :
  order_items (tbl_set t d) = order_items d.
Proof. reflexivity. Qed.

Lemma insert_exec_order (o : OrderRow) (d : DB) :
  orders (insert_exec o d).2 = <[next_id d := o]> (orders d) /\
  order_items (insert_exec o d).2 = order_items d /\
  cart_items (insert_exec o d).2 = cart_items d /\ next_id (insert_exec o d).2 = next_id d + 1.
Proof. repeat split. Qed.

(** ** Properties *)

(** (C4) Once the order header is inserted, [createOrder] reports success
    with that header whatever happens to the line inserts and to the
    read-back: the order holds exactly the lines whose insert was answered
    (a failed line is silently left out, no partial-order error is
    reported), under consecutive fresh ids, and the cart's lines are
    deleted. *)
Theorem createOrder_succeeds_despite_line_failures (userId : string) (c : Z)
    (items : list OrderLine) (si : ShippingInfo) (pm : string) (total : Q) (now : Z)
    (w : World) (fl : list (option PgError)) (f : option PgError) :
  faults w = None :: fl ++ [None; f] -> length fl = length items ->
  let n := next_id (db w) in
  let w' := (run (createOrder userId (Some c) items si pm total now) w).2 in
  (run (createOrder userId (Some c) items si pm total now) w).1 =
    mkOrderResult (Some (n, orderHeader userId si pm total)) None /\
  orders (db w') = <[n := orderHeader userId si pm total]> (orders (db w)) /\
  order_items (db w') =
    insert_rows (n + 1) (map (orderItemOf n now) (kept fl items)) (order_items (db w)) /\
  (forall j r, cart_items (db w') !! j = Some r <-> cart_items (db w) !! j = Some r /\ ci_cart_id r <> c).
Proof.
  intros Hf Hlen; cbv zeta.
  rewrite (createOrder_run userId c items si pm total now w fl None f Hf Hlen); cbn [fst snd db].
  destruct (insert_all_tables (insert_exec (orderHeader userId si pm total) (db w)).2
              (map (orderItemOf (next_id (db w)) now) (kept fl items))) as (_ & _ & Hci & Ho & Hoi & _).
  destruct (insert_exec_order (orderHeader userId si pm total) (db w)) as (Ho1 & Hoi1 & Hci1 & Hn1).
  split; [reflexivity |]; split; [| split].
  - rewrite set_cart_items_orders, Ho, Ho1; reflexivity.
  - rewrite set_cart_items_order_items, Hoi, Hoi1, Hn1; reflexivity.
  - intros j r; rewrite cart_after_clear, Hci, Hci1; reflexivity.
Qed.

(** When the header insert fails, [createOrder] returns the store's
    message and no order, and changes nothing: no line is written and the
    cart is kept. *)
Theorem createOrder_header_failure (userId : string) (cartId : option Z)
    (items : list OrderLine) (si : ShippingInfo) (pm : string) (total : Q) (now : Z)
    (w : World) (e : PgError) :
  (pop (faults w)).1 = Some e ->
  run (createOrder userId cartId items si pm total now) w =
  (mkOrderResult None (Some (message e)), mkWorld (db w) (pop (faults w)).2).
Proof.
  intros He; unfold createOrder, insert_select.
  rewrite (run_bind_eq _ _ _ _ _ (run_request_err _ w e He)); reflexivity.
Qed.

Lemma kept_all_answered {A} (l : list A) : kept (replicate (length l) None) l = l.
Proof. induction l as [|x l IH]; simpl; [reflexivity | now rewrite IH]. Qed.

(** An empty user id is not refused: with every request answered the
    order is placed, with all its lines, for the demo user
    [00000000-0000-0000-0000-000000000000]. *)
Theorem createOrder_empty_user (c : Z) (items : list OrderLine) (si : ShippingInfo)
    (pm : string) (total : Q) (now : Z) (w : World) :
  faults w = None :: replicate (length items) None ++ [None; None] ->
  let n := next_id (db w) in
  let w' := (run (createOrder "" (Some c) items si pm total now) w).2 in
  exists o, (run (createOrder "" (Some c) items si pm total now) w).1 =
              mkOrderResult (Some (n, o)) None /\
            orders (db w') !! n = Some o /\ o_user_id o = DEFAULT_USER /\
            order_items (db w') = insert_rows (n + 1) (map (orderItemOf n now) items) (order_items (db w)).
Proof.
  intros Hf; cbv zeta.
  rewrite (createOrder_run "" c items si pm total now w _ None None Hf (length_replicate _ _)); cbn [fst snd db].
  rewrite kept_all_answered.
  destruct (insert_all_tables (insert_exec (orderHeader "" si pm total) (db w)).2
              (map (orderItemOf (next_id (db w)) now) items)) as (_ & _ & _ & Ho & Hoi & _).
  destruct (insert_exec_order (orderHeader "" si pm total) (db w)) as (Ho1 & Hoi1 & _ & Hn1).
  exists (orderHeader "" si pm total); split; [reflexivity |]; split; [| split].
  - rewrite set_cart_items_orders, Ho, Ho1; apply lookup_insert_eq.
  - reflexivity.
  - rewrite set_cart_items_order_items, Hoi, Hoi1, Hn1; reflexivity.
Qed.

(** A rental line's end date is the order day plus its rental period
    in days. *)
Theorem rental_end_date_days (oid now : Z) (item : OrderLine) (p : Z) :
  l_is_rental item = true -> l_rental_period item = Some p ->
  oi_rental_end_date (orderItemOf oid now item) = Some (isoDate now + p).
Proof.
  intros Hr Hp; unfold orderItemOf; simpl; rewrite Hr, Hp; simpl.
  unfold isoDate; f_equal; rewrite Z.div_add by (unfold day_ms; lia); reflexivity.
Qed.

(** ** Concrete runs *)

Definition si0 : ShippingInfo := mkShippingInfo "12 MG Road" "Pune" "MH" "411001" "India".
Definition line_buy : OrderLine := mkOrderLine 10 2 false None (200 # 1).
Definition line_rent : OrderLine := mkOrderLine 11 1 true (Some 90) (300 # 1).
Definition now0 : Z := 1700000000000.

(** The header and the read-back are answered, the first line and the
    read-back fail. *)
Definition w_partial : World :=
  mkWorld CartService.db0 [None; Some net_error; None; None; Some net_error].

Lemma createOrder_succeeds_despite_line_failures_witness :
  let w := w_partial in
  let items := [line_buy; line_rent] in
  let fl := [Some net_error; None] in
  let n := next_id (db w) in
  let w' := (run (createOrder "u1" (Some 1) items si0 "Cash on Delivery" (683 # 1) now0) w).2 in
  (run (createOrder "u1" (Some 1) items si0 "Cash on Delivery" (683 # 1) now0) w).1 =
    mkOrderResult (Some (n, orderHeader "u1" si0 "Cash on Delivery" (683 # 1))) None /\
  orders (db w') = <[n := orderHeader "u1" si0 "Cash on Delivery" (683 # 1)]> (orders (db w)) /\
  order_items (db w') =
    insert_rows (n + 1) (map (orderItemOf n now0) (kept fl items)) (order_items (db w)) /\
  (forall j r, cart_items (db w') !! j = Some r <-> cart_items (db w) !! j = Some r /\ ci_cart_id r <> 1).
Proof.
  apply (createOrder_succeeds_despite_line_failures "u1" 1 [line_buy; line_rent] si0
           "Cash on Delivery" (683 # 1) now0 w_partial [Some net_error; None]
           (Some net_error)); reflexivity.
Defined.

Lemma createOrder_header_failure_witness :
  run (createOrder "u1" (Some 1) [line_buy] si0 "Cash on Delivery" (707 # 1) now0)
      (mkWorld CartService.db0 [Some net_error]) =
  (mkOrderResult None (Some "connection failure"), mkWorld CartService.db0 []).
Proof.
  apply (createOrder_header_failure "u1" (Some 1) [line_buy] si0 "Cash on Delivery" (707 # 1) now0
           (mkWorld CartService.db0 [Some net_error]) net_error).
  reflexivity.
Defined.

Lemma createOrder_empty_user_witness :
  let w := mkWorld CartService.db0 [None; None; None; None] in
  let n := next_id (db w) in
  let w' := (run (createOrder "" (Some 1) [line_rent] si0 "Cash on Delivery" (683 # 1) now0) w).2 in
  exists o, (run (createOrder "" (Some 1) [line_rent] si0 "Cash on Delivery" (683 # 1) now0) w).1 =
              mkOrderResult (Some (n, o)) None /\
            orders (db w') !! n = Some o /\ o_user_id o = DEFAULT_USER /\
            order_items (db w') =
              insert_rows (n + 1) (map (orderItemOf n now0) [line_rent]) (order_items (db w)).
Proof.
  apply (createOrder_empty_user 1 [line_rent] si0 "Cash on Delivery" (683 # 1) now0
           (mkWorld CartService.db0 [None; None; None; None])); reflexivity.
Defined.

Lemma rental_end_date_days_witness :
  oi_rental_end_date (orderItemOf 3 now0 line_rent) = Some (isoDate now0 + 90).
Proof. apply (rental_end_date_days 3 now0 line_rent 90); reflexivity. Defined.

End OrderService.
