(* ===== verification/CartPage.v ===== *)
(** * CartPage: the cart view, its handlers and the checkout form

    [Module CartPage] models the state of [src/pages/CartPage.tsx]
    ([cartItems], [cart], [isLoading], [isCheckingOut]) and its handlers:
    [fetchCart] (the mount effect, with the row-to-view [transformedItems]),
    [handleQuantityChange], [handleRentalPeriodChange], [handleRemoveItem],
    [handleProceedToCheckout] and [handleOrderSuccess].  [Module OrderForm]
    models [onSubmit] of [src/components/OrderForm.tsx], which the page
    renders with its [calculateTotal] and its items.  A handler is a
    computation of the store monad returning the next page state.

    React batches state updates; a handler here returns the state after all
    its [set...] calls.  Toasts, navigation and scrolling are not state of
    the page; a redirect to [/login] is a result of the handler. *)

From S2P Require Import Prelude Book Pricing Store CartService OrderService.

Open Scope Z_scope.

Import Pricing.

Module CartPage.

Record PageState := mkPageState {
  cartItems : list CartItem;
  cartId : option Z;
  isLoading : bool;
  isCheckingOut : bool;
  (** A view item whose joined book is [null] makes the first render throw
      ([item.book.price]); the page is then broken. *)
  renderError : bool
}.

Definition initialState : PageState := mkPageState [] None true false false.

(** [item.rental_period ? Math.ceil(item.rental_period / 30) : 3]: a stored
    number of days to a number of months, [null] and [0] giving 3. *)
Definition monthsOfDays (rental_period : option Z) : Z :=
  match rental_period with
  | Some d => if bool_decide (d = 0) then 3 else js_ceil (₹d / ₹30)
  | None => 3
  end.

(** One element of [transformedItems]. *)
Definition transformItem (row : Z * CartItemRow * option DbBook) : option CartItem :=
  let '(i, r, b) := row in
  match b with
  | Some book => Some (mkCartItem i (if ci_is_rental r then Rent else Buy) book
                                  (ci_quantity r) (monthsOfDays (ci_rental_period r)))
  | None => None
  end.

Fixpoint transformItems (rows : list (Z * CartItemRow * option DbBook)) : option (list CartItem) :=
  match rows with
  | [] => Some []
  | row :: rest =>
      match transformItem row, transformItems rest with
      | Some it, Some its => Some (it :: its)
      | _, _ => None
      end
  end.

Definition set_items (st : PageState) (items : list CartItem) : PageState :=
  mkPageState items (cartId st) (isLoading st) (isCheckingOut st) (renderError st).

Definition done_loading (st : PageState) : PageState :=
  mkPageState (cartItems st) (cartId st) false (isCheckingOut st) (renderError st).

(** [fetchCart], run on mount with the logged-in user's id (if any). *)
Definition fetchCart (user : option string) (st : PageState) : M PageState :=
  match user with
  | None => mret (done_loading st)
  | Some uid =>
      cr ← CartService.getOrCreateCart uid;
      match CartService.cart cr, CartService.cart_error cr with
      | Some (cid, _), None =>
          let st := mkPageState (cartItems st) (Some cid) true (isCheckingOut st) (renderError st) in
          ir ← CartService.getCartItems cid;
          match CartService.items_error ir with
          | Some _ => mret (done_loading st)
          | None =>
              match transformItems (CartService.items ir) with
              | Some items => mret (done_loading (set_items st items))
              | None => mret (done_loading (mkPageState (cartItems st) (cartId st) true
                                              (isCheckingOut st) true))
              end
          end
      | _, _ => mret (done_loading st)
      end
  end.

Definition set_quantity (id q : Z) (item : CartItem) : CartItem :=
  if bool_decide (item_id item = id)
  then mkCartItem (item_id item) (type item) (book item) q (rentalPeriod item)
  else item.

Definition set_period (id p : Z) (item : CartItem) : CartItem :=
  if bool_decide (item_id item = id)
  then mkCartItem (item_id item) (type item) (book item) (quantity item) p
  else item.

(** [cartItems.find(item => item.id === id)]. *)
Definition findItem (id : Z) (items : list CartItem) : option CartItem :=
  List.find (fun item => bool_decide (item_id item = id)) items.

(** [Math.max(1, Math.min(10, item.quantity + change))]. *)
Definition clampQuantity (q : Z) : Z := js_max 1 (js_min 10 q).

Definition handleQuantityChange (id change : Z) (st : PageState) : M PageState :=
  match findItem id (cartItems st) with
  | None => mret st
  | Some item =>
      let newQuantity := clampQuantity (quantity item + change) in
      r ← CartService.updateCartItemQuantity id newQuantity;
      if CartService.success r
      then mret (set_items st (map (set_quantity id newQuantity) (cartItems st)))
      else mret st
  end.

(** Only the page state changes: no request is made. *)
Definition handleRentalPeriodChange (id period : Z) (st : PageState) : M PageState :=
  mret (set_items st (map (set_period id period) (cartItems st))).

Definition handleRemoveItem (id : Z) (st : PageState) : M PageState :=
  r ← CartService.removeFromCart id;
  if CartService.success r
  then mret (set_items st (List.filter (fun item => negb (bool_decide (item_id item = id)))
                                       (cartItems st)))
  else mret st.

(** [None]: the user is sent to [/login] and the state is unchanged. *)
Definition handleProceedToCheckout (user : option string) (st : PageState) : option PageState :=
  match user with
  | None => None
  | Some _ => Some (mkPageState (cartItems st) (cartId st) (isLoading st) true (renderError st))
  end.

Definition handleOrderSuccess (st : PageState) : PageState :=
  mkPageState [] (cartId st) (isLoading st) false (renderError st).

(** The [Back to Cart] button: [setIsCheckingOut(false)]. *)
Definition backToCart (st : PageState) : PageState :=
  mkPageState (cartItems st) (cartId st) (isLoading st) false (renderError st).

End CartPage.

Module OrderForm.

(** What [onSubmit] ends with. *)
Inductive SubmitOutcome :=
  | RedirectToLogin
  | OrderPlaced (o : Z * OrderRow)
  | OrderFailed (msg : string).

(** The validated form fields [onSubmit] reads. *)
Record FormValues := mkFormValues {
  fullName : string; email : string; phone : string;
  f_address : string; f_city : string; pincode : string; f_state : string
}.

(** [items = cartItems.map(...)]: months to days, the list price. *)
Definition toOrderLine (item : CartItem) : OrderService.OrderLine :=
  OrderService.mkOrderLine (db_id (book item)) (quantity item)
    (bool_decide (type item = Rent))
    (if bool_decide (type item = Rent) then Some (rentalPeriod item * 30) else None)
    (db_price (book item)).

Definition shippingInfoOf (data : FormValues) : OrderService.ShippingInfo :=
  OrderService.mkShippingInfo (f_address data) (f_city data) (f_state data) (pincode data) "India".

(** [onSubmit], with the page's props: its items, [cart?.id || ''] and
    [calculateTotal()]. *)
Definition onSubmit (user : option string) (cartItems : list CartItem) (cartId : option Z)
    (total : Q) (now : Z) (data : FormValues) : M SubmitOutcome :=
  match user with
  | None => mret RedirectToLogin
  | Some uid =>
      r ← OrderService.createOrder uid cartId (map toOrderLine cartItems) (shippingInfoOf data)
             "Cash on Delivery" total now;
      match OrderService.order_error r, OrderService.order r with
      | Some msg, _ => mret (OrderFailed msg)
      | None, None => mret (OrderFailed "No order was returned from the server")
      | None, Some o => mret (OrderPlaced o)
      end
  end.

(** The checkout as the page wires it: the form gets [calculateTotal()] and
    a placed order empties the page's cart. *)
Definition checkout (user : option string) (st : CartPage.PageState) (now : Z)
    (data : FormValues) : M (SubmitOutcome * CartPage.PageState) :=
  out ← onSubmit user (CartPage.cartItems st) (CartPage.cartId st)
           (calculateTotal (CartPage.cartItems st)) now data;
  match out with
  | OrderPlaced _ => mret (out, CartPage.handleOrderSuccess st)
  | _ => mret (out, st)
  end.

End OrderForm.

(** ** The page's view of the cart and the stored cart *)

Section Consistency.
Import CartPage.

(** A view item shows the stored line under its id: same cart, quantity,
    kind and rental term (as the page reads it back). *)
Definition item_matches (c : Z) (d : DB) (it : CartItem) : Prop :=
  exists r, cart_items d !! item_id it = Some r /\ ci_cart_id r = c /\
    ci_quantity r = quantity it /\ ci_is_rental r = bool_decide (type it = Rent) /\
    monthsOfDays (ci_rental_period r) = rentalPeriod it.

(** The page shows the stored cart [c]. *)
Definition view_matches (c : Z) (d : DB) (items : list CartItem) : Prop :=
  Forall (item_matches c d) items.

Lemma transformItems_matches (c : Z) (d : DB) (rows : list (Z * CartItemRow * option DbBook))
    (items : list CartItem) :
  Forall (fun row => cart_items d !! row.1.1 = Some row.1.2 /\ ci_cart_id row.1.2 = c) rows ->
  transformItems rows = Some items -> view_matches c d items.
Proof.
  revert items; induction rows as [|[[i r] [b|]] rows IH]; simpl; intros items Hrows Ht.
  - injection Ht as <-; constructor.
  - inversion Hrows as [|? ? [Hl Hc] Hrest]; subst.
    destruct (transformItems rows) as [its|]; [| discriminate]; injection Ht as <-.
    constructor; [| now apply IH].
    exists r; simpl; repeat split; auto.
    destruct (ci_is_rental r); [now rewrite bool_decide_eq_true_2 | now rewrite bool_decide_eq_false_2].
  - discriminate.
Qed.

(** The same check, executable. *)
Definition item_matchesb (c : Z) (d : DB) (it : CartItem) : bool :=
  match cart_items d !! item_id it with
  | Some r => bool_decide (ci_cart_id r = c /\ ci_quantity r = quantity it /\
                ci_is_rental r = bool_decide (type it = Rent) /\
                monthsOfDays (ci_rental_period r) = rentalPeriod it)
  | None => false
  end.

Lemma view_matchesb_sound (c : Z) (d : DB) (items : list CartItem) :
  forallb (item_matchesb c d) items = true -> view_matches c d items.
Proof.
  intros Hb; apply List.Forall_forall; intros it Hin.
  pose proof (proj1 (forallb_forall _ _) Hb it Hin) as Hit; unfold item_matchesb in Hit.
  destruct (cart_items d !! item_id it) as [r|] eqn:Hl; [| discriminate].
  apply bool_decide_eq_true in Hit; exists r; auto.
Qed.

Lemma item_matches_update (c i q : Z) (d d' : DB) (r : CartItemRow) (it : CartItem) :
  cart_items d !! i = Some r ->
  cart_items d' = <[i := CartService.with_quantity q r]> (cart_items d) ->
  item_matches c d it -> item_matches c d' (set_quantity i q it).
Proof.
  intros Hl E [r0 (H0 & Hc & Hq & Hk & Hp)]; unfold item_matches, set_quantity; rewrite E.
  destruct (decide (item_id it = i)) as [Hid|Hid].
  - rewrite bool_decide_eq_true_2 by exact Hid; simpl; rewrite Hid in H0 |- *.
    rewrite H0 in Hl; injection Hl as <-.
    exists (CartService.with_quantity q r0); rewrite lookup_insert_eq; auto.
  - rewrite bool_decide_eq_false_2 by exact Hid.
    exists r0; rewrite lookup_insert_ne by congruence; auto.
Qed.

Lemma item_matches_delete (c i : Z) (d d' : DB) (it : CartItem) :
  cart_items d' = delete i (cart_items d) -> item_id it <> i ->
  item_matches c d it -> item_matches c d' it.
Proof.
  intros E Hne [r0 H]; exists r0; rewrite E, lookup_delete_ne by congruence; exact H.
Qed.

Lemma findItem_Some (id : Z) (items : list CartItem) (item : CartItem) :
  findItem id items = Some item -> In item items /\ item_id item = id.
Proof.
  unfold findItem; intros Hf; split; [now apply find_some in Hf |].
  apply find_some in Hf as [_ Hb]; now apply bool_decide_eq_true in Hb.
Qed.

Lemma clampQuantity_bounds (q : Z) : 1 <= clampQuantity q <= 10.
Proof. unfold clampQuantity, js_max, js_min; lia. Qed.

(** (C28) Loading the page, whatever the store answers: loading ends, and
    when the page holds a cart id, every item it shows is a stored line of
    that cart with its stored quantity, kind and rental term. *)
Theorem fetchCart_view_matches (u : string) (w : World) :
  let '(st', w') := run (fetchCart (Some u) initialState) w in
  isLoading st' = false /\
  forall c, cartId st' = Some c -> view_matches c (db w') (cartItems st').
Proof.
  unfold fetchCart; rewrite run_bind.
  destruct (run (CartService.getOrCreateCart u) w) as [cr w1].
  destruct (CartService.cart cr) as [[cid cr0]|], (CartService.cart_error cr);
    try (split; [reflexivity | discriminate]).
  rewrite run_bind; pose proof (CartService.getCartItems_rows cid w1) as G.
  destruct (run (CartService.getCartItems cid) w1) as [ir w2]; destruct G as [Hdb Hrows].
  destruct (CartService.items_error ir); [split; [reflexivity | constructor] |].
  destruct (transformItems (CartService.items ir)) as [items|] eqn:Ht;
    split; try reflexivity; intros c Hc; [| constructor].
  injection Hc as <-; rewrite Hdb; now apply transformItems_matches with (CartService.items ir).
Qed.

(** (C9) Changing a quantity keeps the page and the store in step: if the
    page showed the stored cart before, it does after; either nothing
    changed (the item is not on the page or the update failed), or the
    stored line now holds the clamped quantity, between 1 and 10. *)
Theorem handleQuantityChange_consistent (id change c : Z) (st : PageState) (w : World) :
  view_matches c (db w) (cartItems st) ->
  let '(st', w') := run (handleQuantityChange id change st) w in
  view_matches c (db w') (cartItems st') /\
  ((st' = st /\ db w' = db w) \/
   exists item r, findItem id (cartItems st) = Some item /\ cart_items (db w') !! id = Some r /\
     ci_quantity r = clampQuantity (quantity item + change) /\ 1 <= ci_quantity r <= 10).
Proof.
  intros Hv; unfold handleQuantityChange.
  destruct (findItem id (cartItems st)) as [item|] eqn:Hf; [| split; [exact Hv | left; auto]].
  rewrite run_bind.
  pose proof (CartService.updateCartItemQuantity_cases id (clampQuantity (quantity item + change)) w) as U.
  destruct (run (CartService.updateCartItemQuantity id _) w) as [res w1].
  destruct U as [[Hs Hdb] | [Hs [r [Hl Hdb]]]]; rewrite Hs; simpl.
  - rewrite Hdb; split; [exact Hv | left; auto].
  - split.
    + apply List.Forall_map; eapply Forall_impl; [exact Hv |].
      intros it; now apply (item_matches_update c id _ (db w) (db w1) r).
    + right; exists item, (CartService.with_quantity (clampQuantity (quantity item + change)) r).
      rewrite Hdb, lookup_insert_eq; repeat split; auto; apply clampQuantity_bounds.
Qed.

(** Removing an item keeps the page and the store in step: if the page
    showed the stored cart before, it does after, and either the line is
    gone from the store or nothing changed. *)
Theorem handleRemoveItem_consistent (id c : Z) (st : PageState) (w : World) :
  view_matches c (db w) (cartItems st) ->
  let '(st', w') := run (handleRemoveItem id st) w in
  view_matches c (db w') (cartItems st') /\
  (cart_items (db w') !! id = None \/ (st' = st /\ db w' = db w)).
Proof.
  intros Hv; unfold handleRemoveItem; rewrite run_bind.
  pose proof (CartService.removeFromCart_cases id w) as U.
  destruct (run (CartService.removeFromCart id) w) as [res w1].
  destruct U as [[Hs Hdb] | [Hs [Hdb _]]]; rewrite Hs; simpl.
  - rewrite Hdb; split; [exact Hv | right; auto].
  - split; [| left; now rewrite Hdb, lookup_delete_eq].
    apply List.Forall_forall; intros it Hin; apply filter_In in Hin as [Hin Hid].
    apply (item_matches_delete c id (db w)); [exact Hdb | |].
    + intros E; rewrite E, bool_decide_eq_true_2 in Hid; [discriminate | reflexivity].
    + exact (proj1 (List.Forall_forall _ _) Hv it Hin).
Qed.

(** (C33) Changing the rental term of an item is not saved: no request is
    made, so the store keeps the old term, and the page no longer shows the
    stored cart (a reload brings the old term back, and checkout orders the
    new one). *)
Theorem handleRentalPeriodChange_not_persisted (id p c : Z) (st : PageState) (w : World)
    (it : CartItem) :
  view_matches c (db w) (cartItems st) -> In it (cartItems st) -> item_id it = id ->
  p <> rentalPeriod it ->
  let '(st', w') := run (handleRentalPeriodChange id p st) w in
  w' = w /\ In (set_period id p it) (cartItems st') /\ ~ view_matches c (db w') (cartItems st').
Proof.
  intros Hv Hin Hid Hp; simpl.
  assert (Hnew : In (set_period id p it) (map (set_period id p) (cartItems st))) by now apply in_map.
  split; [reflexivity | split; [exact Hnew |]]; intros Hv'.
  destruct (proj1 (List.Forall_forall _ _) Hv' _ Hnew) as [r (Hl & _ & _ & _ & Hr)].
  destruct (proj1 (List.Forall_forall _ _) Hv _ Hin) as [r0 (Hl0 & _ & _ & _ & Hr0)].
  unfold set_period in Hl, Hr; rewrite bool_decide_eq_true_2 in Hl, Hr by exact Hid; simpl in Hl, Hr.
  rewrite Hl0 in Hl; injection Hl as <-; congruence.
Qed.

End Consistency.

(** ** Properties of the checkout path *)

Section Checkout.
Import CartPage OrderForm.

(** The order form stores a rental term of [m] months as [m * 30]
    days and the cart page reads a stored number of days back as
    [ceil(days / 30)] months: for every nonzero term the round trip gives
    the term back. *)
Theorem rental_period_roundtrip (item : CartItem) :
  type item = Rent -> rentalPeriod item <> 0 ->
  monthsOfDays (OrderService.l_rental_period (toOrderLine item)) = rentalPeriod item.
Proof.
  intros Hr H0; unfold toOrderLine, monthsOfDays; simpl.
  rewrite bool_decide_eq_true_2 by exact Hr.
  rewrite bool_decide_eq_false_2 by lia.
  apply js_ceil_mul_div; lia.
Qed.

Lemma rate_le_two_fifths (p : Z) : (rentalRate p <= 4 # 10)%Q.
Proof.
  unfold rentalRate.
  destruct (p =? 6)%Z; [discriminate |]; destruct (p =? 3)%Z; discriminate.
Qed.

(** A rental line is written to [order_items] with the book's list
    price, not the rental amount the cart charged: for a positive price
    and quantity the recorded price times the quantity exceeds the line's
    charged amount (so the order's lines do not add up to its total). *)
Theorem order_line_price_exceeds_rental_charge (n now : Z) (item : CartItem) :
  type item = Rent -> (0 < db_price (book item))%Q -> 0 < quantity item ->
  (spec_line item < oi_price (OrderService.orderItemOf n now (toOrderLine item)) * ₹(quantity item))%Q.
Proof.
  intros Hr Hp Hq; unfold spec_line; rewrite Hr; simpl.
  rewrite <- rentalRate_spec.
  assert (Hq' : (0 < ₹(quantity item))%Q) by (change 0%Q with (₹0); rewrite <- Zlt_Qlt; lia).
  pose proof (rate_le_two_fifths (rentalPeriod item)) as Hrate.
  set (X := (db_price (book item) * ₹(quantity item))%Q).
  assert (HX : (0 < X)%Q) by (apply Qmult_lt_0_compat; assumption).
  assert (E : (db_price (book item) * rentalRate (rentalPeriod item) * ₹(quantity item)
               == rentalRate (rentalPeriod item) * X)%Q) by (unfold X; ring).
  rewrite E; fold X.
  apply Qle_lt_trans with ((4 # 10) * X)%Q; [| lra].
  apply Qmult_le_compat_r; lra.
Qed.

(** Checkout needs a logged-in user: without one, [Proceed to
    Checkout] only redirects, and submitting the form redirects to the
    login page without any request to the store and without changing the
    page. *)
Theorem checkout_requires_login (st : PageState) (now : Z) (data : FormValues) (w : World) :
  handleProceedToCheckout None st = None /\
  run (checkout None st now data) w = ((RedirectToLogin, st), w).
Proof. split; reflexivity. Qed.

Lemma total_spec (items : list CartItem) : (calculateTotal items == spec_total items)%Q.
Proof.
  unfold calculateTotal, spec_total.
  now rewrite calculateTax_spec, calculateShipping_spec, calculateSecurityDeposit_spec,
    calculateSubtotal_spec.
Qed.

(** (C2) With every request answered, checking out a cart stores a pending
    order whose [total_amount] is the total of the specification for the
    page's items (the page's [calculateTotal], passed through the form),
    and the page's cart is emptied. *)
Theorem checkout_stores_page_total (u : string) (st : PageState) (c now : Z) (data : FormValues)
    (w : World) :
  cartId st = Some c ->
  faults w = None :: replicate (length (cartItems st)) None ++ [None; None] ->
  exists o,
    (run (checkout (Some u) st now data) w).1 = (OrderPlaced (next_id (db w), o), handleOrderSuccess st) /\
    orders (db (run (checkout (Some u) st now data) w).2) !! next_id (db w) = Some o /\
    (o_total_amount o == spec_total (cartItems st))%Q /\ o_status o = "pending"%string.
Proof.
  intros Hc Hf.
  assert (Hlen : length (replicate (length (cartItems st)) (None : option PgError)) =
                 length (map toOrderLine (cartItems st)))
    by now rewrite length_replicate, length_map.
  assert (Hf' : faults w = None :: replicate (length (cartItems st)) None ++ [None; None]) by exact Hf.
  unfold checkout, onSubmit; rewrite Hc, run_bind, run_bind.
  rewrite (OrderService.createOrder_run u c (map toOrderLine (cartItems st)) (shippingInfoOf data)
             "Cash on Delivery" (calculateTotal (cartItems st)) now w _ None None Hf' Hlen).
  cbv beta iota; cbn [fst snd].
  set (o := OrderService.orderHeader u (shippingInfoOf data) "Cash on Delivery" (calculateTotal (cartItems st))).
  exists o; split; [reflexivity |]; split; [| split].
  - cbn -[tbl_set OrderService.insert_all insert_exec OrderService.orderHeader calculateTotal].
    rewrite OrderService.set_cart_items_orders.
    rewrite (proj1 (proj2 (proj2 (proj2 (OrderService.insert_all_tables _ _))))).
    apply lookup_insert_eq.
  - apply total_spec.
  - reflexivity.
Qed.

End Checkout.

(** ** Concrete runs of the page *)

Section Runs.
Import CartPage OrderForm.

(** User "u1" has cart 1 holding book 10 (price 500) rented for 90 days,
    two copies (line 2); the page shows it as a three-month rental. *)
Definition book10 : DbBook := sample_db_book 10 (inject_Z 500).
Definition rent_line : CartItemRow := mkCartItemRow 1 10 2 true (Some 90).
Definition db_page : DB :=
  mkDB {[10%Z := book10]} {[1%Z := mkCartRow "u1"]} {[2%Z := rent_line]} ∅ ∅ ∅ ∅ ∅ ∅ ∅ 3.
Definition item_rent : CartItem := mkCartItem 2 Rent book10 2 3.
Definition st_page : PageState := mkPageState [item_rent] (Some 1) false false false.
Definition w_page : World := mkWorld db_page [].
Definition form0 : FormValues := mkFormValues "A" "a@b.c" "9999999999" "1 Road" "Pune" "411001" "MH".

Lemma rental_period_roundtrip_witness :
  monthsOfDays (OrderService.l_rental_period (toOrderLine item_rent)) = rentalPeriod item_rent.
Proof. apply rental_period_roundtrip; [reflexivity | discriminate]. Defined.

Lemma order_line_price_exceeds_rental_charge_witness :
  (spec_line item_rent <
   oi_price (OrderService.orderItemOf 100 0 (toOrderLine item_rent)) * ₹(quantity item_rent))%Q.
Proof. apply order_line_price_exceeds_rental_charge; [reflexivity | vm_compute; reflexivity | vm_compute; reflexivity]. Defined.

Lemma checkout_stores_page_total_witness :
  exists o,
    (run (checkout (Some "u1") st_page 0 form0) (mkWorld db_page [None; None; None; None])).1 =
      (OrderPlaced (3, o), handleOrderSuccess st_page) /\
    orders (db (run (checkout (Some "u1") st_page 0 form0) (mkWorld db_page [None; None; None; None])).2)
      !! 3 = Some o /\
    (o_total_amount o == spec_total (cartItems st_page))%Q /\ o_status o = "pending"%string.
Proof.
  apply (checkout_stores_page_total "u1" st_page 1 0 form0 (mkWorld db_page [None; None; None; None]));
    reflexivity.
Defined.

Lemma handleQuantityChange_consistent_witness :
  let '(st', w') := run (handleQuantityChange 2 9 st_page) w_page in
  view_matches 1 (db w') (cartItems st') /\
  ((st' = st_page /\ db w' = db w_page) \/
   exists item r, findItem 2 (cartItems st_page) = Some item /\ cart_items (db w') !! 2 = Some r /\
     ci_quantity r = clampQuantity (quantity item + 9) /\ 1 <= ci_quantity r <= 10).
Proof.
  apply (handleQuantityChange_consistent 2 9 1 st_page w_page).
  apply view_matchesb_sound; vm_compute; reflexivity.
Defined.

Lemma handleRemoveItem_consistent_witness :
  let '(st', w') := run (handleRemoveItem 2 st_page) w_page in
  view_matches 1 (db w') (cartItems st') /\
  (cart_items (db w') !! 2 = None \/ (st' = st_page /\ db w' = db w_page)).
Proof.
  apply (handleRemoveItem_consistent 2 1 st_page w_page).
  apply view_matchesb_sound; vm_compute; reflexivity.
Defined.

Lemma handleRentalPeriodChange_not_persisted_witness :
  let '(st', w') := run (handleRentalPeriodChange 2 6 st_page) w_page in
  w' = w_page /\ In (set_period 2 6 item_rent) (cartItems st') /\
  ~ view_matches 1 (db w') (cartItems st').
Proof.
  apply (handleRentalPeriodChange_not_persisted 2 6 1 st_page w_page item_rent);
    [apply view_matchesb_sound; vm_compute; reflexivity | left; reflexivity | reflexivity | discriminate].
Defined.

End Runs.
