(* ===== verification/BooksService.v ===== *)
(** * BooksService: the book queries of [src/services/booksService.ts]

    [getAllBooks] (search, category, ordering and range pagination with an
    exact count), [getBookById], [getCategories], [getFeaturedBooks],
    [getTestimonials] and [deleteBook].  Rows are converted with
    [mapDatabaseBookToModel]. *)

From S2P Require Import Prelude Book Store Filters.
From Stdlib Require Import Ascii String.
From stdpp Require Import sorting.

Open Scope Z_scope.

Module BooksService.

(** [{ book, error }]. *)
Record BookResult := mkBookResult {
  found : option Book;
  book_error : option string
}.

(** [.eq("id", id)]. *)
Definition hasBookId (id : Z) (i : Z) (_ : DbBook) : bool := bool_decide (i = id).

(** The [!data] branch cannot be taken: a [.single()] without error has a
    row. *)
Definition getBookById (id : Z) : M BookResult :=
  r ← select_single DbBook (hasBookId id);
  match r with
  | RespErr e => mret (mkBookResult None (Some (message e)))
  | RespOk (_, b) => mret (mkBookResult (Some (mapDatabaseBookToModel b)) None)
  end.

(** ** getAllBooks *)

(** The options object with its defaults. *)
Record ListQuery := mkListQuery {
  page : Z;
  limit : Z;
  search : string;
  category : string;
  sortBy : string;
  sortOrder : string
}.

Definition defaultQuery : ListQuery := mkListQuery 1 10 "" "" "title" "asc".

#[global] Instance ListQuery_eq_dec : EqDecision ListQuery.
Proof. solve_decision. Defined.

(** [{ books, count, totalPages, currentPage, error }]; the error returns
    have no [totalPages] and [currentPage] ([undefined]). *)
Record BooksResult := mkBooksResult {
  br_books : list Book;
  br_count : Z;
  br_totalPages : option Z;
  br_currentPage : option Z;
  br_error : option string
}.

Definition books_failed (msg : string) : BooksResult := mkBooksResult [] 0 None None (Some msg).

(** The [or] filter the code builds from the search text. *)
Definition or_filter (search : string) : string :=
  "title.ilike.%" ++ search ++ "%, author.ilike.%" ++ search ++ "%".

(** A condition the backend evaluates: [ilike] on [title] or [author]; any
    other column or operator is refused. *)
Definition cond_valid (c : string * string * string) : bool :=
  let '(col, op, _) := c in
  bool_decide (op = "ilike") && (bool_decide (col = "title") || bool_decide (col = "author")).

Definition cond_holds (c : string * string * string) (b : DbBook) : bool :=
  let '(col, _, v) := c in
  if bool_decide (col = "title") then ilike v (db_title b) else ilike v (db_author b).

(** The search filter: every row when the search is empty; [None] when the
    backend cannot evaluate the [or] tree. *)
Definition search_filter (search : string) : option (DbBook -> bool) :=
  if bool_decide (search = "") then Some (fun _ => true)
  else match parse_or (or_filter search) with
       | Some conds =>
           if forallb cond_valid conds then Some (fun b => existsb (fun c => cond_holds c b) conds)
           else None
       | None => None
       end.

(** [supabase.rpc('get_all_categories')]: [{ id, name, book_count }]. *)
Definition rpc_get_all_categories : M (Resp (list (Z * string * Z))) :=
  request (fun d =>
    (RespOk (map (fun ic => (ic.1, cat_name ic.2, default 0 (cat_book_count ic.2)))
                 (map_to_list (categories d))), d)).

(** [category && category !== "all-categories" && category !== "all"]. *)
Definition filters_category (category : string) : bool :=
  negb (bool_decide (category = "")) && negb (bool_decide (category = "all-categories"))
  && negb (bool_decide (category = "all")).

(** The category id the query is filtered on: the RPC's error, or the id of
    the category of that name ([None]: no such category, no filter). *)
Definition categoryFilter (category : string) : M (Resp (option Z)) :=
  if filters_category category then
    r ← rpc_get_all_categories;
    match r with
    | RespErr e => mret (RespErr e)
    | RespOk cats =>
        mret (RespOk (option_map (fun c => c.1.1)
                        (List.find (fun c => bool_decide (c.1.2 = category)) cats)))
    end
  else mret (RespOk None).

(** The column [.order(sortBy)] sorts on. *)
Definition book_column (col : string) (b : DbBook) : SortVal :=
  if bool_decide (col = "title") then SStr (db_title b)
  else if bool_decide (col = "author") then SStr (db_author b)
  else if bool_decide (col = "price") then SNum (db_price b)
  else if bool_decide (col = "rating") then match db_rating b with Some r => SNum r | None => SNull end
  else SNull.

Definition in_category (cid : option Z) (b : DbBook) : bool :=
  match cid with Some c => bool_decide (db_category_id b = Some c) | None => true end.

(** The main query, sent at [await query]. *)
Definition books_query (search : string) (cid : option Z) (sortBy sortOrder : string)
    (from to_ : Z) : M (Resp (list (Z * DbBook) * Z)) :=
  match search_filter search with
  | None => request (fun d => (RespErr logic_tree_error, d))
  | Some matches =>
      select_range DbBook (fun _ b => matches b && in_category cid b)
        (order_by (book_column sortBy) (bool_decide (sortOrder = "asc"))) from to_
  end.

(** [count ? Math.ceil(count / limit) : 0]. *)
Definition total_pages (count limit : Z) : Z :=
  if bool_decide (count = 0) then 0 else js_ceil (inject_Z count / inject_Z limit).

Definition getAllBooks (q : ListQuery) : M BooksResult :=
  cat ← categoryFilter (category q);
  match cat with
  | RespErr e => mret (books_failed (message e))
  | RespOk cid =>
      let offset := (page q - 1) * limit q in
      r ← books_query (search q) cid (sortBy q) (sortOrder q) offset (offset + limit q - 1);
      match r with
      | RespErr e => mret (books_failed (message e))
      | RespOk (rows, count) =>
          mret (mkBooksResult (map (fun ib => mapDatabaseBookToModel ib.2) rows) count
                  (Some (total_pages count (limit q))) (Some (page q)) None)
      end
  end.

Definition getFeaturedBooks : M BooksResult :=
  getAllBooks (mkListQuery 1 6 "" "" "rating" "desc").

(** ** getCategories *)

Record CategoriesResult := mkCategoriesResult {
  categoryNames : list string;
  bookCounts : gmap string Z;
  categories_error : option string
}.

(** [data.reduce((acc, item) => { acc[item.name] = item.book_count; ... }, {})]. *)
Definition countsOf (cats : list (Z * string * Z)) : gmap string Z :=
  fold_left (fun acc c => <[c.1.2 := c.2]> acc) cats ∅.

Definition getCategories : M CategoriesResult :=
  r ← rpc_get_all_categories;
  match r with
  | RespErr e => mret (mkCategoriesResult [] ∅ (Some (message e)))
  | RespOk cats => mret (mkCategoriesResult (map (fun c => c.1.2) cats) (countsOf cats) None)
  end.

(** ** getTestimonials *)

Record Testimonial := mkTestimonial {
  tm_id : Z; tm_name : string; tm_avatar : string; tm_text : string; tm_rating : Z; tm_location : string
}.

Definition testimonialOf (it : Z * TestimonialRow) : Testimonial :=
  mkTestimonial it.1 (t_name it.2) (default "" (t_avatar_url it.2)) (t_content it.2) 5
    (default "" (t_role it.2)).

(** [.eq("is_featured", true).order("created_at", { ascending: false }).limit(3)]:
    the newest rows are those with the largest ids. *)
Definition getTestimonials : M (list Testimonial * option string) :=
  r ← select_limit TestimonialRow (fun _ t => bool_decide (t_is_featured t = Some true))
        newest_first 3;
  match r with
  | RespErr e => mret ([], Some (message e))
  | RespOk rows => mret (map testimonialOf rows, None)
  end.

(** ** deleteBook *)

Definition deleteBook (id : Z) : M (bool * option string) :=
  r ← delete_where DbBook (hasBookId id);
  match r with
  | RespErr e => mret (false, Some (message e))
  | RespOk _ => mret (true, None)
  end.

(** ** What a query reads *)

(** The category id [categoryFilter] resolves against the stored
    categories. *)
Definition resolve_category (category : string) (d : DB) : option Z :=
  if filters_category category then
    option_map (fun c => c.1.1)
      (List.find (fun c => bool_decide (c.1.2 = category))
         (map (fun ic => (ic.1, cat_name ic.2, default 0 (cat_book_count ic.2)))
              (map_to_list (categories d))))
  else None.

(** Every row the query selects, in the query's order. *)
Definition catalog (q : ListQuery) (matches : DbBook -> bool) (d : DB) : list (Z * DbBook) :=
  merge_sort (order_by (book_column (sortBy q)) (bool_decide (sortOrder q = "asc")))
    (rows_where (fun _ b => matches b && in_category (resolve_category (category q) d) b) d).


(** ** Lemmas *)

Lemma rows_where_hasBookId (id : Z) (d : DB) :
  rows_where (hasBookId id) d = match books d !! id with Some b => [(id, b)] | None => [] end.
Proof.
  destruct (books d !! id) as [b|] eqn:Hb.
  - apply (rows_where_one (R := DbBook)); [exact Hb | now apply bool_decide_eq_true_2 |].
    intros j r _ Hj; now apply bool_decide_eq_true in Hj.
  - apply (rows_where_nil (R := DbBook)); intros j r Hj; unfold hasBookId.
    apply bool_decide_eq_false_2; intros ->; simpl in Hj; congruence.
Qed.

(** [getBookById] changes nothing; answered, it finds exactly the stored
    row. *)
Lemma getBookById_run (id : Z) (w : World) :
  run (getBookById id) w =
  match (pop (faults w)).1, books (db w) !! id with
  | None, Some b => (mkBookResult (Some (mapDatabaseBookToModel b)) None, mkWorld (db w) (pop (faults w)).2)
  | None, None => (mkBookResult None (Some (message wrong_row_count)), mkWorld (db w) (pop (faults w)).2)
  | Some e, _ => (mkBookResult None (Some (message e)), mkWorld (db w) (pop (faults w)).2)
  end.
Proof.
  unfold getBookById; rewrite run_bind.
  destruct (pop (faults w)).1 as [e|] eqn:Hp.
  - unfold select_single; now rewrite (run_request_err _ w e Hp).
  - rewrite (@run_select_single_ok DbBook Table_books _ w Hp); simpl.
    rewrite rows_where_hasBookId; now destruct (books (db w) !! id).
Qed.

Lemma run_categoryFilter (c : string) (d : DB) :
  run (categoryFilter c) (mkWorld d []) = (RespOk (resolve_category c d), mkWorld d []).
Proof.
  unfold categoryFilter, resolve_category; destruct (filters_category c); [| reflexivity].
  rewrite run_bind; reflexivity.
Qed.

Lemma run_getAllBooks (q : ListQuery) (d : DB) (matches : DbBook -> bool) :
  search_filter (search q) = Some matches ->
  let all := catalog q matches d in
  let n := Z.of_nat (length all) in
  ((page q - 1) * limit q <= n)%Z ->
  run (getAllBooks q) (mkWorld d []) =
  (mkBooksResult (map (fun ib => mapDatabaseBookToModel ib.2)
                    (slice ((page q - 1) * limit q) ((page q - 1) * limit q + limit q - 1) all))
     n (Some (total_pages n (limit q))) (Some (page q)) None, mkWorld d []).
Proof.
  intros Hs all n Hr; unfold getAllBooks; rewrite run_bind, run_categoryFilter.
  unfold books_query; rewrite Hs, run_bind; unfold select_range.
  rewrite (run_request_ok _ (mkWorld d []) eq_refl); cbn [fst snd db faults pop].
  fold (catalog q matches d); fold all; fold n.
  rewrite bool_decide_eq_false_2 by lia; reflexivity.
Qed.

(** A page that starts past the selected rows is refused. *)
Lemma run_getAllBooks_past_end (q : ListQuery) (d : DB) (matches : DbBook -> bool) :
  search_filter (search q) = Some matches ->
  (Z.of_nat (length (catalog q matches d)) < (page q - 1) * limit q)%Z ->
  run (getAllBooks q) (mkWorld d []) = (books_failed (message range_not_satisfiable), mkWorld d []).
Proof.
  intros Hs Hr; unfold getAllBooks; rewrite run_bind, run_categoryFilter.
  unfold books_query; rewrite Hs, run_bind; unfold select_range.
  rewrite (run_request_ok _ (mkWorld d []) eq_refl); cbn [fst snd db faults pop].
  fold (catalog q matches d).
  rewrite bool_decide_eq_true_2 by exact Hr; reflexivity.
Qed.







Definition unrated (ib : Z * DbBook) : bool :=
  match db_rating ib.2 with None => true | Some _ => false end.

Lemma order_rating_desc_unrated (x y : Z * DbBook) :
  order_by (book_column "rating") false x y -> unrated x = false -> unrated y = false.
Proof.
  unfold order_by, unrated, book_column; simpl.
  destruct (db_rating x.2), (db_rating y.2); simpl; congruence.
Qed.

Lemma sorted_rated_tail (x : Z * DbBook) (l : list (Z * DbBook)) :
  Sorted (order_by (book_column "rating") false) (x :: l) -> unrated x = false ->
  Forall (fun y => unrated y = false) l.
Proof.
  revert x; induction l as [|y l IH]; intros x Hs Hx; [constructor |].
  apply Sorted_inv in Hs as [Hs Hhd]; apply HdRel_inv in Hhd.
  pose proof (order_rating_desc_unrated x y Hhd Hx) as Hy.
  constructor; [exact Hy | exact (IH y Hs Hy)].
Qed.

(** In an order by rating, descending, the unrated rows come first. *)
Lemma sorted_unrated_prefix (l : list (Z * DbBook)) (n : nat) :
  Sorted (order_by (book_column "rating") false) l ->
  (n <= length (List.filter unrated l))%nat -> Forall (fun ib => unrated ib = true) (firstn n l).
Proof.
  revert n; induction l as [|x l IH]; intros n Hs Hn; [now rewrite firstn_nil |].
  destruct n as [|n]; [constructor |]; simpl in Hn |- *.
  destruct (unrated x) eqn:Hx.
  - constructor; [exact Hx |]; apply IH; [now apply Sorted_inv in Hs | simpl in Hn; lia].
  - pose proof (sorted_rated_tail x l Hs Hx) as Hall.
    assert (List.filter unrated l = []) as E.
    { clear -Hall; induction Hall as [|y l Hy _ IH]; simpl; [reflexivity | now rewrite Hy]. }
    rewrite E in Hn; simpl in Hn; lia.
Qed.

Lemma filter_length_perm {A} (f : A -> bool) (l1 l2 : list A) :
  Permutation l1 l2 -> length (List.filter f l1) = length (List.filter f l2).
Proof. intros H; now rewrite H. Qed.

(** The home page's featured books are the six best rated, ordered by
    rating descending; PostgreSQL puts rows without a rating first in that
    order, so a catalogue with six unrated books features only unrated
    books (shown with rating 0). *)
Theorem featured_books_unrated_first (d : DB) :
  (6 <= length (List.filter unrated (map_to_list (books d))))%nat ->
  exists rows : list (Z * DbBook), Forall (fun ib => db_rating ib.2 = None) rows /\
    (run getFeaturedBooks (mkWorld d [])).1 =
    mkBooksResult (map (fun ib => mapDatabaseBookToModel ib.2) rows)
      (Z.of_nat (length (map_to_list (books d))))
      (Some (total_pages (Z.of_nat (length (map_to_list (books d)))) 6)) (Some 1) None.
Proof.
  intros H6; unfold getFeaturedBooks.
  set (q := mkListQuery 1 6 "" "" "rating" "desc").
  set (all := catalog q (fun _ => true) d).
  assert (Hrows : rows_where (fun _ b => (fun _ : DbBook => true) b && in_category (resolve_category (category q) d) b) d
                  = map_to_list (books d)).
  { unfold rows_where; simpl; generalize (map_to_list (books d)).
    induction l as [|x l IH]; simpl; [reflexivity | now rewrite IH]. }
  assert (Hperm : Permutation all (map_to_list (books d))).
  { unfold all, catalog; rewrite merge_sort_Permutation; exact (eq_rect _ (Permutation _) (Permutation_refl _) _ Hrows). }
  assert (Hsorted : Sorted (order_by (book_column "rating") false) all).
  { apply Sorted_merge_sort; apply _. }
  exists (firstn 6 all); split.
  - pose proof (sorted_unrated_prefix all 6 Hsorted) as Hp.
    rewrite (filter_length_perm unrated _ _ Hperm) in Hp; specialize (Hp H6).
    eapply Forall_impl; [exact Hp |]; intros [i b]; unfold unrated; simpl.
    destruct (db_rating b); [discriminate | reflexivity].
  - rewrite (run_getAllBooks q d (fun _ => true) eq_refl); [| simpl; lia].
    fold all; rewrite (Permutation_length Hperm); reflexivity.
Qed.

(** ** Concrete runs *)

Definition titled (id : Z) (t a : string) (r : option Q) : DbBook :=
  {| db_author := a; db_binding := "Paperback"; db_category_id := Some 1%Z; db_cover_image := "";
     db_description := ""; db_edition := None; db_has_free_delivery := None;
     db_has_rent_option := Some true; db_id := id; db_is_available_for_resell := None;
     db_is_new := None; db_isbn := ""; db_language := "English"; db_original_price := 300;
     db_page_count := 100; db_price := 250; db_publication_date := None; db_publisher := "P";
     db_rating := r; db_reviews := None; db_stock_status := "in_stock"; db_title := t |}.

(** Seven books, six of them without a rating; category 1 is "Fiction". *)
Definition db_shop : DB :=
  mkDB {[1%Z := titled 1 "Harry Potter" "J. K. Rowling" None;
         2%Z := titled 2 "Dune" "Frank Herbert" None;
         3%Z := titled 3 "Emma" "Jane Austen" None;
         4%Z := titled 4 "Hello, World" "Anon" None;
         5%Z := titled 5 "Ulysses" "James Joyce" None;
         6%Z := titled 6 "Walden" "Henry Thoreau" None;
         7%Z := titled 7 "Middlemarch" "George Eliot" (Some (5 # 1))]}
       ∅ ∅ ∅ ∅ {[8%Z := mkCategoryRow "Fiction" (Some 7) None]} ∅ ∅ ∅ ∅ 9.

(** A search containing a comma breaks the [or] tree the code builds:
    searching the exact title "Hello, World" of a stored book fails with
    the backend's parse error instead of finding it. *)
Example search_with_comma_fails :
  (exists i b, books db_shop !! i = Some b /\ db_title b = "Hello, World"%string) /\
  (run (getAllBooks (mkListQuery 1 10 "Hello, World" "" "title" "asc")) (mkWorld db_shop [])).1 =
  books_failed "failed to parse logic tree".
Proof. split; [exists 4%Z, (titled 4 "Hello, World" "Anon" None); split; reflexivity | vm_compute; reflexivity]. Qed.



Lemma featured_books_unrated_first_witness :
  exists rows : list (Z * DbBook), Forall (fun ib => db_rating ib.2 = None) rows /\
    (run getFeaturedBooks (mkWorld db_shop [])).1 =
    mkBooksResult (map (fun ib => mapDatabaseBookToModel ib.2) rows)
      (Z.of_nat (length (map_to_list (books db_shop))))
      (Some (total_pages (Z.of_nat (length (map_to_list (books db_shop)))) 6)) (Some 1) None.
Proof. apply featured_books_unrated_first; vm_compute; lia. Defined.

End BooksService.
