(* ===== verification/BookWrites.v ===== *)
(** * BookWrites: creating and editing books

    Two services write the [books] table:
    - [createBook] and [updateBook] of [src/services/booksService.ts]
      build a snake_case row object from a [Partial<Book>], resolving the
      category name to its id first;
    - [createBook] and [updateBook] of [src/services/adminService.ts], the
      ones the admin page calls, send the [Partial<Book>] object as it is,
      with its camelCase keys.

    The JSON body of such a request is a [Payload]: the keys of the object
    with a defined value, in order.  The backend ([json_body] of [insert]
    and [update], spec section 6) refuses a key that is not a column of
    [books] ([PGRST204]), a [null] or a missing value for a column that is
    [NOT NULL] without default on insert ([23502]: the columns the [Insert]
    type of [types.ts] requires), and a value of the wrong JSON type for its
    column ([22P02]); otherwise it stores the row.

    The theorems show that the admin page's [createBook] fails for every
    form, that [booksService.updateBook] clears the category of a book
    edited without a category, and that [booksService.createBook] stores
    the fields it is given, read back unchanged by
    [mapDatabaseBookToModel]. *)

From S2P Require Import Prelude Book Store BooksService.
From Stdlib Require Import Ascii String.

Open Scope Z_scope.

Module BookWrites.
Import BooksService.

(** ** JSON bodies *)

Inductive Json := JNull | JStr (s : string) | JNum (q : Q) | JBool (b : bool).

Definition Payload : Type := list (string * Json).

(** [key: value] in an object literal: an [undefined] value leaves the key
    out of the JSON text. *)
Definition field (k : string) (v : option Json) : Payload :=
  match v with Some j => [(k, j)] | None => [] end.

Definition lookup_key (p : Payload) (k : string) : option Json :=
  snd <$> List.find (fun kv => bool_decide (kv.1 = k)) p.

(** The columns of [books] ([Row] of [types.ts]). *)
Definition books_columns : list string :=
  ["author"; "binding"; "category_id"; "cover_image"; "created_at"; "description"; "edition";
   "has_free_delivery"; "has_rent_option"; "id"; "is_available_for_resell"; "is_new"; "isbn";
   "language"; "original_price"; "page_count"; "price"; "publication_date"; "publisher"; "rating";
   "reviews"; "stock_status"; "title"; "updated_at"]%string.

Definition column_not_found (k : string) : PgError :=
  mkPgError "PGRST204" ("Could not find the '" ++ k ++ "' column of 'books' in the schema cache")%string.

Definition not_null_violation (k : string) : PgError :=
  mkPgError "23502" ("null value in column " ++ k ++ " of relation books violates not-null constraint")%string.

Definition invalid_input (k : string) : PgError :=
  mkPgError "22P02" ("invalid input for column " ++ k)%string.

(** The first key of the body that is not a column. *)
Definition unknown_key (p : Payload) : option string :=
  fst <$> List.find (fun kv => negb (bool_decide (kv.1 ∈ books_columns))) p.

(** ** Reading a column from the body *)

(** The error monad of the row builder. *)
Definition sbind {A B} (m : PgError + A) (k : A -> PgError + B) : PgError + B :=
  match m with inl e => inl e | inr a => k a end.

Declare Scope builder_scope.
Notation "'let!' x ':=' m 'in' k" := (sbind m (fun x => k))
  (at level 10, x name, m at level 100, k at level 200) : builder_scope.
Open Scope builder_scope.

(** A nullable column: absent or [null] is [NULL]. *)
Definition as_text (k : string) (j : option Json) : PgError + option string :=
  match j with
  | None | Some JNull => inr None
  | Some (JStr s) => inr (Some s)
  | Some _ => inl (invalid_input k)
  end.

Definition as_num (k : string) (j : option Json) : PgError + option Q :=
  match j with
  | None | Some JNull => inr None
  | Some (JNum q) => inr (Some q)
  | Some _ => inl (invalid_input k)
  end.

(** An integer column takes a number without fraction. *)
Definition as_int (k : string) (j : option Json) : PgError + option Z :=
  match j with
  | None | Some JNull => inr None
  | Some (JNum q) => if Qeq_bool (inject_Z (Qfloor q)) q then inr (Some (Qfloor q)) else inl (invalid_input k)
  | Some _ => inl (invalid_input k)
  end.

Definition as_bool (k : string) (j : option Json) : PgError + option bool :=
  match j with
  | None | Some JNull => inr None
  | Some (JBool b) => inr (Some b)
  | Some _ => inl (invalid_input k)
  end.

(** A [NOT NULL] column without default. *)
Definition required {A} (k : string) (x : PgError + option A) : PgError + A :=
  match x with inl e => inl e | inr None => inl (not_null_violation k) | inr (Some a) => inr a end.

(** The row an insert stores under the id [i], the columns in the order of
    the [Row] type. *)
Definition insert_row (p : Payload) (i : Z) : PgError + DbBook :=
  let! author := required "author" (as_text "author" (lookup_key p "author")) in
  let! binding := required "binding" (as_text "binding" (lookup_key p "binding")) in
  let! category_id := as_int "category_id" (lookup_key p "category_id") in
  let! cover_image := required "cover_image" (as_text "cover_image" (lookup_key p "cover_image")) in
  let! description := required "description" (as_text "description" (lookup_key p "description")) in
  let! edition := as_text "edition" (lookup_key p "edition") in
  let! has_free_delivery := as_bool "has_free_delivery" (lookup_key p "has_free_delivery") in
  let! has_rent_option := as_bool "has_rent_option" (lookup_key p "has_rent_option") in
  let! is_available_for_resell := as_bool "is_available_for_resell" (lookup_key p "is_available_for_resell") in
  let! is_new := as_bool "is_new" (lookup_key p "is_new") in
  let! isbn := required "isbn" (as_text "isbn" (lookup_key p "isbn")) in
  let! language := required "language" (as_text "language" (lookup_key p "language")) in
  let! original_price := required "original_price" (as_num "original_price" (lookup_key p "original_price")) in
  let! page_count := required "page_count" (as_int "page_count" (lookup_key p "page_count")) in
  let! price := required "price" (as_num "price" (lookup_key p "price")) in
  let! publication_date := as_text "publication_date" (lookup_key p "publication_date") in
  let! publisher := required "publisher" (as_text "publisher" (lookup_key p "publisher")) in
  let! rating := as_num "rating" (lookup_key p "rating") in
  let! reviews := as_int "reviews" (lookup_key p "reviews") in
  let! stock_status := required "stock_status" (as_text "stock_status" (lookup_key p "stock_status")) in
  let! title := required "title" (as_text "title" (lookup_key p "title")) in
  inr (mkDbBook author binding category_id cover_image description edition has_free_delivery
         has_rent_option i is_available_for_resell is_new isbn language original_price page_count
         price publication_date publisher rating reviews stock_status title).

(** [.insert(body).select().single()] on [books]. *)
Definition insert_json (p : Payload) (d : DB) : Resp (Z * DbBook) * DB :=
  match unknown_key p with
  | Some k => (RespErr (column_not_found k), d)
  | None =>
      match insert_row p (next_id d) with
      | inl e => (RespErr e, d)
      | inr row => let '(kr, d') := insert_exec row d in (RespOk kr, d')
      end
  end.

(** On update a key that is absent keeps the column; a [null] clears a
    nullable column and is refused for a [NOT NULL] one. *)
Definition keep {A} (old : A) (x : PgError + option A) (present : bool) (k : string) : PgError + A :=
  match x with
  | inl e => inl e
  | inr (Some a) => inr a
  | inr None => if present then inl (not_null_violation k) else inr old
  end.

Definition keep_opt {A} (old : option A) (x : PgError + option A) (present : bool) : PgError + option A :=
  match x with
  | inl e => inl e
  | inr v => inr (if present then v else old)
  end.

Definition has_key (p : Payload) (k : string) : bool := bool_decide (is_Some (lookup_key p k)).

(** The row an update leaves, from the row [b] it finds. *)
Definition update_row (p : Payload) (b : DbBook) : PgError + DbBook :=
  let txt k old := keep old (as_text k (lookup_key p k)) (has_key p k) k in
  let! author := txt "author" (db_author b) in
  let! binding := txt "binding" (db_binding b) in
  let! category_id := keep_opt (db_category_id b) (as_int "category_id" (lookup_key p "category_id")) (has_key p "category_id") in
  let! cover_image := txt "cover_image" (db_cover_image b) in
  let! description := txt "description" (db_description b) in
  let! edition := keep_opt (db_edition b) (as_text "edition" (lookup_key p "edition")) (has_key p "edition") in
  let! has_free_delivery := keep_opt (db_has_free_delivery b) (as_bool "has_free_delivery" (lookup_key p "has_free_delivery")) (has_key p "has_free_delivery") in
  let! has_rent_option := keep_opt (db_has_rent_option b) (as_bool "has_rent_option" (lookup_key p "has_rent_option")) (has_key p "has_rent_option") in
  let! is_available_for_resell := keep_opt (db_is_available_for_resell b) (as_bool "is_available_for_resell" (lookup_key p "is_available_for_resell")) (has_key p "is_available_for_resell") in
  let! is_new := keep_opt (db_is_new b) (as_bool "is_new" (lookup_key p "is_new")) (has_key p "is_new") in
  let! isbn := txt "isbn" (db_isbn b) in
  let! language := txt "language" (db_language b) in
  let! original_price := keep (db_original_price b) (as_num "original_price" (lookup_key p "original_price")) (has_key p "original_price") "original_price" in
  let! page_count := keep (db_page_count b) (as_int "page_count" (lookup_key p "page_count")) (has_key p "page_count") "page_count" in
  let! price := keep (db_price b) (as_num "price" (lookup_key p "price")) (has_key p "price") "price" in
  let! publication_date := keep_opt (db_publication_date b) (as_text "publication_date" (lookup_key p "publication_date")) (has_key p "publication_date") in
  let! publisher := txt "publisher" (db_publisher b) in
  let! rating := keep_opt (db_rating b) (as_num "rating" (lookup_key p "rating")) (has_key p "rating") in
  let! reviews := keep_opt (db_reviews b) (as_int "reviews" (lookup_key p "reviews")) (has_key p "reviews") in
  let! stock_status := txt "stock_status" (db_stock_status b) in
  let! title := txt "title" (db_title b) in
  inr (mkDbBook author binding category_id cover_image description edition has_free_delivery
         has_rent_option (db_id b) is_available_for_resell is_new isbn language original_price
         page_count price publication_date publisher rating reviews stock_status title).

(** [.update(body).eq("id", id).select().single()] on [books]: no such
    row is the error of [.single()]. *)
Definition update_json (id : Z) (p : Payload) (d : DB) : Resp (Z * DbBook) * DB :=
  match unknown_key p with
  | Some k => (RespErr (column_not_found k), d)
  | None =>
      match books d !! id with
      | None => (RespErr wrong_row_count, d)
      | Some b =>
          match update_row p b with
          | inl e => (RespErr e, d)
          | inr b' => (RespOk (id, b'), tbl_set (<[id := b']> (books d)) d)
          end
      end
  end.

(** ** The [Partial<Book>] of the services *)

(** The fields of [Book] a form sets; [publicationDate] is the string of
    the date input. *)
Record BookData := mkBookData {
  bd_title : option string;
  bd_author : option string;
  bd_coverImage : option string;
  bd_price : option Q;
  bd_originalPrice : option Q;
  bd_description : option string;
  bd_category : option string;
  bd_language : option string;
  bd_publisher : option string;
  bd_publicationDate : option string;
  bd_isbn : option string;
  bd_pageCount : option Q;
  bd_edition : option string;
  bd_binding : option string;
  bd_isNew : option bool;
  bd_hasFreeDelivery : option bool;
  bd_hasRentOption : option bool;
  bd_isAvailableForResell : option bool;
  bd_stockStatus : option string
}.

(** ** booksService *)

(** [if (bookData.category)]: the id of the category of that name, [null]
    when there is none, no category, or the lookup fails (its error is not
    read). *)
Definition categoryIdOf (category : option string) : M (option Z) :=
  match category with
  | Some c =>
      if bool_decide (c = ""%string) then mret None
      else
        r ← select_single CategoryRow (fun _ row => bool_decide (cat_name row = c));
        mret (match r with RespOk (i, _) => Some i | RespErr _ => None end)
  | None => mret None
  end.

(** The snake_case object of [booksService]; [category_id] is always
    present. *)
Definition books_payload (bd : BookData) (categoryId : option Z) : Payload :=
  field "title" (JStr <$> bd_title bd) ++ field "author" (JStr <$> bd_author bd)
  ++ field "cover_image" (JStr <$> bd_coverImage bd) ++ field "price" (JNum <$> bd_price bd)
  ++ field "original_price" (JNum <$> bd_originalPrice bd)
  ++ field "description" (JStr <$> bd_description bd)
  ++ [("category_id", match categoryId with Some i => JNum (inject_Z i) | None => JNull end)]
  ++ field "language" (JStr <$> bd_language bd) ++ field "publisher" (JStr <$> bd_publisher bd)
  ++ field "publication_date" (JStr <$> bd_publicationDate bd) ++ field "isbn" (JStr <$> bd_isbn bd)
  ++ field "page_count" (JNum <$> bd_pageCount bd) ++ field "edition" (JStr <$> bd_edition bd)
  ++ field "binding" (JStr <$> bd_binding bd) ++ field "is_new" (JBool <$> bd_isNew bd)
  ++ field "has_free_delivery" (JBool <$> bd_hasFreeDelivery bd)
  ++ field "has_rent_option" (JBool <$> bd_hasRentOption bd)
  ++ field "is_available_for_resell" (JBool <$> bd_isAvailableForResell bd)
  ++ field "stock_status" (JStr <$> bd_stockStatus bd).

Definition book_result (r : Resp (Z * DbBook)) : BookResult :=
  match r with
  | RespErr e => mkBookResult None (Some (message e))
  | RespOk (_, row) => mkBookResult (Some (mapDatabaseBookToModel row)) None
  end.

Definition createBook (bd : BookData) : M BookResult :=
  categoryId ← categoryIdOf (bd_category bd);
  r ← request (insert_json (books_payload bd categoryId));
  mret (book_result r).

Definition updateBook (id : Z) (bd : BookData) : M BookResult :=
  categoryId ← categoryIdOf (bd_category bd);
  r ← request (update_json id (books_payload bd categoryId));
  mret (book_result r).

(** ** adminService *)

(** The [Partial<Book>] sent as it is: its camelCase keys, in the order of
    the page's [formData]. *)
Definition camel_payload (bd : BookData) : Payload :=
  field "title" (JStr <$> bd_title bd) ++ field "author" (JStr <$> bd_author bd)
  ++ field "coverImage" (JStr <$> bd_coverImage bd) ++ field "price" (JNum <$> bd_price bd)
  ++ field "originalPrice" (JNum <$> bd_originalPrice bd)
  ++ field "description" (JStr <$> bd_description bd)
  ++ field "category" (JStr <$> bd_category bd)
  ++ field "language" (JStr <$> bd_language bd) ++ field "publisher" (JStr <$> bd_publisher bd)
  ++ field "publicationDate" (JStr <$> bd_publicationDate bd) ++ field "isbn" (JStr <$> bd_isbn bd)
  ++ field "pageCount" (JNum <$> bd_pageCount bd) ++ field "edition" (JStr <$> bd_edition bd)
  ++ field "binding" (JStr <$> bd_binding bd) ++ field "isNew" (JBool <$> bd_isNew bd)
  ++ field "hasFreeDelivery" (JBool <$> bd_hasFreeDelivery bd)
  ++ field "hasRentOption" (JBool <$> bd_hasRentOption bd)
  ++ field "isAvailableForResell" (JBool <$> bd_isAvailableForResell bd)
  ++ field "stockStatus" (JStr <$> bd_stockStatus bd).

(** [{ book, error }]: the row as the backend returns it. *)
Record AdminBookResult := mkAdminBookResult {
  admin_book : option (Z * DbBook);
  admin_book_error : option string
}.

Definition admin_result (r : Resp (Z * DbBook)) : AdminBookResult :=
  match r with
  | RespErr e => mkAdminBookResult None (Some (message e))
  | RespOk row => mkAdminBookResult (Some row) None
  end.

Definition admin_createBook (bd : BookData) : M AdminBookResult :=
  r ← request (insert_json (camel_payload bd)); mret (admin_result r).

Definition admin_updateBook (id : Z) (bd : BookData) : M AdminBookResult :=
  r ← request (update_json id (camel_payload bd)); mret (admin_result r).

(** ** book.ts: [mapModelBookToDatabase] *)

(** A [null] value is written ([!== undefined]). *)
Definition json_bool (o : option bool) : Json := match o with Some x => JBool x | None => JNull end.

(** The body built from a book with every key defined.  [category]
    (undefined on a book read from a row) is copied under its own name;
    a [null] publication date is neither a string nor a [Date] and is
    left out. *)
Definition mapModelBookToDatabase (b : Book) : Payload :=
  [("id", JNum (inject_Z (bookId b))); ("title", JStr (title b)); ("author", JStr (author b));
   ("cover_image", JStr (coverImage b)); ("price", JNum (price b));
   ("original_price", JNum (originalPrice b)); ("rating", JNum (rating b));
   ("reviews", JNum (inject_Z (Book.reviews b))); ("description", JStr (description b))]
  ++ field "category" (JStr <$> Book.category b)
  ++ [("language", JStr (language b)); ("publisher", JStr (publisher b))]
  ++ field "publication_date" (JStr <$> publicationDate b)
  ++ [("isbn", JStr (isbn b)); ("page_count", JNum (inject_Z (pageCount b)));
      ("edition", JStr (edition b)); ("binding", JStr (binding b)); ("is_new", json_bool (isNew b));
      ("has_free_delivery", json_bool (hasFreeDelivery b)); ("has_rent_option", json_bool (hasRentOption b));
      ("is_available_for_resell", json_bool (isAvailableForResell b));
      ("stock_status", JStr (stockStatus b))].

(** ** Reading the body *)

Lemma lookup_key_cons_ne (k k' : string) (j : Json) (p : Payload) :
  k' <> k -> lookup_key ((k', j) :: p) k = lookup_key p k.
Proof. intros Hne; unfold lookup_key; simpl; rewrite bool_decide_eq_false_2 by exact Hne; reflexivity. Qed.

Lemma lookup_key_cons_eq (k : string) (j : Json) (p : Payload) :
  lookup_key ((k, j) :: p) k = Some j.
Proof. unfold lookup_key; simpl; rewrite bool_decide_eq_true_2 by reflexivity; reflexivity. Qed.

Lemma lookup_key_field_ne (k k' : string) (v : option Json) (p : Payload) :
  k' <> k -> lookup_key (field k' v ++ p) k = lookup_key p k.
Proof. intros Hne; destruct v; simpl; [apply lookup_key_cons_ne, Hne | reflexivity]. Qed.

Lemma lookup_key_field_eq (k : string) (j : Json) (p : Payload) :
  lookup_key (field k (Some j) ++ p) k = Some j.
Proof. unfold lookup_key; simpl; rewrite bool_decide_eq_true_2 by reflexivity; reflexivity. Qed.

Lemma lookup_key_field_none (k : string) (p : Payload) :
  lookup_key (field k None ++ p) k = lookup_key p k.
Proof. reflexivity. Qed.

Lemma lookup_key_field_self (k : string) (v : option Json) (p : Payload) :
  lookup_key p k = None -> lookup_key (field k v ++ p) k = v.
Proof. intros H; destruct v; [apply lookup_key_field_eq | exact H]. Qed.

(** Rewrites the lookups of a body built from [field]s to their values. *)
Ltac simpl_lookups :=
  repeat first
    [ progress cbn [app]
    | rewrite lookup_key_field_eq
    | rewrite lookup_key_field_none
    | rewrite lookup_key_field_ne by discriminate
    | rewrite lookup_key_cons_eq
    | rewrite lookup_key_cons_ne by discriminate
    | rewrite lookup_key_field_self by (simpl_lookups; reflexivity) ].

Lemma lookup_key_not_in (p : Payload) (k : string) :
  Forall (fun kv => kv.1 <> k) p -> lookup_key p k = None.
Proof.
  induction 1 as [|[k' j] p Hk _ IH]; [reflexivity |].
  rewrite lookup_key_cons_ne by exact Hk; exact IH.
Qed.

Lemma sbind_err {A B} (m : PgError + A) (k : A -> PgError + B) :
  (forall a, exists e, k a = inl e) -> exists e, sbind m k = inl e.
Proof. destruct m as [e|a]; simpl; eauto. Qed.

(** An insert without [cover_image] is refused: the column is required. *)
Lemma insert_row_no_cover (p : Payload) (i : Z) :
  lookup_key p "cover_image" = None -> exists e, insert_row p i = inl e.
Proof.
  intros H; unfold insert_row.
  do 3 (apply sbind_err; intros ?).
  rewrite H; eexists; reflexivity.
Qed.

(** The admin form's keys never include [cover_image]. *)
Lemma camel_payload_no_cover (bd : BookData) : lookup_key (camel_payload bd) "cover_image" = None.
Proof.
  apply lookup_key_not_in; unfold camel_payload, field.
  repeat (apply Forall_app_2; [repeat case_match; repeat constructor; discriminate |]).
  repeat case_match; repeat constructor; discriminate.
Qed.

Lemma insert_json_camel (bd : BookData) (d : DB) :
  exists e, insert_json (camel_payload bd) d = (RespErr e, d).
Proof.
  unfold insert_json; destruct (unknown_key _); [eauto |].
  destruct (insert_row_no_cover (camel_payload bd) (next_id d) (camel_payload_no_cover bd)) as [e ->].
  eauto.
Qed.

(** The answer of the admin [createBook] is an error, and the database is
    as it was. *)
Lemma admin_createBook_run (bd : BookData) (w : World) :
  (exists e, (run (admin_createBook bd) w).1 = mkAdminBookResult None (Some (message e))) /\
  db (run (admin_createBook bd) w).2 = db w.
Proof.
  unfold admin_createBook; rewrite run_bind.
  destruct (pop (faults w)) as [[e|] fs] eqn:P.
  - rewrite run_request_err with (e := e) by (rewrite P; reflexivity); simpl; eauto.
  - destruct (insert_json_camel bd (db w)) as [e E].
    rewrite run_request_ok by (rewrite P; reflexivity); rewrite E; simpl; eauto.
Qed.

(** (C11) The admin page's [createBook] never stores a book: whatever the
    form holds, the body either has a camelCase key that is no column or
    lacks the required [cover_image], so the answer is an error and the
    [books] table is unchanged. *)
Theorem admin_createBook_fails (bd : BookData) (w : World) :
  admin_book_error (run (admin_createBook bd) w).1 <> None /\
  books (db (run (admin_createBook bd) w).2) = books (db w).
Proof.
  destruct (admin_createBook_run bd w) as [[e ->] ->]; split; [discriminate | reflexivity].
Qed.

Lemma unknown_key_none (p : Payload) :
  Forall (fun kv => kv.1 ∈ books_columns) p -> unknown_key p = None.
Proof.
  intros H; unfold unknown_key; destruct (List.find _ p) as [[k j]|] eqn:E; [| reflexivity].
  apply List.find_some in E as [Hin Hk]; simpl in Hk.
  apply List.Forall_forall with (x := (k, j)) in H; [| exact Hin].
  rewrite bool_decide_eq_true_2 in Hk by exact H; discriminate.
Qed.

(** Every key of the snake_case body is a column. *)
Lemma books_payload_columns (bd : BookData) (categoryId : option Z) :
  Forall (fun kv => kv.1 ∈ books_columns) (books_payload bd categoryId).
Proof.
  unfold books_payload, field.
  repeat (apply Forall_app_2; [repeat case_match; repeat constructor; simpl;
                               apply (bool_decide_unpack _); vm_compute; reflexivity |]).
  repeat case_match; repeat constructor; simpl; apply (bool_decide_unpack _); vm_compute; reflexivity.
Qed.

(** Splits the builder's steps: each fails, or gives its value to the next. *)
Ltac sbind_cases :=
  repeat match goal with
         | |- context [sbind ?m _] => let E := fresh "E" in destruct m eqn:E; cbn [sbind]
         end.

Lemma update_row_category (p : Payload) (b b' : DbBook) :
  update_row p b = inr b' ->
  keep_opt (db_category_id b) (as_int "category_id" (lookup_key p "category_id"))
    (has_key p "category_id") = inr (db_category_id b').
Proof.
  unfold update_row; sbind_cases; try discriminate.
  intros [= <-]; reflexivity.
Qed.

(** (C34) [booksService.updateBook] sends [category_id: null] when the
    data has no category: an update that succeeds clears the category of
    the book, whatever it was. *)
Theorem updateBook_clears_category (id : Z) (bd : BookData) (w : World) :
  bd_category bd = None \/ bd_category bd = Some ""%string ->
  book_error (run (updateBook id bd) w).1 = None ->
  exists b', books (db (run (updateBook id bd) w).2) !! id = Some b' /\ db_category_id b' = None.
Proof.
  intros Hc; unfold updateBook.
  assert (categoryIdOf (bd_category bd) = mret None) as -> by (destruct Hc as [-> | ->]; reflexivity).
  rewrite run_bind, run_ret, run_bind.
  destruct (pop (faults w)) as [[e|] fs] eqn:P.
  { rewrite run_request_err with (e := e) by (rewrite P; reflexivity); discriminate. }
  rewrite run_request_ok by (rewrite P; reflexivity).
  unfold update_json; rewrite unknown_key_none by apply books_payload_columns.
  destruct (books (db w) !! id) as [b|] eqn:B; [| discriminate].
  destruct (update_row _ b) as [e|b'] eqn:U; [discriminate |]; intros _.
  exists b'; simpl; split; [apply lookup_insert_eq |].
  apply update_row_category in U; revert U.
  unfold books_payload, has_key; simpl_lookups; simpl; congruence.
Qed.

Lemma as_text_fmap (k : string) (v : option string) : as_text k (JStr <$> v) = inr v.
Proof. now destruct v. Qed.

Lemma as_bool_fmap (k : string) (v : option bool) : as_bool k (JBool <$> v) = inr v.
Proof. now destruct v. Qed.

Lemma as_int_Z (k : string) (n : Z) : as_int k (Some (JNum (inject_Z n))) = inr (Some n).
Proof. unfold as_int; rewrite Qfloor_Z, Qeq_bool_refl; reflexivity. Qed.

Lemma categoryIdOf_answered (category : option string) (w : World) :
  faults w = [] ->
  exists categoryId w1, run (categoryIdOf category) w = (categoryId, w1) /\ db w1 = db w /\ faults w1 = [].
Proof.
  intros Hf; unfold categoryIdOf; destruct category as [c|]; [| eauto].
  case_bool_decide; [eauto |].
  rewrite run_bind, (run_select_single_ok (R := CategoryRow)) by (rewrite Hf; reflexivity).
  rewrite Hf; do 2 eexists; split; [reflexivity | auto].
Qed.

(** (C24) Creating a book and reading it back: when every request is
    answered, [booksService.createBook] with the required fields stores a
    row that [mapDatabaseBookToModel] reads back with the same title,
    author, cover, prices, description, language, publisher, ISBN, page
    count, binding, stock status, publication date and flags. *)
Theorem createBook_roundtrip (bd : BookData) (w : World)
    (t a c ds l pub i bi s : string) (p op : Q) (n : Z) :
  bd_title bd = Some t -> bd_author bd = Some a -> bd_coverImage bd = Some c ->
  bd_price bd = Some p -> bd_originalPrice bd = Some op -> bd_description bd = Some ds ->
  bd_language bd = Some l -> bd_publisher bd = Some pub -> bd_isbn bd = Some i ->
  bd_pageCount bd = Some (inject_Z n) -> bd_binding bd = Some bi -> bd_stockStatus bd = Some s ->
  faults w = [] ->
  exists b, found (run (createBook bd) w).1 = Some b /\
    title b = t /\ author b = a /\ coverImage b = c /\ price b = p /\ originalPrice b = op /\
    description b = ds /\ language b = l /\ publisher b = pub /\ isbn b = i /\ pageCount b = n /\
    binding b = bi /\ stockStatus b = s /\ publicationDate b = bd_publicationDate bd /\
    isNew b = bd_isNew bd /\ hasFreeDelivery b = bd_hasFreeDelivery bd /\
    hasRentOption b = bd_hasRentOption bd /\ isAvailableForResell b = bd_isAvailableForResell bd.
Proof.
  intros Ht Ha Hc Hp Hop Hd Hl Hpub Hi Hn Hbi Hs Hf; unfold createBook.
  destruct (categoryIdOf_answered (bd_category bd) w Hf) as (cid & w1 & E & _ & Hf1).
  rewrite run_bind, E, run_bind, run_request_ok by (rewrite Hf1; reflexivity).
  unfold insert_json; rewrite unknown_key_none by apply books_payload_columns.
  unfold insert_row, books_payload.
  rewrite Ht, Ha, Hc, Hp, Hop, Hd, Hl, Hpub, Hi, Hn, Hbi, Hs; cbn [fmap option_fmap option_map]; simpl_lookups.
  rewrite !as_text_fmap, !as_bool_fmap; unfold as_int; rewrite !Qfloor_Z, !Qeq_bool_refl.
  destruct cid as [ci|]; cbv beta iota; rewrite ?Qfloor_Z, ?Qeq_bool_refl; simpl;
    eexists; split; try reflexivity; repeat split.
Qed.

(** A book read from a row and written back with
    [mapModelBookToDatabase] is the same row, when its rating, review
    count and edition are set: [mapDatabaseBookToModel] reads a [null]
    one as [0] or [""], which the write would store. *)
Theorem mapModelBookToDatabase_roundtrip (b : DbBook) :
  is_Some (db_rating b) -> is_Some (db_reviews b) -> is_Some (db_edition b) ->
  update_row (mapModelBookToDatabase (mapDatabaseBookToModel b)) b = inr b.
Proof.
  intros [r Hr] [n Hn] [e He]; destruct b as [au bi ci co de ed hf hr id ia nw ib la op pc pr pd pu ra rv ss ti].
  cbn in Hr, Hn, He; subst.
  set (p := mapModelBookToDatabase _).
  assert (Hpc : lookup_key p "page_count" = Some (JNum (inject_Z pc))) by (destruct pd; reflexivity).
  assert (Hrv : lookup_key p "reviews" = Some (JNum (inject_Z n))) by reflexivity.
  unfold update_row; rewrite Hpc, Hrv, !as_int_Z.
  destruct pd, hf, hr, ia, nw; reflexivity.
Qed.

(** A book without rating, review count or edition does not survive
    the trip: writing back the book read from such a row stores rating
    [0], [0] reviews and an empty edition where the row had [null]. *)
Example mapModelBookToDatabase_fills_nulls :
  let b := sample_db_book 1 (inject_Z 300) in
  exists b', update_row (mapModelBookToDatabase (mapDatabaseBookToModel b)) b = inr b' /\
    db_rating b = None /\ db_rating b' = Some 0%Q /\ db_reviews b' = Some 0 /\ db_edition b' = Some ""%string.
Proof. eexists; split; [vm_compute; reflexivity | repeat split]. Qed.

(** ** Row identity *)

(** Every row of [books] carries its own key as [id], the id the pages
    read back with [mapDatabaseBookToModel]. *)
Definition book_ids_ok (d : DB) : Prop := forall i b, books d !! i = Some b -> db_id b = i.

Lemma insert_row_id (p : Payload) (i : Z) (row : DbBook) : insert_row p i = inr row -> db_id row = i.
Proof. unfold insert_row; sbind_cases; try discriminate; intros [= <-]; reflexivity. Qed.

Lemma update_row_id (p : Payload) (b b' : DbBook) : update_row p b = inr b' -> db_id b' = db_id b.
Proof. unfold update_row; sbind_cases; try discriminate; intros [= <-]; reflexivity. Qed.

Lemma book_ids_insert (d : DB) (i : Z) (b : DbBook) (d' : DB) :
  book_ids_ok d -> db_id b = i -> books d' = <[i := b]> (books d) -> book_ids_ok d'.
Proof.
  intros Hd Hb E j bj; rewrite E; destruct (decide (j = i)) as [->|Hne].
  - rewrite lookup_insert_eq; intros [= <-]; exact Hb.
  - rewrite lookup_insert_ne by congruence; apply Hd.
Qed.

Lemma categoryIdOf_ids (category : option string) : preserves book_ids_ok (categoryIdOf category).
Proof.
  unfold categoryIdOf; destruct category as [c|]; [| apply ret_preserves].
  case_bool_decide; [apply ret_preserves |].
  apply bind_preserves; [apply request_preserves; auto | intros; apply ret_preserves].
Qed.

Lemma insert_json_ids (p : Payload) : preserves book_ids_ok (request (insert_json p)).
Proof.
  apply request_preserves; intros d Hd; unfold insert_json.
  destruct (unknown_key p); [exact Hd |].
  destruct (insert_row p (next_id d)) as [e|row] eqn:E; [exact Hd |]; simpl.
  eapply book_ids_insert; [exact Hd | exact (insert_row_id _ _ _ E) | reflexivity].
Qed.

Lemma update_json_ids (id : Z) (p : Payload) : preserves book_ids_ok (request (update_json id p)).
Proof.
  apply request_preserves; intros d Hd; unfold update_json.
  destruct (unknown_key p); [exact Hd |].
  destruct (books d !! id) as [b|] eqn:B; [| exact Hd].
  destruct (update_row p b) as [e|b'] eqn:U; [exact Hd |]; simpl.
  eapply book_ids_insert; [exact Hd | | reflexivity].
  rewrite (update_row_id _ _ _ U); exact (Hd _ _ B).
Qed.

(** ** Runs *)

(** A complete form. *)
Definition form_full (category : option string) : BookData :=
  mkBookData (Some "Dune") (Some "Frank Herbert") (Some "dune.jpg") (Some (inject_Z 450))
    (Some (inject_Z 500)) (Some "Arrakis") category (Some "English") (Some "Ace")
    (Some "1965-08-01") (Some "9780441172719") (Some (inject_Z 412)) (Some "") (Some "Paperback")
    (Some true) (Some false) (Some true) (Some false) (Some "in_stock").

(** Book 1 in category 1, and the category "Fiction" under id 2. *)
Definition db_books : DB :=
  mkDB {[1 := sample_db_book 1 (inject_Z 300)]} ∅ ∅ ∅ ∅ {[2 := mkCategoryRow "Fiction" None None]}
    ∅ ∅ ∅ ∅ 3.

Lemma updateBook_clears_category_witness :
  book_error (run (updateBook 1 (form_full None)) (mkWorld db_books [])).1 = None /\
  exists b', books (db (run (updateBook 1 (form_full None)) (mkWorld db_books [])).2) !! 1 = Some b' /\
    db_category_id b' = None.
Proof.
  assert (H : book_error (run (updateBook 1 (form_full None)) (mkWorld db_books [])).1 = None)
    by (vm_compute; reflexivity).
  split; [exact H | exact (updateBook_clears_category 1 (form_full None) _ (or_introl eq_refl) H)].
Defined.

Lemma createBook_roundtrip_witness :
  exists b, found (run (createBook (form_full (Some "Fiction"))) (mkWorld db_books [])).1 = Some b /\
    title b = "Dune"%string /\ author b = "Frank Herbert"%string /\ coverImage b = "dune.jpg"%string /\
    price b = inject_Z 450 /\ originalPrice b = inject_Z 500 /\ description b = "Arrakis"%string /\
    language b = "English"%string /\ publisher b = "Ace"%string /\ isbn b = "9780441172719"%string /\
    pageCount b = 412 /\ binding b = "Paperback"%string /\ stockStatus b = "in_stock"%string /\
    publicationDate b = Some "1965-08-01"%string /\ isNew b = Some true /\
    hasFreeDelivery b = Some false /\ hasRentOption b = Some true /\ isAvailableForResell b = Some false.
Proof.
  exact (createBook_roundtrip (form_full (Some "Fiction")) (mkWorld db_books [])
           "Dune" "Frank Herbert" "dune.jpg" "Arrakis" "English" "Ace" "9780441172719" "Paperback"
           "in_stock" (inject_Z 450) (inject_Z 500) 412
           eq_refl eq_refl eq_refl eq_refl eq_refl eq_refl eq_refl eq_refl eq_refl eq_refl eq_refl
           eq_refl eq_refl).
Defined.

Lemma mapModelBookToDatabase_roundtrip_witness :
  let b := mkDbBook "A" "Paperback" (Some 1) "c.jpg" "d" (Some "2nd") (Some false) (Some true) 7
             (Some false) None "isbn" "English" (inject_Z 300) 120 (inject_Z 250) (Some "2020-01-01") "P"
             (Some (4 # 1)) (Some 12) "in_stock" "T" in
  update_row (mapModelBookToDatabase (mapDatabaseBookToModel b)) b = inr b.
Proof. apply mapModelBookToDatabase_roundtrip; eexists; reflexivity. Defined.

End BookWrites.
