(* ===== verification/BookDetail.v ===== *)
(** * BookDetail: the book page and its add-to-cart buttons

    [Module BookDetail] models [src/pages/BookDetailPage.tsx]: its state
    ([book], [loading]), the mount effect [fetchBook] (through
    [getBookById]) and [handleAddToCart], which gets the user's cart and
    calls [addToCart] with quantity 1.  The page renders two buttons:
    [Add to Cart] ([handleAddToCart(false)]) and [Rent for 3 Months]
    ([handleAddToCart(true, 3)]).  Toasts are the handler's outcome;
    navigation to [/login] or [/] is an outcome too. *)

From S2P Require Import Prelude Book Pricing Store CartService CartPage BooksService.

Open Scope Z_scope.

Import Pricing.

Module BookDetail.

Record DetailState := mkDetailState {
  book : option Book;
  loading : bool
}.

Definition initialState : DetailState := mkDetailState None true.

(** [fetchBook] for the route's [id]; [true] when the page navigates to
    [/] after a failed fetch. *)
Definition fetchBook (id : option Z) (st : DetailState) : M (DetailState * bool) :=
  match id with
  | None => mret (st, false)
  | Some i =>
      r ← BooksService.getBookById i;
      match BooksService.found r with
      | Some b => mret (mkDetailState (Some b) false, false)
      | None => mret (mkDetailState (book st) false, true)
      end
  end.

(** What [handleAddToCart] ends with (its toast or its redirect). *)
Inductive AddOutcome :=
  | LoginRequired
  | BookMissing
  | CartFailed (msg : string)
  | Added
  | AddFailed (msg : option string).

Definition handleAddToCart (user : option string) (st : DetailState) (isRental : bool)
    (rentalPeriod : option Z) : M AddOutcome :=
  match user with
  | None => mret LoginRequired
  | Some uid =>
      match book st with
      | None => mret BookMissing
      | Some b =>
          cr ← CartService.getOrCreateCart uid;
          match CartService.cart cr, CartService.cart_error cr with
          | Some (cid, _), None =>
              r ← CartService.addToCart (CartService.mkAddArgs cid (bookId b) 1 isRental rentalPeriod);
              mret (if CartService.success r then Added else AddFailed (CartService.mut_error r))
          | _, err => mret (CartFailed (or_default err "Unknown error"))
          end
      end
  end.

(** [onClick={() => handleAddToCart(false)}]. *)
Definition addButton (user : option string) (st : DetailState) : M AddOutcome :=
  handleAddToCart user st false None.

(** [{book.hasRentOption && <Button ...>Rent for 3 Months</Button>}]: the
    button is rendered only for a loaded book with a rent option. *)
Definition rentButtonShown (st : DetailState) : bool :=
  match book st with
  | Some b => match hasRentOption b with Some true => true | _ => false end
  | None => false
  end.

(** [onClick={() => handleAddToCart(true, 3)}] of that button; the
    theorems below hold of the handler in every state, shown or not. *)
Definition rentButton (user : option string) (st : DetailState) : M AddOutcome :=
  handleAddToCart user st true (Some 3).

(** ** Properties *)

(** The book page makes no request without a logged-in user (it sends
    the visitor to [/login]) or without a loaded book. *)
Theorem handleAddToCart_guards (st : DetailState) (u : string) (k : bool) (p : option Z)
    (l : bool) (w : World) :
  run (handleAddToCart None st k p) w = (LoginRequired, w) /\
  run (handleAddToCart (Some u) (mkDetailState None l) k p) w = (BookMissing, w).
Proof. split; reflexivity. Qed.

(** Loading the page for a book id: when the request is answered and the
    book exists, the page shows [mapDatabaseBookToModel] of its row; in every
    other case the page goes to [/].  Loading ends either way and the store
    is not changed. *)
Theorem fetchBook_spec (i : Z) (st : DetailState) (w : World) :
  let '(r, w') := run (fetchBook (Some i) st) w in
  db w' = db w /\ loading r.1 = false /\
  match (pop (faults w)).1, books (db w) !! i with
  | None, Some b => r = (mkDetailState (Some (mapDatabaseBookToModel b)) false, false)
  | _, _ => r.2 = true
  end.
Proof.
  cbv beta iota delta [fetchBook].
  rewrite (run_bind (BooksService.getBookById i)), BooksService.getBookById_run.
  destruct (pop (faults w)).1, (books (db w) !! i); repeat split.
Qed.

(** (C13) [Rent for 3 Months] stores a rental period of 3, which the cart
    reads as days: the cart page then shows a one-month rental and charges
    the one-month rate of 40% instead of the 35% of three months. *)
Theorem rentButton_stores_days (u : string) (st : DetailState) (w : World) (c : Z)
    (cr : CartRow) (b : Book) :
  faults w = [] -> rows_where (CartService.ownedBy u) (db w) = [(c, cr)] -> book st = Some b ->
  rows_where (CartService.sameLine c (bookId b) true) (db w) = [] ->
  let '(out, w') := run (rentButton (Some u) st) w in
  out = Added /\
  cart_items (db w') !! next_id (db w) = Some (mkCartItemRow c (bookId b) 1 true (Some 3)) /\
  forall bk, exists it,
    CartPage.transformItem (next_id (db w), mkCartItemRow c (bookId b) 1 true (Some 3), Some bk) = Some it /\
    rentalPeriod it = 1 /\ (spec_line it == db_price bk * (4 # 10))%Q.
Proof.
  intros Hf Ho Hb Hr; unfold rentButton, handleAddToCart; rewrite Hb.
  rewrite run_bind, (CartService.getOrCreateCart_found u w c cr Hf Ho); cbn -[mbind run CartService.addToCart].
  rewrite run_bind, (CartService.addToCart_new_line (CartService.mkAddArgs c (bookId b) 1 true (Some 3)) w Hf Hr); cbn.
  split; [reflexivity | split; [apply lookup_insert_eq |]].
  intros bk; eexists; split; [reflexivity |]; split; [reflexivity |].
  unfold spec_line; simpl; ring.
Qed.

(** Clicking [Add to Cart] twice, with every request answered, gives one
    purchase line for the book with quantity 2 (under the id of the first
    insert), not two lines. *)
Theorem addButton_twice_one_line (u : string) (st : DetailState) (w : World) (c : Z)
    (cr : CartRow) (b : Book) :
  faults w = [] -> rows_where (CartService.ownedBy u) (db w) = [(c, cr)] -> book st = Some b ->
  rows_where (CartService.sameLine c (bookId b) false) (db w) = [] ->
  let '(o1, w1) := run (addButton (Some u) st) w in
  let '(o2, w2) := run (addButton (Some u) st) w1 in
  o1 = Added /\ o2 = Added /\
  rows_where (CartService.sameLine c (bookId b) false) (db w2) =
    [(next_id (db w), mkCartItemRow c (bookId b) 2 false None)].
Proof.
  intros Hf Ho Hb Hr; unfold addButton, handleAddToCart; rewrite Hb.
  rewrite run_bind, (CartService.getOrCreateCart_found u w c cr Hf Ho); cbn -[mbind run CartService.addToCart].
  rewrite run_bind, (CartService.addToCart_new_line (CartService.mkAddArgs c (bookId b) 1 false None) w Hf Hr).
  cbn [CartService.success CartService.a_cartId CartService.a_bookId CartService.a_quantity
       CartService.a_isRental CartService.a_rentalPeriod]; rewrite run_ret; cbv beta iota.
  set (row := mkCartItemRow c (bookId b) 1 false None).
  set (w1 := mkWorld (insert_exec row (db w)).2 []).
  assert (Hr1 : rows_where (CartService.sameLine c (bookId b) false) (db w1) = [(next_id (db w), row)]).
  { apply (rows_where_insert_exec_only (R := CartItemRow)); [exact Hr |].
    unfold CartService.sameLine; simpl; now rewrite !bool_decide_eq_true_2. }
  rewrite run_bind, (CartService.getOrCreateCart_found u w1 c cr eq_refl Ho); cbn -[mbind run CartService.addToCart].
  rewrite run_bind, (CartService.addToCart_existing_line (CartService.mkAddArgs c (bookId b) 1 false None)
                       w1 (next_id (db w)) row eq_refl Hr1 (lookup_insert_eq _ _ _)); cbn.
  split; [reflexivity | split; [reflexivity |]].
  rewrite (rows_where_ext (R := CartItemRow) _ _
             (tbl_set (<[next_id (db w) := CartService.with_quantity 2 row]> (tbl_get (R := CartItemRow) (db w)))
                (db w))).
  - apply (rows_where_insert_only (R := CartItemRow) _ (db w) (next_id (db w))
             (CartService.with_quantity 2 row)); [exact Hr |].
    unfold CartService.sameLine; simpl; now rewrite !bool_decide_eq_true_2.
  - simpl; apply insert_insert_eq.
Qed.

(** ** Concrete runs *)

(** User "u1" owns cart 1; book 10 is on the page. *)
Definition book10 : DbBook := sample_db_book 10 (inject_Z 500).
Definition db_bd : DB := mkDB {[10%Z := book10]} {[1%Z := mkCartRow "u1"]} ∅ ∅ ∅ ∅ ∅ ∅ ∅ ∅ 2.
Definition st_bd : DetailState := mkDetailState (Some (mapDatabaseBookToModel book10)) false.

Lemma rentButton_stores_days_witness :
  let '(out, w') := run (rentButton (Some "u1") st_bd) (mkWorld db_bd []) in
  out = Added /\
  cart_items (db w') !! 2 = Some (mkCartItemRow 1 10 1 true (Some 3)) /\
  forall bk, exists it,
    CartPage.transformItem (2, mkCartItemRow 1 10 1 true (Some 3), Some bk) = Some it /\
    rentalPeriod it = 1 /\ (spec_line it == db_price bk * (4 # 10))%Q.
Proof.
  apply (rentButton_stores_days "u1" st_bd (mkWorld db_bd []) 1 (mkCartRow "u1")
           (mapDatabaseBookToModel book10)); vm_compute; reflexivity.
Defined.

Lemma addButton_twice_one_line_witness :
  let '(o1, w1) := run (addButton (Some "u1") st_bd) (mkWorld db_bd []) in
  let '(o2, w2) := run (addButton (Some "u1") st_bd) w1 in
  o1 = Added /\ o2 = Added /\
  rows_where (CartService.sameLine 1 10 false) (db w2) = [(2, mkCartItemRow 1 10 2 false None)].
Proof.
  apply (addButton_twice_one_line "u1" st_bd (mkWorld db_bd []) 1 (mkCartRow "u1")
           (mapDatabaseBookToModel book10)); vm_compute; reflexivity.
Defined.

End BookDetail.
