(* ===== verification/AdminOrders.v ===== *)
(** * AdminOrders: order statuses, the admin status update and the spec's
      order life cycle

    [Module OrderStatus] holds the five statuses the admin page offers
    ([SelectItem]s of [src/pages/admin/AdminOrdersPage.tsx]) with their
    strings, and the life cycle the spec prescribes (section 4.1: pending ->
    processing | cancelled, processing -> shipped | cancelled, shipped ->
    delivered) as a step relation, its reflexive-transitive closure [rtc],
    and an executable successor function with the reachable set computed by
    iteration.  [Module AdminService] models [updateOrderStatus] of
    [src/services/adminService.ts]; [Module AdminOrdersPage] models the
    page's [handleStatusChange] and [viewOrderDetails]. *)

From S2P Require Import Prelude Book Store OrderService.

Open Scope Z_scope.

Module OrderStatus.

Inductive Status := Pending | Processing | Shipped | Delivered | Cancelled.

#[export] Instance Status_eq_dec : EqDecision Status.
Proof. solve_decision. Defined.

Definition all_statuses : list Status := [Pending; Processing; Shipped; Delivered; Cancelled].

(** The [value] of each [SelectItem]. *)
Definition status_string (s : Status) : string :=
  match s with
  | Pending => "pending"
  | Processing => "processing"
  | Shipped => "shipped"
  | Delivered => "delivered"
  | Cancelled => "cancelled"
  end.

Definition parse_status (x : string) : option Status :=
  List.find (fun s => bool_decide (status_string s = x)) all_statuses.

(** The life cycle of the spec. *)
Inductive spec_step : Status -> Status -> Prop :=
  | pending_processing : spec_step Pending Processing
  | pending_cancelled : spec_step Pending Cancelled
  | processing_shipped : spec_step Processing Shipped
  | processing_cancelled : spec_step Processing Cancelled
  | shipped_delivered : spec_step Shipped Delivered.

Definition spec_reachable : Status -> Status -> Prop := rtc spec_step.

Definition spec_next (s : Status) : list Status :=
  match s with
  | Pending => [Processing; Cancelled]
  | Processing => [Shipped; Cancelled]
  | Shipped => [Delivered]
  | Delivered | Cancelled => []
  end.

(** The statuses reachable in at most [fuel] steps. *)
Fixpoint reach (fuel : nat) (s : Status) : list Status :=
  match fuel with
  | O => [s]
  | S n => s :: List.concat (map (reach n) (spec_next s))
  end.

(** The longest path of the life cycle has three steps; [reach] with four
    is the whole reachable set. *)
Definition reachable_from (s : Status) : list Status := reach 4 s.

(** A rank that every step increases. *)
Definition rank (s : Status) : nat :=
  match s with
  | Pending => 0 | Processing => 1 | Shipped => 2 | Delivered | Cancelled => 3
  end.

(** ** The life cycle *)

Lemma parse_status_string (s : Status) : parse_status (status_string s) = Some s.
Proof. destruct s; reflexivity. Qed.

Lemma spec_step_next (s t : Status) : spec_step s t <-> t ∈ spec_next s.
Proof.
  split; [intros []; simpl; set_solver |].
  intros H; apply list_elem_of_In in H.
  destruct s; simpl in H; intuition subst; constructor.
Qed.

#[export] Instance spec_step_dec (s t : Status) : Decision (spec_step s t).
Proof. refine (cast_if (decide (t ∈ spec_next s))); now rewrite spec_step_next. Defined.

Lemma spec_step_rank (s t : Status) : spec_step s t -> (rank s < rank t)%nat.
Proof. intros []; simpl; lia. Qed.

Lemma rank_le_3 (s : Status) : (rank s <= 3)%nat.
Proof. destruct s; simpl; lia. Qed.

Lemma reach_sound (n : nat) (s t : Status) : In t (reach n s) -> spec_reachable s t.
Proof.
  revert s; induction n as [|n IH]; intros s; simpl.
  - intros [<-|[]]; apply rtc_refl.
  - intros [<-|Hin]; [apply rtc_refl |].
    apply in_concat in Hin as [l [Hl Ht]]; apply in_map_iff in Hl as [u [<- Hu]].
    apply rtc_l with u; [apply spec_step_next, list_elem_of_In, Hu | exact (IH u Ht)].
Qed.

Lemma reach_complete (s t : Status) :
  spec_reachable s t -> forall n, (3 <= rank s + n)%nat -> In t (reach n s).
Proof.
  induction 1 as [s|s u t Hsu Hut IH]; intros n Hn; [destruct n; simpl; auto |].
  pose proof (spec_step_rank _ _ Hsu); pose proof (rank_le_3 u).
  destruct n as [|n]; [lia |]; simpl; right.
  apply in_concat; exists (reach n u); split; [| apply IH; lia].
  apply in_map, list_elem_of_In, spec_step_next, Hsu.
Qed.

(** Delivered and cancelled orders stay as they are. *)
Lemma spec_terminal (s t : Status) :
  s = Delivered \/ s = Cancelled -> spec_reachable s t -> t = s.
Proof.
  intros Hs H; destruct H as [|x y z Hxy _]; [reflexivity |].
  destruct Hs as [->| ->]; inversion Hxy.
Qed.

(** The executable reachable set is exact: a status is reachable from
    another in the spec's life cycle exactly when four rounds of successors
    list it (the longest path has three steps, as the rank shows). *)
Theorem reachable_from_correct (s t : Status) :
  spec_reachable s t <-> In t (reachable_from s).
Proof.
  split; [intros H; apply (reach_complete s t H); pose proof (rank_le_3 s); lia | apply reach_sound].
Qed.

End OrderStatus.

Module AdminService.
Import OrderStatus.

(** [.update({ status })]. *)
Definition with_status (status : string) (o : OrderRow) : OrderRow :=
  mkOrderRow (o_user_id o) status (o_total_amount o) (o_shipping_address o) (o_shipping_city o)
    (o_shipping_state o) (o_shipping_zip o) (o_shipping_country o) (o_payment_method o).

(** [{ order, error }]: the thrown error is caught and its message
    returned. *)
Record StatusResult := mkStatusResult {
  updated : option (Z * OrderRow);
  status_error : option string
}.

Definition updateOrderStatus (id : Z) (status : string) : M StatusResult :=
  r ← update_by_id id (with_status status);
  match r with
  | RespErr e => mret (mkStatusResult None (Some (message e)))
  | RespOk o => mret (mkStatusResult (Some o) None)
  end.

(** ** Behaviour *)

(** [updateOrderStatus] on every branch: answered and with the order
    present, it writes the given status, whatever it is, and returns the
    updated row; a missing order is the error of [.single()] and a failed
    request its own error, and neither changes anything. *)
Theorem updateOrderStatus_run (id : Z) (status : string) (w : World) :
  run (updateOrderStatus id status) w =
  match (pop (faults w)).1, orders (db w) !! id with
  | None, Some o =>
      (mkStatusResult (Some (id, with_status status o)) None,
       mkWorld (tbl_set (<[id := with_status status o]> (orders (db w))) (db w)) (pop (faults w)).2)
  | None, None => (mkStatusResult None (Some (message wrong_row_count)), mkWorld (db w) (pop (faults w)).2)
  | Some e, _ => (mkStatusResult None (Some (message e)), mkWorld (db w) (pop (faults w)).2)
  end.
Proof.
  unfold updateOrderStatus; rewrite run_bind.
  destruct (pop (faults w)).1 as [e|] eqn:Hp.
  - unfold update_by_id; now rewrite (run_request_err _ w e Hp).
  - destruct (orders (db w) !! id) as [o|] eqn:Ho.
    + now rewrite (@run_update_by_id_ok OrderRow Table_orders id _ w o Hp Ho).
    + unfold update_by_id; rewrite (run_request_ok _ w Hp); simpl; now rewrite Ho.
Qed.

End AdminService.

Module AdminOrdersPage.

Record PageState := mkPageState {
  selectedOrder : option (Z * OrderRow);
  isDetailsOpen : bool
}.

(** [onValueChange={(value) => handleStatusChange(order.id, value)}]: the
    mutation calls [updateOrderStatus]; on success the order list is
    refetched. *)
Definition handleStatusChange (id : Z) (status : string) : M AdminService.StatusResult :=
  AdminService.updateOrderStatus id status.

Definition viewOrderDetails (o : Z * OrderRow) (st : PageState) : PageState :=
  mkPageState (Some o) true.

(** [<Dialog open={isDetailsOpen} onOpenChange={setIsDetailsOpen}>]. *)
Definition setIsDetailsOpen (b : bool) (st : PageState) : PageState :=
  mkPageState (selectedOrder st) b.

End AdminOrdersPage.

(** ** Statuses in the store *)

Section Statuses.
Import OrderStatus AdminService AdminOrdersPage.

(** Every stored order has one of the five statuses. *)
Definition statuses_valid (d : DB) : Prop :=
  map_Forall (fun _ o => parse_status (o_status o) <> None) (orders d).

Lemma orders_unchanged_preserves {A} (exec : DB -> Resp A * DB) :
  (forall d, orders (exec d).2 = orders d) -> preserves statuses_valid (request exec).
Proof. intros E; apply request_preserves; intros d Hd; unfold statuses_valid; now rewrite E. Qed.

Lemma statuses_valid_insert (d : DB) (i : Z) (o : OrderRow) :
  statuses_valid d -> parse_status (o_status o) <> None ->
  map_Forall (fun _ o => parse_status (o_status o) <> None) (<[i := o]> (orders d)).
Proof. intros Hd Ho; now apply map_Forall_insert_2. Qed.

Lemma insertLines_statuses (oid now : Z) (items : list OrderService.OrderLine) :
  preserves statuses_valid (OrderService.insertLines oid now items).
Proof.
  induction items as [|item items IH]; simpl; [apply ret_preserves |].
  apply bind_preserves; [| intros _; exact IH].
  apply orders_unchanged_preserves; reflexivity.
Qed.

#[local] Hint Resolve ret_preserves insertLines_statuses : shop.

(** A delivered order of user "u1" under id 5. *)
Definition delivered_order : OrderRow :=
  mkOrderRow "u1" "delivered" (707 # 1) "12 MG Road" "Pune" "MH" "411001" "India" "Cash on Delivery".
Definition db_admin : DB := mkDB ∅ ∅ ∅ {[5%Z := delivered_order]} ∅ ∅ ∅ ∅ ∅ ∅ 6.

End Statuses.
