(* ===== verification/BookListing.v ===== *)
(** * BookListing: the catalogue page

    [Module BookListing] models [src/pages/BookListingPage.tsx]: its state
    (the filters, the page number and the query's data), the query it runs
    ([getAllBooks] with the page, a limit of 20, the search and the single
    selected category, by title), the effect that filters the fetched page
    by price and by view, the URL synchronisation in both directions, and
    the handlers of the filter panel and of the pagination.  React Query
    fetches again whenever the query key changes; [settle] runs that fetch
    and then the filter effect, as the page does after every change of
    state. *)

From S2P Require Import Prelude Book Store Filters BooksService.
From Stdlib Require Import Ascii String.

Set Warnings "-clear-no-such-hyp".

Open Scope Z_scope.

Module BookListing.

Inductive ViewType := ViewAll | ViewResell | ViewRent.

#[export] Instance ViewType_eq_dec : EqDecision ViewType.
Proof. solve_decision. Defined.

Record ListingState := mkListingState {
  filteredBooks : list Book;
  isFiltersOpen : bool;
  priceRange : Q * Q;
  searchQuery : string;
  selectedCategories : list string;
  viewType : ViewType;
  page : Z;
  booksData : option BooksService.BooksResult
}.

Definition limit : Z := 20.

Definition initialState : ListingState :=
  mkListingState [] false (0, 2000)%Q "" [] ViewAll 1 None.

(** [selectedCategories.length === 1 ? selectedCategories[0] : '']. *)
Definition queryCategory (cats : list string) : string :=
  match cats with [c] => c | _ => "" end.

(** The options the query passes to [getAllBooks]; they are its key. *)
Definition queryOf (st : ListingState) : BooksService.ListQuery :=
  BooksService.mkListQuery (page st) limit (searchQuery st) (queryCategory (selectedCategories st))
    "title" "asc".

(** [useQuery]: the data of the current key. *)
Definition fetchBooks (st : ListingState) : M ListingState :=
  r ← BooksService.getAllBooks (queryOf st);
  mret (mkListingState (filteredBooks st) (isFiltersOpen st) (priceRange st) (searchQuery st)
          (selectedCategories st) (viewType st) (page st) (Some r)).

(** [book.price >= priceRange[0] && book.price <= priceRange[1]]. *)
Definition inPriceRange (r : Q * Q) (b : Book) : bool :=
  Qle_bool r.1 (price b) && Qle_bool (price b) r.2.

Definition truthy (o : option bool) : bool := match o with Some true => true | _ => false end.

Definition inView (v : ViewType) (b : Book) : bool :=
  match v with
  | ViewAll => true
  | ViewResell => truthy (isAvailableForResell b)
  | ViewRent => truthy (hasRentOption b)
  end.

(** The effect on [booksData], [priceRange] and [viewType]. *)
Definition applyFilters (st : ListingState) : ListingState :=
  match booksData st with
  | None => st
  | Some d =>
      mkListingState
        (List.filter (inView (viewType st)) (List.filter (inPriceRange (priceRange st)) (BooksService.br_books d)))
        (isFiltersOpen st) (priceRange st) (searchQuery st) (selectedCategories st) (viewType st)
        (page st) (booksData st)
  end.

(** After a change of state: a new key fetches, then the filter effect
    runs. *)
Definition settle (old st : ListingState) : M ListingState :=
  if bool_decide (queryOf old = queryOf st) then mret (applyFilters st)
  else st' ← fetchBooks st; mret (applyFilters st').

(** ** Handlers *)

Definition setSearchQuery (s : string) (st : ListingState) : ListingState :=
  mkListingState (filteredBooks st) (isFiltersOpen st) (priceRange st) s
    (selectedCategories st) (viewType st) (page st) (booksData st).

Definition setViewType (v : ViewType) (st : ListingState) : ListingState :=
  mkListingState (filteredBooks st) (isFiltersOpen st) (priceRange st) (searchQuery st)
    (selectedCategories st) v (page st) (booksData st).

Definition setPriceRange (r : Q * Q) (st : ListingState) : ListingState :=
  mkListingState (filteredBooks st) (isFiltersOpen st) r (searchQuery st)
    (selectedCategories st) (viewType st) (page st) (booksData st).

Definition setSelectedCategories (cs : list string) (st : ListingState) : ListingState :=
  mkListingState (filteredBooks st) (isFiltersOpen st) (priceRange st) (searchQuery st)
    cs (viewType st) (page st) (booksData st).

Definition setPage (p : Z) (st : ListingState) : ListingState :=
  mkListingState (filteredBooks st) (isFiltersOpen st) (priceRange st) (searchQuery st)
    (selectedCategories st) (viewType st) p (booksData st).

Definition toggleFilters (st : ListingState) : ListingState :=
  mkListingState (filteredBooks st) (negb (isFiltersOpen st)) (priceRange st) (searchQuery st)
    (selectedCategories st) (viewType st) (page st) (booksData st).

(** Selecting a category deselects the others; clicking it again clears it. *)
Definition handleCategoryChange (c : string) (st : ListingState) : ListingState :=
  setSelectedCategories
    (if bool_decide (c ∈ selectedCategories st)
     then List.filter (fun c' => negb (bool_decide (c' = c))) (selectedCategories st)
     else [c]) st.

(** The filters go back to their defaults; the page number stays. *)
Definition clearFilters (st : ListingState) : ListingState :=
  mkListingState (filteredBooks st) (isFiltersOpen st) (0, 2000)%Q "" [] ViewAll (page st) (booksData st).

(** [if (booksData?.totalPages && page < booksData.totalPages)]. *)
Definition handleNextPage (st : ListingState) : ListingState :=
  match booksData st with
  | Some d =>
      match BooksService.br_totalPages d with
      | Some tp => if bool_decide (tp <> 0 /\ page st < tp) then setPage (page st + 1) st else st
      | None => st
      end
  | None => st
  end.

Definition handlePrevPage (st : ListingState) : ListingState :=
  if bool_decide (page st > 1) then setPage (page st - 1) st else st.

(** ** The URL *)

Definition viewName (v : ViewType) : string :=
  match v with ViewAll => "all" | ViewResell => "resell" | ViewRent => "rent" end.

Definition viewOfName (s : string) : option ViewType :=
  if bool_decide (s = "all") then Some ViewAll
  else if bool_decide (s = "resell") then Some ViewResell
  else if bool_decide (s = "rent") then Some ViewRent
  else None.

(** The effect writing the filters to the URL. *)
Definition paramsOf (st : ListingState) : list (string * string) :=
  (match selectedCategories st with [c] => [("category", c)] | _ => [] end) ++
  (if bool_decide (searchQuery st = "") then [] else [("query", searchQuery st)]) ++
  (if bool_decide (viewType st = ViewAll) then [] else [("view", viewName (viewType st))]).

(** [searchParams.get(key)]. *)
Definition getParam (params : list (string * string)) (key : string) : option string :=
  option_map snd (List.find (fun kv => bool_decide (kv.1 = key)) params).

(** The effect reading the URL; empty values are ignored ([if (category)]). *)
Definition initFromParams (params : list (string * string)) (st : ListingState) : ListingState :=
  let st := match getParam params "category" with
            | Some c => if bool_decide (c = "") then st else setSelectedCategories [c] st
            | None => st
            end in
  let st := match getParam params "query" with
            | Some q => if bool_decide (q = "") then st else setSearchQuery q st
            | None => st
            end in
  match getParam params "view" with
  | Some v => match viewOfName v with Some t => setViewType t st | None => st end
  | None => st
  end.

(** ** Properties *)

(** (C27) Typing a search keeps the page number: on page [p], a search with
    [n > 0] matching books but fewer than [(p - 1) * 20] asks for a range
    past its results, which the backend refuses; the page shows no book at
    all, has no page count (so no pagination), and [Next] does nothing. *)
Theorem search_keeps_stale_page (st : ListingState) (s : string) (d : DB)
    (matches : DbBook -> bool) :
  s <> searchQuery st ->
  BooksService.search_filter s = Some matches ->
  let n := Z.of_nat (List.length (BooksService.catalog (queryOf (setSearchQuery s st)) matches d)) in
  0 < n -> n < (page st - 1) * limit ->
  let st' := (run (settle st (setSearchQuery s st)) (mkWorld d [])).1 in
  filteredBooks st' = [] /\ page st' = page st /\
  booksData st' = Some (BooksService.books_failed "Requested range not satisfiable") /\
  handleNextPage st' = st'.
Proof.
  intros Hne Hs n Hpos Hlt; unfold settle.
  rewrite bool_decide_eq_false_2 by (intros E; injection E; congruence).
  unfold fetchBooks; rewrite !run_bind.
  rewrite (BooksService.run_getAllBooks_past_end (queryOf (setSearchQuery s st)) d matches Hs Hlt).
  repeat split; reflexivity.
Qed.

(** The page number stays at least 1, and [Next] only moves to a page
    the last answer counted. *)
Theorem pagination_bounds (st : ListingState) :
  1 <= page st ->
  1 <= page (handlePrevPage st) /\ 1 <= page (handleNextPage st) /\
  (page (handleNextPage st) = page st \/
   exists d tp, booksData st = Some d /\ BooksService.br_totalPages d = Some tp /\
                page (handleNextPage st) = page st + 1 /\ page (handleNextPage st) <= tp).
Proof.
  intros Hp; unfold handlePrevPage, handleNextPage.
  split; [case_bool_decide; simpl; lia |].
  destruct (booksData st) as [d|]; [| split; [lia | now left]].
  destruct (BooksService.br_totalPages d) as [tp|] eqn:Htp; [| split; [lia | now left]].
  case_bool_decide as Hc; simpl; [| split; [lia | now left]].
  split; [lia | right; exists d, tp; repeat split; [exact Htp | lia]].
Qed.

(** At most one category is ever selected: selecting one replaces the
    selection and selecting it again clears it. *)
Theorem handleCategoryChange_single (c : string) (st : ListingState) :
  (List.length (selectedCategories st) <= 1)%nat ->
  (List.length (selectedCategories (handleCategoryChange c st)) <= 1)%nat /\
  (selectedCategories (handleCategoryChange c st) = [c] \/
   selectedCategories (handleCategoryChange c st) = []).
Proof.
  intros Hl; unfold handleCategoryChange, setSelectedCategories; simpl.
  case_bool_decide as Hin; [| simpl; auto].
  destruct (selectedCategories st) as [|x [|y l]]; simpl in *; try lia.
  - set_solver.
  - apply list_elem_of_singleton in Hin as ->; rewrite bool_decide_eq_true_2 by reflexivity.
    simpl; auto.
Qed.

(** The URL written from the filters restores them: reading back the
    parameters of a state with at most one (non-empty) category gives its
    search, its category and its view. *)
Theorem url_roundtrip (st : ListingState) :
  (List.length (selectedCategories st) <= 1)%nat -> "" ∉ selectedCategories st ->
  let st' := initFromParams (paramsOf st) initialState in
  searchQuery st' = searchQuery st /\ selectedCategories st' = selectedCategories st /\
  viewType st' = viewType st.
Proof.
  intros Hl Hne; unfold paramsOf.
  assert (Hc : forall c, selectedCategories st = [c] -> c <> ""%string).
  { intros c E Ec; apply Hne; rewrite E, Ec; left. }
  destruct (selectedCategories st) as [|c [|c' l]] eqn:Hs; simpl in Hl; try lia;
    case_bool_decide as Hq; destruct (viewType st) eqn:Hv;
    unfold initFromParams, getParam; simpl;
    repeat (rewrite ?bool_decide_eq_true_2 by reflexivity; rewrite ?bool_decide_eq_false_2 by discriminate;
            simpl);
    try rewrite (bool_decide_eq_false_2 _ (Hc c eq_refl));
    try rewrite (bool_decide_eq_false_2 _ Hq); simpl; auto.
Qed.

(** ** Concrete runs *)

(** The catalogue page on page 3 with no filter. *)
Definition st_page3 : ListingState := mkListingState [] false (0, 2000)%Q "" [] ViewAll 3 None.

(** The matcher of the search "a". *)
Definition matches_a : DbBook -> bool :=
  fun b => existsb (fun c => BooksService.cond_holds c b)
             [("title", "ilike", "%a%"); ("author", "ilike", "%a%")]%string.

Lemma search_keeps_stale_page_witness :
  let n := Z.of_nat (List.length (BooksService.catalog (queryOf (setSearchQuery "a" st_page3)) matches_a
                                    BooksService.db_shop)) in
  0 < n /\
  let st' := (run (settle st_page3 (setSearchQuery "a" st_page3)) (mkWorld BooksService.db_shop [])).1 in
  filteredBooks st' = [] /\ page st' = page st_page3 /\
  booksData st' = Some (BooksService.books_failed "Requested range not satisfiable") /\
  handleNextPage st' = st'.
Proof.
  split; [vm_compute; reflexivity |].
  apply (search_keeps_stale_page st_page3 "a" BooksService.db_shop matches_a);
    [discriminate | reflexivity | vm_compute; reflexivity | vm_compute; reflexivity].
Defined.

Lemma pagination_bounds_witness :
  1 <= page (handlePrevPage st_page3) /\ 1 <= page (handleNextPage st_page3) /\
  (page (handleNextPage st_page3) = page st_page3 \/
   exists d tp, booksData st_page3 = Some d /\ BooksService.br_totalPages d = Some tp /\
                page (handleNextPage st_page3) = page st_page3 + 1 /\ page (handleNextPage st_page3) <= tp).
Proof. apply pagination_bounds; vm_compute; discriminate. Defined.

Lemma handleCategoryChange_single_witness :
  (List.length (selectedCategories (handleCategoryChange "Fiction" st_page3)) <= 1)%nat /\
  (selectedCategories (handleCategoryChange "Fiction" st_page3) = ["Fiction"%string] \/
   selectedCategories (handleCategoryChange "Fiction" st_page3) = []).
Proof. apply handleCategoryChange_single; simpl; lia. Defined.

Lemma url_roundtrip_witness :
  let st := mkListingState [] false (0, 2000)%Q "dune" ["Fiction"%string] ViewRent 1 None in
  let st' := initFromParams (paramsOf st) initialState in
  searchQuery st' = searchQuery st /\ selectedCategories st' = selectedCategories st /\
  viewType st' = viewType st.
Proof. apply url_roundtrip; [simpl; lia | simpl; set_solver]. Defined.

End BookListing.
