(* ===== verification/UserService.v ===== *)
(** * UserService: profiles, reviews and resell requests

    The calls of [src/services/userService.ts]: [getUserProfile] and
    [updateUserProfile] on the [profiles] table, [submitResellRequest] on
    [resell_requests], [submitReview] with its helper [updateBookRating] on
    [reviews] and [books], and [getUserProfiles].  Every call is a
    computation of the store monad [M] of [Store]; a caught error becomes
    the [error] field of the result, as the code's [try]/[catch] does.

    The theorems show that [submitReview] keeps the book's [rating] and
    [reviews] columns equal to the average and number of its reviews, that
    it keeps one review per user and book when its lookup is answered, and
    that a failed lookup inserts a second review. *)

From S2P Require Import Prelude Book Store Filters.
From Stdlib Require Import Ascii String.
From stdpp Require Import sorting pretty.

Open Scope Z_scope.

Module UserService.

(** [userId || '00000000-0000-0000-0000-000000000000']: an empty id is
    replaced by the fixed demo id. *)
Definition default_user_id : string := "00000000-0000-0000-0000-000000000000".

Definition userToUse (userId : string) : string :=
  if bool_decide (userId = "") then default_user_id else userId.

(** ** Profiles *)

Definition set_profiles (t : gmap string ProfileRow) (d : DB) : DB :=
  mkDB (books d) (carts d) (cart_items d) (orders d) (order_items d) (categories d)
    (reviews d) (resell_requests d) (testimonials d) t (next_id d).

(** [{ profile, error }]. *)
Record ProfileResult := mkProfileResult {
  profile : option ProfileRow;
  profile_error : option string
}.

Definition profile_result (r : Resp ProfileRow) : ProfileResult :=
  match r with
  | RespOk p => mkProfileResult (Some p) None
  | RespErr e => mkProfileResult None (Some (message e))
  end.

(** [.from("profiles").select("*").eq("id", userId).single()]. *)
Definition select_profile (userId : string) : M (Resp ProfileRow) :=
  request (fun d =>
    match profiles d !! userId with
    | Some p => (RespOk p, d)
    | None => (RespErr wrong_row_count, d)
    end).

Definition getUserProfile (userId : string) : M ProfileResult :=
  r ← select_profile userId; mret (profile_result r).

(** The [profileData] object; a key left out is [None] and its column is
    not written.  [.update] sends every key the object has: the profile
    page passes its form, which also carries [email]. *)
Record ProfileData := mkProfileData {
  pd_first_name : option string;
  pd_last_name : option string;
  pd_phone : option string;
  pd_address : option string;
  pd_email : option string
}.

Definition patch (v old : option string) : option string :=
  match v with Some x => Some x | None => old end.

Definition apply_profileData (pd : ProfileData) (p : ProfileRow) : ProfileRow :=
  mkProfileRow (patch (pd_first_name pd) (p_first_name p)) (patch (pd_last_name pd) (p_last_name p))
    (patch (pd_email pd) (p_email p)) (patch (pd_phone pd) (p_phone p)) (patch (pd_address pd) (p_address p))
    (p_created_at p).

(** [.update(profileData).eq("id", userId).select().single()]. *)
Definition updateUserProfile (userId : string) (pd : ProfileData) : M ProfileResult :=
  r ← request (fun d =>
        match profiles d !! userId with
        | Some p =>
            let p' := apply_profileData pd p in
            (RespOk p', set_profiles (<[userId := p']> (profiles d)) d)
        | None => (RespErr wrong_row_count, d)
        end);
  mret (profile_result r).

(** [.order("created_at", { ascending: false })]: nulls first. *)
Definition created_at_key (p : ProfileRow) : SortVal :=
  match p_created_at p with Some s => SStr s | None => SNull end.

(** [{ profiles, error }]. *)
Definition getUserProfiles : M (list (string * ProfileRow) * option string) :=
  r ← request (fun d =>
        (RespOk (merge_sort (order_by created_at_key false) (map_to_list (profiles d))), d));
  match r with
  | RespErr e => mret ([], Some (message e))
  | RespOk ps => mret (ps, None)
  end.

(** ** Resell requests *)

(** The argument object of [submitResellRequest]. *)
Record ResellInput := mkResellInput {
  ri_userId : string;
  ri_bookTitle : string;
  ri_bookAuthor : string;
  ri_bookIsbn : option string;
  ri_bookCondition : string;
  ri_askingPrice : option Q;
  ri_description : option string;
  ri_contactPhone : string;
  ri_imageUrls : list string
}.

(** The inserted row: status ["pending"], and [image_urls] null when no
    url is given. *)
Definition resellRow (x : ResellInput) : ResellRequestRow :=
  mkResellRequestRow (userToUse (ri_userId x)) (ri_bookTitle x) (ri_bookAuthor x)
    (ri_bookIsbn x) (ri_bookCondition x) (ri_askingPrice x) (ri_contactPhone x)
    (ri_description x) "pending"
    (match ri_imageUrls x with [] => None | l => Some l end).

(** [{ request, error }]. *)
Record ResellResult := mkResellResult {
  resell_request : option (Z * ResellRequestRow);
  resell_error : option string
}.

Definition submitResellRequest (x : ResellInput) : M ResellResult :=
  r ← insert_select (resellRow x);
  match r with
  | RespErr e => mret (mkResellResult None (Some (message e)))
  | RespOk row => mret (mkResellResult (Some row) None)
  end.

(** ** Images of a resell request *)

(** A browser [File]: its name, MIME type and size in bytes; the contents
    are not modelled. *)
Record File := mkFile { file_name : string; file_type : string; file_size : Z }.

(** The [resell-images] bucket, and a script of upload failures like the
    one of the [World]. *)
Record Bucket := mkBucket { objects : gmap string File; upload_faults : list (option PgError) }.

(** [file.name.split('.').pop()]: the text after the last dot, or the
    whole name when it has none. *)
Definition fileExt (name : string) : string := List.last (split_on "." name) ""%string.

(** [`${resellRequestId}/${resellRequestId}_${index}.${fileExt}`]. *)
Definition resellFilePath (resellRequestId : string) (index : nat) (f : File) : string :=
  (resellRequestId ++ "/" ++ resellRequestId ++ "_" ++ pretty index ++ "." ++ fileExt (file_name f))%string.

(** [getPublicUrl(filePath).data.publicUrl]: the bucket's public prefix
    followed by the path. *)
Definition publicUrl (path : string) : string :=
  ("/storage/v1/object/public/resell-images/" ++ path)%string.

(** [.upload(filePath, file, { upsert: false })]: an existing object at the
    path is an error; an error gives [null]. *)
Definition uploadResellImage (resellRequestId : string) (f : File) (index : nat) (b : Bucket)
    : option string * Bucket :=
  let path := resellFilePath resellRequestId index f in
  let '(fault, fs) := pop (upload_faults b) in
  match fault with
  | Some _ => (None, mkBucket (objects b) fs)
  | None =>
      if bool_decide (is_Some (objects b !! path)) then (None, mkBucket (objects b) fs)
      else (Some (publicUrl path), mkBucket (<[path := f]> (objects b)) fs)
  end.

(** [Promise.all(imageFiles.map((file, index) => uploadResellImage(id, file, index)))]:
    one upload per file, the results in the order of the files. *)
Fixpoint uploadFrom (resellRequestId : string) (index : nat) (files : list File) (b : Bucket)
    : list (option string) * Bucket :=
  match files with
  | [] => ([], b)
  | f :: fs =>
      let '(r, b1) := uploadResellImage resellRequestId f index b in
      let '(rs, b2) := uploadFrom resellRequestId (S index) fs b1 in
      (r :: rs, b2)
  end.

Definition uploadAll (resellRequestId : string) (files : list File) (b : Bucket)
    : list (option string) * Bucket :=
  uploadFrom resellRequestId 0 files b.

(** ** Reviews *)

(** [.eq("user_id", userToUse).eq("book_id", bookId)]. *)
Definition review_by (u : string) (bookId : Z) (_ : Z) (r : ReviewRow) : bool :=
  bool_decide (rv_user_id r = u) && bool_decide (rv_book_id r = bookId).

(** [.eq("book_id", bookId)]. *)
Definition of_book (bookId : Z) (_ : Z) (r : ReviewRow) : bool :=
  bool_decide (rv_book_id r = bookId).

(** [reviews.reduce((sum, review) => sum + (review.rating || 0), 0)];
    [rating] is a non-null integer, on which [|| 0] is the identity. *)
Definition totalRating (rs : list (Z * ReviewRow)) : Q :=
  fold_left (fun sum ir => (sum + inject_Z (rv_rating ir.2))%Q) rs 0%Q.

Definition averageRating (rs : list (Z * ReviewRow)) : Q :=
  (totalRating rs / inject_Z (Z.of_nat (length rs)))%Q.

(** [.update({ rating, reviews })]. *)
Definition with_book_rating (avg : Q) (n : Z) (b : DbBook) : DbBook :=
  mkDbBook (db_author b) (db_binding b) (db_category_id b) (db_cover_image b) (db_description b)
    (db_edition b) (db_has_free_delivery b) (db_has_rent_option b) (db_id b)
    (db_is_available_for_resell b) (db_is_new b) (db_isbn b) (db_language b)
    (db_original_price b) (db_page_count b) (db_price b) (db_publication_date b)
    (db_publisher b) (Some avg) (Some n) (db_stock_status b) (db_title b).

(** No answer ([!reviews]) or no review: nothing is written; the result of
    the update is not read. *)
Definition updateBookRating (bookId : Z) : M unit :=
  r ← select ReviewRow (of_book bookId);
  match r with
  | RespOk ((_ :: _) as rs) =>
      _ ← update_eq_id (R := DbBook) bookId
            (with_book_rating (averageRating rs) (Z.of_nat (length rs)));
      mret ()
  | _ => mret ()
  end.

(** [{ review, error }]. *)
Record ReviewResult := mkReviewResult {
  review : option (Z * ReviewRow);
  review_error : option string
}.

(** [.update({ rating, comment })]. *)
Definition set_review (rating : Z) (comment : string) (r : ReviewRow) : ReviewRow :=
  mkReviewRow (rv_book_id r) (rv_user_id r) rating (Some comment).

(** The lookup's error is not read: only its [data] decides between the
    update and the insert branch, whose tails are the same. *)
Definition submitReview (userId : string) (bookId : Z) (rating : Z) (comment : string)
    : M ReviewResult :=
  let u := userToUse userId in
  ex ← select_maybeSingle ReviewRow (review_by u bookId);
  r ← match resp_data ex with
       | Some (Some (rid, _)) => update_by_id rid (set_review rating comment)
       | _ => insert_select (mkReviewRow bookId u rating (Some comment))
       end;
  match r with
  | RespErr e => mret (mkReviewResult None (Some (message e)))
  | RespOk row => _ ← updateBookRating bookId; mret (mkReviewResult (Some row) None)
  end.

(** ** The stored rating *)

(** The book's [rating] and [reviews] columns are the average and the
    number of its reviews. *)
Definition rating_synced (bookId : Z) (d : DB) : Prop :=
  forall b, books d !! bookId = Some b ->
    db_rating b = Some (averageRating (rows_where (of_book bookId) d)) /\
    db_reviews b = Some (Z.of_nat (length (rows_where (of_book bookId) d))).

(** At most one review per user and book. *)
Definition reviews_unique (d : DB) : Prop :=
  forall i j ri rj, reviews d !! i = Some ri -> reviews d !! j = Some rj ->
    rv_user_id ri = rv_user_id rj -> rv_book_id ri = rv_book_id rj -> i = j.

Lemma totalRating_sum (rs : list (Z * ReviewRow)) :
  (totalRating rs == sumQ (map (fun ir => inject_Z (rv_rating ir.2)) rs))%Q.
Proof.
  unfold totalRating.
  rewrite (fold_left_additive _ (fun ir => inject_Z (rv_rating ir.2))) by (intros; reflexivity).
  ring.
Qed.

Lemma averageRating_bounds (lo hi : Z) (rs : list (Z * ReviewRow)) :
  rs <> [] -> Forall (fun ir => lo <= rv_rating ir.2 <= hi) rs ->
  (inject_Z lo <= averageRating rs <= inject_Z hi)%Q.
Proof.
  intros Hne Hall; unfold averageRating; rewrite totalRating_sum.
  assert (Hn : (0 < inject_Z (Z.of_nat (length rs)))%Q).
  { destruct rs; [congruence |]; simpl length; change 0%Q with (inject_Z 0); rewrite <- Zlt_Qlt; lia. }
  pose proof (sumQ_const (inject_Z lo) rs) as Clo; pose proof (sumQ_const (inject_Z hi) rs) as Chi.
  assert (Hlo : (sumQ (map (fun _ => inject_Z lo) rs) <=
                 sumQ (map (fun ir => inject_Z (rv_rating ir.2)) rs))%Q).
  { apply sumQ_map_le_Forall; eapply Forall_impl; [exact Hall |]; intros x Hx; cbv beta in *; rewrite <- Zle_Qle; lia. }
  assert (Hhi : (sumQ (map (fun ir => inject_Z (rv_rating ir.2)) rs) <=
                 sumQ (map (fun _ => inject_Z hi) rs))%Q).
  { apply sumQ_map_le_Forall; eapply Forall_impl; [exact Hall |]; intros x Hx; cbv beta in *; rewrite <- Zle_Qle; lia. }
  split; [apply Qle_shift_div_l | apply Qle_shift_div_r]; auto; lra.
Qed.

(** [updateBookRating] writes the [books] table only. *)
Lemma updateBookRating_preserves (bookId : Z) (P : DB -> Prop) :
  (forall d t, P d -> P (tbl_set (R := DbBook) t d)) -> preserves P (updateBookRating bookId).
Proof.
  intros HP; unfold updateBookRating; apply bind_preserves; [apply request_preserves; auto |].
  intros [[|x rs]|e]; try apply ret_preserves.
  apply bind_preserves; [| intros; apply ret_preserves].
  apply request_preserves; intros d Hd; cbv beta.
  destruct (tbl_get (R := DbBook) d !! bookId); [now apply HP | exact Hd].
Qed.

Lemma updateBookRating_faults (bookId : Z) (w : World) :
  faults w = [] -> faults (run (updateBookRating bookId) w).2 = [].
Proof.
  intros Hf; unfold updateBookRating.
  rewrite (run_bind_eq _ _ _ _ _ (run_select_ok (R := ReviewRow) _ w ltac:(now rewrite Hf))).
  rewrite Hf; destruct (rows_where (of_book bookId) (db w)) as [|x rs]; [reflexivity |].
  rewrite run_bind, (run_update_eq_id_ok (R := DbBook)) by reflexivity; reflexivity.
Qed.

Lemma updateBookRating_synced (bookId : Z) (w : World) :
  faults w = [] -> rows_where (of_book bookId) (db w) <> [] ->
  rating_synced bookId (db (run (updateBookRating bookId) w).2).
Proof.
  intros Hf Hne; unfold updateBookRating.
  rewrite (run_bind_eq _ _ _ _ _ (run_select_ok (R := ReviewRow) _ w ltac:(now rewrite Hf))).
  rewrite Hf; destruct (rows_where (of_book bookId) (db w)) as [|x rs] eqn:E; [congruence |].
  rewrite run_bind, (run_update_eq_id_ok (R := DbBook)) by reflexivity; simpl.
  intros b; destruct (books (db w) !! bookId) as [b0|] eqn:B; simpl.
  - rewrite lookup_insert_eq; intros [= <-]; simpl.
    erewrite rows_where_ext, E; [split; reflexivity | reflexivity].
  - rewrite B; discriminate.
Qed.

Lemma review_by_true (u : string) (bookId i : Z) (r : ReviewRow) :
  review_by u bookId i r = true <-> rv_user_id r = u /\ rv_book_id r = bookId.
Proof. unfold review_by; rewrite andb_true_iff, !bool_decide_eq_true; reflexivity. Qed.

(** Writing one row into a table of unique reviews keeps it unique when no
    other row has the same user and book. *)
Lemma reviews_unique_set (d : DB) (n : Z) (row : ReviewRow) (d' : DB) :
  reviews_unique d ->
  (forall j r, reviews d !! j = Some r -> j <> n ->
     rv_user_id r = rv_user_id row -> rv_book_id r = rv_book_id row -> False) ->
  reviews d' = <[n := row]> (reviews d) -> reviews_unique d'.
Proof.
  intros Hu Hn E i j ri rj Hi Hj Hus Hbs; rewrite E in Hi, Hj.
  destruct (decide (i = n)) as [->|Hin], (decide (j = n)) as [->|Hjn]; [reflexivity | | |].
  - rewrite lookup_insert_eq in Hi; rewrite lookup_insert_ne in Hj by congruence.
    injection Hi as <-; exfalso; eapply Hn; eauto.
  - rewrite lookup_insert_eq in Hj; rewrite lookup_insert_ne in Hi by congruence.
    injection Hj as <-; exfalso; eapply Hn; eauto.
  - rewrite lookup_insert_ne in Hi, Hj by congruence; eauto.
Qed.

(** What follows the write in [submitReview] touches the [books] table
    only. *)
Lemma submitReview_tail_preserves (bookId : Z) (P : DB -> Prop)
    (c : M (Resp (Z * ReviewRow))) (w : World) :
  (forall d t, P d -> P (tbl_set (R := DbBook) t d)) -> P (db (run c w).2) ->
  P (db (run (r ← c;
              match r with
              | RespErr e => mret (mkReviewResult None (Some (message e)))
              | RespOk row => _ ← updateBookRating bookId; mret (mkReviewResult (Some row) None)
              end) w).2).
Proof.
  intros HP Hc; rewrite run_bind; destruct (run c w) as [[row|e] w1]; simpl in *; [| exact Hc].
  rewrite run_bind; pose proof (updateBookRating_preserves bookId P HP w1 Hc) as H1.
  destruct (run (updateBookRating bookId) w1); exact H1.
Qed.

(** Every stored rating lies in [[lo, hi]]. *)
Definition ratings_within (lo hi : Z) (d : DB) : Prop :=
  forall i r, reviews d !! i = Some r -> lo <= rv_rating r <= hi.

Lemma lookup_review_of_maybeSingle (u : string) (bookId rid : Z) (r : ReviewRow) (d : DB) :
  resp_data (maybeSingle (rows_where (review_by u bookId) d)) = Some (Some (rid, r)) ->
  reviews d !! rid = Some r /\ rv_user_id r = u /\ rv_book_id r = bookId.
Proof.
  intros E; apply maybeSingle_some in E.
  assert (Hin : In (rid, r) (rows_where (review_by u bookId) d)) by (rewrite E; now left).
  apply (rows_where_In (R := ReviewRow)) in Hin as [Hl HP]; apply review_by_true in HP; tauto.
Qed.

(** The run of [submitReview] on a world where every request is answered,
    up to the write. *)
Lemma submitReview_write (userId : string) (bookId rating : Z) (comment : string) (w : World) :
  faults w = [] ->
  exists k rv w1,
    run (submitReview userId bookId rating comment) w =
      run (_ ← updateBookRating bookId; mret (mkReviewResult (Some (k, rv)) None)) w1 /\
    faults w1 = [] /\ reviews (db w1) !! k = Some rv /\ rv_book_id rv = bookId /\
    rv_user_id rv = userToUse userId /\ rv_rating rv = rating /\
    (forall i r, i <> k -> reviews (db w1) !! i = Some r -> reviews (db w) !! i = Some r).
Proof.
  intros Hf; unfold submitReview.
  rewrite (run_bind_eq _ _ _ _ _ (run_select_maybeSingle_ok (R := ReviewRow) _ w ltac:(now rewrite Hf))).
  rewrite Hf; cbn [pop fst snd].
  set (ex := maybeSingle _).
  destruct (resp_data ex) as [[[rid r]|]|] eqn:E.
  - apply lookup_review_of_maybeSingle in E as (Hl & Hu & Hb).
    rewrite run_bind, (run_update_by_id_ok (R := ReviewRow) rid _ _ r) by auto; cbn.
    do 3 eexists; split; [reflexivity |]; simpl; rewrite lookup_insert_eq.
    repeat split; auto; intros i r' Hne; rewrite lookup_insert_ne by congruence; auto.
  - rewrite run_bind, (run_insert_select_ok (R := ReviewRow)) by reflexivity; cbn.
    do 3 eexists; split; [reflexivity |]; simpl; rewrite lookup_insert_eq.
    repeat split; auto; intros i r' Hne; rewrite lookup_insert_ne by congruence; auto.
  - rewrite run_bind, (run_insert_select_ok (R := ReviewRow)) by reflexivity; cbn.
    do 3 eexists; split; [reflexivity |]; simpl; rewrite lookup_insert_eq.
    repeat split; auto; intros i r' Hne; rewrite lookup_insert_ne by congruence; auto.
Qed.

Lemma submitReview_synced (userId : string) (bookId rating : Z) (comment : string) (w : World) :
  faults w = [] ->
  rating_synced bookId (db (run (submitReview userId bookId rating comment) w).2) /\
  exists k rv, reviews (db (run (submitReview userId bookId rating comment) w).2) !! k = Some rv /\
    rv_book_id rv = bookId /\ rv_user_id rv = userToUse userId /\ rv_rating rv = rating /\
    (forall i r, i <> k -> reviews (db (run (submitReview userId bookId rating comment) w).2) !! i = Some r ->
       reviews (db w) !! i = Some r).
Proof.
  intros Hf; destruct (submitReview_write userId bookId rating comment w Hf)
    as (k & rv & w1 & -> & Hf1 & Hk & Hb & Hu & Hr & Hold).
  assert (Hrev : reviews (db (run (updateBookRating bookId) w1).2) = reviews (db w1)).
  { apply (updateBookRating_preserves bookId (fun d => reviews d = reviews (db w1)));
      [intros d t E; exact E | reflexivity]. }
  assert (Hne : rows_where (of_book bookId) (db w1) <> []).
  { intros E; assert (Hin : In (k, rv) (rows_where (of_book bookId) (db w1)))
      by (apply rows_where_In; split; [exact Hk | now apply bool_decide_eq_true]).
    rewrite E in Hin; destruct Hin. }
  pose proof (updateBookRating_synced bookId w1 Hf1 Hne) as Hs.
  rewrite run_bind.
  destruct (run (updateBookRating bookId) w1) as [[] w2]; simpl in *.
  split; [exact Hs |]; rewrite Hrev; eauto 10.
Qed.

Lemma rating_synced_within (lo hi bookId : Z) (d : DB) (b : DbBook) :
  rating_synced bookId d -> ratings_within lo hi d -> books d !! bookId = Some b ->
  rows_where (of_book bookId) d <> [] ->
  exists q, db_rating b = Some q /\ (inject_Z lo <= q <= inject_Z hi)%Q.
Proof.
  intros Hs Hw Hb Hne; destruct (Hs b Hb) as [-> _]; eexists; split; [reflexivity |].
  apply averageRating_bounds; [exact Hne |]; apply List.Forall_forall; intros [i r] Hin.
  apply (rows_where_In (R := ReviewRow)) in Hin as [Hl _]; exact (Hw i r Hl).
Qed.

(** (C3) After [submitReview] on a world where every request is
    answered, the reviewed book's [rating] is the average of the ratings
    of all its reviews and its [reviews] their number, and the submitted
    rating is one of them, under the review of the user. *)
Theorem submitReview_updates_book_rating (userId : string) (bookId rating : Z) (comment : string)
    (w : World) (b : DbBook) :
  faults w = [] ->
  books (db (run (submitReview userId bookId rating comment) w).2) !! bookId = Some b ->
  let rs := rows_where (of_book bookId) (db (run (submitReview userId bookId rating comment) w).2) in
  db_rating b = Some (averageRating rs) /\ db_reviews b = Some (Z.of_nat (length rs)) /\
  exists k rv, In (k, rv) rs /\ rv_user_id rv = userToUse userId /\ rv_rating rv = rating.
Proof.
  intros Hf Hb rs; destruct (submitReview_synced userId bookId rating comment w Hf)
    as [Hs (k & rv & Hk & Hbk & Hu & Hr & _)].
  destruct (Hs b Hb) as [H1 H2]; split; [exact H1 | split; [exact H2 |]].
  exists k, rv; repeat split; auto; apply rows_where_In; split; [exact Hk | now apply bool_decide_eq_true].
Qed.

(** (C21) Ratings stay between one and five: when every stored rating and
    the submitted one lie in [[1, 5]] and every request is answered, the
    book's stored rating after [submitReview] lies in [[1, 5]]. *)
Theorem submitReview_rating_bounds (userId : string) (bookId rating : Z) (comment : string)
    (w : World) (b : DbBook) :
  faults w = [] -> ratings_within 1 5 (db w) -> 1 <= rating <= 5 ->
  books (db (run (submitReview userId bookId rating comment) w).2) !! bookId = Some b ->
  exists q, db_rating b = Some q /\ (1 <= q <= 5)%Q.
Proof.
  intros Hf Hw Hr Hb.
  destruct (submitReview_synced userId bookId rating comment w Hf) as [Hs (k & rv & Hk & Hbk & _ & Hrv & Hold)].
  apply (rating_synced_within 1 5 bookId _ b Hs); [| exact Hb |].
  - intros i r Hi; destruct (decide (i = k)) as [->|Hne]; [rewrite Hk in Hi; injection Hi as <-; lia |].
    exact (Hw i r (Hold i r Hne Hi)).
  - intros E; assert (Hin : In (k, rv) (rows_where (of_book bookId)
                              (db (run (submitReview userId bookId rating comment) w).2)))
      by (apply rows_where_In; split; [exact Hk | now apply bool_decide_eq_true]).
    rewrite E in Hin; destruct Hin.
Qed.

(** (C20) One review per user and book: when the lookup of [submitReview]
    is answered, a table holding at most one review per user and book
    still does afterwards, whatever the later requests answer. *)
Theorem submitReview_keeps_reviews_unique (userId : string) (bookId rating : Z) (comment : string)
    (w : World) :
  reviews_unique (db w) -> (pop (faults w)).1 = None ->
  reviews_unique (db (run (submitReview userId bookId rating comment) w).2).
Proof.
  intros Hu Hok; unfold submitReview.
  rewrite (run_bind_eq _ _ _ _ _ (run_select_maybeSingle_ok (R := ReviewRow) _ w Hok)).
  apply submitReview_tail_preserves; [intros d t H; exact H |].
  set (u := userToUse userId); set (w1 := mkWorld (db w) (pop (faults w)).2).
  destruct (resp_data (maybeSingle (rows_where (review_by u bookId) (db w)))) as [[[rid r]|]|] eqn:E.
  - apply lookup_review_of_maybeSingle in E as (Hl & Hus & Hbs).
    destruct (update_by_id_db (R := ReviewRow) rid (set_review rating comment) w1)
      as [E1|(r0 & Hl0 & E1)]; rewrite E1; [exact Hu |].
    simpl in Hl0; rewrite Hl in Hl0; injection Hl0 as <-.
    eapply reviews_unique_set; [exact Hu | | reflexivity].
    intros j rj Hj Hne Hu' Hb'; apply Hne; eapply Hu; eauto.
  - apply maybeSingle_none in E.
    destruct (insert_select_db (R := ReviewRow) (mkReviewRow bookId u rating (Some comment)) w1)
      as [E1|E1]; rewrite E1; [exact Hu |].
    eapply reviews_unique_set; [exact Hu | | reflexivity].
    intros j rj Hj _ Hu' Hb'.
    assert (Hin : In (j, rj) (rows_where (review_by u bookId) (db w)))
      by (apply rows_where_In; split; [exact Hj | now apply review_by_true]).
    rewrite E in Hin; destruct Hin.
  - exfalso; apply maybeSingle_err in E as (x & y & l & E).
    destruct (rows_where_at_most_one (R := ReviewRow) (review_by u bookId) (db w))
      as [E'|(i & r & E' & _)]; [| congruence | congruence].
    intros i j ri rj Hi Hj Pi Pj; apply review_by_true in Pi as [? ?], Pj as [? ?].
    eapply Hu; eauto; congruence.
Qed.

(** ** Upload paths *)

Lemma pretty_N_char_not_dot (y : N) : Ascii.eqb "." (pretty_N_char y) = false.
Proof. destruct y as [|p]; [reflexivity |]; do 4 (try (destruct p as [p|p|]; try reflexivity)). Qed.

Lemma pretty_N_go_no_dot (x : N) (s : string) :
  has_char "." (pretty_N_go x s) = has_char "." s.
Proof.
  revert s; induction (N.lt_wf_0 x) as [x _ IH]; intros s.
  destruct (decide (x = 0%N)) as [->|Hx]; [now rewrite pretty_N_go_0 |].
  rewrite pretty_N_go_step by lia; rewrite IH by (apply N.div_lt; lia); cbn [has_char].
  now rewrite pretty_N_char_not_dot.
Qed.

Lemma pretty_nat_no_dot (n : nat) : has_char "." (pretty n) = false.
Proof.
  cbv [pretty pretty_nat pretty_N]; case_decide; [reflexivity |].
  now rewrite pretty_N_go_no_dot.
Qed.

Lemma string_app_inj_l (a x y : string) : (a ++ x)%string = (a ++ y)%string -> x = y.
Proof. induction a as [|c a IH]; [auto | rewrite !append_cons; intros [= E]; auto]. Qed.

(** Two strings without a dot, each followed by a dot: equal texts have
    equal prefixes. *)
Lemma dot_prefix_eq (a b x y : string) :
  has_char "." a = false -> has_char "." b = false ->
  (a ++ "." ++ x)%string = (b ++ "." ++ y)%string -> a = b.
Proof.
  revert b; induction a as [|c a IH]; intros [|c' b] Ha Hb E; [reflexivity | | |].
  - rewrite append_empty_l, append_cons in E; injection E as <- _; discriminate Hb.
  - rewrite append_empty_l, append_cons in E; injection E as -> _; discriminate Ha.
  - rewrite !append_cons in E; injection E as <- E; simpl in Ha, Hb.
    apply orb_false_iff in Ha as [_ Ha], Hb as [_ Hb]; f_equal; eauto.
Qed.

(** The files of one request are stored under distinct paths. *)
Lemma resellFilePath_index_inj (resellRequestId : string) (i j : nat) (f g : File) :
  resellFilePath resellRequestId i f = resellFilePath resellRequestId j g -> i = j.
Proof.
  unfold resellFilePath; intros E.
  do 4 apply string_app_inj_l in E.
  apply dot_prefix_eq in E; [| apply pretty_nat_no_dot | apply pretty_nat_no_dot].
  exact (pretty_nat_inj i j E).
Qed.

(** Uploading under a request id no stored path uses, with every upload
    answered: each file is stored, and its url returned in its place. *)
Lemma uploadFrom_fresh (resellRequestId : string) (files : list File) (k : nat) (b : Bucket) :
  upload_faults b = [] ->
  (forall i g, (k <= i)%nat -> objects b !! resellFilePath resellRequestId i g = None) ->
  (uploadFrom resellRequestId k files b).1 =
    map Some (zip_with (fun n f => publicUrl (resellFilePath resellRequestId n f))
                (seq k (length files)) files).
Proof.
  revert k b; induction files as [|f fs IH]; intros k b Hf Hfresh; [reflexivity |].
  pose proof (IH (S k) (mkBucket (<[resellFilePath resellRequestId k f := f]> (objects b)) []))
    as IH'.
  simpl; unfold uploadResellImage; rewrite Hf; cbn [pop].
  rewrite (Hfresh k f (le_n k)); simpl.
  destruct (uploadFrom resellRequestId (S k) fs _) as [rs b2]; simpl in *.
  rewrite IH'; [reflexivity | reflexivity |].
  intros i g Hi; simpl; rewrite lookup_insert_ne; [apply Hfresh; lia |].
  intros Heq; apply resellFilePath_index_inj in Heq; lia.
Qed.

(** ** Deciding the invariants on concrete databases *)

Definition ratings_withinb (lo hi : Z) (d : DB) : bool :=
  forallb (fun ir => bool_decide (lo <= rv_rating ir.2 <= hi)) (map_to_list (reviews d)).

Lemma ratings_withinb_sound (lo hi : Z) (d : DB) :
  ratings_withinb lo hi d = true -> ratings_within lo hi d.
Proof.
  unfold ratings_withinb; rewrite forallb_forall; intros H i r Hl.
  apply (bool_decide_eq_true_1 (lo <= rv_rating r <= hi)), (H (i, r)), list_elem_of_In.
  now apply elem_of_map_to_list.
Qed.

Definition reviews_uniqueb (d : DB) : bool :=
  let l := map_to_list (reviews d) in
  forallb (fun x => forallb (fun y =>
    negb (bool_decide (rv_user_id x.2 = rv_user_id y.2) && bool_decide (rv_book_id x.2 = rv_book_id y.2))
    || bool_decide (x.1 = y.1)) l) l.

Lemma reviews_uniqueb_sound (d : DB) : reviews_uniqueb d = true -> reviews_unique d.
Proof.
  unfold reviews_uniqueb; rewrite forallb_forall; intros H i j ri rj Hi Hj Hu Hb.
  assert (Ii : In (i, ri) (map_to_list (reviews d))) by (apply list_elem_of_In, elem_of_map_to_list, Hi).
  assert (Ij : In (j, rj) (map_to_list (reviews d))) by (apply list_elem_of_In, elem_of_map_to_list, Hj).
  specialize (H _ Ii); rewrite forallb_forall in H; specialize (H _ Ij); simpl in H.
  rewrite Hu, Hb, !bool_decide_eq_true_2 in H by reflexivity; simpl in H.
  now apply bool_decide_eq_true in H.
Qed.

(** ** Runs *)

(** Book 1 with two reviews, by "u2" (3 stars) and by "u1" (4 stars). *)
Definition book1 : DbBook := sample_db_book 1 (inject_Z 300).
Definition db_rev : DB :=
  mkDB {[1 := book1]} ∅ ∅ ∅ ∅ ∅
    {[2 := mkReviewRow 1 "u2" 3 (Some "ok"); 3 := mkReviewRow 1 "u1" 4 (Some "good")]} ∅ ∅ ∅ 4.

(** "u1" rates the book again, five stars. *)
Definition rev_final : DB := db (run (submitReview "u1" 1 5 "great") (mkWorld db_rev [])).2.
Definition book1_final : DbBook := default book1 (books rev_final !! 1).

Lemma submitReview_updates_book_rating_witness :
  books rev_final !! 1 = Some book1_final /\
  (let rs := rows_where (of_book 1) rev_final in
   db_rating book1_final = Some (averageRating rs) /\
   db_reviews book1_final = Some (Z.of_nat (length rs)) /\
   exists k rv, In (k, rv) rs /\ rv_user_id rv = userToUse "u1" /\ rv_rating rv = 5).
Proof.
  split; [vm_compute; reflexivity |].
  apply (submitReview_updates_book_rating "u1" 1 5 "great" (mkWorld db_rev [])); [reflexivity |].
  vm_compute; reflexivity.
Defined.

Lemma submitReview_rating_bounds_witness :
  ratings_within 1 5 db_rev /\ books rev_final !! 1 = Some book1_final /\
  exists q, db_rating book1_final = Some q /\ (1 <= q <= 5)%Q.
Proof.
  assert (Hw : ratings_within 1 5 db_rev) by (apply ratings_withinb_sound; vm_compute; reflexivity).
  assert (Hb : books rev_final !! 1 = Some book1_final) by (vm_compute; reflexivity).
  split; [exact Hw | split; [exact Hb |]].
  exact (submitReview_rating_bounds "u1" 1 5 "great" (mkWorld db_rev []) book1_final
           eq_refl Hw ltac:(lia) Hb).
Defined.

Lemma submitReview_keeps_reviews_unique_witness :
  reviews_unique db_rev /\
  reviews_unique (db (run (submitReview "u1" 1 5 "great") (mkWorld db_rev [])).2).
Proof.
  assert (Hu : reviews_unique db_rev) by (apply reviews_uniqueb_sound; vm_compute; reflexivity).
  split; [exact Hu |].
  exact (submitReview_keeps_reviews_unique "u1" 1 5 "great" (mkWorld db_rev []) Hu eq_refl).
Defined.

(** A lookup that fails is read as "no review yet": [submitReview]
    then inserts a second review by the same user for the same book, and
    the book's [reviews] count counts the user twice. *)
Example submitReview_failed_lookup_duplicates :
  let w' := (run (submitReview "u1" 1 5 "great") (mkWorld db_rev [Some net_error])).2 in
  length (rows_where (review_by "u1" 1) (db w')) = 2%nat /\
  option_map db_reviews (books (db w') !! 1) = Some (Some 3) /\
  ~ reviews_unique (db w').
Proof.
  split; [vm_compute; reflexivity | split; [vm_compute; reflexivity |]].
  intros Hu; assert (3 = 4) by (apply (Hu 3 4 (mkReviewRow 1 "u1" 4 (Some "good"))
                                  (mkReviewRow 1 "u1" 5 (Some "great"))); vm_compute; reflexivity).
  discriminate.
Qed.

End UserService.
