(* ===== verification/ResellPage.v ===== *)
(** * ResellPage: the four-step sell-your-book wizard

    [src/pages/ResellPage.tsx]: step 1 collects the book's details, step 2
    its photos, step 3 the asking price, step 4 shows a summary and
    submits.  The page state is [PageState]; each handler of the page is a
    function on it:

    - [handleChange] and [handleSelectChange] write one field;
    - [handleFileChange] checks the five-image limit, validates the chosen
      files one by one and starts a [FileReader] for each valid file before
      the first invalid one; the readers finish later, in any order, each
      appending its preview and its file ([onload]);
    - [removeImage] drops the preview and the file at one index;
    - [nextStep] and [prevStep] move between steps, the "Next" button
      being enabled by [isFormValid];
    - [submitResellRequestWithImages] uploads the files under a fresh
      request id ([UserService.uploadAll]), keeps the urls of the uploads
      that succeeded, and inserts the request
      ([UserService.submitResellRequest]); on success it resets the form.

    The events the rendered page offers at each step, with the guards of
    its JSX (an input exists only on its step, a button only when shown
    and enabled), form the step relation [page_step] over the page state,
    the bucket and the database. *)

From S2P Require Import Prelude Book Store Filters JsNumber UserService.
From Stdlib Require Import Ascii String.

Open Scope Z_scope.

Module ResellPage.
Import UserService.

(** The [bookInfo] state. *)
Record BookInfo := mkBookInfo {
  bi_title : string;
  bi_author : string;
  bi_publisher : string;
  bi_isbn : string;
  bi_condition : string;
  bi_category : string;
  bi_description : string;
  bi_askingPrice : string;
  bi_contactPhone : string
}.

Definition emptyBookInfo : BookInfo := mkBookInfo "" "" "" "" "" "" "" "" "".

(** The [name] of an input or select. *)
Inductive FieldName :=
  | Title | Author | Publisher | Isbn | Condition | Category | Description | AskingPrice
  | ContactPhone.

(** [{ ...prev, [name]: value }]. *)
Definition setField (name : FieldName) (value : string) (b : BookInfo) : BookInfo :=
  match name with
  | Title => mkBookInfo value (bi_author b) (bi_publisher b) (bi_isbn b) (bi_condition b) (bi_category b) (bi_description b) (bi_askingPrice b) (bi_contactPhone b)
  | Author => mkBookInfo (bi_title b) value (bi_publisher b) (bi_isbn b) (bi_condition b) (bi_category b) (bi_description b) (bi_askingPrice b) (bi_contactPhone b)
  | Publisher => mkBookInfo (bi_title b) (bi_author b) value (bi_isbn b) (bi_condition b) (bi_category b) (bi_description b) (bi_askingPrice b) (bi_contactPhone b)
  | Isbn => mkBookInfo (bi_title b) (bi_author b) (bi_publisher b) value (bi_condition b) (bi_category b) (bi_description b) (bi_askingPrice b) (bi_contactPhone b)
  | Condition => mkBookInfo (bi_title b) (bi_author b) (bi_publisher b) (bi_isbn b) value (bi_category b) (bi_description b) (bi_askingPrice b) (bi_contactPhone b)
  | Category => mkBookInfo (bi_title b) (bi_author b) (bi_publisher b) (bi_isbn b) (bi_condition b) value (bi_description b) (bi_askingPrice b) (bi_contactPhone b)
  | Description => mkBookInfo (bi_title b) (bi_author b) (bi_publisher b) (bi_isbn b) (bi_condition b) (bi_category b) value (bi_askingPrice b) (bi_contactPhone b)
  | AskingPrice => mkBookInfo (bi_title b) (bi_author b) (bi_publisher b) (bi_isbn b) (bi_condition b) (bi_category b) (bi_description b) value (bi_contactPhone b)
  | ContactPhone => mkBookInfo (bi_title b) (bi_author b) (bi_publisher b) (bi_isbn b) (bi_condition b) (bi_category b) (bi_description b) (bi_askingPrice b) value
  end.

(** The page's state; [reading] holds the files whose [FileReader] has
    started and not yet called [onload], in the order they started. *)
Record PageState := mkPageState {
  step : Z;
  bookInfo : BookInfo;
  images : list string;
  imageFiles : list File;
  imgLoading : bool;
  uploadError : option string;
  reading : list File
}.

Definition initialState : PageState := mkPageState 1 emptyBookInfo [] [] false None [].

Definition handleChange (name : FieldName) (value : string) (st : PageState) : PageState :=
  mkPageState (step st) (setField name value (bookInfo st)) (images st) (imageFiles st)
    (imgLoading st) (uploadError st) (reading st).

Definition handleSelectChange (name : FieldName) (value : string) (st : PageState) : PageState :=
  handleChange name value st.

(** [reader.result]: the file as a [data:] url; the encoded contents are
    not modelled. *)
Definition dataURL (f : File) : string := ("data:" ++ file_type f ++ ";base64,")%string.

(** The loop over the chosen files: a file that is not an image or is
    larger than 5 MB ends it with its error; every file before it has its
    reader started. *)
Fixpoint previewFiles (fs : list File) (started : list File) : list File * option string :=
  match fs with
  | [] => (started, None)
  | f :: fs' =>
      if negb (String.prefix "image/" (file_type f)) then (started, Some "Only image files are allowed")
      else if bool_decide (5 * 1024 * 1024 < file_size f) then
        (started, Some "Image size must be less than 5MB")
      else previewFiles fs' (started ++ [f])
  end.

(** [handleFileChange]: no file, or more than five images counting the
    previews already loaded, changes nothing.  [imgLoading] is set and
    cleared in the same synchronous run. *)
Definition handleFileChange (files : list File) (st : PageState) : PageState :=
  match files with
  | [] => st
  | _ =>
      if bool_decide (5 < List.length (images st) + List.length files)%nat then st
      else
        let '(started, err) := previewFiles files [] in
        mkPageState (step st) (bookInfo st) (images st) (imageFiles st) false err
          (reading st ++ started)
  end.

(** [reader.onload] of the [k]-th started reader: its preview and its file
    are appended together. *)
Definition onload (k : nat) (st : PageState) : PageState :=
  match reading st !! k with
  | Some f =>
      mkPageState (step st) (bookInfo st) (images st ++ [dataURL f]) (imageFiles st ++ [f])
        (imgLoading st) (uploadError st) (delete k (reading st))
  | None => st
  end.

(** [prev.filter((_, i) => i !== index)] on both lists. *)
Definition removeImage (index : nat) (st : PageState) : PageState :=
  mkPageState (step st) (bookInfo st) (delete index (images st)) (delete index (imageFiles st))
    (imgLoading st) (uploadError st) (reading st).

Definition nextStep (st : PageState) : PageState :=
  mkPageState (step st + 1) (bookInfo st) (images st) (imageFiles st) (imgLoading st)
    (uploadError st) (reading st).

Definition prevStep (st : PageState) : PageState :=
  mkPageState (step st - 1) (bookInfo st) (images st) (imageFiles st) (imgLoading st)
    (uploadError st) (reading st).

(** A non-empty string is truthy. *)
Definition filled (s : string) : bool := negb (bool_decide (s = ""%string)).

Definition isFormValid (st : PageState) : bool :=
  let b := bookInfo st in
  if bool_decide (step st = 1) then
    filled (bi_title b) && filled (bi_author b) && filled (bi_condition b) && filled (bi_category b)
    && filled (bi_contactPhone b)
  else if bool_decide (step st = 2) then bool_decide (0 < List.length (images st))%nat
  else if bool_decide (step st = 3) then negb (bool_decide (bi_askingPrice b = ""%string))
  else true.

(** The state after a successful submission: step 1, an empty form and no
    image. *)
Definition resetForm (st : PageState) : PageState :=
  mkPageState 1 emptyBookInfo [] [] (imgLoading st) (uploadError st) (reading st).

(** The argument of [submitResellRequest]. *)
Definition resellInput (userId : string) (b : BookInfo) (imageUrls : list string) : ResellInput :=
  mkResellInput userId (bi_title b) (bi_author b) (Some (bi_isbn b)) (bi_condition b)
    (if filled (bi_askingPrice b) then parseFloat (bi_askingPrice b) else None)
    (Some (bi_description b))
    (if filled (bi_contactPhone b) then bi_contactPhone b else "Not provided")
    imageUrls.

(** [submitResellRequestWithImages] of the signed-in user [user], under
    the fresh id [resellRequestId]; the toast it shows is returned. *)
Definition submitResellRequestWithImages (user : option string) (resellRequestId : string)
    (st : PageState) (b : Bucket) : M (PageState * Bucket * string) :=
  match user with
  | None => mret (st, b, "Please log in to submit a resell request"%string)
  | Some userId =>
      let '(results, b') :=
        match imageFiles st with
        | [] => ([], b)
        | files => uploadAll resellRequestId files b
        end in
      let imageUrls := omap id results in
      r ← submitResellRequest (resellInput userId (bookInfo st) imageUrls);
      match resell_error r with
      | Some e => mret (st, b', ("Failed to submit: " ++ e)%string)
      | None => mret (resetForm st, b', "Resell request submitted successfully!"%string)
      end
  end.

(** ** The events of the rendered page *)

(** The page, the [resell-images] bucket and the database. *)
Definition Config : Type := PageState * Bucket * World.

(** The step whose block renders the input of a field: the price is asked
    on step 3, every other field on step 1. *)
Definition field_step (name : FieldName) : Z :=
  match name with AskingPrice => 3 | _ => 1 end.

(** [condition] and [category] are [Select]s ([handleSelectChange]); the
    other fields are inputs ([handleChange]). *)
Definition is_select (name : FieldName) : bool :=
  match name with Condition | Category => true | _ => false end.

(** What the user and the browser can do next.  [EvSubmit user id] is a
    click on "Submit" by [user] ([None]: signed out), the request id being
    the fresh [uuidv4()]. *)
Inductive Event :=
  | EvChange (name : FieldName) (value : string)
  | EvFiles (files : list File)
  | EvLoad (k : nat)
  | EvRemove (index : nat)
  | EvNext
  | EvPrev
  | EvSubmit (user : option string) (resellRequestId : string).

Definition submitRun (user : option string) (resellRequestId : string) (c : Config) : Config :=
  let '(st, b, w) := c in
  let '(out, w') := run (submitResellRequestWithImages user resellRequestId st b) w in
  (out.1.1, out.1.2, w').

Arguments submitRun : simpl never.

(** One event, when the page offers it: the guard is the JSX that renders
    the control ([step === n && ...], [images.length < 5],
    [disabled={imgLoading}], [disabled={!isFormValid()}]). *)
Definition event_step (e : Event) (c : Config) : option Config :=
  let '(st, b, w) := c in
  match e with
  | EvChange name value =>
      if bool_decide (step st = field_step name) then
        Some ((if is_select name then handleSelectChange name value st
               else handleChange name value st), b, w)
      else None
  | EvFiles files =>
      if bool_decide (step st = 2) && bool_decide (List.length (images st) < 5)%nat
         && negb (imgLoading st)
      then Some (handleFileChange files st, b, w) else None
  | EvLoad k =>
      if bool_decide (k < List.length (reading st))%nat then Some (onload k st, b, w) else None
  | EvRemove index =>
      if bool_decide (step st = 2) && bool_decide (index < List.length (images st))%nat
      then Some (removeImage index st, b, w) else None
  | EvNext =>
      if bool_decide (1 <= step st <= 3) && isFormValid st then Some (nextStep st, b, w) else None
  | EvPrev =>
      if bool_decide (2 <= step st <= 4) then Some (prevStep st, b, w) else None
  | EvSubmit user resellRequestId =>
      if bool_decide (step st = 4) then Some (submitRun user resellRequestId c) else None
  end.

(** The step relation of the page. *)
Inductive page_step : Config -> Config -> Prop :=
  | page_ev (e : Event) (c c' : Config) : event_step e c = Some c' -> page_step c c'.

Definition page_reachable : Config -> Config -> Prop := rtc page_step.

(** A sequence of events, each offered when it comes. *)
Fixpoint run_events (es : list Event) (c : Config) : option Config :=
  match es with
  | [] => Some c
  | e :: es' => match event_step e c with Some c' => run_events es' c' | None => None end
  end.

(** The browser delivering the pending [onload]s, [n] times the oldest
    one. *)
Fixpoint loadAll (n : nat) (st : PageState) : PageState :=
  match n with
  | O => st
  | S n' => loadAll n' (onload O st)
  end.

(** ** Lemmas *)

Lemma run_events_reachable (es : list Event) (c c' : Config) :
  run_events es c = Some c' -> page_reachable c c'.
Proof.
  unfold page_reachable; revert c; induction es as [|e es IH]; intros c; simpl;
    [intros [= ->]; apply rtc_refl |].
  destruct (event_step e c) as [c1|] eqn:E; [| discriminate].
  intros H; eapply rtc_l; [econstructor; exact E | exact (IH c1 H)].
Qed.

(** A submission leaves the page as it was, or resets it. *)
Lemma submitRun_page (user : option string) (resellRequestId : string) (st : PageState)
    (b : Bucket) (w : World) :
  (submitRun user resellRequestId (st, b, w)).1.1 = st \/
  (submitRun user resellRequestId (st, b, w)).1.1 = resetForm st.
Proof.
  unfold submitRun, submitResellRequestWithImages; destruct user as [userId|]; [| now left].
  destruct (match imageFiles st with [] => ([], b) | _ => uploadAll resellRequestId _ b end)
    as [results b'].
  rewrite run_bind; destruct (run (submitResellRequest _) w) as [r w1].
  destruct (resell_error r); simpl; auto.
Qed.

Lemma delete_map {A B} (f : A -> B) (i : nat) (l : list A) :
  delete i (map f l) = map f (delete i l).
Proof. revert i; induction l as [|x l IH]; intros [|i]; simpl; f_equal; auto. Qed.

(** ** Previews and files *)

(** The preview at each position is the one of the file uploaded from
    that position. *)
Definition previews_match (st : PageState) : Prop := images st = map dataURL (imageFiles st).

Lemma event_step_previews (e : Event) (c c' : Config) :
  event_step e c = Some c' -> previews_match c.1.1 -> previews_match c'.1.1.
Proof.
  destruct c as [[st b] w]; unfold previews_match; destruct e; simpl.
  - case_bool_decide; [| discriminate]; intros [= <-]; destruct (is_select name); auto.
  - destruct (_ && _); [| discriminate]; intros [= <-]; simpl; unfold handleFileChange.
    destruct files; [auto |]; case_bool_decide; [auto |].
    destruct (previewFiles _ _); auto.
  - case_bool_decide; [| discriminate]; intros [= <-]; simpl; unfold onload.
    destruct (reading st !! k); simpl; [| auto]; intros ->; now rewrite map_app.
  - destruct (_ && _); [| discriminate]; intros [= <-]; simpl; intros ->; apply delete_map.
  - destruct (_ && _); [| discriminate]; intros [= <-]; auto.
  - case_bool_decide; [| discriminate]; intros [= <-]; auto.
  - case_bool_decide; [| discriminate]; intros [= <-].
    destruct (submitRun_page user resellRequestId st b w) as [-> | ->]; auto.
Qed.

(** ** The wizard *)

(** The page as it is on step [k]. *)
Definition at_step (k : Z) (st : PageState) : PageState :=
  mkPageState k (bookInfo st) (images st) (imageFiles st) (imgLoading st) (uploadError st) (reading st).

(** The step is one of the four, and the form of every earlier step is
    valid. *)
Definition wizard_ok (st : PageState) : Prop :=
  1 <= step st <= 4 /\ forall k, 1 <= k < step st -> isFormValid (at_step k st) = true.

Lemma at_step_self (st : PageState) : at_step (step st) st = st.
Proof. now destruct st. Qed.

(** Validity of a step depends on the fields and on whether there is an
    image. *)
Lemma isFormValid_at (k : Z) (st1 st2 : PageState) :
  bookInfo st1 = bookInfo st2 ->
  ((0 < List.length (images st1))%nat -> (0 < List.length (images st2))%nat) ->
  isFormValid (at_step k st1) = true -> isFormValid (at_step k st2) = true.
Proof.
  unfold isFormValid, at_step; simpl; intros -> Hi.
  repeat case_bool_decide; auto.
Qed.

(** Step 1 reads the fields only. *)
Lemma isFormValid_details (st1 st2 : PageState) :
  bookInfo st1 = bookInfo st2 -> isFormValid (at_step 1 st1) = isFormValid (at_step 1 st2).
Proof. unfold isFormValid, at_step; simpl; intros ->; reflexivity. Qed.

(** The price is read on step 3 only. *)
Lemma isFormValid_price (k : Z) (value : string) (st : PageState) :
  k <> 3 -> isFormValid (at_step k (handleChange AskingPrice value st)) = isFormValid (at_step k st).
Proof. intros Hk; unfold isFormValid, at_step; simpl; repeat case_bool_decide; congruence. Qed.

Lemma event_step_wizard (e : Event) (c c' : Config) :
  event_step e c = Some c' -> wizard_ok c.1.1 -> wizard_ok c'.1.1.
Proof.
  destruct c as [[st b] w]; unfold wizard_ok; destruct e; cbn [event_step fst snd].
  - case_bool_decide as Hs; [| discriminate]; intros [= <-] [Hr Hk].
    assert (Hc : wizard_ok (handleChange name value st)).
    { split; [exact Hr |]; intros k Hk'; simpl in Hk'.
      destruct name; simpl in Hs; try lia.
      rewrite isFormValid_price by lia; apply Hk; lia. }
    destruct (is_select name); exact Hc.
  - destruct (_ && _); [| discriminate]; intros [= <-] [Hr Hk]; simpl; unfold handleFileChange.
    destruct files; [auto |]; case_bool_decide; [auto |].
    destruct (previewFiles _ _); simpl; split; [exact Hr |].
    intros k Hk'; apply (isFormValid_at k st); auto.
  - case_bool_decide; [| discriminate]; intros [= <-] [Hr Hk]; simpl; unfold onload.
    destruct (reading st !! k) as [f|]; simpl; [| auto]; split; [exact Hr |].
    intros j Hj; apply (isFormValid_at j st); auto; simpl; rewrite length_app; lia.
  - destruct (bool_decide (step st = 2)) eqn:S2; [| discriminate].
    apply bool_decide_eq_true in S2; destruct (bool_decide _); [| discriminate].
    intros [= <-] [Hr Hk]; simpl; split; [exact Hr |]; intros k Hk'.
    assert (k = 1) as -> by lia.
    rewrite (isFormValid_details _ st) by reflexivity; apply Hk; lia.
  - destruct (bool_decide _) eqn:B; [| discriminate]; apply bool_decide_eq_true in B.
    destruct (isFormValid st) eqn:V; [| discriminate]; intros [= <-] [Hr Hk]; simpl.
    split; [lia |]; intros k Hk'; destruct (decide (k = step st)) as [->|Hne].
    + change (isFormValid (at_step (step st) st) = true); rewrite at_step_self; exact V.
    + apply (isFormValid_at k st); auto; apply Hk; lia.
  - case_bool_decide; [| discriminate]; intros [= <-] [Hr Hk]; simpl.
    split; [lia |]; intros k Hk'; apply (isFormValid_at k st); auto; apply Hk; lia.
  - case_bool_decide; [| discriminate]; intros [= <-] Hw.
    destruct (submitRun_page user resellRequestId st b w) as [-> | ->]; [exact Hw |].
    simpl; split; [lia | intros; lia].
Qed.

(** A property every event keeps holds in every reachable configuration. *)
Lemma reachable_ind (P : Config -> Prop) (c0 c : Config) :
  (forall e c1 c2, event_step e c1 = Some c2 -> P c1 -> P c2) ->
  P c0 -> page_reachable c0 c -> P c.
Proof.
  intros Hstep H0 Hr; induction Hr as [c|c1 c2 c3 [e ? ? E] _ IH]; [exact H0 |].
  apply IH; eapply Hstep; eauto.
Qed.

Lemma omap_Some {A} (l : list A) : omap id (map Some l) = l.
Proof. induction l as [|x l IH]; [reflexivity |]; change (x :: omap id (map Some l) = x :: l); now rewrite IH. Qed.

(** The urls of the files of a request, in their order. *)
Definition request_urls (resellRequestId : string) (files : list File) : list string :=
  zip_with (fun n f => publicUrl (resellFilePath resellRequestId n f)) (seq 0 (List.length files)) files.

(** (C6) In every state of the page, the preview at each position is
    the one of the file that will be uploaded from that position: loads,
    removals and resets change both lists together. *)
Theorem previews_match_reachable (b : Bucket) (w : World) (c : Config) :
  page_reachable (initialState, b, w) c -> previews_match c.1.1.
Proof.
  apply (reachable_ind (fun c => previews_match c.1.1));
    [intros e c1 c2 E; apply (event_step_previews e c1 c2 E) | reflexivity].
Qed.

(** (C8) The "Submit" button of step 4 is reached only through the checks
    of the earlier steps: in every reachable state on step 4 the details of
    step 1 (title, author, condition, category, phone) are filled, there is
    a photo, and the asking price is filled. *)
Theorem submit_only_with_valid_form (b : Bucket) (w : World) (c : Config) :
  page_reachable (initialState, b, w) c -> step c.1.1 = 4 ->
  forall k, 1 <= k <= 3 -> isFormValid (at_step k c.1.1) = true.
Proof.
  intros Hr H4 k Hk.
  assert (Hw : wizard_ok c.1.1).
  { revert Hr; apply (reachable_ind (fun c => wizard_ok c.1.1));
      [intros e c1 c2 E; apply (event_step_wizard e c1 c2 E) |].
    split; simpl; [lia | intros; lia]. }
  apply Hw; lia.
Qed.

(** (C12) Submitting with every upload and the insert answered, under a
    request id no stored path uses: every photo is stored under its own
    path, the request row keeps all their urls in order, with status
    "pending" and the signed-in user, and the form is reset. *)
Theorem submit_stores_every_image (userId resellRequestId : string) (st : PageState)
    (b : Bucket) (w : World) :
  imageFiles st <> [] -> upload_faults b = [] ->
  (forall i g, objects b !! resellFilePath resellRequestId i g = None) ->
  (pop (faults w)).1 = None ->
  let r := run (submitResellRequestWithImages (Some userId) resellRequestId st b) w in
  r.1.1.1 = resetForm st /\
  r.1.2 = "Resell request submitted successfully!"%string /\
  exists row, resell_requests (db r.2) !! next_id (db w) = Some row /\
    rr_image_urls row = Some (request_urls resellRequestId (imageFiles st)) /\
    rr_status row = "pending"%string /\ rr_user_id row = userToUse userId.
Proof.
  intros Hne Hf Hfresh Hok; unfold submitResellRequestWithImages.
  pose proof (uploadFrom_fresh resellRequestId (imageFiles st) 0 b Hf (fun i g _ => Hfresh i g)) as Hu.
  destruct (imageFiles st) as [|f fs] eqn:Ef; [congruence |].
  unfold uploadAll; destruct (uploadFrom resellRequestId 0 (f :: fs) b) as [results b'] eqn:Eu.
  cbn [fst] in Hu; subst results; cbv iota beta; rewrite omap_Some.
  unfold submitResellRequest; rewrite run_bind, run_bind.
  rewrite (run_insert_select_ok (R := ResellRequestRow)) by exact Hok; simpl.
  split; [reflexivity | split; [reflexivity |]].
  eexists; split; [apply lookup_insert_eq |]; simpl; auto.
Qed.

(** ** Runs *)

Definition cover (name : string) : File := mkFile name "image/jpeg" 200000.
Definition db_empty : DB := mkDB ∅ ∅ ∅ ∅ ∅ ∅ ∅ ∅ ∅ ∅ 1.
Definition c0 : Config := (initialState, mkBucket ∅ [], mkWorld db_empty []).

(** Step 1 filled in, then "Next". *)
Definition details : list Event :=
  [EvChange Title "Dune"; EvChange Author "Frank Herbert"; EvChange Condition "good";
   EvChange Category "fiction"; EvChange ContactPhone "9999999999"; EvNext].

(** One photo, a price, and the summary of step 4. *)
Definition to_review : list Event :=
  details ++ [EvFiles [cover "front.jpg"]; EvLoad 0; EvNext; EvChange AskingPrice "120"; EvNext].

Definition c4 : Config := default c0 (run_events to_review c0).

Lemma c4_reachable : page_reachable c0 c4.
Proof. apply (run_events_reachable to_review); vm_compute; reflexivity. Qed.

Lemma previews_match_reachable_witness : page_reachable c0 c4 /\ previews_match c4.1.1.
Proof. split; [exact c4_reachable | exact (previews_match_reachable _ _ c4 c4_reachable)]. Defined.

Lemma submit_only_with_valid_form_witness :
  page_reachable c0 c4 /\ step c4.1.1 = 4 /\
  forall k, 1 <= k <= 3 -> isFormValid (at_step k c4.1.1) = true.
Proof.
  assert (H4 : step c4.1.1 = 4) by (vm_compute; reflexivity).
  split; [exact c4_reachable | split; [exact H4 |]].
  exact (submit_only_with_valid_form _ _ c4 c4_reachable H4).
Defined.

Lemma submit_stores_every_image_witness :
  imageFiles c4.1.1 <> [] /\
  let r := run (submitResellRequestWithImages (Some "u1") "r1" c4.1.1 (mkBucket ∅ [])) (mkWorld db_empty []) in
  r.1.1.1 = resetForm c4.1.1 /\
  r.1.2 = "Resell request submitted successfully!"%string /\
  exists row, resell_requests (db r.2) !! next_id db_empty = Some row /\
    rr_image_urls row = Some (request_urls "r1" (imageFiles c4.1.1)) /\
    rr_status row = "pending"%string /\ rr_user_id row = userToUse "u1".
Proof.
  assert (Hne : imageFiles c4.1.1 <> []) by (vm_compute; discriminate).
  split; [exact Hne |].
  exact (submit_stores_every_image "u1" "r1" c4.1.1 (mkBucket ∅ []) (mkWorld db_empty [])
           Hne eq_refl (fun i g => lookup_empty _) eq_refl).
Defined.

(** The five-photo limit counts the previews already loaded and not
    the files still being read: choosing three photos, and three more
    before the first ones have loaded, passes both checks and leaves six
    photos on the page. *)
Example image_limit_race :
  exists c, page_reachable c0 c /\ List.length (images c.1.1) = 6%nat.
Proof.
  set (es := app details
    [EvFiles [cover "a.jpg"; cover "b.jpg"; cover "c.jpg"];
     EvFiles [cover "d.jpg"; cover "e.jpg"; cover "f.jpg"];
     EvLoad 0; EvLoad 0; EvLoad 0; EvLoad 0; EvLoad 0; EvLoad 0]).
  exists (default c0 (run_events es c0)).
  split; [apply (run_events_reachable es); vm_compute; reflexivity | vm_compute; reflexivity].
Qed.

(** A photo whose upload fails is dropped without a word: when every
    upload fails, the request is stored without any image url and the page
    reports success, although step 2 required a photo. *)
Example submit_drops_failed_uploads :
  let r := run (submitResellRequestWithImages (Some "u1") "r1" c4.1.1
                  (mkBucket ∅ [Some net_error])) (mkWorld db_empty []) in
  List.length (imageFiles c4.1.1) = 1%nat /\
  r.1.2 = "Resell request submitted successfully!"%string /\
  option_map rr_image_urls (resell_requests (db r.2) !! 1) = Some None.
Proof. vm_compute; repeat split; reflexivity. Qed.

End ResellPage.
