(* ===== verification/AdminCatalog.v ===== *)
(** * AdminCatalog: the admin panel's lists, counts and book dialog

    The rest of [src/services/adminService.ts] ([getDashboardStats],
    [getAllBooks], [getCategories], [deleteBook], [getOrders],
    [getResellRequests], [updateResellRequestStatus]; [createBook] and
    [updateBook] are in [BookWrites]), and the handlers of
    [src/pages/admin/AdminBooksPage.tsx].

    Two lists embed a related table ([select("*, profiles:user_id(...)")],
    [select("*, categories:category_id(name)")]).  The backend follows the
    foreign key on the named column; the foreign keys are the
    [Relationships] of [src/integrations/supabase/types.ts].  A column
    without a foreign key makes the request fail ([PGRST200]).

    The theorems show that [getOrders] and [getResellRequests] fail on
    every call, that the [total] of [getAllBooks] counts every book
    whatever the filters, and that the book dialog reports success and
    closes on every submission, also when nothing was stored. *)

From S2P Require Import Prelude Book Store Filters BooksService BookWrites.
From Stdlib Require Import Ascii String.
From stdpp Require Import sorting.

Open Scope Z_scope.

Module AdminCatalog.
Import BooksService BookWrites.

(** ** Embedded resources *)

(** The foreign keys of [types.ts]: table, column, referenced table. *)
Definition relationships : list (string * string * string) :=
  [("book_specifications", "book_id", "books"); ("book_tags", "book_id", "books");
   ("book_tags", "tag_id", "tags"); ("books", "category_id", "categories");
   ("cart_items", "book_id", "books"); ("cart_items", "cart_id", "carts");
   ("order_items", "book_id", "books"); ("order_items", "order_id", "orders");
   ("reviews", "book_id", "books")]%string.

(** The table an embed [alias:column(...)] of [table] reaches. *)
Definition embed_target (table column : string) : option string :=
  snd <$> List.find (fun r => bool_decide (r.1.1 = table) && bool_decide (r.1.2 = column)) relationships.

Definition no_relationship (table column : string) : PgError :=
  mkPgError "PGRST200"
    ("Could not find a relationship between '" ++ table ++ "' and '" ++ column ++ "' in the schema cache")%string.

(** ** getAllBooks *)

(** The [filters] object. *)
Record AdminFilters := mkAdminFilters {
  fl_title : option string;
  fl_author : option string;
  fl_categoryId : option Z;
  fl_minPrice : option Q;
  fl_maxPrice : option Q
}.

Definition truthy_str (o : option string) : bool :=
  match o with Some s => negb (bool_decide (s = ""%string)) | None => false end.

Definition truthy_num (o : option Q) : bool :=
  match o with Some q => negb (Qeq_bool q 0) | None => false end.

(** The conditions the filters add, each only when its value is truthy. *)
Definition admin_matches (fl : AdminFilters) (b : DbBook) : bool :=
  (if truthy_str (fl_title fl) then ilike ("%" ++ default "" (fl_title fl) ++ "%")%string (db_title b)
   else true) &&
  (if truthy_str (fl_author fl) then ilike ("%" ++ default "" (fl_author fl) ++ "%")%string (db_author b)
   else true) &&
  (match fl_categoryId fl with
   | Some c => if bool_decide (c = 0) then true else bool_decide (db_category_id b = Some c)
   | None => true
   end) &&
  (if truthy_num (fl_minPrice fl) then Qle_bool (default 0 (fl_minPrice fl))%Q (db_price b) else true) &&
  (if truthy_num (fl_maxPrice fl) then Qle_bool (db_price b) (default 0 (fl_maxPrice fl))%Q else true).

(** A [books] row with its embedded [categories: { name }]. *)
Definition with_category (d : DB) (ib : Z * DbBook) : Z * DbBook * option string :=
  (ib, cat_name <$> (db_category_id ib.2 ≫= fun c => categories d !! c)).

(** [query.range(from, to)] of the filtered, newest-first query. *)
Definition books_page (fl : AdminFilters) (from to_ : Z) : M (Resp (list (Z * DbBook * option string))) :=
  request (fun d =>
    match embed_target "books" "category_id" with
    | None => (RespErr (no_relationship "books" "category_id"), d)
    | Some _ =>
        (RespOk (map (with_category d)
                   (slice from to_ (merge_sort newest_first (rows_where (fun _ b => admin_matches fl b) d)))), d)
    end).

(** [{ books, total, page, limit, error }]. *)
Record AdminBooks := mkAdminBooks {
  ab_books : list (Z * DbBook * option string);
  ab_total : Z;
  ab_page : Z;
  ab_limit : Z;
  ab_error : option string
}.

(** The count request is sent before the page; its error is not read
    ([count || 0]). *)
Definition getAllBooks (page limit : Z) (fl : AdminFilters) : M AdminBooks :=
  let from := (page - 1) * limit in
  let to_ := from + limit - 1 in
  c ← count_where DbBook (fun _ _ => true);
  r ← books_page fl from to_;
  match r with
  | RespErr e => mret (mkAdminBooks [] 0 page limit (Some (message e)))
  | RespOk rows => mret (mkAdminBooks rows (match c with RespOk n => n | RespErr _ => 0 end) page limit None)
  end.

(** ** Counts and categories *)

Record DashboardStats := mkDashboardStats {
  bookCount : Z;
  categoryCount : Z;
  orderCount : Z;
  resellCount : Z;
  stats_error : option string
}.

(** [count || 0]. *)
Definition count_or_zero (r : Resp Z) : Z := match r with RespOk n => n | RespErr _ => 0 end.

(** No error is read: a failed request counts zero. *)
Definition getDashboardStats : M DashboardStats :=
  cats ← rpc_get_all_categories;
  bc ← count_where DbBook (fun _ _ => true);
  oc ← count_where OrderRow (fun _ _ => true);
  rc ← count_where ResellRequestRow (fun _ _ => true);
  mret (mkDashboardStats (count_or_zero bc)
          (match cats with RespOk l => Z.of_nat (List.length l) | RespErr _ => 0 end)
          (count_or_zero oc) (count_or_zero rc) None).

(** [{ categories, error }]: the rows of the RPC. *)
Definition getCategories : M (list (Z * string * Z) * option string) :=
  r ← rpc_get_all_categories;
  match r with
  | RespErr e => mret ([], Some (message e))
  | RespOk l => mret (l, None)
  end.

(** [{ success, error }]. *)
Definition deleteBook (id : Z) : M (bool * option string) :=
  r ← delete_where DbBook (hasBookId id);
  match r with
  | RespErr e => mret (false, Some (message e))
  | RespOk _ => mret (true, None)
  end.

(** ** Orders and resell requests *)

(** [profiles:user_id(first_name, last_name, email)]. *)
Definition profile_names (d : DB) (userId : string) : option (option string * option string * option string) :=
  (fun p => (p_first_name p, p_last_name p, p_email p)) <$> profiles d !! userId.

(** [if (status) query = query.eq('status', status)]. *)
Definition status_filter (status : option string) (s : string) : bool :=
  if truthy_str status then bool_decide (Some s = status) else true.

Definition getOrders (page limit : Z) (status : option string)
    : M (list (Z * OrderRow * option (option string * option string * option string)) * option string) :=
  let from := (page - 1) * limit in
  let to_ := from + limit - 1 in
  r ← request (fun d =>
        match embed_target "orders" "user_id" with
        | None => (RespErr (no_relationship "orders" "user_id"), d)
        | Some _ =>
            (RespOk (map (fun io => (io, profile_names d (o_user_id io.2)))
                       (slice from to_ (merge_sort newest_first
                          (rows_where (fun _ o => status_filter status (o_status o)) d)))), d)
        end);
  match r with
  | RespErr e => mret ([], Some (message e))
  | RespOk rows => mret (rows, None)
  end.

Definition getResellRequests (page limit : Z) (status : option string)
    : M (list (Z * ResellRequestRow * option (option string * option string * option string)) * option string) :=
  let from := (page - 1) * limit in
  let to_ := from + limit - 1 in
  r ← request (fun d =>
        match embed_target "resell_requests" "user_id" with
        | None => (RespErr (no_relationship "resell_requests" "user_id"), d)
        | Some _ =>
            (RespOk (map (fun ir => (ir, profile_names d (rr_user_id ir.2)))
                       (slice from to_ (merge_sort newest_first
                          (rows_where (fun _ r => status_filter status (rr_status r)) d)))), d)
        end);
  match r with
  | RespErr e => mret ([], Some (message e))
  | RespOk rows => mret (rows, None)
  end.

(** [.update({ status })] of a resell request. *)
Definition with_resell_status (status : string) (r : ResellRequestRow) : ResellRequestRow :=
  mkResellRequestRow (rr_user_id r) (rr_book_title r) (rr_book_author r) (rr_book_isbn r)
    (rr_book_condition r) (rr_asking_price r) (rr_contact_phone r) (rr_description r) status
    (rr_image_urls r).

Definition updateResellRequestStatus (id : Z) (status : string)
    : M (option (Z * ResellRequestRow) * option string) :=
  r ← update_by_id id (with_resell_status status);
  match r with
  | RespErr e => mret (None, Some (message e))
  | RespOk row => mret (Some row, None)
  end.

(** ** Behaviour *)

Lemma embed_orders : embed_target "orders" "user_id" = None.
Proof. reflexivity. Qed.

Lemma embed_resell_requests : embed_target "resell_requests" "user_id" = None.
Proof. reflexivity. Qed.

Lemma embed_books : embed_target "books" "category_id" = Some "categories"%string.
Proof. reflexivity. Qed.

(** (C35) The admin lists of orders and of resell requests embed
    [profiles:user_id(...)], but neither table has a foreign key on
    [user_id]: every call answers no row and an error. *)
Theorem admin_order_and_resell_lists_fail (page limit : Z) (status : option string) (w : World) :
  (run (getOrders page limit status) w).1.1 = [] /\ is_Some (run (getOrders page limit status) w).1.2 /\
  (run (getResellRequests page limit status) w).1.1 = [] /\
  is_Some (run (getResellRequests page limit status) w).1.2.
Proof.
  unfold getOrders, getResellRequests; rewrite !run_bind.
  destruct (pop (faults w)) as [[e|] fs] eqn:P.
  - rewrite !run_request_err with (e := e) by (rewrite P; reflexivity); simpl; eauto 10.
  - rewrite !run_request_ok by (rewrite P; reflexivity); rewrite embed_orders, embed_resell_requests.
    simpl; eauto 10.
Qed.

Lemma rows_where_all_length {R} `{Table R} (d : DB) :
  List.length (rows_where (fun _ _ => true) d) = size (tbl_get d).
Proof.
  unfold rows_where; rewrite <- length_map_to_list.
  induction (map_to_list (tbl_get d)) as [|x l IH]; simpl; [reflexivity | now rewrite IH].
Qed.

(** The [total] of the admin [getAllBooks] comes from a second
    request without the filters: when both requests are answered it is the
    number of all books, while the page holds only books that match the
    filters. *)
Theorem getAllBooks_total_counts_every_book (page limit : Z) (fl : AdminFilters) (w : World) :
  faults w = [] ->
  let r := (run (getAllBooks page limit fl) w).1 in
  ab_error r = None /\ ab_total r = Z.of_nat (size (books (db w))) /\
  Forall (fun x => admin_matches fl x.1.2 = true) (ab_books r).
Proof.
  intros Hf; unfold getAllBooks; rewrite run_bind.
  unfold count_where; rewrite run_request_ok by (rewrite Hf; reflexivity).
  rewrite run_bind; unfold books_page; rewrite run_request_ok by (rewrite Hf; reflexivity).
  rewrite embed_books; simpl.
  split; [reflexivity | split; [now rewrite (rows_where_all_length (R := DbBook)) |]].
  apply List.Forall_forall; intros [[i b] n] Hin; simpl.
  apply in_map_iff in Hin as [[i' b'] [E Hin]]; unfold with_category in E; simpl in E.
  injection E as -> -> _.
  apply slice_incl in Hin.
  apply (Permutation_in _ (merge_sort_Permutation _ _)) in Hin.
  now apply (rows_where_In (R := DbBook)) in Hin as [_ HP].
Qed.

End AdminCatalog.

(** ** The book dialog of [AdminBooksPage] *)

Module AdminBooksPage.
Import BooksService BookWrites AdminCatalog.

Record PageState := mkPageState {
  isAddBookModalOpen : bool;
  isEditBookModalOpen : bool;
  isDeleteConfirmOpen : bool;
  bookToEdit : option Book;
  bookToDelete : option Z;
  page : Z;
  search : string;
  category : string;
  formData : BookData
}.

(** The empty form; [publicationDate] is today's date, [today]. *)
Definition emptyForm (today : string) : BookData :=
  mkBookData (Some "") (Some "") (Some "") (Some 0%Q) (Some 0%Q) (Some "") (Some "uncategorized")
    (Some "") (Some "") (Some today) (Some "") (Some 0%Q) (Some "") (Some "") (Some true) (Some false)
    (Some false) (Some false) (Some "in_stock").

Definition initialState (today : string) : PageState :=
  mkPageState false false false None None 1 "" "" (emptyForm today).

(** [ensureValidCategory]: the trimmed name, or ["uncategorized"]. *)
Definition ensureValidCategory (c : option string) : string :=
  match c with
  | Some s => let v := trim s in if bool_decide (v = ""%string) then "uncategorized"%string else v
  | None => "uncategorized"%string
  end.

Definition resetForm (today : string) (st : PageState) : PageState :=
  mkPageState (isAddBookModalOpen st) (isEditBookModalOpen st) (isDeleteConfirmOpen st) None
    (bookToDelete st) (page st) (search st) (category st) (emptyForm today).

Definition openAddBookModal (today : string) (st : PageState) : PageState :=
  let st' := resetForm today st in
  mkPageState true (isEditBookModalOpen st') (isDeleteConfirmOpen st') (bookToEdit st')
    (bookToDelete st') (page st') (search st') (category st') (formData st').

(** The form of a book being edited; a [null] date or flag of the book is
    left out. *)
Definition form_of_book (b : Book) : BookData :=
  mkBookData (Some (title b)) (Some (author b)) (Some (coverImage b)) (Some (price b))
    (Some (originalPrice b)) (Some (description b)) (Some (ensureValidCategory (Book.category b)))
    (Some (language b)) (Some (publisher b)) (publicationDate b) (Some (isbn b))
    (Some (inject_Z (pageCount b))) (Some (edition b)) (Some (binding b)) (isNew b)
    (hasFreeDelivery b) (hasRentOption b) (isAvailableForResell b) (Some (stockStatus b)).

Definition openEditBookModal (b : Book) (st : PageState) : PageState :=
  mkPageState (isAddBookModalOpen st) true (isDeleteConfirmOpen st) (Some b) (bookToDelete st)
    (page st) (search st) (category st) (form_of_book b).

Definition openDeleteConfirm (id : Z) (st : PageState) : PageState :=
  mkPageState (isAddBookModalOpen st) (isEditBookModalOpen st) true (bookToEdit st) (Some id)
    (page st) (search st) (category st) (formData st).

(** [handleSubmit]: the mutation's function is the service call, which
    answers [{ book, error }] and never throws, so [onSuccess] runs after
    every call: it closes the dialog, resets the form and shows its toast. *)
Definition handleSubmit (today : string) (st : PageState) : M (PageState * string) :=
  match bookToEdit st with
  | Some b =>
      _ ← admin_updateBook (bookId b) (formData st);
      let st' := mkPageState (isAddBookModalOpen st) false (isDeleteConfirmOpen st) (bookToEdit st)
                   (bookToDelete st) (page st) (search st) (category st) (formData st) in
      mret (resetForm today st', "Book updated successfully"%string)
  | None =>
      _ ← admin_createBook (formData st);
      let st' := mkPageState false (isEditBookModalOpen st) (isDeleteConfirmOpen st) (bookToEdit st)
                   (bookToDelete st) (page st) (search st) (category st) (formData st) in
      mret (resetForm today st', "Book created successfully"%string)
  end.

(** [handleDeleteBook], with [onSuccess] of the delete mutation. *)
Definition handleDeleteBook (st : PageState) : M (PageState * option string) :=
  match bookToDelete st with
  | Some id =>
      _ ← AdminCatalog.deleteBook id;
      mret (mkPageState (isAddBookModalOpen st) (isEditBookModalOpen st) false (bookToEdit st) None
              (page st) (search st) (category st) (formData st),
            Some "Book deleted successfully"%string)
  | None => mret (st, None)
  end.

Definition handlePrevPage (st : PageState) : PageState :=
  mkPageState (isAddBookModalOpen st) (isEditBookModalOpen st) (isDeleteConfirmOpen st)
    (bookToEdit st) (bookToDelete st) (Z.max (page st - 1) 1) (search st) (category st) (formData st).

(** [data?.totalPages && page < data.totalPages]; the page reads
    [totalPages] from the answer of [getAllBooks], which has no such key,
    so [totalPages] is [None] there. *)
Definition handleNextPage (totalPages : option Z) (st : PageState) : PageState :=
  match totalPages with
  | Some n =>
      if bool_decide (n <> 0) && bool_decide (page st < n) then
        mkPageState (isAddBookModalOpen st) (isEditBookModalOpen st) (isDeleteConfirmOpen st)
          (bookToEdit st) (bookToDelete st) (page st + 1) (search st) (category st) (formData st)
      else st
  | None => st
  end.

(** [setSearch] and [setCategory], with the effect on [[search, category]]
    that goes back to page 1 when either is set. *)
Definition back_to_first (st : PageState) : PageState :=
  if negb (bool_decide (search st = ""%string)) || negb (bool_decide (category st = ""%string)) then
    mkPageState (isAddBookModalOpen st) (isEditBookModalOpen st) (isDeleteConfirmOpen st)
      (bookToEdit st) (bookToDelete st) 1 (search st) (category st) (formData st)
  else st.

Definition setSearch (v : string) (st : PageState) : PageState :=
  back_to_first (mkPageState (isAddBookModalOpen st) (isEditBookModalOpen st) (isDeleteConfirmOpen st)
                   (bookToEdit st) (bookToDelete st) (page st) v (category st) (formData st)).

Definition setCategory (v : string) (st : PageState) : PageState :=
  back_to_first (mkPageState (isAddBookModalOpen st) (isEditBookModalOpen st) (isDeleteConfirmOpen st)
                   (bookToEdit st) (bookToDelete st) (page st) (search st) v (formData st)).

(** The book dialog reports success on every submission: adding a
    book closes the dialog, resets the form and shows "Book created
    successfully", although the admin [createBook] never stores it. *)
Theorem handleSubmit_create_reports_success (today : string) (st : PageState) (w : World) :
  bookToEdit st = None ->
  let r := run (handleSubmit today st) w in
  r.1.2 = "Book created successfully"%string /\ isAddBookModalOpen r.1.1 = false /\
  formData r.1.1 = emptyForm today /\ books (db r.2) = books (db w).
Proof.
  intros Hn; unfold handleSubmit; rewrite Hn, run_bind.
  destruct (admin_createBook_run (formData st) w) as [_ Hdb].
  destruct (run (admin_createBook (formData st)) w) as [res w1]; simpl in *.
  repeat split; now rewrite Hdb.
Qed.

(** ** Runs *)

(** Filtering on a title no book has: no book on the page, and a total of
    one. *)
Definition no_match : AdminFilters := mkAdminFilters (Some "zzz") None None None None.

Lemma getAllBooks_total_counts_every_book_witness :
  let r := (run (getAllBooks 1 10 no_match) (mkWorld db_books [])).1 in
  ab_books r = [] /\ ab_error r = None /\ ab_total r = Z.of_nat (size (books db_books)) /\
  Forall (fun x => admin_matches no_match x.1.2 = true) (ab_books r).
Proof.
  split; [vm_compute; reflexivity |].
  exact (AdminCatalog.getAllBooks_total_counts_every_book 1 10 no_match (mkWorld db_books []) eq_refl).
Defined.

Lemma handleSubmit_create_reports_success_witness :
  let r := run (handleSubmit "2025-01-01" (initialState "2025-01-01")) (mkWorld db_books []) in
  r.1.2 = "Book created successfully"%string /\ isAddBookModalOpen r.1.1 = false /\
  formData r.1.1 = emptyForm "2025-01-01" /\ books (db r.2) = books db_books.
Proof.
  exact (handleSubmit_create_reports_success "2025-01-01" (initialState "2025-01-01")
           (mkWorld db_books []) eq_refl).
Defined.

End AdminBooksPage.
