(* ===== verification/Auth.v ===== *)
(** * Auth: sign-up, sign-in and the session the pages see

    [src/services/authService.ts] wraps the calls of the hosted auth client
    ([signUp], [signInWithPassword], [signOut], [getSession],
    [resetPasswordForEmail], [updateUser]) into results
    [{ user | session | success, error }].
    [src/contexts/AuthContext.tsx] keeps [user], [session] and [loading]:
    it subscribes to the client's auth events and asks for the stored
    session when it mounts; [signIn], [signUp], [signOut] and
    [resetPassword] of the context call the service.

    The auth client is modelled from its documented behaviour: accounts
    keyed by email, at most one session, a script of failures of its
    calls, and the events it sends to subscribers when the session
    changes ([SIGNED_IN], [SIGNED_OUT], [USER_UPDATED]), delivered before
    the call returns.  Whether sign-up signs the new user in (email
    confirmation off) is the project setting [autoconfirm], a variable of
    the section.

    The theorems show that the context mirrors the client's session once
    loaded, that [loading] turns false as soon as the stored session
    arrives and stays false, and that a failed sign-out goes unnoticed. *)

From S2P Require Import Prelude Store.
From Stdlib Require Import String.
From stdpp Require Import pretty.

Open Scope Z_scope.

Module Auth.

Record User := mkUser {
  user_id : string;
  user_email : string;
  user_first_name : option string;
  user_last_name : option string
}.

Record Session := mkSession { session_user : User }.

Record Account := mkAccount { acc_user : User; acc_password : string }.

(** The auth client. *)
Record Client := mkClient {
  accounts : gmap string Account;
  client_session : option Session;
  next_user : Z;
  auth_faults : list (option string)
}.

Inductive AuthEvent := SIGNED_IN | SIGNED_OUT | USER_UPDATED.

(** The answer of a client call, and the events it sent. *)
Definition Answer (A : Type) : Type := (string + A) * Client * list (AuthEvent * option Session).

Definition pop_fault (c : Client) : option string * Client :=
  match auth_faults c with
  | [] => (None, c)
  | f :: fs => (f, mkClient (accounts c) (client_session c) (next_user c) fs)
  end.

Section Client.
Variable autoconfirm : bool.

Definition set_session (s : option Session) (c : Client) : Client :=
  mkClient (accounts c) s (next_user c) (auth_faults c).

(** [supabase.auth.signUp]: a new account under a fresh id; with
    [autoconfirm] the user is signed in. *)
Definition client_signUp (email password : string) (meta : option string * option string)
    (c0 : Client) : Answer User :=
  let '(f, c) := pop_fault c0 in
  match f with
  | Some e => (inl e, c, [])
  | None =>
      if bool_decide (is_Some (accounts c !! email)) then (inl "User already registered"%string, c, [])
      else if bool_decide (String.length password < 6)%nat then
        (inl "Password should be at least 6 characters."%string, c, [])
      else
        let u := mkUser ("user-" ++ pretty (next_user c))%string email meta.1 meta.2 in
        let c' := mkClient (<[email := mkAccount u password]> (accounts c))
                    (if autoconfirm then Some (mkSession u) else client_session c)
                    (next_user c + 1) (auth_faults c) in
        (inr u, c', if autoconfirm then [(SIGNED_IN, Some (mkSession u))] else [])
  end.

(** [supabase.auth.signInWithPassword]. *)
Definition client_signIn (email password : string) (c0 : Client) : Answer User :=
  let '(f, c) := pop_fault c0 in
  match f with
  | Some e => (inl e, c, [])
  | None =>
      match accounts c !! email with
      | Some a =>
          if bool_decide (acc_password a = password) then
            (inr (acc_user a), set_session (Some (mkSession (acc_user a))) c,
             [(SIGNED_IN, Some (mkSession (acc_user a)))])
          else (inl "Invalid login credentials"%string, c, [])
      | None => (inl "Invalid login credentials"%string, c, [])
      end
  end.

(** [supabase.auth.signOut]. *)
Definition client_signOut (c0 : Client) : Answer unit :=
  let '(f, c) := pop_fault c0 in
  match f with
  | Some e => (inl e, c, [])
  | None => (inr tt, set_session None c, [(SIGNED_OUT, None)])
  end.

(** [supabase.auth.getSession]. *)
Definition client_getSession (c0 : Client) : Answer (option Session) :=
  let '(f, c) := pop_fault c0 in
  match f with
  | Some e => (inl e, c, [])
  | None => (inr (client_session c), c, [])
  end.

(** [supabase.auth.resetPasswordForEmail]: a mail is sent; nothing
    changes here. *)
Definition client_resetPasswordForEmail (email : string) (c0 : Client) : Answer unit :=
  let '(f, c) := pop_fault c0 in
  match f with Some e => (inl e, c, []) | None => (inr tt, c, []) end.

(** [supabase.auth.updateUser({ password })]: needs a session. *)
Definition client_updateUser (password : string) (c0 : Client) : Answer unit :=
  let '(f, c) := pop_fault c0 in
  match f with
  | Some e => (inl e, c, [])
  | None =>
      match client_session c with
      | None => (inl "Auth session missing!"%string, c, [])
      | Some s =>
          let email := user_email (session_user s) in
          match accounts c !! email with
          | Some a =>
              (inr tt, mkClient (<[email := mkAccount (acc_user a) password]> (accounts c))
                         (client_session c) (next_user c) (auth_faults c),
               [(USER_UPDATED, Some s)])
          | None => (inl "User not found"%string, c, [])
          end
      end
  end.

(** ** authService *)

(** [{ user, error }] and the like: the value or the error's message. *)
Definition user_result (a : Answer User) : (option User * option string) * Client * list (AuthEvent * option Session) :=
  let '(r, c, evs) := a in
  (match r with inl e => (None, Some e) | inr u => (Some u, None) end, c, evs).

Definition success_result (a : Answer unit) : (bool * option string) * Client * list (AuthEvent * option Session) :=
  let '(r, c, evs) := a in
  (match r with inl e => (false, Some e) | inr _ => (true, None) end, c, evs).

(** [signUp(email, password, userData)]: [metadata] is empty without
    [userData]. *)
Definition signUp (email password : string) (userData : option (option string * option string))
    (c : Client) :=
  user_result (client_signUp email password (default (None, None) userData) c).

Definition signIn (email password : string) (c : Client) := user_result (client_signIn email password c).

Definition signOut (c : Client) := success_result (client_signOut c).

Definition getCurrentSession (c : Client) : (option Session * option string) * Client :=
  let '(r, c', _) := client_getSession c in
  (match r with inl e => (None, Some e) | inr s => (s, None) end, c').

Definition resetPassword (email : string) (c : Client) := success_result (client_resetPasswordForEmail email c).

Definition updatePassword (newPassword : string) (c : Client) := success_result (client_updateUser newPassword c).

End Client.

(** ** AuthContext *)

Record Provider := mkProvider {
  p_user : option User;
  p_session : option Session;
  loading : bool
}.

Definition initialProvider : Provider := mkProvider None None true.

(** [setSession(session); setUser(session?.user ?? null); setLoading(false)]. *)
Definition setFromSession (s : option Session) (p : Provider) : Provider :=
  mkProvider (session_user <$> s) s false.

(** The listener of [onAuthStateChange], and the toast it shows. *)
Definition onAuthStateChange (ev : AuthEvent) (s : option Session) (p : Provider)
    : Provider * option string :=
  (setFromSession s p,
   match ev with
   | SIGNED_IN => Some "Signed in successfully"%string
   | SIGNED_OUT => Some "Signed out"%string
   | USER_UPDATED => None
   end).

(** The events of one call, in order, and the toasts they show. *)
Fixpoint deliver (evs : list (AuthEvent * option Session)) (p : Provider) : Provider * list string :=
  match evs with
  | [] => (p, [])
  | (ev, s) :: evs' =>
      let '(p1, t) := onAuthStateChange ev s p in
      let '(p2, ts) := deliver evs' p1 in
      (p2, option_list t ++ ts)
  end.

(** [const isAuthenticated = !!session]. *)
Definition isAuthenticated (p : Provider) : bool := bool_decide (is_Some (p_session p)).

Definition Config : Type := Client * Provider.

(** [supabase.auth.getSession().then(({ data: { session } }) => ...)] on
    mount: its error is not read, a failed call gives [session: null]. *)
Definition sessionLoaded (cfg : Config) : Config :=
  let '(c, p) := cfg in
  let '(r, c', _) := client_getSession c in
  (c', setFromSession (match r with inr s => s | inl _ => None end) p).

Section Context.
Variable autoconfirm : bool.

(** The context's [signIn]: the error is shown and returned. *)
Definition ctx_signIn (email password : string) (cfg : Config)
    : (bool * option string) * Config * list string :=
  let '(r, c', evs) := signIn email password cfg.1 in
  let '(p', toasts) := deliver evs cfg.2 in
  match r.2 with
  | Some e => ((false, Some e), (c', p'), toasts ++ [e])
  | None => ((true, None), (c', p'), toasts)
  end.

(** The context's [signUp], which passes [{ firstName, lastName }]. *)
Definition ctx_signUp (email password : string) (firstName lastName : option string) (cfg : Config)
    : (bool * option string) * Config * list string :=
  let '(r, c', evs) := signUp autoconfirm email password (Some (firstName, lastName)) cfg.1 in
  let '(p', toasts) := deliver evs cfg.2 in
  match r.2 with
  | Some e => ((false, Some e), (c', p'), toasts ++ [e])
  | None => ((true, None), (c', p'), toasts ++ ["Account created successfully! You can now sign in."%string])
  end.

(** The context's [signOut]: the service's answer is not read, and the app
    goes to ["/"]. *)
Definition ctx_signOut (cfg : Config) : string * Config * list string :=
  let '(_, c', evs) := signOut cfg.1 in
  let '(p', toasts) := deliver evs cfg.2 in
  ("/"%string, (c', p'), toasts).

Definition ctx_resetPassword (email : string) (cfg : Config) : (bool * option string) * Config :=
  let '(r, c', evs) := resetPassword email cfg.1 in
  (r, (c', (deliver evs cfg.2).1)).

(** What can happen to the provider: the stored session arrives (once,
    while it is awaited), or a page calls the context. *)
Inductive auth_step : Config * bool -> Config * bool -> Prop :=
  | step_loaded cfg : auth_step (cfg, true) (sessionLoaded cfg, false)
  | step_signIn email password cfg b :
      auth_step (cfg, b) ((ctx_signIn email password cfg).1.2, b)
  | step_signUp email password firstName lastName cfg b :
      auth_step (cfg, b) ((ctx_signUp email password firstName lastName cfg).1.2, b)
  | step_signOut cfg b : auth_step (cfg, b) ((ctx_signOut cfg).1.2, b)
  | step_resetPassword email cfg b : auth_step (cfg, b) ((ctx_resetPassword email cfg).2, b).

End Context.

(** ** The session shown *)

(** The context shows the user of its session, and its session is the
    client's or none. *)
Definition shown_ok (cfg : Config) : Prop :=
  p_user cfg.2 = session_user <$> p_session cfg.2 /\
  (p_session cfg.2 = client_session cfg.1 \/ p_session cfg.2 = None).

(** A client call sends no event and keeps the session, or sends one event
    carrying its new session. *)
Definition events_agree {A} (c : Client) (a : Answer A) : Prop :=
  (a.2 = [] /\ client_session a.1.2 = client_session c) \/
  exists ev, a.2 = [(ev, client_session a.1.2)].

Lemma pop_fault_session (c : Client) : client_session (pop_fault c).2 = client_session c.
Proof. unfold pop_fault; now destruct (auth_faults c). Qed.

(** Splits a client call on its scripted outcome and its branches. *)
Ltac client_cases :=
  let f := fresh "f" in let c' := fresh "c'" in let P := fresh "P" in
  destruct (pop_fault _) as [f c'] eqn:P;
  pose proof (f_equal (fun x => client_session x.2) P) as Hs; simpl in Hs; rewrite pop_fault_session in Hs;
  destruct f; repeat (case_bool_decide || case_match); simpl; subst; unfold events_agree; simpl;
  first [ left; split; [reflexivity | congruence] | right; eexists; reflexivity | idtac ].

Lemma signUp_agree (autoconfirm : bool) (email password : string) meta (c : Client) :
  events_agree c (client_signUp autoconfirm email password meta c).
Proof.
  unfold client_signUp; client_cases.
Qed.

Lemma signIn_agree (email password : string) (c : Client) :
  events_agree c (client_signIn email password c).
Proof. unfold client_signIn; client_cases. Qed.

Lemma signOut_agree (c : Client) : events_agree c (client_signOut c).
Proof. unfold client_signOut; client_cases. Qed.

Lemma reset_agree (email : string) (c : Client) : events_agree c (client_resetPasswordForEmail email c).
Proof. unfold client_resetPasswordForEmail; client_cases. Qed.

(** Delivering the events of a call to a context that shows the client's
    session or none. *)
Lemma deliver_shown {A} (c : Client) (a : Answer A) (p : Provider) :
  events_agree c a -> shown_ok (c, p) -> shown_ok (a.1.2, (deliver a.2 p).1).
Proof.
  destruct a as [[r c'] evs]; unfold events_agree, shown_ok; simpl.
  intros [[-> Hs] | [ev ->]] [Hu Hp]; simpl.
  - split; [exact Hu |]; rewrite Hs; exact Hp.
  - split; [reflexivity | now left].
Qed.

Lemma deliver_loading {A} (c : Client) (a : Answer A) (p : Provider) :
  events_agree c a -> loading p = false -> loading (deliver a.2 p).1 = false.
Proof. destruct a as [[r c'] evs]; unfold events_agree; simpl; intros [[-> _] | [ev ->]] H; simpl; auto. Qed.

Lemma loading_after {A} (c : Client) (a : Answer A) (p : Provider) (b : bool) :
  events_agree c a -> (loading p = true -> b = true) -> loading (deliver a.2 p).1 = true -> b = true.
Proof.
  intros Ha Hl H; destruct (loading p) eqn:L; [auto |].
  rewrite (deliver_loading c a p Ha L) in H; discriminate.
Qed.

Lemma ctx_signIn_cfg (email password : string) (cfg : Config) :
  (ctx_signIn email password cfg).1.2 =
  ((client_signIn email password cfg.1).1.2, (deliver (client_signIn email password cfg.1).2 cfg.2).1).
Proof.
  unfold ctx_signIn, signIn, user_result; destruct (client_signIn _ _ _) as [[[e|u] c'] evs];
    simpl; destruct (deliver evs cfg.2); reflexivity.
Qed.

Lemma ctx_signUp_cfg (autoconfirm : bool) (email password : string) (fn ln : option string) (cfg : Config) :
  (ctx_signUp autoconfirm email password fn ln cfg).1.2 =
  ((client_signUp autoconfirm email password (fn, ln) cfg.1).1.2,
   (deliver (client_signUp autoconfirm email password (fn, ln) cfg.1).2 cfg.2).1).
Proof.
  unfold ctx_signUp, signUp, user_result; simpl; destruct (client_signUp _ _ _ _ _) as [[[e|u] c'] evs];
    simpl; destruct (deliver evs cfg.2); reflexivity.
Qed.

Lemma ctx_signOut_cfg (cfg : Config) :
  (ctx_signOut cfg).1.2 = ((client_signOut cfg.1).1.2, (deliver (client_signOut cfg.1).2 cfg.2).1).
Proof.
  unfold ctx_signOut, signOut, success_result; destruct (client_signOut _) as [[r c'] evs];
    simpl; destruct (deliver evs cfg.2); reflexivity.
Qed.

Lemma ctx_resetPassword_cfg (email : string) (cfg : Config) :
  (ctx_resetPassword email cfg).2 =
  ((client_resetPasswordForEmail email cfg.1).1.2, (deliver (client_resetPasswordForEmail email cfg.1).2 cfg.2).1).
Proof.
  unfold ctx_resetPassword, resetPassword, success_result;
    destruct (client_resetPasswordForEmail _ _) as [[r c'] evs]; reflexivity.
Qed.

Lemma sessionLoaded_ok (cfg : Config) :
  shown_ok (sessionLoaded cfg) /\ loading (sessionLoaded cfg).2 = false.
Proof.
  destruct cfg as [c p]; unfold sessionLoaded, client_getSession.
  destruct (pop_fault c) as [[e|] c'] eqn:P; simpl; unfold shown_ok; simpl; auto.
Qed.

(** The context's invariant: it shows the client's session or none, and
    it is loading only while the stored session is awaited. *)
Definition auth_ok (x : Config * bool) : Prop :=
  shown_ok x.1 /\ (loading x.1.2 = true -> x.2 = true).

Lemma auth_step_ok (autoconfirm : bool) (x y : Config * bool) :
  auth_step autoconfirm x y -> auth_ok x -> auth_ok y.
Proof.
  intros Hs [Hshown Hload]; inversion Hs as [cfg | email password cfg b | email password fn ln cfg b
                                            | cfg b | email cfg b]; subst; simpl in *.
  - destruct (sessionLoaded_ok cfg) as [H1 H2]; split; [exact H1 | simpl; intros H3; congruence].
  - rewrite ctx_signIn_cfg; destruct cfg as [c p]; split; [apply (deliver_shown c); [apply signIn_agree | exact Hshown] |].
    simpl in *; intros H; eapply loading_after; [apply signIn_agree | exact Hload | exact H].
  - rewrite ctx_signUp_cfg; destruct cfg as [c p]; split; [apply (deliver_shown c); [apply signUp_agree | exact Hshown] |].
    simpl in *; intros H; eapply loading_after; [apply signUp_agree | exact Hload | exact H].
  - rewrite ctx_signOut_cfg; destruct cfg as [c p]; split; [apply (deliver_shown c); [apply signOut_agree | exact Hshown] |].
    simpl in *; intros H; eapply loading_after; [apply signOut_agree | exact Hload | exact H].
  - rewrite ctx_resetPassword_cfg; destruct cfg as [c p]; split; [apply (deliver_shown c); [apply reset_agree | exact Hshown] |].
    simpl in *; intros H; eapply loading_after; [apply reset_agree | exact Hload | exact H].
Qed.

Lemma auth_reachable_ok (autoconfirm : bool) (c0 : Client) (x : Config * bool) :
  rtc (auth_step autoconfirm) ((c0, initialProvider), true) x -> auth_ok x.
Proof.
  intros Hr; remember ((c0, initialProvider), true) as x0 eqn:E.
  assert (H0 : auth_ok x0) by (subst; split; [split; simpl; auto | auto]).
  clear E; induction Hr as [x|x y z Hxy _ IH]; [exact H0 |].
  apply IH; eapply auth_step_ok; eauto.
Qed.

(** Once loaded, the context stays loaded. *)
Lemma auth_step_loaded (autoconfirm : bool) (x y : Config * bool) :
  auth_step autoconfirm x y -> loading x.1.2 = false -> loading y.1.2 = false.
Proof.
  intros Hs H; inversion Hs as [cfg | email password cfg b | email password fn ln cfg b
                               | cfg b | email cfg b]; subst; simpl in *.
  - apply sessionLoaded_ok.
  - rewrite ctx_signIn_cfg; apply (deliver_loading cfg.1); [apply signIn_agree | exact H].
  - rewrite ctx_signUp_cfg; apply (deliver_loading cfg.1); [apply signUp_agree | exact H].
  - rewrite ctx_signOut_cfg; apply (deliver_loading cfg.1); [apply signOut_agree | exact H].
  - rewrite ctx_resetPassword_cfg; apply (deliver_loading cfg.1); [apply reset_agree | exact H].
Qed.

(** (C7) The context never shows a session the auth client does not
    hold: in every state reached from the mount, whatever the pages call
    and whatever the client answers, the context's user is the user of its
    session, and its session is the client's or none. *)
Theorem context_shows_client_session (autoconfirm : bool) (c0 : Client) (cfg : Config) (b : bool) :
  rtc (auth_step autoconfirm) ((c0, initialProvider), true) (cfg, b) ->
  p_user cfg.2 = session_user <$> p_session cfg.2 /\
  (p_session cfg.2 = client_session cfg.1 \/ p_session cfg.2 = None).
Proof. intros Hr; apply (auth_reachable_ok autoconfirm c0 (cfg, b) Hr). Qed.

(** (C22) [loading] settles: in every state reached from the mount where
    the context is still loading, the stored session can arrive and turns
    [loading] false; and once it is false, it stays false in every later
    state. *)
Theorem loading_settles (autoconfirm : bool) (c0 : Client) (cfg : Config) (b : bool) :
  rtc (auth_step autoconfirm) ((c0, initialProvider), true) (cfg, b) ->
  (loading cfg.2 = true ->
     auth_step autoconfirm (cfg, b) (sessionLoaded cfg, false) /\ loading (sessionLoaded cfg).2 = false) /\
  (loading cfg.2 = false -> forall y, rtc (auth_step autoconfirm) (cfg, b) y -> loading y.1.2 = false).
Proof.
  intros Hr; destruct (auth_reachable_ok autoconfirm c0 (cfg, b) Hr) as [_ Hl]; split.
  - intros H; simpl in Hl; rewrite (Hl H); split; [constructor | apply sessionLoaded_ok].
  - intros H y Hy; clear Hr Hl; remember (cfg, b) as x eqn:E.
    assert (Hx : loading x.1.2 = false) by (subst; exact H).
    clear E; induction Hy as [x|x y' z Hs _ IH]; [exact Hx |].
    apply IH; eapply auth_step_loaded; eauto.
Qed.

(** ** Pages *)

(** [LoginPage]'s [onSubmit]: the page it goes to. *)
Definition login_onSubmit (email password : string) (cfg : Config) : option string * Config :=
  let '(r, cfg', _) := ctx_signIn email password cfg in
  (if r.1 then Some "/"%string else None, cfg').

(** [RegisterPage]'s [onSubmit]: the name is passed as the first name. *)
Definition register_onSubmit (autoconfirm : bool) (name email password : string) (cfg : Config)
    : option string * Config :=
  let '(r, cfg', _) := ctx_signUp autoconfirm email password (Some name) None cfg in
  (if r.1 then Some "/login"%string else None, cfg').

(** ** Runs *)

Definition alice : User := mkUser "user-1" "alice@example.com" (Some "Alice") None.
Definition alice_account : gmap string Account := {[ "alice@example.com" := mkAccount alice "secret1" ]}.

(** The client before and after Alice signs in; [fs] are its failures. *)
Definition client_out : Client := mkClient alice_account None 2 [].
Definition client_in (fs : list (option string)) : Client :=
  mkClient alice_account (Some (mkSession alice)) 2 fs.

Definition cfg_in : Config := (ctx_signIn "alice@example.com" "secret1" (client_out, initialProvider)).1.2.

Lemma reach_in : rtc (auth_step false) ((client_out, initialProvider), true) (cfg_in, true).
Proof. eapply rtc_l; [apply step_signIn | apply rtc_refl]. Qed.

Lemma context_shows_client_session_witness :
  rtc (auth_step false) ((client_out, initialProvider), true) (cfg_in, true) /\
  p_session cfg_in.2 = Some (mkSession alice) /\
  p_user cfg_in.2 = session_user <$> p_session cfg_in.2 /\
  (p_session cfg_in.2 = client_session cfg_in.1 \/ p_session cfg_in.2 = None).
Proof.
  split; [exact reach_in | split; [vm_compute; reflexivity |]].
  exact (context_shows_client_session false client_out cfg_in true reach_in).
Defined.

Lemma loading_settles_witness :
  loading initialProvider = true /\
  auth_step false ((client_out, initialProvider), true) (sessionLoaded (client_out, initialProvider), false) /\
  loading (sessionLoaded (client_out, initialProvider)).2 = false.
Proof.
  split; [reflexivity |].
  exact (proj1 (loading_settles false client_out (client_out, initialProvider) true (rtc_refl _ _)) eq_refl).
Defined.

(** A failed sign-out goes unnoticed: the context does not read the
    answer of [signOut] and goes to ["/"] without a message, while the
    client, and the context, still hold the session. *)
Example signOut_failure_unnoticed :
  let r := ctx_signOut (client_in [Some "Failed to fetch"%string], setFromSession (Some (mkSession alice)) initialProvider) in
  r.1.1 = "/"%string /\ isAuthenticated r.1.2.2 = true /\
  client_session r.1.2.1 = Some (mkSession alice) /\ r.2 = [].
Proof. vm_compute; repeat split; reflexivity. Qed.

(** A failed [getSession] on mount is read as "no session": the
    pages show a signed-out user while the client still holds Alice's
    session. *)
Example failed_load_shows_signed_out :
  let cfg := sessionLoaded (client_in [Some "Failed to fetch"%string], initialProvider) in
  auth_step false ((client_in [Some "Failed to fetch"%string], initialProvider), true) (cfg, false) /\
  isAuthenticated cfg.2 = false /\ client_session cfg.1 = Some (mkSession alice).
Proof. split; [constructor | vm_compute; split; reflexivity]. Qed.

End Auth.
