(* ===== verification/ProfilePage.v ===== *)
(** * ProfilePage: the account form of [src/pages/UserProfilePage.tsx]

    The page loads the signed-in user's profile with
    [UserService.getUserProfile] (the query is enabled only for a user with
    an id), copies it into its form when it arrives, lets the user edit the
    first name, last name, phone and address (the email input is disabled),
    and saves the whole form with [UserService.updateUserProfile].  The
    mutation's [onSuccess] shows its toast and refetches the profile.

    The theorems show that a save followed by the refetch shows the edited
    form again, with the email replaced by the account's, and that a save
    that the backend refuses is still reported as a success. *)

From S2P Require Import Prelude Store UserService Auth.
From Stdlib Require Import String.

Open Scope Z_scope.

Module ProfilePage.
Import UserService Auth.

(** The page's [ProfileData] form state. *)
Record FormData := mkFormData {
  f_first_name : string;
  f_last_name : string;
  f_phone : string;
  f_address : string;
  f_email : string
}.

Definition emptyFormData : FormData := mkFormData "" "" "" "" "".

(** The form and the answer of the profile query ([None] while it has not
    answered, or when it is disabled). *)
Record PageState := mkPageState {
  formData : FormData;
  profileData : option ProfileResult
}.

Definition initialState : PageState := mkPageState emptyFormData None.

(** [x || '']. *)
Definition or_empty (o : option string) : string :=
  match o with Some s => s | None => ""%string end.

(** [user?.id || '']. *)
Definition userIdOf (user : option User) : string :=
  match user with Some u => user_id u | None => ""%string end.

(** The form filled from a loaded profile; the email is the account's when
    it has one ([user?.email || profile.email || '']). *)
Definition fillForm (user : option User) (p : ProfileRow) : FormData :=
  mkFormData (or_empty (p_first_name p)) (or_empty (p_last_name p)) (or_empty (p_phone p))
    (or_empty (p_address p))
    (match user with
     | Some u => if bool_decide (user_email u = ""%string) then or_empty (p_email p) else user_email u
     | None => or_empty (p_email p)
     end).

(** The effect on [[profileData, user]]: [if (profileData?.profile)]. *)
Definition syncForm (user : option User) (st : PageState) : PageState :=
  match profileData st with
  | Some r =>
      match profile r with
      | Some p => mkPageState (fillForm user p) (profileData st)
      | None => st
      end
  | None => st
  end.

(** The profile query, [enabled: !!user?.id], followed by the effect. *)
Definition loadProfile (user : option User) (st : PageState) : M PageState :=
  if bool_decide (userIdOf user = ""%string) then mret st
  else
    r ← getUserProfile (userIdOf user);
    mret (syncForm user (mkPageState (formData st) (Some r))).

(** The inputs with an [onChange]. *)
Inductive FieldName := FirstName | LastName | Phone | Address.

(** [handleChange]: [{ ...prev, [name]: value }]. *)
Definition handleChange (name : FieldName) (value : string) (st : PageState) : PageState :=
  let f := formData st in
  let f' := match name with
            | FirstName => mkFormData value (f_last_name f) (f_phone f) (f_address f) (f_email f)
            | LastName => mkFormData (f_first_name f) value (f_phone f) (f_address f) (f_email f)
            | Phone => mkFormData (f_first_name f) (f_last_name f) value (f_address f) (f_email f)
            | Address => mkFormData (f_first_name f) (f_last_name f) (f_phone f) value (f_email f)
            end in
  mkPageState f' (profileData st).

(** The form object passed to [updateUserProfile]: every key is present. *)
Definition toProfileData (f : FormData) : ProfileData :=
  mkProfileData (Some (f_first_name f)) (Some (f_last_name f)) (Some (f_phone f))
    (Some (f_address f)) (Some (f_email f)).

(** [handleSubmit]: the mutation calls [updateUserProfile], which answers
    [{ profile, error }] and never throws, so [onSuccess] runs: the toast,
    then [refetch()]. *)
Definition handleSubmit (user : option User) (st : PageState) : M (PageState * string) :=
  _ ← updateUserProfile (userIdOf user) (toProfileData (formData st));
  st' ← loadProfile user st;
  mret (st', "Profile updated successfully"%string).

(** ** Lemmas *)

Lemma fillForm_apply (u : User) (f : FormData) (p : ProfileRow) :
  fillForm (Some u) (apply_profileData (toProfileData f) p) =
  mkFormData (f_first_name f) (f_last_name f) (f_phone f) (f_address f)
    (if bool_decide (user_email u = ""%string) then f_email f else user_email u).
Proof. reflexivity. Qed.

Lemma run_getUserProfile_some (userId : string) (d : DB) (p : ProfileRow) :
  profiles d !! userId = Some p ->
  run (getUserProfile userId) (mkWorld d []) = (mkProfileResult (Some p) None, mkWorld d []).
Proof.
  intros Hp; unfold getUserProfile, select_profile; rewrite run_bind, run_request_ok by reflexivity.
  simpl; rewrite Hp; reflexivity.
Qed.

Lemma run_updateUserProfile_some (userId : string) (pd : ProfileData) (d : DB) (p : ProfileRow) :
  profiles d !! userId = Some p ->
  run (updateUserProfile userId pd) (mkWorld d []) =
  (mkProfileResult (Some (apply_profileData pd p)) None,
   mkWorld (set_profiles (<[userId := apply_profileData pd p]> (profiles d)) d) []).
Proof.
  intros Hp; unfold updateUserProfile; rewrite run_bind, run_request_ok by reflexivity.
  simpl; rewrite Hp; reflexivity.
Qed.

Lemma run_getUserProfile_none (userId : string) (d : DB) :
  profiles d !! userId = None ->
  run (getUserProfile userId) (mkWorld d []) =
  (mkProfileResult None (Some (message wrong_row_count)), mkWorld d []).
Proof.
  intros Hp; unfold getUserProfile, select_profile; rewrite run_bind, run_request_ok by reflexivity.
  simpl; rewrite Hp; reflexivity.
Qed.

Lemma run_updateUserProfile_none (userId : string) (pd : ProfileData) (d : DB) :
  profiles d !! userId = None ->
  run (updateUserProfile userId pd) (mkWorld d []) =
  (mkProfileResult None (Some (message wrong_row_count)), mkWorld d []).
Proof.
  intros Hp; unfold updateUserProfile; rewrite run_bind, run_request_ok by reflexivity.
  simpl; rewrite Hp; reflexivity.
Qed.

(** ** The properties *)

(** (C18) Saving the form and reading it back: with every request answered,
    a signed-in user with a profile row who saves the form finds, after the
    refetch, the same first name, last name, phone and address in the form
    and in the stored row; the stored and shown email is the account's
    email, whatever the form held. *)
Theorem profile_save_roundtrip (u : User) (st : PageState) (d : DB) (p : ProfileRow) :
  user_id u <> ""%string -> profiles d !! user_id u = Some p ->
  let r := run (handleSubmit (Some u) st) (mkWorld d []) in
  let f := formData st in
  formData r.1.1 =
    mkFormData (f_first_name f) (f_last_name f) (f_phone f) (f_address f)
      (if bool_decide (user_email u = ""%string) then f_email f else user_email u) /\
  profiles (db r.2) !! user_id u = Some (apply_profileData (toProfileData f) p) /\
  r.1.2 = "Profile updated successfully"%string.
Proof.
  intros Hid Hp; unfold handleSubmit; rewrite !run_bind, (run_updateUserProfile_some _ _ _ _ Hp).
  unfold loadProfile; simpl; rewrite bool_decide_eq_false_2 by exact Hid.
  rewrite !run_bind, (run_getUserProfile_some _ _ (apply_profileData (toProfileData (formData st)) p))
    by (simpl; apply lookup_insert_eq).
  simpl; split; [apply fillForm_apply | split; [apply lookup_insert_eq | reflexivity]].
Qed.

(** (C36) A save the backend refuses is reported as a success: for a
    signed-in user without a profile row, the update answers an error and
    stores nothing, the refetch finds no profile and leaves the form as it
    was, and the page shows "Profile updated successfully". *)
Theorem profile_save_without_row_reports_success (u : User) (st : PageState) (d : DB) :
  user_id u <> ""%string -> profiles d !! user_id u = None ->
  let r := run (handleSubmit (Some u) st) (mkWorld d []) in
  r.1.2 = "Profile updated successfully"%string /\ db r.2 = d /\ formData r.1.1 = formData st /\
  profileData r.1.1 = Some (mkProfileResult None (Some (message wrong_row_count))).
Proof.
  intros Hid Hp; unfold handleSubmit; rewrite !run_bind, (run_updateUserProfile_none _ _ _ Hp).
  unfold loadProfile; simpl; rewrite bool_decide_eq_false_2 by exact Hid.
  rewrite !run_bind, (run_getUserProfile_none _ _ Hp); repeat split.
Qed.

(** ** Runs *)

Definition db_profiles : DB :=
  set_profiles {[ "user-1" := mkProfileRow (Some "Alice") None (Some "old@example.com") None None None ]}
    (mkDB ∅ ∅ ∅ ∅ ∅ ∅ ∅ ∅ ∅ ∅ 1).

Definition edited : PageState :=
  handleChange Phone "555-0100" (mkPageState (mkFormData "Alice" "Liddell" "" "" "alice@example.com") None).

Lemma profile_save_roundtrip_witness :
  user_id alice <> ""%string /\ profiles db_profiles !! user_id alice = Some (mkProfileRow (Some "Alice") None (Some "old@example.com") None None None) /\
  formData (run (handleSubmit (Some alice) edited) (mkWorld db_profiles [])).1.1 =
    mkFormData "Alice" "Liddell" "555-0100" "" "alice@example.com".
Proof.
  split; [discriminate | split; [reflexivity |]].
  exact (proj1 (profile_save_roundtrip alice edited db_profiles _ ltac:(discriminate) eq_refl)).
Defined.

Lemma profile_save_without_row_reports_success_witness :
  (run (handleSubmit (Some (mkUser "user-2" "bob@example.com" None None)) edited) (mkWorld db_profiles [])).1.2
    = "Profile updated successfully"%string /\
  db (run (handleSubmit (Some (mkUser "user-2" "bob@example.com" None None)) edited) (mkWorld db_profiles [])).2
    = db_profiles.
Proof.
  destruct (profile_save_without_row_reports_success (mkUser "user-2" "bob@example.com" None None) edited
              db_profiles ltac:(discriminate) eq_refl) as (H1 & H2 & _).
  split; [exact H1 | exact H2].
Defined.

End ProfilePage.
