(* ===== verification/HomePage.v ===== *)
(** * HomePage: the landing page and its category links

    [src/pages/HomePage.tsx] loads, on mount, the featured books, the
    testimonials and the categories with one [Promise.all] over
    [booksService.getFeaturedBooks], [getTestimonials] and [getCategories]
    (the three requests start in that order), then sets each list or the
    error of its call, and clears [loading].  The "Browse by Category"
    section shows skeletons while loading, the error when there is one,
    and otherwise a link [/books?category=<name>] for each of the first ten
    categories.

    Following a link, the catalogue page reads its [category] parameter
    with [URLSearchParams] ([BookListing.initFromParams]).  The reading of a
    query string by [URLSearchParams] is taken from the URL standard: the
    part after [?] and before [#], split on [&], each pair split at its
    first [=], with [+] read as a space and [%XY] decoded; the percent
    encoding the browser applies to spaces and quotes in a URL is undone by
    that decoding and is not modelled.

    The theorems show that a failure of the featured books replaces the
    categories section by that failure's message, and that a category link
    selects its category on the catalogue page exactly when the name has
    none of the characters [&], [#], [+] and [%]. *)

From S2P Require Import Prelude Book Store Filters BooksService BookListing.
From Stdlib Require Import Ascii String.

Open Scope Z_scope.

(** ** Query strings *)

(** The text before the first [c], and the rest after it when there is
    one. *)
Fixpoint break_at (c : ascii) (s : string) : string * option string :=
  match s with
  | EmptyString => (EmptyString, None)
  | String c' s' =>
      if Ascii.eqb c' c then (EmptyString, Some s')
      else let '(k, v) := break_at c s' in (String c' k, v)
  end.

Definition hex_value (c : ascii) : option nat :=
  let n := nat_of_ascii c in
  if (48 <=? n)%nat && (n <=? 57)%nat then Some (n - 48)%nat
  else if (65 <=? n)%nat && (n <=? 70)%nat then Some (n - 55)%nat
  else if (97 <=? n)%nat && (n <=? 102)%nat then Some (n - 87)%nat
  else None.

(** [application/x-www-form-urlencoded] decoding: [+] is a space and
    [%XY] the byte [XY]; a [%] not followed by two hex digits stays. *)
Fixpoint decode (s : string) : string :=
  match s with
  | EmptyString => EmptyString
  | String c s' =>
      if Ascii.eqb c "+" then String " " (decode s')
      else if Ascii.eqb c "%" then
        match s' with
        | String h1 (String h2 rest) =>
            match hex_value h1, hex_value h2 with
            | Some a, Some b => String (ascii_of_nat (16 * a + b)) (decode rest)
            | _, _ => String c (decode s')
            end
        | _ => String c (decode s')
        end
      else String c (decode s')
  end.

(** The query of a link: after the first [?], before the first [#]. *)
Definition query_of (href : string) : string :=
  match break_at "?" href with
  | (_, Some q) => fst (break_at "#" q)
  | (_, None) => EmptyString
  end.

(** [new URLSearchParams(query)]: its pairs, in order. *)
Definition searchParams (q : string) : list (string * string) :=
  map (fun s => let '(k, v) := break_at "=" s in (decode k, decode (default EmptyString v)))
    (List.filter (fun s => negb (bool_decide (s = EmptyString))) (split_on "&" q)).

(** A name the query string reads back unchanged. *)
Definition url_safe (s : string) : bool :=
  negb (has_char "&" s || has_char "#" s || has_char "+" s || has_char "%" s).

Lemma break_at_none (c : ascii) (s : string) : has_char c s = false -> break_at c s = (s, None).
Proof.
  induction s as [|c' s IH]; simpl; [reflexivity |]; intros H.
  apply orb_false_iff in H as [Hc Hs]; rewrite Ascii.eqb_sym, Hc, IH by exact Hs; reflexivity.
Qed.

Lemma break_at_app (c : ascii) (a b : string) :
  has_char c a = false -> break_at c (a ++ String c b) = (a, Some b).
Proof.
  induction a as [|c' a IH]; simpl; intros H; [now rewrite Ascii.eqb_refl |].
  apply orb_false_iff in H as [Hc Ha]; rewrite Ascii.eqb_sym, Hc, IH by exact Ha; reflexivity.
Qed.

Lemma decode_plain (s : string) : has_char "+" s = false -> has_char "%" s = false -> decode s = s.
Proof.
  induction s as [|c s IH]; cbn [decode has_char]; [reflexivity |]; intros Hp Hq.
  apply orb_false_iff in Hp as [Hp1 Hp2]; apply orb_false_iff in Hq as [Hq1 Hq2].
  rewrite Ascii.eqb_sym, Hp1, Ascii.eqb_sym, Hq1, IH by assumption; reflexivity.
Qed.

(** The query of [prefix?key=value], for a prefix without [?] and a safe
    value: the one pair [(key, value)]. *)
Lemma searchParams_single (prefix key value : string) :
  has_char "?" prefix = false -> has_char "=" key = false -> key <> EmptyString ->
  url_safe key = true -> url_safe value = true ->
  searchParams (query_of (prefix ++ String "?" (key ++ String "=" value))) = [(key, value)].
Proof.
  unfold url_safe; intros Hq He Hk Sk Sv.
  apply negb_true_iff in Sk, Sv; rewrite !orb_false_iff in Sk, Sv.
  destruct Sk as [[[Ak Hk'] Pk] Ck]; destruct Sv as [[[Av Hv] Pv] Cv].
  unfold query_of; rewrite break_at_app by exact Hq; cbn [fst].
  rewrite break_at_none by (rewrite has_char_app; simpl; now rewrite Hk', Hv).
  cbn [fst]; unfold searchParams; rewrite split_on_no_sep by (rewrite has_char_app; simpl; now rewrite Ak, Av).
  simpl; rewrite bool_decide_eq_false_2 by (destruct key; [contradiction | discriminate]).
  simpl; rewrite break_at_app by exact He; simpl.
  rewrite !decode_plain by assumption; reflexivity.
Qed.

Module HomePage.
Import BooksService.

(** [{ id: index + 1, name: catName }]. *)
Record Category := mkCategory { category_id : Z; category_name : string }.

Fixpoint transformFrom (i : Z) (names : list string) : list Category :=
  match names with
  | [] => []
  | n :: ns => mkCategory i n :: transformFrom (i + 1) ns
  end.

Definition transformCategories (names : list string) : list Category := transformFrom 1 names.

Record HomeState := mkHomeState {
  featuredBooks : list Book;
  testimonials : list Testimonial;
  categories : list Category;
  loading : bool;
  error : option string
}.

Definition initialState : HomeState := mkHomeState [] [] [] true None.

Definition set_error (e : string) (st : HomeState) : HomeState :=
  mkHomeState (featuredBooks st) (testimonials st) (categories st) (loading st) (Some e).

(** The three results, handled in order: an error is set, a list is
    stored; [finally] clears [loading]. *)
Definition applyResults (br : BooksResult) (tr : list Testimonial * option string)
    (cr : CategoriesResult) (st0 : HomeState) : HomeState :=
  let st := mkHomeState (featuredBooks st0) (testimonials st0) (categories st0) true None in
  let st := match br_error br with
            | Some e => set_error e st
            | None => mkHomeState (br_books br) (testimonials st) (categories st) (loading st) (error st)
            end in
  let st := match tr.2 with
            | Some e => set_error e st
            | None => mkHomeState (featuredBooks st) tr.1 (categories st) (loading st) (error st)
            end in
  let st := match categories_error cr with
            | Some e => set_error e st
            | None => mkHomeState (featuredBooks st) (testimonials st)
                        (transformCategories (categoryNames cr)) (loading st) (error st)
            end in
  mkHomeState (featuredBooks st) (testimonials st) (categories st) false (error st).

Definition fetchData (st : HomeState) : M HomeState :=
  br ← getFeaturedBooks;
  tr ← getTestimonials;
  cr ← getCategories;
  mret (applyResults br tr cr st).

(** What "Browse by Category" shows. *)
Inductive CategoriesView :=
  | CatSkeleton (n : nat)
  | CatError (e : string)
  | CatEmpty
  | CatLinks (links : list string).

(** [to={`/books?category=${category.name}`}]. *)
Definition categoryLink (name : string) : string := ("/books?category=" ++ name)%string.

Definition renderFeaturedCategories (st : HomeState) : CategoriesView :=
  if loading st then CatSkeleton 10
  else match error st with
       | Some e => CatError e
       | None =>
           match categories st with
           | [] => CatEmpty
           | cs => CatLinks (map (fun c => categoryLink (category_name c)) (firstn 10 cs))
           end
       end.

(** ** Runs of the three calls *)

Lemma categoryFilter_empty (w : World) : run (categoryFilter "") w = (RespOk None, w).
Proof. reflexivity. Qed.

(** The featured books are one range request: no search, no category. *)
Lemma getFeaturedBooks_unfold :
  getFeaturedBooks =
  r ← select_range DbBook (fun _ b => true && in_category None b)
        (order_by (book_column "rating") false) 0 5;
  match r with
  | RespErr e => mret (books_failed (message e))
  | RespOk (rows, count) =>
      mret (mkBooksResult (map (fun ib => mapDatabaseBookToModel ib.2) rows) count
              (Some (total_pages count 6)) (Some 1) None)
  end.
Proof. reflexivity. Qed.

Lemma getFeaturedBooks_fails (w : World) (e : PgError) :
  (pop (faults w)).1 = Some e ->
  run getFeaturedBooks w = (books_failed (message e), mkWorld (db w) (pop (faults w)).2).
Proof.
  intros H; rewrite getFeaturedBooks_unfold, run_bind; unfold select_range.
  rewrite (run_request_err _ _ e H); reflexivity.
Qed.

Lemma getFeaturedBooks_answered (w : World) :
  (pop (faults w)).1 = None ->
  br_error (run getFeaturedBooks w).1 = None /\
  (run getFeaturedBooks w).2 = mkWorld (db w) (pop (faults w)).2.
Proof.
  intros H; rewrite getFeaturedBooks_unfold, run_bind; unfold select_range.
  rewrite (run_request_ok _ _ H); case_bool_decide; [lia |]; split; reflexivity.
Qed.

Lemma getTestimonials_answered (w : World) :
  (pop (faults w)).1 = None ->
  (run getTestimonials w).1.2 = None /\ (run getTestimonials w).2 = mkWorld (db w) (pop (faults w)).2.
Proof.
  intros H; unfold getTestimonials, select_limit; rewrite run_bind, (run_request_ok _ _ H).
  split; reflexivity.
Qed.

Lemma getCategories_answered (w : World) :
  (pop (faults w)).1 = None ->
  run getCategories w = (fst (run getCategories (mkWorld (db w) [])), mkWorld (db w) (pop (faults w)).2) /\
  categories_error (run getCategories w).1 = None.
Proof.
  intros H; unfold getCategories, rpc_get_all_categories; rewrite !run_bind, (run_request_ok _ _ H).
  rewrite (run_request_ok _ (mkWorld (db w) [])) by reflexivity; split; reflexivity.
Qed.

Lemma map_category_name (i : Z) (ns : list string) : map category_name (transformFrom i ns) = ns.
Proof. revert i; induction ns as [|n ns IH]; intros i; simpl; [| rewrite IH]; reflexivity. Qed.

Lemma transformFrom_nil (i : Z) (ns : list string) : transformFrom i ns = [] <-> ns = [].
Proof. destruct ns; simpl; split; congruence. Qed.

(** The category names [getCategories] answers on [d]. *)
Definition storedCategoryNames (d : DB) : list string :=
  categoryNames (fst (run getCategories (mkWorld d []))).

(** (C29) A failure of the featured books hides the categories: when the
    featured-books request fails with [e] and the testimonials and
    categories are answered, the categories are loaded, yet "Browse by
    Category" shows [e]'s message instead of them. *)
Theorem featured_failure_hides_categories (e : PgError) (d : DB) (st : HomeState) :
  let st' := (run (fetchData st) (mkWorld d [Some e; None; None])).1 in
  categories st' = transformCategories (storedCategoryNames d) /\
  renderFeaturedCategories st' = CatError (message e).
Proof.
  unfold fetchData; rewrite run_bind, (getFeaturedBooks_fails _ e) by reflexivity.
  cbn [db faults pop fst snd]; rewrite run_bind.
  destruct (getTestimonials_answered (mkWorld d [None; None]) eq_refl) as [Ht Hw].
  destruct (run getTestimonials _) as [tr w1]; cbn [fst snd] in Ht, Hw; subst w1.
  cbn [db faults pop fst snd]; rewrite run_bind.
  destruct (getCategories_answered (mkWorld d [None]) eq_refl) as [Hc He].
  rewrite Hc in He |- *; cbn [db faults pop fst snd] in He |- *.
  unfold run at 1, mret, M_ret, applyResults, renderFeaturedCategories; rewrite Ht, He.
  split; reflexivity.
Qed.

(** With every request answered, the categories section links the
    first ten stored categories, in the order the RPC returns them, each
    to [/books?category=<name>]; it shows "No categories available" when
    there is none. *)
Theorem home_categories_links (d : DB) (st : HomeState) :
  let st' := (run (fetchData st) (mkWorld d [])).1 in
  error st' = None /\
  renderFeaturedCategories st' =
    match storedCategoryNames d with
    | [] => CatEmpty
    | ns => CatLinks (map categoryLink (firstn 10 ns))
    end.
Proof.
  unfold fetchData; rewrite run_bind.
  destruct (getFeaturedBooks_answered (mkWorld d []) eq_refl) as [Hb Hw].
  destruct (run getFeaturedBooks _) as [br w1]; cbn [fst snd] in Hb, Hw; subst w1.
  cbn [db faults pop fst snd]; rewrite run_bind.
  destruct (getTestimonials_answered (mkWorld d []) eq_refl) as [Ht Hw].
  destruct (run getTestimonials _) as [tr w1]; cbn [fst snd] in Ht, Hw; subst w1.
  cbn [db faults pop fst snd]; rewrite run_bind.
  destruct (getCategories_answered (mkWorld d []) eq_refl) as [Hc He].
  rewrite Hc in He |- *; cbn [db faults pop fst snd] in He |- *.
  unfold run at 1, mret, M_ret, applyResults, renderFeaturedCategories; rewrite Hb, Ht, He.
  cbn [fst snd error loading categories]; split; [reflexivity |].
  unfold transformCategories, storedCategoryNames.
  destruct (categoryNames _) as [|n ns] eqn:E; [reflexivity |].
  cbn [transformFrom]; f_equal.
  rewrite <- (map_category_name 1 (n :: ns)), firstn_map, map_map; reflexivity.
Qed.

(** (C30) A category link selects its category on the catalogue page: for
    a name without [&], [#], [+] or [%], the page opened by the link reads
    back exactly that name as its one selected category. *)
Theorem category_link_selects_category (name : string) :
  name <> ""%string -> url_safe name = true ->
  BookListing.selectedCategories
    (BookListing.initFromParams (searchParams (query_of (categoryLink name))) BookListing.initialState)
  = [name].
Proof.
  intros Hn Hs.
  change (categoryLink name) with ("/books" ++ String "?" ("category" ++ String "=" name))%string.
  rewrite searchParams_single by (reflexivity || discriminate || exact Hs).
  unfold BookListing.initFromParams.
  replace (BookListing.getParam [("category", name)] "category") with (Some name) by reflexivity.
  replace (BookListing.getParam [("category", name)] "query") with (@None string) by reflexivity.
  replace (BookListing.getParam [("category", name)] "view") with (@None string) by reflexivity.
  rewrite bool_decide_eq_false_2 by exact Hn; reflexivity.
Qed.

(** ** Runs *)

Lemma category_link_selects_category_witness :
  BookListing.selectedCategories
    (BookListing.initFromParams (searchParams (query_of (categoryLink "Fiction"))) BookListing.initialState)
  = ["Fiction"%string].
Proof. apply category_link_selects_category; [discriminate | reflexivity]. Defined.

(** A category whose name has [&] or [#] is cut: its link selects the
    text before it, ["Arts "] for "Arts & Crafts" and ["C"] for "C#", a
    category that does not exist. *)
Example category_link_cuts_names :
  BookListing.selectedCategories
    (BookListing.initFromParams (searchParams (query_of (categoryLink "Arts & Crafts"))) BookListing.initialState)
  = ["Arts "%string] /\
  BookListing.selectedCategories
    (BookListing.initFromParams (searchParams (query_of (categoryLink "C#"))) BookListing.initialState)
  = ["C"%string].
Proof. split; vm_compute; reflexivity. Qed.

End HomePage.
