(* ===== verification/Navbar.v ===== *)
(** * Navbar: the header's cart badge and user menu

    [src/components/Navbar.tsx] keeps four pieces of state: whether the
    page is scrolled, whether the mobile menu and the search box are open,
    and the number of items shown on the cart badge.  The badge count is
    fetched when the user or the path changes (and every 30 seconds) with
    [CartService.getOrCreateCart] and [CartService.getCartItems]: it is the
    sum of the quantities of the user's cart lines, [0] without a user, and
    it is left as it was when a request fails.  The user menu shows a
    display name and an initial taken from the account's metadata or its
    email.

    The theorems show that the badge counts the quantities of the lines of
    the user's cart, the same lines the cart page shows, and that a failed
    request leaves a stale count. *)

From S2P Require Import Prelude Book Pricing Store Filters CartService CartPage Auth.
From Stdlib Require Import Ascii String.
From stdpp Require Import pretty.

Open Scope Z_scope.

Module Navbar.
Import Pricing CartService Auth.

Record NavState := mkNavState {
  isScrolled : bool;
  isMenuOpen : bool;
  isSearchOpen : bool;
  cartItemsCount : Z
}.

Definition initialState : NavState := mkNavState false false false 0.

(** [handleScroll]: [setIsScrolled(window.scrollY > 10)]. *)
Definition handleScroll (scrollY : Z) (st : NavState) : NavState :=
  mkNavState (bool_decide (10 < scrollY)) (isMenuOpen st) (isSearchOpen st) (cartItemsCount st).

(** The effect on [location]: the mobile menu closes. *)
Definition onLocationChange (st : NavState) : NavState :=
  mkNavState (isScrolled st) false (isSearchOpen st) (cartItemsCount st).

Definition toggleSearch (st : NavState) : NavState :=
  mkNavState (isScrolled st) (isMenuOpen st) (negb (isSearchOpen st)) (cartItemsCount st).

Definition toggleMenu (st : NavState) : NavState :=
  mkNavState (isScrolled st) (negb (isMenuOpen st)) (isSearchOpen st) (cartItemsCount st).

Definition setCartItemsCount (n : Z) (st : NavState) : NavState :=
  mkNavState (isScrolled st) (isMenuOpen st) (isSearchOpen st) n.

(** [items.reduce((total, item) => total + item.quantity, 0)]. *)
Definition totalItems (items : list (Z * CartItemRow * option DbBook)) : Z :=
  fold_left (fun total item => total + ci_quantity item.1.2) items 0.

(** [fetchCartItems]: an error returns without setting the count. *)
Definition fetchCartItems (user : option User) (st : NavState) : M NavState :=
  match user with
  | None => mret (setCartItemsCount 0 st)
  | Some u =>
      cr ← getOrCreateCart (user_id u);
      match cart_error cr, cart cr with
      | None, Some (cid, _) =>
          ir ← getCartItems cid;
          match items_error ir with
          | Some _ => mret st
          | None => mret (setCartItemsCount (totalItems (items ir)) st)
          end
      | _, _ => mret st
      end
  end.

(** The badge: nothing at [0], ["99+"] above 99. *)
Definition cartBadge (st : NavState) : option string :=
  if bool_decide (0 < cartItemsCount st) then
    Some (if bool_decide (99 < cartItemsCount st) then "99+"%string else pretty (cartItemsCount st))
  else None.

(** ** The user menu *)

(** A non-empty string is truthy. *)
Definition truthy (o : option string) : bool :=
  match o with Some s => negb (bool_decide (s = ""%string)) | None => false end.

Definition or_empty (o : option string) : string :=
  match o with Some s => s | None => ""%string end.

Definition getUserDisplayName (user : option User) : string :=
  match user with
  | None => "User"
  | Some u =>
      if truthy (user_first_name u) || truthy (user_last_name u) then
        trim (or_empty (user_first_name u) ++ " " ++ or_empty (user_last_name u))
      else
        let local := hd ""%string (split_on "@" (user_email u)) in
        if bool_decide (local = ""%string) then "User" else local
  end.

(** [toUpperCase] on ASCII letters; other characters are left as they
    are. *)
Definition upper_ascii (c : ascii) : ascii :=
  let n := nat_of_ascii c in
  if (97 <=? n)%nat && (n <=? 122)%nat then ascii_of_nat (n - 32) else c.

(** [s.charAt(0).toUpperCase()]. *)
Definition initialOf (s : string) : string :=
  match s with
  | String c _ => String (upper_ascii c) EmptyString
  | EmptyString => EmptyString
  end.

Definition getUserInitial (user : option User) : string :=
  match user with
  | None => "U"
  | Some u =>
      if truthy (user_first_name u) then initialOf (or_empty (user_first_name u))
      else let i := initialOf (user_email u) in
           if bool_decide (i = ""%string) then "U" else i
  end.

(** ** Lemmas *)

Lemma totalItems_acc (items : list (Z * CartItemRow * option DbBook)) (acc : Z) :
  fold_left (fun total item => total + ci_quantity item.1.2) items acc = acc + totalItems items.
Proof.
  unfold totalItems; revert acc; induction items as [|it items IH]; intros acc; simpl; [lia |].
  rewrite (IH (acc + _)), (IH (0 + _)); lia.
Qed.

(** The quantities the cart page shows add up to the badge count. *)
Lemma totalItems_transform (rows : list (Z * CartItemRow * option DbBook)) (items : list CartItem) :
  CartPage.transformItems rows = Some items ->
  totalItems rows = fold_left (fun total it => total + quantity it) items 0.
Proof.
  assert (Hq : forall (l : list CartItem) acc,
             fold_left (fun total it => total + quantity it) l acc =
             acc + fold_left (fun total it => total + quantity it) l 0).
  { induction l as [|it l IH]; intros acc; simpl; [lia |]; rewrite (IH (acc + _)), (IH (0 + _)); lia. }
  revert items; induction rows as [|[[i r] b] rows IH]; intros items; simpl; [now intros [= <-] |].
  destruct b as [bk|]; [| discriminate].
  destruct (CartPage.transformItems rows) as [its|]; [| discriminate]; intros [= <-].
  pose proof (Hq its (ci_quantity r)); pose proof (totalItems_acc rows (ci_quantity r)).
  pose proof (IH its eq_refl); unfold totalItems at 1; simpl; rewrite !Z.add_0_l; lia.
Qed.

Lemma getCartItems_answered (c : Z) (w : World) :
  faults w = [] ->
  run (getCartItems c) w =
  (mkCartItemsResult (map (joinBook (db w)) (rows_where (inCart c) (db w))) None, mkWorld (db w) []).
Proof.
  intros Hf; unfold getCartItems; rewrite run_bind, run_request_ok by (rewrite Hf; reflexivity).
  rewrite Hf; reflexivity.
Qed.

(** ** The badge *)

(** (C19) The badge counts the user's cart: with every request answered and
    one cart [i] for the user, the count is the sum of the quantities of
    the lines of that cart; when the cart page can show those lines, it is
    the sum of the quantities the cart page shows. *)
Theorem navbar_count_matches_cart (u : User) (st : NavState) (w : World) (i : Z) (c : CartRow) :
  faults w = [] -> rows_where (ownedBy (user_id u)) (db w) = [(i, c)] ->
  let n := cartItemsCount (run (fetchCartItems (Some u) st) w).1 in
  n = totalItems (map (joinBook (db w)) (rows_where (inCart i) (db w))) /\
  forall items, CartPage.transformItems (map (joinBook (db w)) (rows_where (inCart i) (db w))) = Some items ->
    n = fold_left (fun total it => total + quantity it) items 0.
Proof.
  intros Hf Hr; unfold fetchCartItems; rewrite run_bind, (getOrCreateCart_found _ w i c Hf Hr).
  cbn [cart_error cart]; rewrite run_bind, (getCartItems_answered i w Hf); cbn.
  split; [reflexivity | intros items; apply totalItems_transform].
Qed.

(** A failed request leaves a stale badge: when the cart lookup fails
    (with an error other than [PGRST116]), the count stays what it was,
    whatever the cart now holds. *)
Theorem navbar_count_stale_on_failure (u : User) (st : NavState) (w : World) (e : PgError) :
  (pop (faults w)).1 = Some e -> code e <> PGRST116 ->
  (run (fetchCartItems (Some u) st) w).1 = st.
Proof.
  intros He Hc; unfold fetchCartItems, getOrCreateCart, select_maybeSingle.
  rewrite !run_bind, (run_request_err _ _ e He); cbn.
  rewrite bool_decide_eq_false_2 by exact Hc; reflexivity.
Qed.

(** ** Runs *)

Definition shopper : User := mkUser "u1" "shopper@example.com" None None.

Lemma navbar_count_matches_cart_witness :
  cartItemsCount (run (fetchCartItems (Some shopper) initialState) w0).1 = 10.
Proof.
  rewrite (proj1 (navbar_count_matches_cart shopper initialState w0 1 (mkCartRow "u1") eq_refl eq_refl)).
  reflexivity.
Defined.

Lemma navbar_count_stale_on_failure_witness :
  (run (fetchCartItems (Some shopper) (setCartItemsCount 3 initialState)) (mkWorld db0 [Some net_error])).1
  = setCartItemsCount 3 initialState.
Proof. apply (navbar_count_stale_on_failure shopper _ _ net_error); [reflexivity | discriminate]. Defined.

End Navbar.
