(* ===== verification/OrderHistory.v ===== *)
(** * OrderHistory: the order queries of [src/services/orderService.ts]

    [getUserOrders] lists a user's orders, newest first; [getOrderDetails]
    first reads the order with [.eq("id", orderId).eq("user_id", user)
    .single()], so that an order of another user is not returned, then
    reads its lines with the ordered book embedded ([books:book_id],
    through the foreign key of [order_items.book_id]).  Both use the demo
    user id when the given one is empty, as [createOrder] does.  Orders
    are ordered by [created_at], which follows the id counter in this
    model ([Filters.newest_first]).

    The theorem shows that whatever the backend answers, [getOrderDetails]
    returns only a stored order of the requesting user, under the id asked
    for, and only lines of that order. *)

From S2P Require Import Prelude Book Store Filters OrderService AdminCatalog.
From Stdlib Require Import String.
From stdpp Require Import sorting.

Open Scope Z_scope.

Module OrderHistory.
Import OrderService.

(** [userId || '00000000-0000-0000-0000-000000000000']. *)
Definition orderUser (userId : string) : string :=
  if bool_decide (userId = ""%string) then DEFAULT_USER else userId.

Definition ownedBy (u : string) (_ : Z) (o : OrderRow) : bool := bool_decide (o_user_id o = u).

(** [{ orders, error }]. *)
Definition getUserOrders (userId : string) : M (list (Z * OrderRow) * option string) :=
  r ← request (fun d =>
        (RespOk (merge_sort newest_first (rows_where (ownedBy (orderUser userId)) d)), d));
  match r with
  | RespErr e => mret ([], Some (message e))
  | RespOk os => mret (os, None)
  end.

(** [.eq("id", orderId).eq("user_id", userToUse)]. *)
Definition ownOrder (orderId : Z) (u : string) (i : Z) (o : OrderRow) : bool :=
  bool_decide (i = orderId) && ownedBy u i o.

(** [.eq("order_id", orderId)]. *)
Definition ofOrder (orderId : Z) (_ : Z) (it : OrderItemRow) : bool :=
  bool_decide (oi_order_id it = orderId).

(** A line with its embedded book. *)
Definition withBook (d : DB) (it : Z * OrderItemRow) : Z * OrderItemRow * option DbBook :=
  (it, books d !! oi_book_id it.2).

(** [.from("order_items").select] of every column and the embedded book, [.eq("order_id", orderId)]. *)
Definition select_items (orderId : Z) : M (Resp (list (Z * OrderItemRow * option DbBook))) :=
  request (fun d =>
    match AdminCatalog.embed_target "order_items" "book_id" with
    | None => (RespErr (AdminCatalog.no_relationship "order_items" "book_id"), d)
    | Some _ => (RespOk (map (withBook d) (rows_where (ofOrder orderId) d)), d)
    end).

(** [{ order, items, error }]. *)
Record OrderDetails := mkOrderDetails {
  details_order : option (Z * OrderRow);
  details_items : list (Z * OrderItemRow * option DbBook);
  details_error : option string
}.

Definition getOrderDetails (orderId : Z) (userId : string) : M OrderDetails :=
  r ← select_single OrderRow (ownOrder orderId (orderUser userId));
  match r with
  | RespErr e => mret (mkOrderDetails None [] (Some (message e)))
  | RespOk order =>
      ir ← select_items orderId;
      match ir with
      | RespErr e => mret (mkOrderDetails (Some order) [] (Some (message e)))
      | RespOk items => mret (mkOrderDetails (Some order) items None)
      end
  end.

(** ** Lemmas *)

Lemma select_single_result (P : Z -> OrderRow -> bool) (w : World) (i : Z) (o : OrderRow) :
  (run (select_single OrderRow P) w).1 = RespOk (i, o) -> orders (db w) !! i = Some o /\ P i o = true.
Proof.
  unfold select_single, run, request; destruct (pop (faults w)) as [[e|] fs]; simpl; [discriminate |].
  intros Hs; apply single_ok in Hs.
  exact (proj1 (rows_where_In (R := OrderRow) P (db w) i o) ltac:(rewrite Hs; now left)).
Qed.

Lemma select_items_lines (orderId : Z) (w : World) (items : list (Z * OrderItemRow * option DbBook)) :
  (run (select_items orderId) w).1 = RespOk items -> Forall (fun it => oi_order_id it.1.2 = orderId) items.
Proof.
  unfold select_items, run, request; destruct (pop (faults w)) as [[e|] fs]; simpl; [discriminate |].
  intros [= <-]; apply List.Forall_forall; intros x Hx; apply in_map_iff in Hx as [[i it] [<- Hin]].
  apply (rows_where_In (R := OrderItemRow)) in Hin as [_ Hc]; now apply bool_decide_eq_true in Hc.
Qed.

(** ** The property *)

(** (C14) Order details are private: whatever the backend answers,
    [getOrderDetails] returns no order or the stored order with the id
    asked for and the requesting user (the demo user for an empty id),
    and only lines of that order. *)
Theorem getOrderDetails_only_own_order (orderId : Z) (userId : string) (w : World) :
  let r := (run (getOrderDetails orderId userId) w).1 in
  (forall i o, details_order r = Some (i, o) ->
     i = orderId /\ o_user_id o = orderUser userId /\ orders (db w) !! i = Some o) /\
  Forall (fun it => oi_order_id it.1.2 = orderId) (details_items r).
Proof.
  unfold getOrderDetails; rewrite run_bind.
  destruct (run (select_single _ _) w) as [[[i o]|e] w1] eqn:E;
    [| simpl; split; [intros ? ? [=] | constructor]].
  pose proof (select_single_result _ w i o (f_equal fst E)) as [Hl Ho].
  unfold ownOrder, ownedBy in Ho; apply andb_true_iff in Ho as [Hi Hu].
  apply bool_decide_eq_true in Hi, Hu; subst i.
  assert (Hown : forall i' o', Some (orderId, o) = Some (i', o') ->
            i' = orderId /\ o_user_id o' = orderUser userId /\ orders (db w) !! i' = Some o')
    by (intros i' o' [= <- <-]; auto).
  rewrite run_bind; destruct (run (select_items orderId) w1) as [[items|e] w2] eqn:F; simpl.
  - split; [exact Hown | exact (select_items_lines orderId w1 items (f_equal fst F))].
  - split; [exact Hown | constructor].
Qed.

End OrderHistory.
