(* ===== verification/AdminBookForm.v ===== *)
(** * AdminBookForm: the book dialog's form handlers

    The form of [src/components/admin/books/BookForm.tsx] writes into the
    [formData] of [AdminBooksPage] through the page's handlers:
    [handleChange] for the text inputs (by their [name]),
    [handleSwitchChange] for the four switches and the stock status
    select, and the dialog's [handleCategoryChange], which forwards the
    chosen category to [handleChange] under the name [category]
    ([src/components/admin/books/BookDialog.tsx]).  The dialog's
    [handleOpenChange] resets the form when the dialog closes and then
    closes the modal of the current mode.

    [handleNumberChange] stores [Number(value)], which is [NaN] for a text
    that is not a number; a form holding [NaN] has no value of the
    model's [BookData] and the handler is not modelled.

    The theorem shows that closing the edit dialog closes the edit modal
    and discards the edits: the mode is read before [resetForm] clears
    [bookToEdit]. *)

From S2P Require Import Prelude Book Store BookWrites AdminCatalog.
From Stdlib Require Import String.

Open Scope Z_scope.

Module AdminBookForm.
Import BookWrites AdminCatalog.AdminBooksPage.

(** The [name]s of the text inputs, and [category]. *)
Inductive TextField :=
  | FTitle | FAuthor | FCoverImage | FCategory | FIsbn | FLanguage | FPublisher
  | FPublicationDate | FEdition | FBinding | FDescription.

(** The switches, and the stock status select. *)
Inductive SwitchField := FIsNew | FHasFreeDelivery | FHasRentOption | FIsAvailableForResell.

Definition with_form (f : BookData) (st : PageState) : PageState :=
  mkPageState (isAddBookModalOpen st) (isEditBookModalOpen st) (isDeleteConfirmOpen st)
    (bookToEdit st) (bookToDelete st) (page st) (search st) (category st) f.

(** [{ ...prev, [name]: value }] for a text field. *)
Definition set_text (name : TextField) (v : string) (b : BookData) : BookData :=
  let s := Some v in
  match name with
  | FTitle => mkBookData s (bd_author b) (bd_coverImage b) (bd_price b) (bd_originalPrice b) (bd_description b) (bd_category b) (bd_language b) (bd_publisher b) (bd_publicationDate b) (bd_isbn b) (bd_pageCount b) (bd_edition b) (bd_binding b) (bd_isNew b) (bd_hasFreeDelivery b) (bd_hasRentOption b) (bd_isAvailableForResell b) (bd_stockStatus b)
  | FAuthor => mkBookData (bd_title b) s (bd_coverImage b) (bd_price b) (bd_originalPrice b) (bd_description b) (bd_category b) (bd_language b) (bd_publisher b) (bd_publicationDate b) (bd_isbn b) (bd_pageCount b) (bd_edition b) (bd_binding b) (bd_isNew b) (bd_hasFreeDelivery b) (bd_hasRentOption b) (bd_isAvailableForResell b) (bd_stockStatus b)
  | FCoverImage => mkBookData (bd_title b) (bd_author b) s (bd_price b) (bd_originalPrice b) (bd_description b) (bd_category b) (bd_language b) (bd_publisher b) (bd_publicationDate b) (bd_isbn b) (bd_pageCount b) (bd_edition b) (bd_binding b) (bd_isNew b) (bd_hasFreeDelivery b) (bd_hasRentOption b) (bd_isAvailableForResell b) (bd_stockStatus b)
  | FDescription => mkBookData (bd_title b) (bd_author b) (bd_coverImage b) (bd_price b) (bd_originalPrice b) s (bd_category b) (bd_language b) (bd_publisher b) (bd_publicationDate b) (bd_isbn b) (bd_pageCount b) (bd_edition b) (bd_binding b) (bd_isNew b) (bd_hasFreeDelivery b) (bd_hasRentOption b) (bd_isAvailableForResell b) (bd_stockStatus b)
  | FCategory => mkBookData (bd_title b) (bd_author b) (bd_coverImage b) (bd_price b) (bd_originalPrice b) (bd_description b) s (bd_language b) (bd_publisher b) (bd_publicationDate b) (bd_isbn b) (bd_pageCount b) (bd_edition b) (bd_binding b) (bd_isNew b) (bd_hasFreeDelivery b) (bd_hasRentOption b) (bd_isAvailableForResell b) (bd_stockStatus b)
  | FLanguage => mkBookData (bd_title b) (bd_author b) (bd_coverImage b) (bd_price b) (bd_originalPrice b) (bd_description b) (bd_category b) s (bd_publisher b) (bd_publicationDate b) (bd_isbn b) (bd_pageCount b) (bd_edition b) (bd_binding b) (bd_isNew b) (bd_hasFreeDelivery b) (bd_hasRentOption b) (bd_isAvailableForResell b) (bd_stockStatus b)
  | FPublisher => mkBookData (bd_title b) (bd_author b) (bd_coverImage b) (bd_price b) (bd_originalPrice b) (bd_description b) (bd_category b) (bd_language b) s (bd_publicationDate b) (bd_isbn b) (bd_pageCount b) (bd_edition b) (bd_binding b) (bd_isNew b) (bd_hasFreeDelivery b) (bd_hasRentOption b) (bd_isAvailableForResell b) (bd_stockStatus b)
  | FPublicationDate => mkBookData (bd_title b) (bd_author b) (bd_coverImage b) (bd_price b) (bd_originalPrice b) (bd_description b) (bd_category b) (bd_language b) (bd_publisher b) s (bd_isbn b) (bd_pageCount b) (bd_edition b) (bd_binding b) (bd_isNew b) (bd_hasFreeDelivery b) (bd_hasRentOption b) (bd_isAvailableForResell b) (bd_stockStatus b)
  | FIsbn => mkBookData (bd_title b) (bd_author b) (bd_coverImage b) (bd_price b) (bd_originalPrice b) (bd_description b) (bd_category b) (bd_language b) (bd_publisher b) (bd_publicationDate b) s (bd_pageCount b) (bd_edition b) (bd_binding b) (bd_isNew b) (bd_hasFreeDelivery b) (bd_hasRentOption b) (bd_isAvailableForResell b) (bd_stockStatus b)
  | FEdition => mkBookData (bd_title b) (bd_author b) (bd_coverImage b) (bd_price b) (bd_originalPrice b) (bd_description b) (bd_category b) (bd_language b) (bd_publisher b) (bd_publicationDate b) (bd_isbn b) (bd_pageCount b) s (bd_binding b) (bd_isNew b) (bd_hasFreeDelivery b) (bd_hasRentOption b) (bd_isAvailableForResell b) (bd_stockStatus b)
  | FBinding => mkBookData (bd_title b) (bd_author b) (bd_coverImage b) (bd_price b) (bd_originalPrice b) (bd_description b) (bd_category b) (bd_language b) (bd_publisher b) (bd_publicationDate b) (bd_isbn b) (bd_pageCount b) (bd_edition b) s (bd_isNew b) (bd_hasFreeDelivery b) (bd_hasRentOption b) (bd_isAvailableForResell b) (bd_stockStatus b)
  end.

Definition handleChange (name : TextField) (v : string) (st : PageState) : PageState :=
  with_form (set_text name v (formData st)) st.

(** [handleSwitchChange(name, checked)] for a switch. *)
Definition set_switch (name : SwitchField) (v : bool) (b : BookData) : BookData :=
  let s := Some v in
  match name with
  | FIsNew => mkBookData (bd_title b) (bd_author b) (bd_coverImage b) (bd_price b) (bd_originalPrice b) (bd_description b) (bd_category b) (bd_language b) (bd_publisher b) (bd_publicationDate b) (bd_isbn b) (bd_pageCount b) (bd_edition b) (bd_binding b) s (bd_hasFreeDelivery b) (bd_hasRentOption b) (bd_isAvailableForResell b) (bd_stockStatus b)
  | FHasFreeDelivery => mkBookData (bd_title b) (bd_author b) (bd_coverImage b) (bd_price b) (bd_originalPrice b) (bd_description b) (bd_category b) (bd_language b) (bd_publisher b) (bd_publicationDate b) (bd_isbn b) (bd_pageCount b) (bd_edition b) (bd_binding b) (bd_isNew b) s (bd_hasRentOption b) (bd_isAvailableForResell b) (bd_stockStatus b)
  | FHasRentOption => mkBookData (bd_title b) (bd_author b) (bd_coverImage b) (bd_price b) (bd_originalPrice b) (bd_description b) (bd_category b) (bd_language b) (bd_publisher b) (bd_publicationDate b) (bd_isbn b) (bd_pageCount b) (bd_edition b) (bd_binding b) (bd_isNew b) (bd_hasFreeDelivery b) s (bd_isAvailableForResell b) (bd_stockStatus b)
  | FIsAvailableForResell => mkBookData (bd_title b) (bd_author b) (bd_coverImage b) (bd_price b) (bd_originalPrice b) (bd_description b) (bd_category b) (bd_language b) (bd_publisher b) (bd_publicationDate b) (bd_isbn b) (bd_pageCount b) (bd_edition b) (bd_binding b) (bd_isNew b) (bd_hasFreeDelivery b) (bd_hasRentOption b) s (bd_stockStatus b)
  end.

Definition handleSwitchChange (name : SwitchField) (v : bool) (st : PageState) : PageState :=
  with_form (set_switch name v (formData st)) st.

(** [handleSwitchChange('stockStatus', value)] of the stock status select. *)
Definition handleStockStatusChange (v : string) (st : PageState) : PageState :=
  let b := formData st in
  with_form (mkBookData (bd_title b) (bd_author b) (bd_coverImage b) (bd_price b) (bd_originalPrice b) (bd_description b) (bd_category b) (bd_language b) (bd_publisher b) (bd_publicationDate b) (bd_isbn b) (bd_pageCount b) (bd_edition b) (bd_binding b) (bd_isNew b) (bd_hasFreeDelivery b) (bd_hasRentOption b) (bd_isAvailableForResell b) (Some v)) st.

(** [handleCategoryChange] of the dialog. *)
Definition handleCategoryChange (v : string) (st : PageState) : PageState :=
  handleChange FCategory v st.

(** The dialog's [setIsOpen]: the mode is the [bookToEdit] of the render
    the callback was created in. *)
Definition setIsOpen (editing : bool) (open : bool) (st : PageState) : PageState :=
  if editing then
    mkPageState (isAddBookModalOpen st) open (isDeleteConfirmOpen st) (bookToEdit st) (bookToDelete st)
      (page st) (search st) (category st) (formData st)
  else
    mkPageState open (isEditBookModalOpen st) (isDeleteConfirmOpen st) (bookToEdit st) (bookToDelete st)
      (page st) (search st) (category st) (formData st).

(** [handleOpenChange]: [if (!open) resetForm(); setIsOpen(open)]. *)
Definition handleOpenChange (today : string) (open : bool) (st : PageState) : PageState :=
  let editing := bool_decide (is_Some (bookToEdit st)) in
  setIsOpen editing open (if open then st else resetForm today st).

(** [isOpen={isAddBookModalOpen || isEditBookModalOpen}]. *)
Definition dialogOpen (st : PageState) : bool := isAddBookModalOpen st || isEditBookModalOpen st.

(** ** Properties *)

(** (C25) Closing the edit dialog: after [openEditBookModal b] and any
    edits, closing the dialog hides it, leaves the edit mode and
    discards the edits, the form being the empty one again. *)
Theorem close_edit_dialog_discards (today : string) (b : Book) (st : PageState) (name : TextField) (v : string) :
  isAddBookModalOpen st = false ->
  let st' := handleOpenChange today false (handleChange name v (openEditBookModal b st)) in
  dialogOpen st' = false /\ bookToEdit st' = None /\ formData st' = emptyForm today.
Proof. intros Ha; unfold handleOpenChange; simpl; rewrite Ha; repeat split. Qed.

(** ** Runs *)

Lemma close_edit_dialog_discards_witness :
  let st0 := initialState "2025-01-01" in
  dialogOpen (handleOpenChange "2025-01-01" false
                (handleChange FTitle "Draft" (openEditBookModal (mapDatabaseBookToModel (sample_db_book 1 (inject_Z 300))) st0)))
  = false.
Proof.
  exact (proj1 (close_edit_dialog_discards "2025-01-01" (mapDatabaseBookToModel (sample_db_book 1 (inject_Z 300)))
                  (initialState "2025-01-01") FTitle "Draft" eq_refl)).
Defined.

End AdminBookForm.
