(* ===== verification/FormSchemas.v ===== *)
(** * FormSchemas: the validated forms of the order, login and register pages

    The three forms are [react-hook-form] forms with a [zodResolver] over a
    [zod] object schema ([formSchema] in [src/components/OrderForm.tsx],
    [src/pages/LoginPage.tsx] and [src/pages/RegisterPage.tsx]).  On submit
    [form.handleSubmit(onSubmit)] parses the values with the schema; the
    resolver keeps the first message of each field; [onSubmit] runs only
    when there is no error, and otherwise the messages are shown under the
    fields and nothing else happens.

    [Module Zod] holds the checks the schemas use, modelled from zod's
    documented behaviour (this code is a library, not part of [src/]):
    [.min(n, msg)] fails when the string has fewer than [n] code units,
    [.email(msg)] tests zod's email pattern, a [.refine] on the object runs
    after the fields were checked (zod runs it unless a field has the wrong
    type, so it reports its issue together with the field issues), and the
    resolver maps each field path to the first message reported for it.
    Strings are ASCII, one code unit per character.

    The theorems show that each form reaches its service only with values
    that satisfy its schema, that the empty forms are refused field by
    field, and what the email pattern guarantees. *)

From S2P Require Import Prelude Book Pricing Store Filters CartService OrderService CartPage Auth.
From Stdlib Require Import Ascii String.
From stdpp Require Import gmap.

Open Scope string_scope.

Module Zod.

(** An issue: the path of the field it is reported on and its message. *)
Record Issue := mkIssue { path : string; message : string }.

(** [z.string().min(n, { message })]: [input.length < n] is an issue. *)
Definition min_check (n : nat) (p msg s : string) : list Issue :=
  if (String.length s <? n)%nat then [mkIssue p msg] else [].

(** The character classes of zod's email pattern, which is matched with
    the [i] flag.  The pattern: no leading dot [(?!\.)], no two dots in a
    row [(?!.*\.\.)], a local part of [[A-Z0-9_'+\-\.]] ending with a
    character of [[A-Z0-9_+-]], an [@], one or more labels
    [[A-Z0-9][A-Z0-9\-]*] each followed by a dot, and a top-level domain
    [[A-Z]{2,}] ending the string. *)
Definition in_range (lo hi : nat) (c : ascii) : bool :=
  (lo <=? nat_of_ascii c)%nat && (nat_of_ascii c <=? hi)%nat.

Definition is_alpha (c : ascii) : bool := in_range 65 90 c || in_range 97 122 c.

Definition is_alnum (c : ascii) : bool := is_alpha c || in_range 48 57 c.

(** [[A-Z0-9_'+\-\.]] and [[A-Z0-9_+-]]. *)
Definition local_char (c : ascii) : bool := is_alnum c || has_char c "_'+-.".

Definition local_last (c : ascii) : bool := is_alnum c || has_char c "_+-".

Fixpoint string_forall (f : ascii -> bool) (s : string) : bool :=
  match s with
  | EmptyString => true
  | String c s' => f c && string_forall f s'
  end.

Fixpoint last_char (s : string) : option ascii :=
  match s with
  | EmptyString => None
  | String c EmptyString => Some c
  | String _ s' => last_char s'
  end.

(** [.*\.\.]: two dots in a row somewhere. *)
Fixpoint has_double_dot (s : string) : bool :=
  match s with
  | String c ((String c' _) as s') => (Ascii.eqb c "." && Ascii.eqb c' ".") || has_double_dot s'
  | _ => false
  end.

(** [[A-Z0-9][A-Z0-9\-]*]: a label of the domain. *)
Definition label_ok (l : string) : bool :=
  match l with
  | String c l' => is_alnum c && string_forall (fun c => is_alnum c || Ascii.eqb c "-") l'
  | EmptyString => false
  end.

(** [[A-Z]{2,}]: the top-level domain. *)
Definition tld_ok (t : string) : bool := (2 <=? String.length t)%nat && string_forall is_alpha t.

(** The whole pattern.  Neither part may hold an [@] and no label holds a
    dot, so the string splits at its [@] and its domain at its dots. *)
Definition email_regex (s : string) : bool :=
  match s with String "." _ => false | _ => true end &&
  negb (has_double_dot s) &&
  match split_on "@" s with
  | [local; domain] =>
      match last_char local with
      | Some c => local_last c && string_forall local_char local
      | None => false
      end &&
      match rev (split_on "." domain) with
      | tld :: ((_ :: _) as labels) => tld_ok tld && forallb label_ok labels
      | _ => false
      end
  | _ => false
  end.

(** [z.string().email({ message })]. *)
Definition email_check (p msg s : string) : list Issue :=
  if email_regex s then [] else [mkIssue p msg].

(** The errors [zodResolver] hands to the form: the first message of each
    path. *)
Definition resolverErrors (issues : list Issue) : gmap string string :=
  foldr (fun i m => <[path i := message i]> m) ∅ issues.

End Zod.

Import Zod.

(** ** The order form *)

Module OrderSchema.
Import OrderForm.

(** [formSchema], field by field in the schema's order. *)
Definition formSchema (v : FormValues) : list Issue :=
  List.concat
    [min_check 3 "fullName" "Full name is required (min 3 characters)" (fullName v);
     email_check "email" "Please enter a valid email address" (email v);
     min_check 10 "phone" "Please enter a valid phone number" (phone v);
     min_check 5 "address" "Address is required (min 5 characters)" (f_address v);
     min_check 2 "city" "City is required" (f_city v);
     min_check 6 "pincode" "Please enter a valid pincode" (pincode v);
     min_check 2 "state" "State is required" (f_state v)].

Definition defaultValues : FormValues := mkFormValues "" "" "" "" "" "" "".

(** [form.handleSubmit(onSubmit)] on the cart page's checkout: the errors
    shown, the outcome of [onSubmit] when it ran, and the page. *)
Definition submitOrderForm (user : option string) (st : CartPage.PageState) (now : Z)
    (v : FormValues) : M (gmap string string * option SubmitOutcome * CartPage.PageState) :=
  let errors := resolverErrors (formSchema v) in
  if bool_decide (errors = ∅) then
    r ← checkout user st now v;
    mret (errors, Some r.1, r.2)
  else mret (errors, None, st).

End OrderSchema.

(** ** The login and register forms *)

Module AuthSchemas.
Import Auth.

Definition loginSchema (email password : string) : list Issue :=
  email_check "email" "Please enter a valid email address" email ++
  min_check 1 "password" "Password is required" password.

(** The object's fields ([confirmPassword] is a plain [z.string()]), then
    the [.refine] reported on [confirmPassword]. *)
Definition registerSchema (name email password confirmPassword : string) : list Issue :=
  List.concat
    [min_check 2 "name" "Name must be at least 2 characters" name;
     email_check "email" "Please enter a valid email address" email;
     min_check 6 "password" "Password must be at least 6 characters" password] ++
  (if bool_decide (password = confirmPassword) then []
   else [mkIssue "confirmPassword" "Passwords do not match"]).

(** [form.handleSubmit(onSubmit)] on the login page: the errors, the page
    [onSubmit] navigates to, and the auth state. *)
Definition submitLogin (email password : string) (cfg : Config)
    : gmap string string * option string * Config :=
  let errors := resolverErrors (loginSchema email password) in
  if bool_decide (errors = ∅) then
    let r := login_onSubmit email password cfg in (errors, r.1, r.2)
  else (errors, None, cfg).

Definition submitRegister (autoconfirm : bool) (name email password confirmPassword : string)
    (cfg : Config) : gmap string string * option string * Config :=
  let errors := resolverErrors (registerSchema name email password confirmPassword) in
  if bool_decide (errors = ∅) then
    let r := register_onSubmit autoconfirm name email password cfg in (errors, r.1, r.2)
  else (errors, None, cfg).

End AuthSchemas.

Import OrderForm OrderSchema Auth AuthSchemas.

(** The order form's schema as a proposition on the fields. *)
Definition order_valid (v : FormValues) : Prop :=
  (3 <= String.length (fullName v))%nat /\ email_regex (email v) = true /\
  (10 <= String.length (phone v))%nat /\ (5 <= String.length (f_address v))%nat /\
  (2 <= String.length (f_city v))%nat /\ (6 <= String.length (pincode v))%nat /\
  (2 <= String.length (f_state v))%nat.

(** The shipping fields of a stored order meet the minimum lengths the
    order form asks for its address, city, state and pincode. *)
Definition shipping_ok (o : OrderRow) : Prop :=
  (5 <= String.length (o_shipping_address o))%nat /\ (2 <= String.length (o_shipping_city o))%nat /\
  (2 <= String.length (o_shipping_state o))%nat /\ (6 <= String.length (o_shipping_zip o))%nat.

Definition orders_ok (d : DB) : Prop := forall i o, orders d !! i = Some o -> shipping_ok o.

(** ** Lemmas on the checks *)

Lemma min_check_nil (n : nat) (p msg s : string) :
  min_check n p msg s = [] <-> (n <= String.length s)%nat.
Proof.
  unfold min_check; destruct (String.length s <? n)%nat eqn:E;
    [apply Nat.ltb_lt in E | apply Nat.ltb_ge in E]; split; (discriminate || lia || done).
Qed.

Lemma email_check_nil (p msg s : string) : email_check p msg s = [] <-> email_regex s = true.
Proof. unfold email_check; destruct (email_regex s); split; (discriminate || done). Qed.

Create Rewrite HintDb schemas.
#[export] Hint Rewrite min_check_nil email_check_nil : schemas.

(** The form goes on exactly when the resolver reports nothing, that is
    when the schema has no issue. *)
Lemma resolverErrors_empty (l : list Issue) : resolverErrors l = ∅ <-> l = [].
Proof.
  destruct l as [|i l]; simpl; [done |].
  split; [intros H; exfalso; exact (insert_non_empty _ _ _ H) | discriminate].
Qed.

(** The first issue of a path gives its message. *)
Lemma resolverErrors_first (l l' : list Issue) (p m : string) :
  Forall (fun i => path i <> p) l -> resolverErrors (l ++ mkIssue p m :: l') !! p = Some m.
Proof.
  induction 1 as [|i l Hi _ IH]; simpl; [apply lookup_insert_eq |].
  rewrite lookup_insert_ne by congruence; exact IH.
Qed.

Lemma string_forall_has_char (f : ascii -> bool) (c : ascii) (s : string) :
  string_forall f s = true -> f c = false -> has_char c s = false.
Proof.
  induction s as [|c' s IH]; simpl; [done |]; intros [Hc Hs]%andb_true_iff Hf.
  apply orb_false_iff; split; [| exact (IH Hs Hf)].
  apply Ascii.eqb_neq; intros ->; congruence.
Qed.

Lemma last_char_nonempty (s : string) (c : ascii) : last_char s = Some c -> s <> "".
Proof. destruct s; [discriminate | done]. Qed.

Lemma formSchema_nil (v : FormValues) : formSchema v = [] <-> order_valid v.
Proof.
  unfold formSchema, order_valid; cbn [List.concat]; rewrite app_nil_r, !app_nil.
  autorewrite with schemas; tauto.
Qed.

Lemma loginSchema_nil (email password : string) :
  loginSchema email password = [] <-> email_regex email = true /\ password <> "".
Proof.
  unfold loginSchema; rewrite app_nil; autorewrite with schemas.
  destruct password; simpl; split; intros [H1 H2]; split; (done || lia).
Qed.

(** ** What the checkout writes into [orders] *)

Lemma insertLines_orders_ok (oid now : Z) (items : list OrderService.OrderLine) :
  preserves orders_ok (OrderService.insertLines oid now items).
Proof.
  induction items as [|it items IH]; simpl; [apply ret_preserves |].
  apply bind_preserves; [| intros _; exact IH].
  unfold insert; apply request_preserves; intros d Hd; exact Hd.
Qed.

(** [createOrder] adds one order, its header, and changes no other. *)
Lemma createOrder_orders_ok (u : string) (c : option Z) (items : list OrderService.OrderLine)
    (si : OrderService.ShippingInfo) (pm : string) (t : Q) (now : Z) :
  shipping_ok (OrderService.orderHeader u si pm t) ->
  preserves orders_ok (OrderService.createOrder u c items si pm t now).
Proof.
  intros Hs; unfold OrderService.createOrder; apply bind_preserves.
  - unfold insert_select; apply request_preserves; intros d Hd i o; cbn.
    rewrite lookup_insert_Some; intros [[_ <-] | [_ H]]; [exact Hs | exact (Hd i o H)].
  - intros [[oid o]|e]; [| apply ret_preserves].
    apply bind_preserves; [apply insertLines_orders_ok | intros _].
    apply bind_preserves.
    + destruct c; [| apply ret_preserves].
      apply bind_preserves; [| intros _; apply ret_preserves].
      unfold delete_where; apply request_preserves; intros d Hd; exact Hd.
    + intros _; apply bind_preserves; [| intros [?|?]; apply ret_preserves].
      unfold select_single; apply request_preserves; intros d Hd; exact Hd.
Qed.

Lemma checkout_orders_ok (user : option string) (st : CartPage.PageState) (now : Z) (v : FormValues) :
  order_valid v -> preserves orders_ok (checkout user st now v).
Proof.
  intros (_ & _ & _ & Ha & Hc & Hp & Hs); unfold checkout, onSubmit.
  apply bind_preserves; [| intros []; apply ret_preserves].
  destruct user as [uid|]; [| apply ret_preserves].
  apply bind_preserves; [| intros r; repeat case_match; apply ret_preserves].
  apply createOrder_orders_ok; repeat split; assumption.
Qed.

(** ** The properties *)

(** (C10) The order form only ever stores orders with a full shipping
    address: whatever the user types and whatever the backend answers, if
    every stored order had an address of at least 5 characters, a city and
    a state of at least 2 and a pincode of at least 6, the same holds after
    the form is submitted. *)
Theorem submitOrderForm_keeps_shipping_ok (user : option string) (st : CartPage.PageState) (now : Z)
    (v : FormValues) (w : World) :
  orders_ok (db w) -> orders_ok (db (run (submitOrderForm user st now v) w).2).
Proof.
  revert w; unfold submitOrderForm; cbv zeta; case_bool_decide as H.
  - apply bind_preserves; [| intros; apply ret_preserves].
    apply checkout_orders_ok, formSchema_nil, resolverErrors_empty, H.
  - apply ret_preserves.
Qed.

(** The order form reaches [onSubmit] only with valid values: when
    every field meets its minimum length and the email matches zod's
    pattern, submitting runs the checkout and shows no error; otherwise the
    resolver reports at least one error, the checkout does not run, and
    neither the store nor the page changes. *)
Theorem submitOrderForm_guard (user : option string) (st : CartPage.PageState) (now : Z)
    (v : FormValues) (w : World) :
  (order_valid v ->
     run (submitOrderForm user st now v) w =
     let r := run (checkout user st now v) w in ((∅, Some r.1.1, r.1.2), r.2)) /\
  (~ order_valid v ->
     run (submitOrderForm user st now v) w = ((resolverErrors (formSchema v), None, st), w) /\
     resolverErrors (formSchema v) <> ∅).
Proof.
  unfold submitOrderForm; cbv zeta; rewrite <- formSchema_nil, <- resolverErrors_empty.
  split; intros H.
  - rewrite bool_decide_eq_true_2 by exact H; rewrite run_bind, H; cbn.
    now destruct (run _ w) as [[? ?] ?].
  - rewrite bool_decide_eq_false_2 by exact H; split; [apply run_ret | exact H].
Qed.

(** The untouched order form is refused field by field: submitting
    the default values shows the seven messages of the schema, one under
    each field. *)
Example order_defaults_refused :
  resolverErrors (formSchema defaultValues) =
  {[ "fullName" := "Full name is required (min 3 characters)";
     "email" := "Please enter a valid email address";
     "phone" := "Please enter a valid phone number";
     "address" := "Address is required (min 5 characters)";
     "city" := "City is required";
     "pincode" := "Please enter a valid pincode";
     "state" := "State is required" ]}.
Proof. vm_compute; reflexivity. Qed.

(** The login form calls [signIn] only with a well-formed email and a
    non-empty password: a submission that navigates or changes the auth
    state had such values. *)
Theorem submitLogin_guard (email password : string) (cfg : Config) :
  (submitLogin email password cfg).1.2 <> None \/ (submitLogin email password cfg).2 <> cfg ->
  email_regex email = true /\ password <> "".
Proof.
  unfold submitLogin; cbv zeta; rewrite <- loginSchema_nil, <- resolverErrors_empty.
  case_bool_decide as H; [intros _; exact H | simpl; intros [[] | []]; reflexivity].
Qed.

(** (C15) Mismatched passwords never reach [signUp]: whatever the other
    fields hold, the register form then shows "Passwords do not match"
    under the confirmation field, does not navigate, and leaves the auth
    state as it was. *)
Theorem register_mismatch_refused (autoconfirm : bool) (name email password confirm : string)
    (cfg : Config) :
  password <> confirm ->
  let r := submitRegister autoconfirm name email password confirm cfg in
  r.2 = cfg /\ r.1.2 = None /\ r.1.1 !! "confirmPassword" = Some "Passwords do not match".
Proof.
  intros Hne; unfold submitRegister, registerSchema; cbv zeta.
  rewrite (bool_decide_eq_false_2 (password = confirm)) by exact Hne.
  set (l := List.concat _).
  assert (Hl : Forall (fun i => path i <> "confirmPassword") l).
  { unfold l, min_check, email_check; cbn [List.concat].
    repeat (case_match || rewrite ?app_nil_l); repeat constructor; discriminate. }
  rewrite bool_decide_eq_false_2; [split; [done | split; [done | exact (resolverErrors_first _ [] _ _ Hl)]] |].
  rewrite resolverErrors_empty; intros H; apply app_nil in H as [_ H]; discriminate.
Qed.

(** What the email pattern guarantees: an accepted address is a
    non-empty local part without [@], one [@], and a domain holding a
    dot. *)
Theorem email_regex_shape (s : string) :
  email_regex s = true ->
  exists local domain, s = local ++ String "@" domain /\ local <> "" /\
    has_char "@" local = false /\ has_char "." domain = true.
Proof.
  unfold email_regex; intros H; apply andb_true_iff in H as [_ H].
  pose proof (concat_split "@" s) as Hs.
  destruct (split_on "@" s) as [|l [|d [|]]]; try discriminate; simpl in Hs.
  apply andb_true_iff in H as [Hl Hd].
  destruct (last_char l) as [c|] eqn:Ec; [| discriminate]; apply andb_true_iff in Hl as [_ Hl].
  exists l, d; split; [now rewrite <- Hs | split; [exact (last_char_nonempty l c Ec) | split]].
  - exact (string_forall_has_char _ "@" l Hl eq_refl).
  - destruct (has_char "." d) eqn:E; [done |]; rewrite (split_on_no_sep _ _ E) in Hd; discriminate.
Qed.

(** The phone and pincode checks only count characters: a form whose
    phone is [not-a-phone] and whose pincode is [ABCDEF] passes, although
    the messages ask for a valid phone number and pincode. *)
Example order_form_accepts_letter_phone :
  order_valid (mkFormValues "Asha Rao" "asha@example.com" "not-a-phone" "12 Park Street" "Pune" "ABCDEF" "MH").
Proof. apply formSchema_nil; reflexivity. Qed.

(** ** Runs *)

Definition validForm : FormValues :=
  mkFormValues "Asha Rao" "asha@example.com" "9876543210" "12 Park Street" "Pune" "411001" "MH".


Definition checkingOut : CartPage.PageState := CartPage.mkPageState [] (Some 1%Z) false true false.

Lemma submitOrderForm_guard_witness :
  ~ order_valid defaultValues /\
  run (submitOrderForm (Some "u1") checkingOut 0 defaultValues) CartService.w0 =
    ((resolverErrors (formSchema defaultValues), None, checkingOut), CartService.w0).
Proof.
  assert (H : ~ order_valid defaultValues) by (intros (Hn & _); simpl in Hn; lia).
  split; [exact H | exact (proj1 (proj2 (submitOrderForm_guard _ _ _ _ _) H))].
Defined.

Definition signedOut : Config := (client_out, initialProvider).

Lemma submitLogin_guard_witness :
  email_regex "alice@example.com" = true /\ "secret1" <> "".
Proof.
  apply (submitLogin_guard "alice@example.com" "secret1" signedOut).
  left; vm_compute; discriminate.
Defined.

Lemma register_mismatch_refused_witness :
  (submitRegister false "Bob" "bob@example.com" "secret1" "secret2" signedOut).2 = signedOut.
Proof. exact (proj1 (register_mismatch_refused false "Bob" "bob@example.com" "secret1" "secret2" signedOut ltac:(discriminate))). Defined.

Lemma email_regex_shape_witness :
  exists local domain, "alice@example.com" = local ++ String "@" domain /\ local <> "" /\
    has_char "@" local = false /\ has_char "." domain = true.
Proof. apply email_regex_shape; reflexivity. Defined.

Lemma submitOrderForm_keeps_shipping_ok_witness :
  orders_ok (db (run (submitOrderForm (Some "u1") checkingOut 0 validForm) CartService.w0).2).
Proof.
  apply submitOrderForm_keeps_shipping_ok; intros i o H; vm_compute in H; discriminate.
Defined.
