(* ===== verification/RentPage.v ===== *)
(** * RentPage: the rental landing page of [src/pages/RentPage.tsx]

    The page is not routed by [App.tsx] and reads the fallback book list
    [mockBooks] of [src/data/mockData.ts] instead of the backend.  It keeps
    a search query and the list of books shown under "All": at first the
    first eight books with a rent option; the search form keeps the rent
    books whose title or author contains the query, case folded; the
    "Clear Search" button of the empty result restores the first eight.
    The "Popular" tab shows the four rent books with the most reviews
    (a stable sort on [b.reviews - a.reviews]), the "New Arrivals" tab the
    first four new rent books.  The rental period cards state the rate and
    deposit of each term.

    [Section Listing] takes the book list as a variable, so that the
    theorems hold of any list; [mockBooks] is the list of the source.  The
    theorems show that [includes] tests containment, that the popular tab holds the
    most reviewed rent books, that the pagination bar only appears after a
    search, and how the rental cards compare with the cart's rate table. *)

From S2P Require Import Prelude Book Pricing Filters BookListing.
From Stdlib Require Import Ascii String.
From stdpp Require Import sorting.

Open Scope Z_scope.

(** ** [String.prototype.includes] *)

(** [s] starts with [t]. *)
Fixpoint prefix_of (t s : string) : bool :=
  match t, s with
  | EmptyString, _ => true
  | String c t', String c' s' => Ascii.eqb c c' && prefix_of t' s'
  | String _ _, EmptyString => false
  end.

(** [s.includes(t)]. *)
Fixpoint includes (s t : string) : bool :=
  prefix_of t s || match s with EmptyString => false | String _ s' => includes s' t end.

Module RentPage.
Import BookListing.

(** [{ id, period, discount }] of [rentalPeriods]. *)
Record RentalPeriod := mkRentalPeriod { rp_id : Z; period : string; discount : string }.

Definition rentalPeriods : list RentalPeriod :=
  [mkRentalPeriod 1 "1 Month" "0%"; mkRentalPeriod 2 "3 Months" "10%";
   mkRentalPeriod 3 "6 Months" "20%"].

(** [{period.id === 1 && "40% of MRP"}{period.id === 2 && ...}{...}]: the
    three children render one after the other, [false] as nothing.  The
    security deposit line has the same three children. *)
Definition rateLabel (id : Z) : string :=
  ((if Z.eqb id 1 then "40% of MRP" else "") ++ (if Z.eqb id 2 then "35% of MRP" else "") ++
   (if Z.eqb id 3 then "30% of MRP" else ""))%string.

(** [period.discount !== "0%" && "Save " + discount]. *)
Definition saveBadge (rp : RentalPeriod) : option string :=
  if bool_decide (discount rp = "0%"%string) then None else Some ("Save " ++ discount rp)%string.

(** The search query and the books of the "All" tab. *)
Record PageState := mkPageState { searchQuery : string; filteredBooks : list Book }.

(** The input's [onChange]. *)
Definition setSearchQuery (q : string) (st : PageState) : PageState := mkPageState q (filteredBooks st).

(** [b.reviews - a.reviews]: [a] before [b] when it has at least as many
    reviews. *)
Definition byReviewsDesc (a b : Book) : Prop := Book.reviews b <= Book.reviews a.

#[export] Instance byReviewsDesc_dec : RelDecision byReviewsDesc.
Proof. intros a b; unfold byReviewsDesc; apply _. Defined.

(** [book.title.toLowerCase().includes(searchQuery.toLowerCase()) || ...author...]. *)
Definition matchesQuery (q : string) (b : Book) : bool :=
  truthy (hasRentOption b) && (includes (lower (title b)) (lower q) || includes (lower (author b)) (lower q)).

Section Listing.

(** The list the page reads: [mockBooks]. *)
Variable books : list Book.

(** [mockBooks.filter(book => book.hasRentOption)]. *)
Definition rentOnly : list Book := List.filter (fun b => truthy (hasRentOption b)) books.

Definition initialState : PageState := mkPageState "" (take 8 rentOnly).

Definition popularBooks : list Book := take 4 (merge_sort byReviewsDesc rentOnly).

Definition newArrivals : list Book :=
  take 4 (List.filter (fun b => truthy (hasRentOption b) && truthy (isNew b)) books).

(** [handleSearch]: [filter] over the whole list, not the first eight. *)
Definition handleSearch (st : PageState) : PageState :=
  mkPageState (searchQuery st) (List.filter (matchesQuery (searchQuery st)) books).

(** "Clear Search": [setSearchQuery(""); setFilteredBooks(... .slice(0, 8))]. *)
Definition clearSearch (st : PageState) : PageState := mkPageState "" (take 8 rentOnly).

End Listing.

(** What the "All" tab shows. *)
Inductive AllTab := BookCards (bs : list Book) | NoBooksFound.

Definition allTab (st : PageState) : AllTab :=
  if (0 <? length (filteredBooks st))%nat then BookCards (filteredBooks st) else NoBooksFound.

(** [filteredBooks.length > 8 && <pagination>]; its buttons have no
    handler. *)
Definition showPagination (st : PageState) : bool := (8 <? length (filteredBooks st))%nat.

(** The only book of [mockBooks]; its id ["1"] is the row id [1]. *)
Definition mockBook1 : Book := {|
  bookId := 1; title := "Indian Polity (Civil Services Examination Series)";
  author := "M. Laxmikanth";
  coverImage := "https://m.media-amazon.com/images/I/81U3+6n3s1L._AC_UY436_FMwebp_QL65_.jpg";
  price := 599; originalPrice := 830; rating := 47 # 10; reviews := 4582;
  description := "The book 'Indian Polity' by M Laxmikanth needs no introduction. It's one of the most popular and comprehensive books on the subject and has been a consistent bestseller for the last two decades. It is a must-read for aspirants appearing for the Civil Services examinations as well as those of the various State Public Service Commissions.";
  category := Some "UPSC"; language := "English"; publisher := "McGraw Hill";
  publicationDate := Some "2022-01-01"; isbn := "9789354407727"; pageCount := 852;
  edition := "1st Edition"; binding := "Paperback"; isNew := Some true;
  hasFreeDelivery := Some true; hasRentOption := Some true; isAvailableForResell := Some true;
  stockStatus := "in_stock" |}.

Definition mockBooks : list Book := [mockBook1].

(** ** Lemmas *)

Lemma prefix_of_spec (t s : string) : prefix_of t s = true <-> exists b, s = (t ++ b)%string.
Proof.
  revert s; induction t as [|c t IH]; intros [|c' s]; simpl.
  - split; [exists ""%string |]; done.
  - split; [exists (String c' s) |]; done.
  - split; [discriminate | now intros [b Hb]].
  - rewrite andb_true_iff, IH, Ascii.eqb_eq; split.
    + intros [-> [b ->]]; eauto.
    + intros [b Hb]; injection Hb as -> ->; eauto.
Qed.

(** [s.includes(t)] holds exactly when [t] occurs in [s]. *)
Lemma includes_spec (s t : string) : includes s t = true <-> substring_of t s.
Proof.
  unfold substring_of; induction s as [|c s IH]; simpl; rewrite orb_true_iff, prefix_of_spec.
  - split; [intros [[b Hb] | H]; [exists ""%string, b; exact Hb | discriminate] |].
    intros ([|c a] & b & E); [left; eauto | discriminate].
  - rewrite IH; split.
    + intros [[b Hb] | (a & b & ->)]; [exists ""%string, b; exact Hb | exists (String c a), b; reflexivity].
    + intros ([|c' a] & b & E); [left; eauto | injection E as -> ->; right; eauto].
Qed.

Lemma includes_empty (s : string) : includes s "" = true.
Proof. destruct s; reflexivity. Qed.

Lemma take_length_le {A} (n : nat) (l : list A) : (length (take n l) <= n)%nat.
Proof. rewrite length_take; lia. Qed.

(** The first eight never show the pagination bar. *)
Lemma showPagination_take8 (q : string) (l : list Book) : showPagination (mkPageState q (take 8 l)) = false.
Proof. unfold showPagination; simpl; apply Nat.ltb_ge, take_length_le. Qed.

#[export] Instance byReviewsDesc_total : Total byReviewsDesc.
Proof. intros a b; unfold byReviewsDesc; lia. Qed.

#[export] Instance byReviewsDesc_trans : Transitive byReviewsDesc.
Proof. intros a b c; unfold byReviewsDesc; lia. Qed.

Lemma rentOnly_spec (books : list Book) (b : Book) :
  b ∈ rentOnly books <-> b ∈ books /\ truthy (hasRentOption b) = true.
Proof. unfold rentOnly; rewrite !list_elem_of_In; apply filter_In. Qed.

(** ** The properties *)

(** The first eight and the whole list: the page starts with, and
    "Clear Search" restores, at most eight rent books and never shows the
    pagination bar, while searching for the empty query lists every rent
    book, with the (inert) pagination bar as soon as there are more than
    eight. *)
Theorem empty_search_lists_all (books : list Book) (st : PageState) :
  filteredBooks (handleSearch books (setSearchQuery "" st)) = rentOnly books /\
  showPagination (initialState books) = false /\ showPagination (clearSearch books st) = false /\
  showPagination (handleSearch books (setSearchQuery "" st)) = (8 <? length (rentOnly books))%nat.
Proof.
  assert (H : List.filter (matchesQuery "") books = rentOnly books).
  { unfold rentOnly, matchesQuery; apply List.filter_ext; intros b; rewrite !includes_empty, orb_true_r, andb_true_r; reflexivity. }
  unfold handleSearch; simpl; rewrite H; split; [done | split; [apply showPagination_take8 | split; [apply showPagination_take8 | done]]].
Qed.

(** (C23) The "Popular" tab holds the most reviewed rent books: at most
    four of them, ordered by decreasing reviews, and every rent book left
    out has no more reviews than any book shown. *)
Theorem popularBooks_top (books : list Book) :
  Sorted byReviewsDesc (popularBooks books) /\
  length (popularBooks books) = Nat.min 4 (length (rentOnly books)) /\
  (forall p, p ∈ popularBooks books -> p ∈ books /\ truthy (hasRentOption p) = true) /\
  (forall b p, b ∈ rentOnly books -> b ∉ popularBooks books -> p ∈ popularBooks books ->
     Book.reviews b <= Book.reviews p).
Proof.
  unfold popularBooks; set (l := merge_sort byReviewsDesc (rentOnly books)).
  assert (Hp : l ≡ₚ rentOnly books) by apply merge_sort_Permutation.
  assert (Hs : StronglySorted byReviewsDesc (take 4 l ++ drop 4 l)) by (rewrite take_drop; unfold l; apply StronglySorted_merge_sort; typeclasses eauto).
  split; [apply StronglySorted_Sorted, (StronglySorted_app_1_l _ _ _ Hs) |].
  split; [rewrite length_take, Hp; lia |].
  split; [intros p Hin; apply rentOnly_spec; rewrite <- Hp, <- (take_drop 4 l); apply elem_of_app; left; exact Hin |].
  intros b p Hb Hn Hin; apply (StronglySorted_app_1_elem_of _ _ _ _ _ Hs Hin).
  rewrite <- Hp, <- (take_drop 4 l) in Hb; apply elem_of_app in Hb as [Hb | Hb]; [contradiction | exact Hb].
Qed.

(** The rental cards against the cart's rate table: the rates and
    deposits the cards print for 1, 3 and 6 months are the rates the cart
    charges, but the "Save 10%" and "Save 20%" badges are not what a
    longer term saves against the 1-month rate (12.5% and 25%). *)
Example rental_cards_vs_rates :
  map (fun rp => (period rp, rateLabel (rp_id rp), saveBadge rp)) rentalPeriods =
    [("1 Month", "40% of MRP", None); ("3 Months", "35% of MRP", Some "Save 10%");
     ("6 Months", "30% of MRP", Some "Save 20%")]%string /\
  (Pricing.rentalRate 1 == 40 # 100 /\ Pricing.rentalRate 3 == 35 # 100 /\ Pricing.rentalRate 6 == 30 # 100)%Q /\
  (Pricing.depositRate 1 == 40 # 100 /\ Pricing.depositRate 3 == 35 # 100 /\ Pricing.depositRate 6 == 30 # 100)%Q /\
  (1 - Pricing.rentalRate 3 / Pricing.rentalRate 1 == 125 # 1000 /\ 1 - Pricing.rentalRate 6 / Pricing.rentalRate 1 == 25 # 100)%Q.
Proof. vm_compute; repeat split; reflexivity. Qed.

End RentPage.
