(* ===== verification/Routing.v ===== *)
(** * Routing: the route table of [src/App.tsx] and the pages' guards

    [App] declares its routes with react-router: the shop's pages under
    [MainLayout] at [/], the admin pages under [AdminLayout] at [/admin],
    and [NotFound] for any other path.  react-router matches a path
    segment by segment, static segments without regard to case, a
    dynamic segment ([:id]) against any non-empty segment, and allows
    trailing slashes; the query and the hash are not part of the match.

    A page may then refuse what it was routed to: [UserProfilePage] shows a
    "Sign In Required" card to a signed-out visitor, [LoginPage] and
    [RegisterPage] send a signed-in user to [/], and
    [OrderConfirmationPage] goes to [/] without an order in the location
    state.  [AdminLayout] has no check ("Authentication check removed to
    allow access without login").  The navigation bars link to their
    items and mark the active one.

    The theorems show where the links of the code lead (two of them to
    [NotFound]), that the admin pages are shown to signed-out visitors,
    and that the admin sidebar marks exactly the item of its page. *)

From S2P Require Import Prelude Filters RentPage Auth.
From Stdlib Require Import Ascii String.

Open Scope string_scope.

Module Routing.
Import Auth.

(** The pages the routes render, by their component names. *)
Inductive Page :=
  | HomePage | BookListingPage | BookDetailPage (id : string) | CartPage
  | OrderConfirmationPage | LoginPage | RegisterPage | UserProfilePage
  | About | Contact | Policies
  | AdminDashboardPage | AdminBooksPage | AdminOrdersPage | FeatureRemovedPage | AdminUsersPage
  | NotFound.

Inductive Layout := MainLayout | AdminLayout | NoLayout.

(** The path of a link target: what comes before its query or hash. *)
Fixpoint pathname (to : string) : string :=
  match to with
  | EmptyString => EmptyString
  | String c s => if Ascii.eqb c "?" || Ascii.eqb c "#" then EmptyString else String c (pathname s)
  end.

Fixpoint drop_trailing_empty (l : list string) : list string :=
  match l with
  | [] => []
  | s :: l' =>
      match drop_trailing_empty l' with
      | [] => if String.eqb s "" then [] else [s]
      | l'' => s :: l''
      end
  end.

(** The segments of an absolute path, trailing slashes dropped. *)
Definition segments (p : string) : list string :=
  match split_on "/" (pathname p) with
  | "" :: segs => drop_trailing_empty segs
  | segs => drop_trailing_empty segs
  end.

(** A static segment matches without regard to case. *)
Definition seg_is (s lit : string) : bool := String.eqb (lower s) lit.

(** [<Routes>]: the layout and the page a path renders. *)
Definition route (to : string) : Layout * Page :=
  match segments to with
  | [] => (MainLayout, HomePage)
  | [a] =>
      if seg_is a "books" then (MainLayout, BookListingPage)
      else if seg_is a "cart" then (MainLayout, CartPage)
      else if seg_is a "order-confirmation" then (MainLayout, OrderConfirmationPage)
      else if seg_is a "login" then (MainLayout, LoginPage)
      else if seg_is a "register" then (MainLayout, RegisterPage)
      else if seg_is a "profile" then (MainLayout, UserProfilePage)
      else if seg_is a "about" then (MainLayout, About)
      else if seg_is a "contact" then (MainLayout, Contact)
      else if seg_is a "policies" then (MainLayout, Policies)
      else if seg_is a "admin" then (AdminLayout, AdminDashboardPage)
      else (NoLayout, NotFound)
  | [a; b] =>
      if seg_is a "books" then (MainLayout, BookDetailPage b)
      else if seg_is a "admin" then
        if seg_is b "books" then (AdminLayout, AdminBooksPage)
        else if seg_is b "orders" then (AdminLayout, AdminOrdersPage)
        else if seg_is b "resell" then (AdminLayout, FeatureRemovedPage)
        else if seg_is b "users" then (AdminLayout, AdminUsersPage)
        else (NoLayout, NotFound)
      else (NoLayout, NotFound)
  | _ => (NoLayout, NotFound)
  end.

(** What the visitor ends up with. *)
Inductive Screen :=
  | Shows (l : Layout) (pg : Page)
  | SignInRequired
  | RedirectTo (to : string).

(** [UserProfilePage]: [if (!isAuthenticated) return <Sign In Required card>]. *)
Definition profileGuard (prov : Provider) (l : Layout) (pg : Page) : Screen :=
  if isAuthenticated prov then Shows l pg else SignInRequired.

(** [LoginPage] and [RegisterPage]: [if (isAuthenticated) { navigate("/"); return null; }]. *)
Definition authPageGuard (prov : Provider) (l : Layout) (pg : Page) : Screen :=
  if isAuthenticated prov then RedirectTo "/" else Shows l pg.

(** [OrderConfirmationPage]: [if (!order) navigate('/')]. *)
Definition confirmationGuard (hasOrder : bool) (l : Layout) (pg : Page) : Screen :=
  if hasOrder then Shows l pg else RedirectTo "/".

(** The routed element with its guard, given the auth state and whether
    the location carries an order. *)
Definition visit (prov : Provider) (hasOrder : bool) (to : string) : Screen :=
  let '(l, pg) := route to in
  match pg with
  | UserProfilePage => profileGuard prov l pg
  | LoginPage | RegisterPage => authPageGuard prov l pg
  | OrderConfirmationPage => confirmationGuard hasOrder l pg
  | _ => Shows l pg
  end.

(** [{ label, path }] of the two navigation bars. *)
Record NavItem := mkNavItem { label : string; path : string }.

(** [Navbar]'s [navItems]. *)
Definition navItems : list NavItem :=
  [mkNavItem "Home" "/"; mkNavItem "Books" "/books"; mkNavItem "About us" "/About";
   mkNavItem "Contact us" "/Contact"; mkNavItem "Policies" "/policies"].

(** [Navbar]'s [isActive]: [location.pathname === path]. *)
Definition isActive (pathname path : string) : bool := String.eqb pathname path.

(** [AdminLayout]'s [navItems]. *)
Definition adminNavItems : list NavItem :=
  [mkNavItem "Dashboard" "/admin"; mkNavItem "Books" "/admin/books"; mkNavItem "Orders" "/admin/orders";
   mkNavItem "Resell Requests" "/admin/resell"; mkNavItem "Users" "/admin/users"].

(** [AdminLayout]'s [isActive]: the dashboard on its own path, another
    item on every path starting with its own. *)
Definition adminIsActive (pathname : string) (item : NavItem) : bool :=
  (String.eqb (path item) "/admin" && String.eqb pathname "/admin") ||
  (negb (String.eqb (path item) "/admin") && prefix_of (path item) pathname).

(** ** Lemmas *)

Lemma pathname_app (a b : string) :
  has_char "?" a = false -> has_char "#" a = false -> pathname (a ++ b) = a ++ pathname b.
Proof.
  induction a as [|c a IH]; [done |]; rewrite append_cons; cbn [has_char pathname]; intros H1 H2.
  apply orb_false_iff in H1 as [E1 H1]; apply orb_false_iff in H2 as [E2 H2].
  rewrite Ascii.eqb_sym in E1, E2; rewrite E1, E2; cbn [orb]; now rewrite IH.
Qed.

Lemma pathname_plain (a : string) : has_char "?" a = false -> has_char "#" a = false -> pathname a = a.
Proof. intros H1 H2; rewrite <- (append_empty_r a) at 1; rewrite pathname_app by done; apply append_empty_r. Qed.

Lemma pathname_query (a q : string) :
  has_char "?" a = false -> has_char "#" a = false -> pathname (a ++ String "?" q) = a.
Proof. intros H1 H2; rewrite pathname_app by done; apply append_empty_r. Qed.

(** ** The properties *)

(** (C31) The links to a book and to the catalogue: [/books/${id}] (the
    book cards and the cart lines) renders the detail page of that id, for
    an id that is a non-empty path segment, and [/books?category=...] (the
    home page's category links) renders the catalogue whatever the
    category name. *)
Theorem book_links_route (id name : string) :
  id <> "" -> has_char "/" id = false -> has_char "?" id = false -> has_char "#" id = false ->
  route ("/books/" ++ id) = (MainLayout, BookDetailPage id) /\
  route ("/books" ++ String "?" ("category=" ++ name)) = (MainLayout, BookListingPage).
Proof.
  intros Hne Hs Hq Hh; unfold route, segments; split.
  - rewrite pathname_app, (pathname_plain id) by done.
    change ("/books/" ++ id) with (String "/" ("books" ++ String "/" id)).
    cbn [split_on Ascii.eqb]; rewrite split_on_app_sep, split_on_no_sep by done.
    cbn [drop_trailing_empty]; destruct (String.eqb id "") eqn:E; [apply String.eqb_eq in E; contradiction |].
    destruct id; [contradiction | reflexivity].
  - rewrite pathname_query by reflexivity; reflexivity.
Qed.

(** (C16) The admin pages are open: whatever the auth state, every item of
    the admin sidebar shows an admin page in the admin layout, while the
    profile page asks a signed-out visitor to sign in. *)
Theorem admin_pages_unguarded (prov : Provider) (hasOrder : bool) :
  (forall item, In item adminNavItems ->
     exists pg, visit prov hasOrder (path item) = Shows AdminLayout pg /\ pg <> NotFound) /\
  (isAuthenticated prov = false -> visit prov hasOrder "/profile" = SignInRequired).
Proof.
  split; [| intros H; unfold visit, profileGuard; simpl; now rewrite H].
  intros item Hin; repeat (destruct Hin as [<- | Hin]; [eexists; split; [reflexivity | discriminate] |]).
  destruct Hin.
Qed.

(** Where the fixed links lead: the main navigation bar's items
    render the pages they name (react-router matches [/About] and
    [/Contact] to the lower-case routes), while the home page's "Sell Your
    Books" link [/resell] and the confirmation page's "Track Order" link
    [/account/orders] render [NotFound]. *)
Example fixed_links_route :
  map (fun it => route (path it)) navItems =
    [(MainLayout, HomePage); (MainLayout, BookListingPage); (MainLayout, About);
     (MainLayout, Contact); (MainLayout, Policies)] /\
  route "/resell" = (NoLayout, NotFound) /\ route "/account/orders" = (NoLayout, NotFound).
Proof. vm_compute; repeat split. Qed.

(** The admin sidebar marks exactly one item on each of its pages:
    the item of that page. *)
Theorem admin_nav_one_active (item : NavItem) :
  In item adminNavItems -> List.filter (adminIsActive (path item)) adminNavItems = [item].
Proof.
  intros Hin; repeat (destruct Hin as [<- | Hin]; [vm_compute; reflexivity |]); destruct Hin.
Qed.

(** ** Runs *)

Lemma book_links_route_witness :
  route ("/books/" ++ "42") = (MainLayout, BookDetailPage "42") /\
  route ("/books" ++ String "?" ("category=" ++ "Arts & Crafts")) = (MainLayout, BookListingPage).
Proof. apply book_links_route; (discriminate || reflexivity). Defined.

Lemma admin_pages_unguarded_witness :
  visit initialProvider false "/profile" = SignInRequired.
Proof. apply (admin_pages_unguarded initialProvider false); reflexivity. Defined.

Lemma admin_nav_one_active_witness :
  List.filter (adminIsActive "/admin/orders") adminNavItems = [mkNavItem "Orders" "/admin/orders"].
Proof. apply (admin_nav_one_active (mkNavItem "Orders" "/admin/orders")); simpl; auto. Defined.

End Routing.
