(* ===== verification/BookCard.v ===== *)
(** * BookCard: the book card of [src/components/BookCard.tsx]

    The catalogue, the home page and the rent page show each book as a
    card.  The card keeps three flags (hovered, wishlisted, image failed)
    and derives from the book: the discount badge
    [Math.round((originalPrice - price) / originalPrice * 100)] shown when
    positive, the five rating stars, the struck-through original price,
    the edition line and the "Rent from" price [Math.round(price * 0.4)].
    A zero original price makes the discount [-Infinity] or [NaN], which
    is not positive; the model has no value there.

    The theorems bound the discount, show that a discount badge comes with
    the struck-through price, count the filled stars, and relate the "Rent
    from" price to what the cart charges for one month. *)

From S2P Require Import Prelude Book Pricing BookListing.
From Stdlib Require Import String.

Open Scope Q_scope.
Open Scope shop_scope.

Module BookCard.
Import BookListing Pricing.

Record CardState := mkCardState { isHovered : bool; isWishlisted : bool; imageError : bool }.

Definition initialCard : CardState := mkCardState false false false.

(** [onMouseEnter] and [onMouseLeave]. *)
Definition setHovered (h : bool) (st : CardState) : CardState :=
  mkCardState h (isWishlisted st) (imageError st).

(** [handleImageError]: the title replaces the cover. *)
Definition handleImageError (st : CardState) : CardState :=
  mkCardState (isHovered st) (isWishlisted st) true.

(** The wishlist button: [setIsWishlisted(!isWishlisted)]. *)
Definition toggleWishlist (st : CardState) : CardState :=
  mkCardState (isHovered st) (negb (isWishlisted st)) (imageError st).

(** [discount]; [None] where JavaScript divides by zero. *)
Definition discount (b : Book) : option Z :=
  if Qeq_bool (originalPrice b) 0 then None
  else Some (js_round ((originalPrice b - price b) / originalPrice b * ₹100)).

(** [discount > 0 && <Badge>-{discount}%</Badge>]. *)
Definition discountBadge (b : Book) : option Z :=
  match discount b with
  | Some d => if (0 <? d)%Z then Some d else None
  | None => None
  end.

(** [i < Math.floor(book.rating)] for the stars [i = 0 .. 4]: filled or not. *)
Definition stars (b : Book) : list bool :=
  map (fun i => (Z.of_nat i <? Qfloor (rating b))%Z) (seq 0 5).

(** [book.originalPrice > book.price && <s>₹{book.originalPrice}</s>]. *)
Definition strikePrice (b : Book) : option Q :=
  if Qle_bool (originalPrice b) (price b) then None else Some (originalPrice b).

(** [book.edition && <p>Edition: ...</p>]. *)
Definition editionLine (b : Book) : option string :=
  if bool_decide (edition b = ""%string) then None else Some (edition b).

(** [book.hasRentOption && "Rent from ₹{Math.round(book.price * 0.4)}/month"]. *)
Definition rentFrom (b : Book) : option Z :=
  if truthy (hasRentOption b) then Some (js_round (price b * (4 # 10))) else None.

(** ** Lemmas *)

(** A book with other prices, for the runs. *)
Definition with_prices (b : Book) (p op : Q) : Book := {|
  bookId := bookId b; title := title b; author := author b; coverImage := coverImage b;
  price := p; originalPrice := op; rating := rating b; reviews := Book.reviews b;
  description := description b; category := category b; language := language b;
  publisher := publisher b; publicationDate := publicationDate b; isbn := isbn b;
  pageCount := pageCount b; edition := edition b; binding := binding b; isNew := isNew b;
  hasFreeDelivery := hasFreeDelivery b; hasRentOption := hasRentOption b;
  isAvailableForResell := isAvailableForResell b; stockStatus := stockStatus b |}.

Definition cardBook : Book := mapDatabaseBookToModel (sample_db_book 7 450).

Lemma js_round_ge (x : Q) (z : Z) : ₹z <= x -> (z <= js_round x)%Z.
Proof. intros H; rewrite <- (js_round_Z z); now apply js_round_mono. Qed.

Lemma js_round_le (x : Q) (z : Z) : x <= ₹z -> (js_round x <= z)%Z.
Proof. intros H; rewrite <- (js_round_Z z); now apply js_round_mono. Qed.

(** A positive rounded value comes from at least one half. *)
Lemma js_round_pos (x : Q) : (0 < js_round x)%Z -> 1 # 2 <= x.
Proof.
  intros H; pose proof (js_round_bounds x) as [_ Hb].
  assert (H1 : 1 <= ₹(js_round x)) by (change 1 with (₹1); rewrite <- Zle_Qle; lia). lra.
Qed.

Lemma discount_ratio_bounds (op p : Q) :
  0 < op -> 0 <= p -> p <= op -> 0 <= (op - p) / op * ₹100 <= ₹100.
Proof.
  intros Hop Hp Hle; change (₹100) with 100; split.
  - apply Qmult_le_0_compat; [apply Qle_shift_div_l; lra | lra].
  - assert (H : (op - p) / op <= 1) by (apply Qle_shift_div_r; lra).
    apply (Qmult_le_compat_r _ _ 100) in H; lra.
Qed.

(** ** The properties *)

(** (C32) The discount badge lies between 0 and 100 percent: for a book
    whose price is at most its positive original price, the discount is a
    number in [0, 100]. *)
Theorem discount_bounds (b : Book) :
  0 < originalPrice b -> 0 <= price b -> price b <= originalPrice b ->
  exists d, discount b = Some d /\ (0 <= d <= 100)%Z.
Proof.
  intros Hop Hp Hle; unfold discount.
  destruct (Qeq_bool (originalPrice b) 0) eqn:E; [apply Qeq_bool_eq in E; lra |].
  pose proof (discount_ratio_bounds _ _ Hop Hp Hle) as [H0 H1].
  eexists; split; [reflexivity | split; [apply js_round_ge; exact H0 | apply js_round_le; exact H1]].
Qed.

(** (C37) A discount badge comes with the struck-through original price:
    a positive rounded discount means the price is below the original
    price. *)
Theorem discountBadge_strikes (b : Book) :
  0 < originalPrice b -> is_Some (discountBadge b) -> strikePrice b = Some (originalPrice b).
Proof.
  intros Hop [d Hd]; unfold discountBadge, discount in Hd.
  destruct (Qeq_bool (originalPrice b) 0); [discriminate |].
  destruct (0 <? _)%Z eqn:E; [| discriminate]; apply Z.ltb_lt, js_round_pos in E.
  unfold strikePrice; case_Qle (originalPrice b) (price b); [exfalso | reflexivity].
  assert (H0 : 0 <= (price b - originalPrice b) / originalPrice b * ₹100).
  { apply Qmult_le_0_compat; [apply Qle_shift_div_l; lra | change (₹100) with 100; lra]. }
  assert (Heq : (originalPrice b - price b) / originalPrice b * ₹100 ==
                - ((price b - originalPrice b) / originalPrice b * ₹100)) by (field; lra).
  rewrite Heq in E; lra.
Qed.

(** The stars show the rating rounded down: for a rating in [0, 5],
    exactly [Math.floor(rating)] of the five stars are filled. *)
Theorem stars_filled (b : Book) :
  0 <= rating b -> rating b <= 5 ->
  List.length (List.filter id (stars b)) = Z.to_nat (Qfloor (rating b)).
Proof.
  intros H0 H5; unfold stars.
  pose proof (Qfloor_resp_le _ _ H0) as L; pose proof (Qfloor_resp_le _ _ H5) as U.
  change (Qfloor 0) with 0%Z in L; change (Qfloor 5) with 5%Z in U.
  assert (Hf : forall z : Z, (0 <= z <= 5)%Z -> z = 0%Z \/ z = 1%Z \/ z = 2%Z \/ z = 3%Z \/ z = 4%Z \/ z = 5%Z)
    by (intros; lia).
  destruct (Hf (Qfloor (rating b)) (conj L U)) as [-> | [-> | [-> | [-> | [-> | ->]]]]]; reflexivity.
Qed.

(** The "Rent from" price of a card is the price label the cart shows
    for a one-month rental of the same book, which is the rounded amount
    the cart charges for it. *)
Theorem rentFrom_one_month (item : CartItem) :
  rentalPeriod item = 1%Z -> truthy (db_has_rent_option (book item)) = true ->
  rentFrom (mapDatabaseBookToModel (book item)) = Some (rentalPriceLabel item) /\
  rentalPriceLabel item = js_round (db_price (book item) * rentalRate (rentalPeriod item)).
Proof. intros Hp Hr; unfold rentFrom, rentalPriceLabel; cbn; rewrite Hr, Hp; split; reflexivity. Qed.

(** A struck-through price without a badge: a book at 996 with an original
    price of 1000 shows the original price struck through but no discount
    badge, the 0.4% discount rounding to 0. *)
Example strike_without_badge :
  strikePrice (with_prices cardBook 996 1000) = Some 1000 /\ discountBadge (with_prices cardBook 996 1000) = None.
Proof. vm_compute; split; reflexivity. Qed.

(** ** Runs *)

Lemma discountBadge_strikes_witness : strikePrice (with_prices cardBook 450 600) = Some 600.
Proof. apply discountBadge_strikes; [reflexivity | vm_compute; eexists; reflexivity]. Defined.

Lemma discount_bounds_witness : exists d, discount cardBook = Some d /\ (0 <= d <= 100)%Z.
Proof. apply discount_bounds; vm_compute; (reflexivity || discriminate). Defined.

Lemma stars_filled_witness :
  List.length (List.filter id (stars cardBook)) = Z.to_nat (Qfloor (rating cardBook)).
Proof. apply stars_filled; vm_compute; discriminate. Defined.

Lemma rentFrom_one_month_witness :
  rentFrom (mapDatabaseBookToModel (sample_db_book 7 450)) =
    Some (rentalPriceLabel (mkCartItem 1 Rent (sample_db_book 7 450) 1 1)).
Proof. exact (proj1 (rentFrom_one_month (mkCartItem 1 Rent (sample_db_book 7 450) 1 1) eq_refl eq_refl)). Defined.

End BookCard.
